(* ===== verification/_CoqProject ===== *)
-Q . S2P
Prelude.v
Task.v
TaskQueue.v
Scheduler.v
Context.v
ContextSwitch.v
MemPool.v
Lifecycle.v
Copyin.v
Amsgq.v
Threads.v
Tools.v
