(* ===== verification/Prelude.v ===== *)
(** * A Rocq model of the DART tasking runtime

    This development models the task-parallel runtime of DART (the
    runtime under DASH) as it is written in the sources under [src/]:

    - [src/dart-impl/tasking/src/internal/dart_tasking_copyin.c],
      lines 550-974: the task queue ([dart_tasking_taskqueue_*] and the
      private [task_deque_*] routines), a pair of intrusive doubly
      linked deques (high and low priority) threaded through the
      [next]/[prev] fields of the task descriptors;
    - the same file, lines 1-548: the copy-in engine (size-keyed
      memory pool, construction of the GET and SENDRECV communication
      tasks, the delayed send requests, the wait strategies);
    - [src/dart-impl/tasking/src/internal/dart_tasking_context.c]: the
      per-thread pool of execution contexts (stacks) and the switches
      between them ([context_invoke], [context_swap], the entry point);
    - [src/dart-impl/tasking/src/internal/dart_tasking_instrumentation.c],
      lines 346-2245: the scheduler proper (hot slots, work stealing in
      [next_task], task creation, [handle_task], [enqueue_runnable],
      [task_complete], [taskref_free], [task_wait], [task_test]);
      lines 1-345 of the same file: the tool interface (callback
      registration and the [dart__tasking__instrument_*] hooks);
    - [src/dash/dash-lib/Zhou/GlobIter.h], lines 177-712: the
      active-message queue over MPI send/recv, which drives remote
      progress and the matching rounds.

    ** Layout

    - [Prelude] (this file): pointers as [option nat], the return codes
      of the runtime, the [dart] hint database, the tactics and the
      generic lemmas on lists and options the components share.
    - [Task]: the task descriptor [dart_task_t] as a record, its states,
      priorities and flag bits, and the task heap [gmap tid task] shared
      by every component (the C code passes task pointers around and
      mutates the descriptors in place; the model threads this one
      store through every operation, so aliasing is explicit).
    - [TaskQueue]: the deques and the two-priority queue, at the level
      of pointers: each routine reads and writes the [next]/[prev]
      fields of the heap exactly as the C code does, and fails ([None])
      where the C code would dereference a dangling pointer or trip an
      assertion.  The representation predicate [dlseg] (a doubly linked
      segment, after the [dseg] predicate of Hoare Type Theory) relates
      a deque to the list of tasks it holds; the refinement theorems
      show that push, pushback, pop, popback, insert, move and remove
      implement the list operations of the abstract specification
      [TaskQueue.Spec], and preserve the representation invariant
      (including the source's own [head == NULL <-> tail == NULL]).

    - [Scheduler]: the worker threads ([dart_thread_t]: hot slots
      [queue[THREAD_QUEUE_SIZE]], [next_task], [last_steal_thread_id],
      NUMA node) and the global [thread_pool] and [task_queue] as the
      record [sched]; [next_task_thread], [next_task_thread_back] and
      [next_task] of [dart_tasking_instrumentation.c] with its two
      stealing loops and its loop over the NUMA queues, each written as
      a [Fixpoint] on fuel.  The fuel is [num_threads] for the stealing
      loops and [num_numa_nodes] for the queue loop, which is exactly
      the number of iterations the C loops make ([steps] measures the
      round-robin distance of [target] from the thread); the safety
      theorem of [next_task] shows that this fuel never runs out.  The threads run one at a
      time: a compare-and-swap on a slot just read succeeds.  Tasks are
      conserved: the invariant [sched_wf] relates every NUMA queue to
      the list of tasks it represents, and the safety theorem states
      the conservation as a permutation.
    - [Context]: [dart_tasking_context.c], the per-thread free lists of
      execution contexts with their owners, [context_create],
      [context_release] (with the debug canary check), [context_cleanup];
      the [size_t] arithmetic of [context_adjust_size] (wrap-around
      modulo [2^64] written out) and the offsets of the stack and the
      guard pages in [context_allocate].  The invariant [ctx_wf] (no
      context on two lists, every listed context allocated and owned by
      its list's thread) is preserved by create, release and cleanup.
    - [ContextSwitch]: the [USE_UCONTEXT] switches of
      [dart_tasking_context.c] over the pool of [Context]:
      [dart__tasking__context_entry], [dart__tasking__context_invoke] and
      [dart__tasking__context_swap], with [thread->ctx_to_enter] and a
      ghost program counter per context ([ctx_pc]: at its entry point,
      suspended, running) that stands for the saved [ucontext_t]; the
      outcome of a jump says whether [fn(arg)] is called or a saved
      context resumes.  The invariant [sw_wf] (a context is at its entry
      point exactly when its [fn] is set, no [ctx_to_enter] pending)
      explains the source's [ctx->fn] tests.  [Lifecycle] and [Threads]
      still treat the switches in [invoke_task] and the yield as the
      task's run ([ext]).
    - [Lifecycle]: the runtime state [runtime] (scheduler, free lists of
      descriptors, memory pools, the deferred queue, the wait list, the
      context pool) and [allocate_task], [create_task],
      [allocate_dummytask], [dart__tasking__create_task],
      [enqueue_runnable], [invoke_task], [handle_task],
      [handle_inline_task], the loop of [task_complete], [requeue_task],
      [destroy_task], [taskref_free], [task_wait], [task_test].  The
      modules these call outside the sources (dependencies, phases,
      cancellation, remote progress, the task's own code) are the record
      [ext] of parameters.  [handle_task] and friends call each other
      (a task may wait for its children, which runs other tasks), so
      they are one mutual [Fixpoint] on fuel: every theorem about them
      that claims a result states the fuel it needs.

    - [MemPool]: the size-keyed memory pool of the copy-in engine
      ([find_mem_pool], [allocate_from_mempool], [return_to_mempool]
      of [dart_tasking_copyin.c]), with its invariant [mp_wf] (one pool
      per size, headers with the magic word pointing back to their
      pool, no buffer twice on the free lists).
    - [Copyin]: the copy-in engine: the construction of the GET and
      SENDRECV communication tasks through [dart__tasking__create_task]
      of [Lifecycle], the tag counter and the send requests, the stack
      of delayed send tasks, [prepare_dep] and the destructor
      [release_mem] on the pool, the task functions and the wait
      strategies.  The dependency engine, the unit numbering and the
      communication calls are parameters, or recorded as the list of
      transfers posted.
    - [Amsgq]: the send/recv active-message queue of [GlobIter.h]: the
      queue record [amsgq] ([struct dart_amsgq_impl_data]), [openq],
      [trysend] with the compaction of finished send requests
      ([amsgq_test_sendreqs_unsafe]), non-blocking and blocking
      processing of incoming messages with the per-peer round
      accounting, [closeq] and the implementation table.  MPI is the
      environment: the answers of [MPI_Testsome], [MPI_Test] and
      [MPI_Testall] and the result of the all-to-all are arguments, the
      messages posted, the bytes written and the messages handed to the
      handler are recorded in [world], and [malloc]/[free] act on its
      list of live blocks.  The invariant [send_wf] describes the send
      slots (outstanding sends in the first [send_tailpos] slots, each
      from its own buffer); the loops that wait for MPI run on the list
      of its answers, and [round_loop_fuel] shows that one iteration per
      answer is enough.
    - [Threads]: the life of the runtime itself, from
      [dart_tasking_instrumentation.c]: the static globals ([parallel],
      [initialized], [threads_running], [worker_poll_remote], the idle
      method, NUMA placement, [thread_task_mempool]) as the record
      [tasking] around the [runtime] of [Lifecycle];
      [determine_num_threads], [init_threadpool],
      [dart__tasking__init], [start_threads] with the prologue and the
      epilogue of [thread_main], one iteration of a worker's loop,
      [remote_progress] and its successive calls on one thread
      ([progress_calls]), [dart__tasking__yield] (the [USE_UCONTEXT]
      variant), [dart__tasking__task_complete], the start of the workers
      on the first task creation ([tk_create_task] around the creation
      of [Lifecycle]), [stop_threads], [destroy_threadpool] and
      [dart__tasking__fini].  The environment
      variables, [dart_hwinfo] and the affinity module are the record
      [tk_env]; whether each [pthread_create] succeeds is an argument.
      The threads run one at a time: starting a worker runs its
      prologue at once, and the relation [tk_step] lets the master's
      calls, a yield on any thread and an iteration of any worker
      happen in any order.  The frame [rt_frame] (thread count, array
      sizes and registered threads kept) is preserved by every
      operation of [Scheduler] and [Lifecycle], which gives the
      invariant [tk_inv] of every reachable state by rule induction.
    - [Tools]: the tool interface, lines 1-345 of
      [dart_tasking_instrumentation.c]: the eleven callback globals as
      one registry [cb_kind -> cb_data], the register functions (one
      shared body [dart_tool_register] with its [printf], which reads
      [*(int * ) userdata]) and the fourteen hooks, which append the
      calls they make to a trace; [instrument] runs any hook.  The
      tool's callbacks are outside the sources and are recorded, not run.

    ** Theorems

    - safety and conservation of [next_task] (Scheduler);
    - refinement of every queue operation against [TaskQueue.Spec];
    - the reference protocol: a referenced task is destroyed exactly
      once, whichever of its completion and [taskref_free] comes first;
    - the placement of a runnable task by [enqueue_runnable] (hot slot
      first, NUMA queue when all slots are full);
    - the context pool invariant under create and cleanup;
    - the memory pool: allocation, return and their round trip; a
      copy-in buffer goes back to the pool of its size, and a receive
      of the SENDRECV implementation writes exactly its buffer's size;
    - the active-message queue: compaction of finished sends and
      [trysend] keep the send slots well formed and never write into a
      buffer still in flight; a blocking round ends with every message
      sent to the unit received; opening and closing a buffered queue
      frees what it allocated; the round-completion check computes its
      reference predicate;
    - the runtime's life: every reachable running state has all its
      threads registered, and [dart__tasking__fini] returns from every
      reachable initialised state; [dart__tasking__init] builds arrays
      of one entry per thread; a yield suspends the current task and
      hands the thread the next one;
    - context switching: a new context is entered once, calling
      [fn(arg)], and resumed afterwards; create, invoke and swap keep
      the switching invariant;
    - the tool interface: a registered callback is what the hook of its
      kind calls, with its [userdata]; the hooks change nothing but the
      trace; registration faults exactly on an unreadable [userdata];
    - the defects the model exposes: the insert position
      ([task_deque_insert] lands at [pos+1]), the divergence and the
      destructive second loop of [task_deque_filter_runnable], the
      canary check joined by [&&], the wrap-around of
      [context_adjust_size], a misaligned upper guard page (under
      [USE_MPROTECT], which the file leaves undefined), the unbounded
      context free lists, the wasted last descriptor of every memory
      pool, [allocate_dummytask] resetting recycled descriptors, a
      NULL context released under cancellation, copy-in tasks that do
      not get the high priority the specification promises them, and
      the uninitialised task pointer of the copy-in engine under
      cancellation, the send compaction's reliance on [MPI_Testsome]
      reporting in increasing order, the NULL counters read when closing
      a synchronous queue, the receive buffers a direct-send queue
      leaks, [remote_progress] running only while its interval has not
      elapsed (so that one long gap stops unforced progress for good),
      every worker placed on the NUMA node of core 0,
      [dart__tasking__fini] spinning for ever after a failed
      [pthread_create], and a non-positive [DART_NUMTHREADS] making
      [dart__tasking__init] write past an empty thread pool, the
      [dummy_dep_capture] hook passing the [userdata] of
      [dummy_dep_create], and the registration functions dereferencing
      a NULL [userdata].

    ** Not yet modelled

    The phase and matching steps of [task_complete]
    ([dart__tasking__perform_matching] calls only modules outside the
    sources), the idle sleeping and wake-up of the workers (they only
    wait on a clock or a condition variable), the utility threads, the
    [dart__tasking__yield] of builds without [USE_UCONTEXT] (it does
    not compile) and the environment reads of [copyin_init].  The
    context switches of [ContextSwitch] are not yet composed with
    [Lifecycle]'s [invoke_task], whose task runs are parameters, and task
    creation ([tk_create_task]) is not a step of [tk_step].  The
    assertion [IS_ACTIVE_TASK] of [handle_task] is left out: the macro
    is defined in a header outside the sources.

    Out of scope: the DASH container/iterator templates under
    [src/unnamed/] and the first lines of [GlobIter.h] (the
    upper-level library, not the runtime), the test harness, logging,
    timing statistics and the MPI transport itself, which the model
    treats as an external collaborator. *)

From stdpp Require Export base gmap list option.
From Stdlib Require Export ZArith Lia.

Declare Scope dart_scope.
Delimit Scope dart_scope with dart.

(** ** Pointers

    A task descriptor is identified by its address, a [nat]; a nullable
    pointer is an [option nat] and [NULL] is [None]. *)

Abbreviation tid := nat (only parsing).
Abbreviation ptr := (option nat) (only parsing).
Abbreviation NULL := (@None nat) (only parsing).

(** Pointer comparison [p == q] of the C code. *)
Definition ptr_eqb (p q : option nat) : bool := bool_decide (p = q).
Infix "==p" := ptr_eqb (at level 70, no associativity) : dart_scope.

Open Scope dart_scope.

(** ** Return codes ([dart_ret_t], the values the tasking code uses) *)

Inductive dart_ret :=
| DART_OK
| DART_ERR_AGAIN
| DART_ERR_INVAL
| DART_ERR_OTHER.

#[export] Instance dart_ret_eq_dec : EqDecision dart_ret.
Proof. solve_decision. Defined.

(** ** Assertions

    [DART_ASSERT(c)] aborts the process when [c] is false: the model
    continues with [k] when the condition holds and fails otherwise. *)
Definition dart_assert {A} (c : bool) (k : option A) : option A :=
  if c then k else None.

(** A store into an array of the C code: out of bounds it faults. *)
Definition store {A} (l : list A) (i : nat) (v : A) : option (list A) :=
  if i <? length l then Some (<[i := v]> l) else None.

(** Disjointness of two lists of addresses is decidable. *)
#[export] Instance list_disjoint_dec (l k : list nat) : Decision (forall y, y ∈ l -> y ∉ k).
Proof.
  destruct (decide (Forall (fun y => y ∉ k) l)) as [H|H];
    rewrite list.Forall_forall in H; [left|right]; exact H.
Defined.

(** ** Tactics and the hint database of the development *)

Create HintDb dart discriminated.
Create Rewrite HintDb dart_rw.

(** [invc H]: invert [H], substitute, and drop it. *)
Ltac invc H := inversion H; subst; clear H.

(** [opt_step]: simplify one layer of option plumbing in the
    hypotheses and the goal (binds, guards, matches on lookups). *)
Ltac opt_step :=
  match goal with
  | H : Some _ = Some _ |- _ => injection H as H
  | H : None = Some _ |- _ => discriminate H
  | H : Some _ = None |- _ => discriminate H
  | H : (_ ≫= _) = Some _ |- _ => apply bind_Some in H as (? & ? & ?)
  | H : context [match ?o with Some _ => _ | None => _ end] |- _ =>
      destruct o eqn:?
  end.

Ltac opt_simpl := repeat (opt_step || simplify_eq/=).

(** [wit_decide]: discharge a decidable proposition about concrete data
    by evaluation. *)
Ltac wit_decide := apply (bool_decide_unpack _); vm_compute; reflexivity.

(** ** Generic lemmas on pointers, lists and options *)

Lemma ptr_eqb_true p q : (p ==p q) = true <-> p = q.
Proof. unfold ptr_eqb. apply bool_decide_eq_true. Qed.

Lemma ptr_eqb_refl p : (p ==p p) = true.
Proof. by apply ptr_eqb_true. Qed.

Lemma ptr_eqb_neq p q : p <> q -> (p ==p q) = false.
Proof. intros. unfold ptr_eqb. by apply bool_decide_eq_false. Qed.

#[export] Hint Rewrite ptr_eqb_refl : dart_rw.

Lemma NoDup_snoc {A} (l : list A) x :
  NoDup (l ++ [x]) <-> ((x ∉ l) /\ NoDup l).
Proof.
  rewrite list.NoDup_app. split.
  - intros (Hl & Hx & _). split; [|done]. intros Hin. by apply (Hx x Hin), list_elem_of_singleton.
  - intros [Hx Hl]. split; [done|]. split; [|apply NoDup_singleton].
    intros y Hy ->%list_elem_of_singleton. done.
Qed.

Lemma NoDup_app_disjoint {A} (l k : list A) x :
  NoDup (l ++ k) -> x ∈ l -> x ∉ k.
Proof. rewrite list.NoDup_app. intros (_ & H & _). by apply H. Qed.

Lemma snoc_or_nil {A} (l : list A) : l = [] \/ exists l' x, l = l' ++ [x].
Proof.
  induction l as [|y l IH] using rev_ind; [by left|]. right. eauto.
Qed.

#[export] Hint Resolve NoDup_singleton NoDup_nil_2 : dart.


Lemma bind_Some_eq {A B} (x : A) (f : A -> option B) : (Some x ≫= f) = f x.
Proof. done. Qed.

Lemma dart_assert_Some {A} c (k : option A) v :
  dart_assert c k = Some v <-> c = true /\ k = Some v.
Proof. unfold dart_assert. destruct c; split; intuition congruence. Qed.

Lemma store_ok {A} (l : list A) i v : i < length l -> store l i v = Some (<[i := v]> l).
Proof. unfold store. intros Hi. by rewrite (proj2 (Nat.ltb_lt _ _) Hi). Qed.

(** Replacing one element of a list of lists, seen through [concat]. *)
Lemma concat_map_insert {A B} (f : A -> list B) (l : list A) i x y :
  l !! i = Some x ->
  concat (map f l) ++ f y ≡ₚ concat (map f (<[i := y]> l)) ++ f x.
Proof.
  intros Hi. pose proof (lookup_lt_Some _ _ _ Hi) as Hlt.
  rewrite <- (take_drop_middle l i x Hi) at 1. rewrite insert_take_drop by done.
  rewrite !map_app, !concat_app. simpl. solve_Permutation.
Qed.

Lemma elem_of_concat_map_lookup {A B} (f : A -> list B) (l : list A) j b y :
  l !! j = Some b -> y ∈ f b -> y ∈ concat (map f l).
Proof.
  intros Hj Hy. rewrite <- (take_drop_middle l j b Hj), map_app, concat_app. simpl. set_solver.
Qed.

(** The images of two different elements are disjoint when the
    concatenation has no duplicates. *)
Lemma NoDup_concat_map_disjoint {A B} (f : A -> list B) (l : list A) i j a b :
  NoDup (concat (map f l)) -> l !! i = Some a -> l !! j = Some b -> i <> j ->
  forall y, y ∈ f a -> y ∉ f b.
Proof.
  revert i j. induction l as [|c l IH]; intros [|i] [|j] Hnd Hi Hj Hij y Ha Hb;
    simplify_eq/=; apply list.NoDup_app in Hnd as (Hc & Hdis & Hnd).
  - apply (Hdis y Ha). by eapply elem_of_concat_map_lookup.
  - apply (Hdis y Hb). by eapply elem_of_concat_map_lookup.
  - by apply (IH i j Hnd Hi Hj (fun E => Hij (f_equal S E)) y Ha Hb).
Qed.

Lemma NoDup_perm_app_inv {A} (l k m : list A) : l ≡ₚ k ++ m -> NoDup l -> NoDup m.
Proof. intros -> Hnd. by apply list.NoDup_app in Hnd as (_ & _ & ?). Qed.

Lemma concat_insert {A} (l : list (list A)) i x y :
  l !! i = Some x -> concat l ++ y ≡ₚ concat (<[i := y]> l) ++ x.
Proof.
  intros Hi. pose proof (concat_map_insert id l i x y Hi) as H.
  rewrite !map_id in H. exact H.
Qed.

Lemma elem_of_concat_map {A B} (f : A -> list B) (l : list A) y :
  y ∈ concat (map f l) <-> exists b, b ∈ l /\ y ∈ f b.
Proof.
  induction l as [|a l IH]; simpl; [split; [set_solver|intros (? & ?%elem_of_nil & _); done]|].
  rewrite elem_of_app, IH. split.
  - intros [H|(b & Hb & H)]; [exists a|exists b]; split; [left|done|right|]; done.
  - intros (b & [->|Hb]%elem_of_cons & H); [by left|right; eauto].
Qed.

Lemma elem_of_concat_lookup {A} (ls : list (list A)) c :
  c ∈ concat ls <-> exists i l, ls !! i = Some l /\ c ∈ l.
Proof.
  induction ls as [|l ls IH]; simpl.
  - split; [set_solver|]. intros (i & l & Hi & _). done.
  - rewrite elem_of_app, IH. split.
    + intros [Hc|(i & l' & Hi & Hc)]; [by exists 0, l|by exists (S i), l'].
    + intros ([|i] & l' & Hi & Hc); simplify_eq/=; [by left|right; eauto].
Qed.
