(* ===== verification/Task.v ===== *)
(** * The task descriptor and the task heap

    [dart_task_t] as a record of the fields the tasking code reads and
    writes, its state and priority enumerations, its flag bits, and
    the task heap: a finite map from task addresses to descriptors,
    the one store that the queue, the scheduler and the dependency
    code all mutate in place.  The write helper [hupd] models a store
    [task->field = v] through a pointer, and fails when the pointer
    dangles. *)

From S2P Require Import Prelude.

(** ** Task states ([dart_task_state_t]) *)

Inductive dart_task_state :=
| DART_TASK_NASCENT
| DART_TASK_CREATED
| DART_TASK_QUEUED
| DART_TASK_DEFERRED
| DART_TASK_RUNNING
| DART_TASK_SUSPENDED
| DART_TASK_BLOCKED
| DART_TASK_DETACHED
| DART_TASK_FINISHED
| DART_TASK_CANCELLED
| DART_TASK_DESTROYED
| DART_TASK_ROOT
| DART_TASK_DUMMY.

#[export] Instance dart_task_state_eq_dec : EqDecision dart_task_state.
Proof. solve_decision. Defined.

(** ** Priorities ([dart_task_prio_t])

    The field [prio] is a C enum, that is an [int]: the copy-in engine
    stores [COPYIN_TASK_PRIO = INT_MAX - 1] in it, a value outside the
    enumeration, so priorities are integers here. *)

Definition DART_PRIO_PARENT : Z := -1.
Definition DART_PRIO_LOW : Z := 0.
Definition DART_PRIO_DEFAULT : Z := DART_PRIO_LOW.
Definition DART_PRIO_HIGH : Z := 1.
Definition DART_PRIO_INLINE : Z := 2.

Definition INT_MAX : Z := 2147483647.

(** ** Flag bits of [task->flags] and of the [flags] argument *)

Definition DART_TASK_HAS_REF : Z := 1.
Definition DART_TASK_INLINE : Z := 2.
Definition DART_TASK_IMMEDIATE : Z := 4.
Definition DART_TASK_IS_COMMTASK : Z := 8.
Definition DART_TASK_DATA_ALLOCATED : Z := 16.

(** The creation flag (argument [flags] of [dart__tasking__create_task]). *)
Definition DART_TASK_NOYIELD : Z := 1.

(** ** The descriptor *)

Record task := mk_task {
  t_next : option nat;
  t_prev : option nat;
  t_flags : Z;
  t_prio : Z;
  t_state : dart_task_state;
  t_parent : option nat;
  t_num_children : Z;
  t_unresolved_deps : Z;
  t_unresolved_remote_deps : Z;
  t_phase : Z;
  t_instance : Z;
  t_owner : nat;
  t_taskctx : option nat;
  t_wait_handle : option nat;
  t_fn : option nat
}.

Abbreviation heap := (gmap nat task) (only parsing).

(** [DART_TASK_HAS_FLAG], [DART_TASK_SET_FLAG], [DART_TASK_UNSET_FLAG]. *)
Definition has_flag (t : task) (f : Z) : bool := negb (Z.land (t_flags t) f =? 0)%Z.

(** ** Field updates, one per field the code stores to *)

Definition set_next (v : option nat) (t : task) : task :=
  {| t_next := v; t_prev := t_prev t; t_flags := t_flags t; t_prio := t_prio t;
     t_state := t_state t; t_parent := t_parent t; t_num_children := t_num_children t;
     t_unresolved_deps := t_unresolved_deps t;
     t_unresolved_remote_deps := t_unresolved_remote_deps t;
     t_phase := t_phase t; t_instance := t_instance t; t_owner := t_owner t;
     t_taskctx := t_taskctx t; t_wait_handle := t_wait_handle t; t_fn := t_fn t |}.

Definition set_prev (v : option nat) (t : task) : task :=
  {| t_next := t_next t; t_prev := v; t_flags := t_flags t; t_prio := t_prio t;
     t_state := t_state t; t_parent := t_parent t; t_num_children := t_num_children t;
     t_unresolved_deps := t_unresolved_deps t;
     t_unresolved_remote_deps := t_unresolved_remote_deps t;
     t_phase := t_phase t; t_instance := t_instance t; t_owner := t_owner t;
     t_taskctx := t_taskctx t; t_wait_handle := t_wait_handle t; t_fn := t_fn t |}.

Definition set_flags (v : Z) (t : task) : task :=
  {| t_next := t_next t; t_prev := t_prev t; t_flags := v; t_prio := t_prio t;
     t_state := t_state t; t_parent := t_parent t; t_num_children := t_num_children t;
     t_unresolved_deps := t_unresolved_deps t;
     t_unresolved_remote_deps := t_unresolved_remote_deps t;
     t_phase := t_phase t; t_instance := t_instance t; t_owner := t_owner t;
     t_taskctx := t_taskctx t; t_wait_handle := t_wait_handle t; t_fn := t_fn t |}.

Definition set_prio (v : Z) (t : task) : task :=
  {| t_next := t_next t; t_prev := t_prev t; t_flags := t_flags t; t_prio := v;
     t_state := t_state t; t_parent := t_parent t; t_num_children := t_num_children t;
     t_unresolved_deps := t_unresolved_deps t;
     t_unresolved_remote_deps := t_unresolved_remote_deps t;
     t_phase := t_phase t; t_instance := t_instance t; t_owner := t_owner t;
     t_taskctx := t_taskctx t; t_wait_handle := t_wait_handle t; t_fn := t_fn t |}.

Definition set_state (v : dart_task_state) (t : task) : task :=
  {| t_next := t_next t; t_prev := t_prev t; t_flags := t_flags t; t_prio := t_prio t;
     t_state := v; t_parent := t_parent t; t_num_children := t_num_children t;
     t_unresolved_deps := t_unresolved_deps t;
     t_unresolved_remote_deps := t_unresolved_remote_deps t;
     t_phase := t_phase t; t_instance := t_instance t; t_owner := t_owner t;
     t_taskctx := t_taskctx t; t_wait_handle := t_wait_handle t; t_fn := t_fn t |}.

Definition set_num_children (v : Z) (t : task) : task :=
  {| t_next := t_next t; t_prev := t_prev t; t_flags := t_flags t; t_prio := t_prio t;
     t_state := t_state t; t_parent := t_parent t; t_num_children := v;
     t_unresolved_deps := t_unresolved_deps t;
     t_unresolved_remote_deps := t_unresolved_remote_deps t;
     t_phase := t_phase t; t_instance := t_instance t; t_owner := t_owner t;
     t_taskctx := t_taskctx t; t_wait_handle := t_wait_handle t; t_fn := t_fn t |}.

Definition set_taskctx (v : option nat) (t : task) : task :=
  {| t_next := t_next t; t_prev := t_prev t; t_flags := t_flags t; t_prio := t_prio t;
     t_state := t_state t; t_parent := t_parent t; t_num_children := t_num_children t;
     t_unresolved_deps := t_unresolved_deps t;
     t_unresolved_remote_deps := t_unresolved_remote_deps t;
     t_phase := t_phase t; t_instance := t_instance t; t_owner := t_owner t;
     t_taskctx := v; t_wait_handle := t_wait_handle t; t_fn := t_fn t |}.

Definition set_owner (v : nat) (t : task) : task :=
  {| t_next := t_next t; t_prev := t_prev t; t_flags := t_flags t; t_prio := t_prio t;
     t_state := t_state t; t_parent := t_parent t; t_num_children := t_num_children t;
     t_unresolved_deps := t_unresolved_deps t;
     t_unresolved_remote_deps := t_unresolved_remote_deps t;
     t_phase := t_phase t; t_instance := t_instance t; t_owner := v;
     t_taskctx := t_taskctx t; t_wait_handle := t_wait_handle t; t_fn := t_fn t |}.

Definition set_unresolved (deps rdeps : Z) (t : task) : task :=
  {| t_next := t_next t; t_prev := t_prev t; t_flags := t_flags t; t_prio := t_prio t;
     t_state := t_state t; t_parent := t_parent t; t_num_children := t_num_children t;
     t_unresolved_deps := deps; t_unresolved_remote_deps := rdeps;
     t_phase := t_phase t; t_instance := t_instance t; t_owner := t_owner t;
     t_taskctx := t_taskctx t; t_wait_handle := t_wait_handle t; t_fn := t_fn t |}.

(** [DART_TASK_SET_FLAG] and [DART_TASK_UNSET_FLAG]. *)
Definition set_flag (f : Z) (t : task) : task := set_flags (Z.lor (t_flags t) f) t.
Definition unset_flag (f : Z) (t : task) : task := set_flags (Z.land (t_flags t) (Z.lnot f)) t.

(** A store [x->field = ...] through pointer [x]: fails when [x] is
    NULL or does not point to a live descriptor. *)
Definition hupd (h : gmap nat task) (x : option nat) (f : task -> task)
    : option (gmap nat task) :=
  x' ← x; t ← h !! x'; Some (<[x' := f t]> h).

(** A load [x->field] through pointer [x]. *)
Definition hget (h : gmap nat task) (x : option nat) : option task :=
  x' ← x; h !! x'.

(** ** The root task: the static descriptor [root_task] *)

Definition root_task_id : nat := 0.

Definition root_task : task :=
  {| t_next := NULL; t_prev := NULL; t_flags := 0; t_prio := DART_PRIO_DEFAULT;
     t_state := DART_TASK_ROOT; t_parent := NULL; t_num_children := 0;
     t_unresolved_deps := 0; t_unresolved_remote_deps := 0; t_phase := 0;
     t_instance := 0; t_owner := 0; t_taskctx := None; t_wait_handle := None;
     t_fn := None |}.

(** ** Runnability ([dart_tasking_datadeps_is_runnable])

    The dependency engine is not among the sources; following the
    specification, a task is runnable when both its counters of
    unresolved local and remote dependencies are zero. *)
Definition datadeps_is_runnable (t : task) : bool :=
  (t_unresolved_deps t =? 0)%Z && (t_unresolved_remote_deps t =? 0)%Z.

(** ** Lemmas on the field updates *)

Lemma hupd_Some h x t f :
  h !! x = Some t -> hupd h (Some x) f = Some (<[x := f t]> h).
Proof. intros Hx. unfold hupd. simpl. by rewrite Hx. Qed.

Lemma hupd_Some_inv h x f h' :
  hupd h x f = Some h' ->
  exists x' t, x = Some x' /\ h !! x' = Some t /\ h' = <[x' := f t]> h.
Proof. unfold hupd. destruct x as [x'|]; simpl; [|done]. intros; opt_simpl. eauto. Qed.

Lemma has_flag_set_flag t f :
  f <> 0%Z -> (0 <= f)%Z -> has_flag (set_flag f t) f = true.
Proof.
  intros Hf Hpos. unfold has_flag, set_flag, set_flags. simpl.
  rewrite Z.land_lor_distr_l, Z.land_diag.
  destruct (Z.eqb_spec (Z.lor (Z.land (t_flags t) f) f) 0) as [E|E]; [|done].
  apply Z.lor_eq_0_iff in E as [_ E]. done.
Qed.

Lemma has_flag_unset_flag t f : has_flag (unset_flag f t) f = false.
Proof.
  unfold has_flag, unset_flag, set_flags. simpl.
  rewrite <- Z.land_assoc, (Z.land_comm (Z.lnot f)), Z.land_lnot_diag, Z.land_0_r. done.
Qed.


(** Setting or clearing a flag leaves the bits of the other flags. *)
Lemma has_flag_set_flag_other t f g :
  Z.land g f = 0%Z -> has_flag (set_flag g t) f = has_flag t f.
Proof.
  intros Hfg. unfold has_flag, set_flag, set_flags. simpl.
  by rewrite Z.land_lor_distr_l, Hfg, Z.lor_0_r.
Qed.

Lemma has_flag_unset_flag_other t f g :
  Z.land g f = 0%Z -> has_flag (unset_flag g t) f = has_flag t f.
Proof.
  intros Hfg. unfold has_flag, unset_flag, set_flags. simpl. f_equal. f_equal.
  rewrite <-Z.land_assoc. f_equal. apply Z.bits_inj'. intros n Hn.
  rewrite Z.land_spec, Z.lnot_spec by done.
  assert (Hb : Z.testbit (Z.land g f) n = false) by (by rewrite Hfg, Z.bits_0).
  rewrite Z.land_spec in Hb. by destruct (Z.testbit g n), (Z.testbit f n).
Qed.

Lemma has_flag_set_num_children t v f : has_flag (set_num_children v t) f = has_flag t f.
Proof. done. Qed.

Lemma has_flag_set_unresolved t d rd f : has_flag (set_unresolved d rd t) f = has_flag t f.
Proof. done. Qed.

Lemma has_flag_set_state' t s f : has_flag (set_state s t) f = has_flag t f.
Proof. done. Qed.

Lemma datadeps_is_runnable_set_unresolved t s d rd :
  datadeps_is_runnable (set_state s (set_unresolved d rd t)) = (d =? 0)%Z && (rd =? 0)%Z.
Proof. done. Qed.

(** [flag_simpl]: evaluate [has_flag] through the field updates. *)
Ltac flag_simpl :=
  repeat first
    [ rewrite has_flag_set_num_children | rewrite has_flag_set_unresolved
    | rewrite has_flag_set_state'
    | rewrite has_flag_set_flag_other by reflexivity
    | rewrite has_flag_set_flag by (unfold DART_TASK_HAS_REF, DART_TASK_INLINE,
                                      DART_TASK_IMMEDIATE, DART_TASK_IS_COMMTASK; lia)
    | rewrite has_flag_unset_flag_other by reflexivity
    | rewrite has_flag_unset_flag ].

Lemma hupd_lookup h x f : hupd h (Some x) f = (fun t => <[x := f t]> h) <$> h !! x.
Proof. unfold hupd. simpl. by destruct (h !! x). Qed.

(** [heap_simpl]: evaluate a chain of stores, one bind at a time,
    using the lookups in the context. *)
Ltac heap_simpl :=
  repeat (first [ rewrite hupd_lookup | rewrite bind_Some_eq
                | match goal with H : ?m !! ?i = Some _ |- context [?m !! ?i] => rewrite H end
                | progress simplify_map_eq/= ];
          cbv beta iota).

Arguments datadeps_is_runnable : simpl never.
