(* ===== verification/TaskQueue.v ===== *)
(** * The task queue: two intrusive doubly linked deques

    Model of [dart_tasking_copyin.c], lines 550-974 (the task queue code
    that the scheduler uses for the per-NUMA queues and the deferred
    queue).  A [task_deque] is a pair of pointers [head]/[tail]; the
    elements are task descriptors linked through their [next]/[prev]
    fields, which live in the task heap.  Every routine is a function
    on the heap and the deque(s) that performs the same loads and
    stores as the C code, in the same order, and fails ([None]) where
    the C code dereferences NULL or a dangling pointer, or trips a
    [DART_ASSERT].

    [dlseg h pp p xs q qn] says that the heap [h] holds a doubly linked
    segment with elements [xs], first node [p], last node [q], the
    predecessor of the first node [pp] and the successor of the last
    node [qn].  A deque represents [xs] when its head and tail bound a
    segment from NULL to NULL, without duplicates ([deque_repr]).
    [Spec] gives the list operations the routines implement. *)

From S2P Require Import Prelude Task.

(** ** Data *)

Record task_deque := mk_deque { dq_head : option nat; dq_tail : option nat }.

Record dart_taskqueue := mk_taskqueue {
  tq_lowprio : task_deque;
  tq_highprio : task_deque;
  tq_locked : bool  (* the queue's mutex *)
}.

(** The consistency check of the C code:
    [(head != NULL && tail != NULL) || (head == NULL && tail == NULL)]. *)
Definition deque_consistent (d : task_deque) : bool :=
  match dq_head d, dq_tail d with
  | Some _, Some _ | None, None => true
  | _, _ => false
  end.

Definition deque_nonnull (d : task_deque) : bool :=
  match dq_head d, dq_tail d with
  | Some _, Some _ => true
  | _, _ => false
  end.

(** ** Private deque routines *)

(** [task_deque_pop], lines 793-820. *)
Definition task_deque_pop (h : heap) (d : task_deque)
    : option (heap * task_deque * option nat) :=
  match dq_head d with
  | None => dart_assert (deque_consistent d) (Some (h, d, NULL))
  | Some x =>
      dart_assert (deque_nonnull d)
        (t ← h !! x;
         hd1 ← (if dq_head d ==p dq_tail d
                then Some (h, mk_deque NULL NULL)
                else h1 ← hupd h (t_next t) (set_prev NULL);
                     Some (h1, mk_deque (t_next t) (dq_tail d)));
         let '(h1, d1) := hd1 in
         h2 ← hupd h1 (Some x) (set_prev NULL);
         h3 ← hupd h2 (Some x) (set_next NULL);
         dart_assert (deque_consistent d1) (Some (h3, d1, Some x)))
  end.

(** [task_deque_push], lines 822-839: prepend. *)
Definition task_deque_push (h : heap) (d : task_deque) (x : nat)
    : option (heap * task_deque) :=
  match dq_head d with
  | None => Some (h, mk_deque (Some x) (Some x))
  | Some hd =>
      h1 ← hupd h (Some x) (set_next (Some hd));
      h2 ← hupd h1 (Some hd) (set_prev (Some x));
      let d' := mk_deque (Some x) (dq_tail d) in
      dart_assert (deque_nonnull d') (Some (h2, d'))
  end.

(** [task_deque_pushback], lines 841-858: append. *)
Definition task_deque_pushback (h : heap) (d : task_deque) (x : nat)
    : option (heap * task_deque) :=
  match dq_head d with
  | None => Some (h, mk_deque (Some x) (Some x))
  | Some _ =>
      h1 ← hupd h (Some x) (set_prev (dq_tail d));
      h2 ← hupd h1 (dq_tail d) (set_next (Some x));
      Some (h2, mk_deque (dq_head d) (Some x))
  end.

(** The search loop of [task_deque_insert]:
    [while (tmp != NULL && count++ < pos) tmp = tmp->next;]
    walks at most [pos] nodes from [tmp]. *)
Fixpoint insert_walk (h : heap) (tmp : option nat) (k : nat) : option (option nat) :=
  match k with
  | 0 => Some tmp
  | S k' =>
      match tmp with
      | None => Some NULL
      | Some y => t ← h !! y; insert_walk h (t_next t) k'
      end
  end.

(** [task_deque_insert], lines 860-895. *)
Definition task_deque_insert (h : heap) (d : task_deque) (x : nat) (pos : nat)
    : option (heap * task_deque) :=
  if (pos =? 0) || (dq_head d ==p NULL) then task_deque_push h d x
  else
    tmp ← insert_walk h (dq_head d) pos;
    match tmp with
    | None => task_deque_pushback h d x
    | Some y =>
        ty ← h !! y;
        match t_next ty with
        | None => task_deque_pushback h d x
        | Some z =>
            h1 ← hupd h (Some x) (set_next NULL);
            h2 ← hupd h1 (Some x) (set_prev NULL);
            h3 ← hupd h2 (Some x) (set_next (Some z));
            tx ← h3 !! x;
            h4 ← hupd h3 (t_next tx) (set_prev (Some x));
            h5 ← hupd h4 (Some x) (set_prev (Some y));
            h6 ← hupd h5 (Some y) (set_next (Some x));
            dart_assert (deque_nonnull d) (Some (h6, d))
        end
    end.

(** [task_deque_popback], lines 897-920. *)
Definition task_deque_popback (h : heap) (d : task_deque)
    : option (heap * task_deque * option nat) :=
  match dq_tail d with
  | None => Some (h, d, NULL)
  | Some x =>
      dart_assert (deque_nonnull d)
        (t ← h !! x;
         hd1 ← (match t_prev t with
                | None => Some (h, mk_deque NULL NULL)
                | Some p => h1 ← hupd h (Some p) (set_next NULL);
                            Some (h1, mk_deque (dq_head d) (Some p))
                end);
         let '(h1, d1) := hd1 in
         h2 ← hupd h1 (Some x) (set_prev NULL);
         h3 ← hupd h2 (Some x) (set_next NULL);
         Some (h3, d1, Some x))
  end.

(** [task_deque_move], lines 923-941: splice [src] in front of [dst]
    and empty [src]. *)
Definition task_deque_move (h : heap) (dst src : task_deque)
    : option (heap * task_deque * task_deque) :=
  match dq_head src, dq_tail src with
  | Some sh, Some st =>
      res ← (match dq_head dst with
             | Some dh =>
                 h1 ← hupd h (Some st) (set_next (Some dh));
                 h2 ← hupd h1 (Some dh) (set_prev (Some st));
                 Some (h2, dq_tail dst)
             | None => Some (h, Some st)
             end);
      let '(h', dtail) := res in
      Some (h', mk_deque (Some sh) dtail, mk_deque NULL NULL)
  | _, _ => Some (h, dst, src)
  end.

(** ** Public routines on the two-priority queue *)

(** [dart_tasking_taskqueue_init], lines 591-597. *)
Definition dart_tasking_taskqueue_init : dart_taskqueue :=
  mk_taskqueue (mk_deque NULL NULL) (mk_deque NULL NULL) false.

(** The priority test of the public routines: only [DART_PRIO_HIGH]
    goes to the high-priority deque. *)
Definition is_high_prio (t : task) : bool := (t_prio t =? DART_PRIO_HIGH)%Z.

Definition with_highprio (tq : dart_taskqueue) (d : task_deque) : dart_taskqueue :=
  mk_taskqueue (tq_lowprio tq) d (tq_locked tq).
Definition with_lowprio (tq : dart_taskqueue) (d : task_deque) : dart_taskqueue :=
  mk_taskqueue d (tq_highprio tq) (tq_locked tq).

(** Run a deque routine on the deque that matches the task's priority. *)
Definition on_prio_deque (h : heap) (tq : dart_taskqueue) (x : nat)
    (f : heap -> task_deque -> option (heap * task_deque))
    : option (heap * dart_taskqueue) :=
  t ← h !! x;
  if is_high_prio t then
    '(h', d') ← f h (tq_highprio tq); Some (h', with_highprio tq d')
  else
    '(h', d') ← f h (tq_lowprio tq); Some (h', with_lowprio tq d').

(** [dart_tasking_taskqueue_push_unsafe], lines 609-626. *)
Definition dart_tasking_taskqueue_push_unsafe (h : heap) (tq : dart_taskqueue) (x : nat)
    : option (heap * dart_taskqueue) :=
  dart_assert (negb (Some x ==p dq_head (tq_highprio tq)) &&
               negb (Some x ==p dq_head (tq_lowprio tq)))
    (h1 ← hupd h (Some x) (set_next NULL);
     h2 ← hupd h1 (Some x) (set_prev NULL);
     on_prio_deque h2 tq x (fun h d => task_deque_push h d x)).

(** [dart_tasking_taskqueue_pushback_unsafe], lines 658-673. *)
Definition dart_tasking_taskqueue_pushback_unsafe (h : heap) (tq : dart_taskqueue) (x : nat)
    : option (heap * dart_taskqueue) :=
  h1 ← hupd h (Some x) (set_next NULL);
  h2 ← hupd h1 (Some x) (set_prev NULL);
  on_prio_deque h2 tq x (fun h d => task_deque_pushback h d x).

(** [dart_tasking_taskqueue_insert_unsafe], lines 686-703. *)
Definition dart_tasking_taskqueue_insert_unsafe (h : heap) (tq : dart_taskqueue) (x : nat)
    (pos : nat) : option (heap * dart_taskqueue) :=
  h1 ← hupd h (Some x) (set_next NULL);
  h2 ← hupd h1 (Some x) (set_prev NULL);
  on_prio_deque h2 tq x (fun h d => task_deque_insert h d x pos).

(** [dart_tasking_taskqueue_pop_unsafe], lines 637-645: high before low. *)
Definition dart_tasking_taskqueue_pop_unsafe (h : heap) (tq : dart_taskqueue)
    : option (heap * dart_taskqueue * option nat) :=
  '(h1, hi, r) ← task_deque_pop h (tq_highprio tq);
  let tq1 := with_highprio tq hi in
  match r with
  | Some _ => Some (h1, tq1, r)
  | None =>
      '(h2, lo, r2) ← task_deque_pop h1 (tq_lowprio tq1);
      Some (h2, with_lowprio tq1 lo, r2)
  end.

(** [dart_tasking_taskqueue_popback_unsafe], lines 714-723. *)
Definition dart_tasking_taskqueue_popback_unsafe (h : heap) (tq : dart_taskqueue)
    : option (heap * dart_taskqueue * option nat) :=
  '(h1, hi, r) ← task_deque_popback h (tq_highprio tq);
  let tq1 := with_highprio tq hi in
  match r with
  | Some _ => Some (h1, tq1, r)
  | None =>
      '(h2, lo, r2) ← task_deque_popback h1 (tq_lowprio tq1);
      Some (h2, with_lowprio tq1 lo, r2)
  end.

(** [dart_tasking_taskqueue_remove_unsafe], lines 735-761. *)
Definition dart_tasking_taskqueue_remove_unsafe (h : heap) (tq : dart_taskqueue)
    (x : option nat) : option (heap * dart_taskqueue) :=
  match x with
  | None => Some (h, tq)
  | Some x' =>
      t ← h !! x';
      let prev := t_prev t in
      let next := t_next t in
      h1 ← (if prev is Some _ then hupd h prev (set_next next) else Some h);
      h2 ← (if next is Some _ then hupd h1 next (set_prev prev) else Some h1);
      h3 ← hupd h2 (Some x') (set_prev NULL);
      h4 ← hupd h3 (Some x') (set_next NULL);
      let hi := tq_highprio tq in
      let lo := tq_lowprio tq in
      let '(hi1, lo1) :=
        if x ==p dq_head hi then (mk_deque next (dq_tail hi), lo)
        else if x ==p dq_head lo then (hi, mk_deque next (dq_tail lo))
        else (hi, lo) in
      let '(hi2, lo2) :=
        if x ==p dq_tail hi1 then (mk_deque (dq_head hi1) prev, lo1)
        else if x ==p dq_tail lo1 then (hi1, mk_deque (dq_head lo1) prev)
        else (hi1, lo1) in
      Some (h4, mk_taskqueue lo2 hi2 (tq_locked tq))
  end.

(** [dart_tasking_taskqueue_move_unsafe], lines 773-778. *)
Definition dart_tasking_taskqueue_move_unsafe (h : heap) (dst src : dart_taskqueue)
    : option (heap * dart_taskqueue * dart_taskqueue) :=
  '(h1, dhi, shi) ← task_deque_move h (tq_highprio dst) (tq_highprio src);
  '(h2, dlo, slo) ← task_deque_move h1 (tq_lowprio dst) (tq_lowprio src);
  Some (h2, mk_taskqueue dlo dhi (tq_locked dst), mk_taskqueue slo shi (tq_locked src)).

(** [dart_tasking_taskqueue_finalize], lines 780-786. *)
Definition dart_tasking_taskqueue_finalize (tq : dart_taskqueue) : dart_taskqueue :=
  mk_taskqueue (mk_deque NULL NULL) (mk_deque NULL NULL) (tq_locked tq).

(** ** Locked routines

    The public routines take the queue's mutex around the [_unsafe]
    variant.  In this sequential model a held mutex cannot be taken:
    the call blocks, which the model renders as no result. *)

Definition tq_set_lock (b : bool) (tq : dart_taskqueue) : dart_taskqueue :=
  mk_taskqueue (tq_lowprio tq) (tq_highprio tq) b.

Definition with_lock {A} (tq : dart_taskqueue)
    (k : dart_taskqueue -> option (A * dart_taskqueue)) : option (A * dart_taskqueue) :=
  if tq_locked tq then None
  else '(a, tq') ← k (tq_set_lock true tq); Some (a, tq_set_lock false tq').

(** [dart_tasking_taskqueue_push], lines 599-607. *)
Definition dart_tasking_taskqueue_push (h : heap) (tq : dart_taskqueue) (x : nat)
    : option (heap * dart_taskqueue) :=
  with_lock tq (fun tq => dart_tasking_taskqueue_push_unsafe h tq x).

(** [dart_tasking_taskqueue_pushback], lines 648-656. *)
Definition dart_tasking_taskqueue_pushback (h : heap) (tq : dart_taskqueue) (x : nat)
    : option (heap * dart_taskqueue) :=
  with_lock tq (fun tq => dart_tasking_taskqueue_pushback_unsafe h tq x).

(** [dart_tasking_taskqueue_insert], lines 675-684. *)
Definition dart_tasking_taskqueue_insert (h : heap) (tq : dart_taskqueue) (x : nat)
    (pos : nat) : option (heap * dart_taskqueue) :=
  with_lock tq (fun tq => dart_tasking_taskqueue_insert_unsafe h tq x pos).

(** [dart_tasking_taskqueue_pop], lines 628-635. *)
Definition dart_tasking_taskqueue_pop (h : heap) (tq : dart_taskqueue)
    : option (heap * option nat * dart_taskqueue) :=
  with_lock tq (fun tq =>
    '(h', tq', r) ← dart_tasking_taskqueue_pop_unsafe h tq; Some ((h', r), tq')).

(** [dart_tasking_taskqueue_popback], lines 705-712. *)
Definition dart_tasking_taskqueue_popback (h : heap) (tq : dart_taskqueue)
    : option (heap * option nat * dart_taskqueue) :=
  with_lock tq (fun tq =>
    '(h', tq', r) ← dart_tasking_taskqueue_popback_unsafe h tq; Some ((h', r), tq')).

(** [dart_tasking_taskqueue_remove], lines 725-733: the NULL check
    comes before the lock. *)
Definition dart_tasking_taskqueue_remove (h : heap) (tq : dart_taskqueue)
    (x : option nat) : option (heap * dart_taskqueue) :=
  match x with
  | None => Some (h, tq)
  | Some _ => with_lock tq (fun tq => dart_tasking_taskqueue_remove_unsafe h tq x)
  end.

(** [dart_tasking_taskqueue_move], lines 763-771: takes the destination's
    mutex, then the source's. *)
Definition dart_tasking_taskqueue_move (h : heap) (dst src : dart_taskqueue)
    : option (heap * dart_taskqueue * dart_taskqueue) :=
  if tq_locked dst || tq_locked src then None
  else
    '(h', dst', src') ← dart_tasking_taskqueue_move_unsafe h (tq_set_lock true dst)
                                                             (tq_set_lock true src);
    Some (h', tq_set_lock false dst', tq_set_lock false src').

(** ** [task_deque_filter_runnable], lines 944-973

    Declared [static] and never called.  Its first loop
    [while (task != NULL && !runnable(task)) { deque->head = task->next; ... }]
    never assigns [task]; its second loop clears the links of every node
    it visits, runnable or not.  The loops are modelled with fuel: [None]
    when the fuel runs out. *)

Fixpoint filter_runnable_head_loop (fuel : nat) (h : heap) (d : task_deque)
    (task : option nat) : option (heap * task_deque) :=
  match fuel with
  | 0 => None
  | S fuel' =>
      match task with
      | None => Some (h, d)
      | Some x =>
          t ← h !! x;
          if datadeps_is_runnable t then Some (h, d)
          else
            let d' := mk_deque (t_next t) (dq_tail d) in
            h1 ← (if t_next t is Some _ then hupd h (t_next t) (set_prev NULL) else Some h);
            h2 ← hupd h1 (Some x) (set_next NULL);
            filter_runnable_head_loop fuel' h2 d' task
      end
  end.

Fixpoint filter_runnable_rest_loop (fuel : nat) (h : heap) (task : option nat)
    : option heap :=
  match fuel with
  | 0 => None
  | S fuel' =>
      match task with
      | None => Some h
      | Some x =>
          t ← h !! x;
          let next := t_next t in
          h1 ← (if datadeps_is_runnable t then Some h
                else
                  h0 ← (if t_prev t is Some _ then hupd h (t_prev t) (set_next (t_next t))
                        else Some h);
                  t0 ← h0 !! x;
                  if t_next t0 is Some _ then hupd h0 (t_next t0) (set_prev (t_prev t0))
                  else Some h0);
          h2 ← hupd h1 (Some x) (set_prev NULL);
          h3 ← hupd h2 (Some x) (set_next NULL);
          filter_runnable_rest_loop fuel' h3 next
      end
  end.

Definition task_deque_filter_runnable (fuel : nat) (h : heap) (d : task_deque)
    : option (heap * task_deque) :=
  '(h1, d1) ← filter_runnable_head_loop fuel h d (dq_head d);
  h2 ← filter_runnable_rest_loop fuel h1 (dq_head d1);
  Some (h2, d1).

(** ** The abstract queue

    A deque is a list of task addresses, head first; the queue is a
    pair of such lists (high, low). *)

Module Spec.
Definition push (x : nat) (xs : list nat) : list nat := x :: xs.
Definition pushback (x : nat) (xs : list nat) : list nat := xs ++ [x].
Definition pop (xs : list nat) : option nat * list nat :=
  match xs with
  | [] => (None, [])
  | x :: xs' => (Some x, xs')
  end.
Definition popback (xs : list nat) : option nat * list nat :=
  match list.last xs with
  | None => (None, [])
  | Some x => (Some x, removelast xs)
  end.
(** Insertion at index [i], clamped to the length. *)
Definition insert_at (i x : nat) (xs : list nat) : list nat := take i xs ++ x :: drop i xs.
(** Splice [src] in front of [dst]; [src] becomes empty. *)
Definition move (dst src : list nat) : list nat * list nat := (src ++ dst, []).

(** The queue: (high-priority deque, low-priority deque). *)
Definition tq_add (high : bool) (f : list nat -> list nat) (q : list nat * list nat)
    : list nat * list nat :=
  if high then (f q.1, q.2) else (q.1, f q.2).
Definition tq_push (high : bool) (x : nat) := tq_add high (push x).
Definition tq_pushback (high : bool) (x : nat) := tq_add high (pushback x).
Definition tq_insert (high : bool) (i x : nat) := tq_add high (insert_at i x).
(** Pop: the high-priority deque first. *)
Definition tq_pop (q : list nat * list nat) : option nat * (list nat * list nat) :=
  match pop q.1 with
  | (Some x, hi') => (Some x, (hi', q.2))
  | (None, _) => let '(r, lo') := pop q.2 in (r, ([], lo'))
  end.
Definition tq_popback (q : list nat * list nat) : option nat * (list nat * list nat) :=
  match popback q.1 with
  | (Some x, hi') => (Some x, (hi', q.2))
  | (None, _) => let '(r, lo') := popback q.2 in (r, ([], lo'))
  end.
Definition remove (x : nat) (xs : list nat) : list nat := filter (fun y => y <> x) xs.
End Spec.

(** ** Representation: doubly linked segments *)

Fixpoint dlseg (h : heap) (pp p : option nat) (xs : list nat) (q qn : option nat) : Prop :=
  match xs with
  | [] => p = qn /\ pp = q
  | x :: xs' =>
      p = Some x /\
      match h !! x with
      | Some t => t_prev t = pp /\ dlseg h (Some x) (t_next t) xs' q qn
      | None => False
      end
  end.

#[export] Instance dlseg_dec h pp p xs q qn : Decision (dlseg h pp p xs q qn).
Proof.
  revert pp p. induction xs as [|x xs IH]; intros; simpl; [apply _|].
  destruct (h !! x); apply _.
Defined.

(** A deque holds [xs]: its head and tail bound a segment from NULL to
    NULL, and no task occurs twice. *)
Definition deque_repr (h : heap) (d : task_deque) (xs : list nat) : Prop :=
  dlseg h NULL (dq_head d) xs (dq_tail d) NULL /\ NoDup xs.

(** The two link fields of a node, the only part of a descriptor that
    the segment predicate reads. *)
Definition links (h : heap) (y : nat) : option (option nat * option nat) :=
  (fun t => (t_next t, t_prev t)) <$> h !! y.

(** A descriptor without its links. *)
Definition strip (t : task) : task := set_next NULL (set_prev NULL t).

(** [h'] differs from [h] at most in the link fields of the nodes [S]. *)
Definition links_only (S : list nat) (h h' : heap) : Prop :=
  (forall y, y ∉ S -> h' !! y = h !! y) /\
  (forall y, strip <$> h' !! y = strip <$> h !! y).

(** The two deques of a queue hold [q.1] (high) and [q.2] (low), which are disjoint. *)
Definition taskqueue_repr (h : heap) (tq : dart_taskqueue) (q : list nat * list nat) : Prop :=
  deque_repr h (tq_highprio tq) q.1 /\ deque_repr h (tq_lowprio tq) q.2 /\
  (forall y, y ∈ q.1 -> y ∉ q.2).

(** A detached node: in the heap, with both links NULL. *)
Definition detached (h : heap) (x : nat) : Prop :=
  exists t, h !! x = Some t /\ t_next t = NULL /\ t_prev t = NULL.

#[export] Instance deque_repr_dec h d xs : Decision (deque_repr h d xs).
Proof. unfold deque_repr. apply _. Defined.

#[export] Instance taskqueue_repr_dec h tq q : Decision (taskqueue_repr h tq q).
Proof. unfold taskqueue_repr. apply _. Defined.

#[export] Instance detached_dec h x : Decision (detached h x).
Proof.
  unfold detached. destruct (h !! x) as [t|] eqn:E.
  - destruct (decide (t_next t = NULL /\ t_prev t = NULL)); [left|right]; naive_solver.
  - right. naive_solver.
Defined.

(** ** A concrete queue, for the witnesses

    Four descriptors: task 1 has high priority, tasks 2, 3 and 4 low.
    [ex_state] is the heap and queue after pushing 2, 1 and 3 onto an
    empty queue: the high deque holds [1], the low deque [3; 2]. *)

Definition ex_task (prio : Z) : task :=
  {| t_next := NULL; t_prev := NULL; t_flags := 0; t_prio := prio;
     t_state := DART_TASK_QUEUED; t_parent := Some root_task_id; t_num_children := 0;
     t_unresolved_deps := 0; t_unresolved_remote_deps := 0; t_phase := 0;
     t_instance := 1; t_owner := 0; t_taskctx := None; t_wait_handle := None;
     t_fn := Some 1 |}.

Definition ex_heap : heap :=
  list_to_map [(1, ex_task DART_PRIO_HIGH); (2, ex_task DART_PRIO_LOW);
               (3, ex_task DART_PRIO_LOW); (4, ex_task DART_PRIO_LOW)].

(** Task 3 of [ex_state] with one unresolved local dependency. *)
Definition ex_waiting_task : task :=
  {| t_next := Some 2; t_prev := NULL; t_flags := 0; t_prio := DART_PRIO_LOW;
     t_state := DART_TASK_CREATED; t_parent := Some root_task_id; t_num_children := 0;
     t_unresolved_deps := 1; t_unresolved_remote_deps := 0; t_phase := 0;
     t_instance := 1; t_owner := 0; t_taskctx := None; t_wait_handle := None;
     t_fn := Some 1 |}.

Definition ex_state : heap * dart_taskqueue :=
  default (ex_heap, dart_tasking_taskqueue_init)
    ('(h1, q1) ← dart_tasking_taskqueue_push_unsafe ex_heap dart_tasking_taskqueue_init 2;
     '(h2, q2) ← dart_tasking_taskqueue_push_unsafe h1 q1 1;
     dart_tasking_taskqueue_push_unsafe h2 q2 3).

(** [ex_state] with task 3, the head of the low deque, waiting. *)
Definition ex_waiting_heap : heap := <[3 := ex_waiting_task]> ex_state.1.

Section Segments.
Implicit Types (h : heap) (xs ys : list nat).

Lemma dlseg_frame h h' pp p xs q qn :
  (forall y, y ∈ xs -> links h' y = links h y) ->
  dlseg h pp p xs q qn -> dlseg h' pp p xs q qn.
Proof.
  revert pp p. induction xs as [|x xs IH]; intros pp p Hl Hs; simpl in *; [done|].
  destruct Hs as [-> Hs]. split; [done|].
  specialize (Hl x (list_elem_of_here _ _)) as Hx. unfold links in Hx.
  destruct (h !! x) as [t|] eqn:E; [|done]. destruct (h' !! x) as [t'|]; [|done].
  simpl in Hx. injection Hx as Hn Hp. rewrite Hn, Hp.
  destruct Hs as [? Hs]. split; [done|].
  apply IH; [|done]. intros y Hy. apply Hl. by apply list_elem_of_further.
Qed.

Lemma dlseg_app h pp p xs ys q qn :
  dlseg h pp p (xs ++ ys) q qn <->
  exists j jn, dlseg h pp p xs j jn /\ dlseg h j jn ys q qn.
Proof.
  revert pp p. induction xs as [|x xs IH]; intros pp p; simpl.
  - split.
    + intros H. by exists pp, p.
    + by intros (j & jn & [-> ->] & H).
  - split.
    + intros [-> Hs]. destruct (h !! x) as [t|]; [|done].
      destruct Hs as [Hp Hs]. apply IH in Hs as (j & jn & H1 & H2).
      exists j, jn. eauto.
    + intros (j & jn & [-> Hs] & H2). split; [done|].
      destruct (h !! x) as [t|]; [|done]. destruct Hs as [Hp Hs].
      split; [done|]. apply IH. eauto.
Qed.

Lemma dlseg_snoc h pp p xs x q qn :
  dlseg h pp p (xs ++ [x]) q qn <->
  q = Some x /\ exists t, h !! x = Some t /\ t_next t = qn /\
                         dlseg h pp p xs (t_prev t) (Some x).
Proof.
  rewrite dlseg_app. simpl. split.
  - intros (j & jn & H1 & -> & Hx). destruct (h !! x) as [t|] eqn:E; [|done].
    destruct Hx as (<- & <- & <-). eauto 6.
  - intros (-> & t & E & <- & H). exists (t_prev t), (Some x). rewrite E. eauto.
Qed.

Lemma dlseg_null_first h pp xs q qn :
  dlseg h pp NULL xs q qn -> xs = [] /\ qn = NULL /\ pp = q.
Proof. destruct xs; simpl; [intros [<- ->]; done | by intros [? _]]. Qed.

Lemma dlseg_null_last h pp p xs qn :
  dlseg h pp p xs NULL qn -> xs = [] /\ p = qn /\ pp = NULL.
Proof.
  destruct (snoc_or_nil xs) as [->|(xs' & x & ->)].
  - simpl. intros [-> ->]. done.
  - by intros [? _]%dlseg_snoc.
Qed.

Lemma dlseg_cons h pp p x xs q qn :
  dlseg h pp p (x :: xs) q qn <->
  p = Some x /\ exists t, h !! x = Some t /\ t_prev t = pp /\
                         dlseg h (Some x) (t_next t) xs q qn.
Proof.
  simpl. split.
  - intros [-> Hs]. destruct (h !! x); naive_solver.
  - intros [-> (t & -> & ?)]. done.
Qed.

(** Updating a node outside the segment, or a node's payload without
    its links, leaves the segment in place. *)
Lemma dlseg_insert_notin h y t pp p xs q qn :
  y ∉ xs -> dlseg h pp p xs q qn -> dlseg (<[y := t]> h) pp p xs q qn.
Proof.
  intros Hy. apply dlseg_frame. intros z Hz. unfold links.
  rewrite lookup_insert_ne; [done|]. intros ->. done.
Qed.

Lemma dlseg_links_only S h h' pp p xs q qn :
  links_only S h h' -> (forall y, y ∈ xs -> y ∉ S) ->
  dlseg h pp p xs q qn -> dlseg h' pp p xs q qn.
Proof.
  intros [HS _] Hd. apply dlseg_frame. intros y Hy. unfold links.
  by rewrite HS; [|apply Hd].
Qed.
Lemma dlseg_first h pp p xs q qn :
  dlseg h pp p xs q qn -> p = match xs with [] => qn | x :: _ => Some x end.
Proof. destruct xs; simpl; naive_solver. Qed.

(** The loop of [task_deque_insert] stops on the node at index [k]. *)
Lemma insert_walk_spec h pp p xs q k :
  dlseg h pp p xs q NULL -> insert_walk h p k = Some (xs !! k).
Proof.
  revert pp p k. induction xs as [|x xs IH]; intros pp p k Hs.
  - destruct Hs as [-> _]. by destruct k.
  - apply dlseg_cons in Hs as (-> & t & Ht & _ & Hs).
    destruct k as [|k]; [done|]. simpl. rewrite Ht. simpl. by eapply IH.
Qed.

(** The [next] field of the node at index [k] points to index [k+1]. *)
Lemma dlseg_lookup_next h pp p xs q k y ty :
  dlseg h pp p xs q NULL -> xs !! k = Some y -> h !! y = Some ty ->
  t_next ty = xs !! S k.
Proof.
  revert pp p k. induction xs as [|x xs IH]; intros pp p k Hs Hk Hy; [done|].
  apply dlseg_cons in Hs as (-> & t & Ht & _ & Hs).
  destruct k as [|k]; simpl in Hk.
  - injection Hk as <-. rewrite Hy in Ht. injection Ht as <-.
    apply dlseg_first in Hs. rewrite Hs. by destruct xs.
  - by eapply IH.
Qed.

Lemma dlseg_lookup_Some h pp p xs q qn k y :
  dlseg h pp p xs q qn -> xs !! k = Some y -> exists ty, h !! y = Some ty.
Proof.
  intros Hs Hk. rewrite <- (take_drop_middle xs k y Hk) in Hs.
  apply dlseg_app in Hs as (j & jn & _ & Hs). apply dlseg_cons in Hs as (_ & ty & Hy & _).
  eauto.
Qed.
End Segments.

(** [dl_frame]: a segment survives stores into nodes outside it. *)
Ltac dl_frame := repeat (apply dlseg_insert_notin; [set_solver|]); try done.

Section Frames.
Implicit Types (h : heap).

Lemma links_only_refl S h : links_only S h h.
Proof. done. Qed.

Lemma links_only_trans S h1 h2 h3 :
  links_only S h1 h2 -> links_only S h2 h3 -> links_only S h1 h3.
Proof.
  intros [A1 B1] [A2 B2]. split.
  - intros y Hy. by rewrite A2, A1.
  - intros y. by rewrite B2, B1.
Qed.

Lemma links_only_mono S S' h h' :
  (forall y, y ∈ S -> y ∈ S') -> links_only S h h' -> links_only S' h h'.
Proof. intros HS [A B]. split; [|done]. intros y Hy. apply A. naive_solver. Qed.

(** One more store into a link field of a node of [S]. *)
Lemma links_only_insert S h h' y t :
  links_only S h h' -> y ∈ S -> strip <$> h' !! y = Some (strip t) ->
  links_only S h (<[y := t]> h').
Proof.
  intros [A B] Hy Ht. split.
  - intros z Hz. rewrite lookup_insert_ne; [by apply A|]. intros ->. done.
  - intros z. destruct (decide (y = z)) as [->|Hne].
    + rewrite lookup_insert_eq, <- B. simpl. by rewrite Ht.
    + rewrite lookup_insert_ne by done. apply B.
Qed.
End Frames.

#[export] Hint Resolve links_only_refl : dart.

(** [links_solve]: prove [links_only S h h'] when [h'] is [h] after a
    chain of stores into link fields of nodes of [S]. *)
Ltac links_solve :=
  repeat (apply links_only_insert; [| set_solver | simplify_map_eq; reflexivity]);
  apply links_only_refl.

Section DequeRepr.
Implicit Types (h : heap) (xs : list nat).

Lemma deque_repr_nil h d : deque_repr h d [] <-> dq_head d = NULL /\ dq_tail d = NULL.
Proof. unfold deque_repr. simpl. split; [naive_solver|]. intros [-> ->]. auto with dart. Qed.

Lemma deque_repr_head_null h d xs :
  deque_repr h d xs -> dq_head d = NULL -> xs = [] /\ dq_tail d = NULL.
Proof. intros [Hs _] E. rewrite E in Hs. apply dlseg_null_first in Hs. naive_solver. Qed.

Lemma deque_repr_tail_null h d xs :
  deque_repr h d xs -> dq_tail d = NULL -> xs = [] /\ dq_head d = NULL.
Proof. intros [Hs _] E. rewrite E in Hs. apply dlseg_null_last in Hs. naive_solver. Qed.

Lemma deque_repr_cons h d x xs :
  deque_repr h d (x :: xs) ->
  dq_head d = Some x /\ (exists y, dq_tail d = Some y) /\
  exists t, h !! x = Some t /\ t_prev t = NULL /\
            dlseg h (Some x) (t_next t) xs (dq_tail d) NULL.
Proof.
  intros Hr. pose proof Hr as [Hs _]. apply dlseg_cons in Hs as (-> & Hs).
  split; [done|]. split; [|done].
  destruct (dq_tail d) as [y|] eqn:E; [eauto|].
  by apply deque_repr_tail_null in Hr as [? _].
Qed.

Lemma deque_repr_nonnull h d xs :
  deque_repr h d xs -> xs <> [] -> deque_nonnull d = true.
Proof.
  intros Hr Hne. destruct xs as [|x xs]; [done|].
  apply deque_repr_cons in Hr as (E1 & [y E2] & _). unfold deque_nonnull. by rewrite E1, E2.
Qed.

Lemma deque_repr_consistent h d xs : deque_repr h d xs -> deque_consistent d = true.
Proof.
  intros Hr. destruct xs as [|x xs].
  - apply deque_repr_nil in Hr as [E1 E2]. unfold deque_consistent. by rewrite E1, E2.
  - apply deque_repr_cons in Hr as (E1 & [y E2] & _).
    unfold deque_consistent. by rewrite E1, E2.
Qed.
End DequeRepr.

(** ** Refinement of the deque routines *)

Lemma Spec_popback_snoc xs x : Spec.popback (xs ++ [x]) = (Some x, xs).
Proof. unfold Spec.popback. by rewrite last_snoc, removelast_last. Qed.

Lemma Spec_insert_at_perm i x xs : Spec.insert_at i x xs ≡ₚ x :: xs.
Proof.
  unfold Spec.insert_at. rewrite <- Permutation_middle. by rewrite take_drop.
Qed.

Lemma Spec_insert_at_NoDup i x xs : x ∉ xs -> NoDup xs -> NoDup (Spec.insert_at i x xs).
Proof. intros. rewrite Spec_insert_at_perm. by apply list.NoDup_cons. Qed.

Lemma Spec_insert_at_0 x xs : Spec.insert_at 0 x xs = x :: xs.
Proof. done. Qed.

Lemma Spec_insert_at_ge i x xs : length xs <= i -> Spec.insert_at i x xs = xs ++ [x].
Proof. intros Hi. unfold Spec.insert_at. by rewrite take_ge, drop_ge. Qed.

Lemma Spec_insert_at_middle ys y z zs x :
  Spec.insert_at (S (length ys)) x (ys ++ y :: z :: zs) = ys ++ y :: x :: z :: zs.
Proof.
  unfold Spec.insert_at. rewrite take_app, drop_app, take_ge, drop_ge by lia.
  replace (S (length ys) - length ys) with 1 by lia. simpl. by rewrite <- app_assoc.
Qed.

Section DequeRefinement.
Implicit Types (h : heap) (xs : list nat).

Lemma task_deque_push_spec h d xs x :
  deque_repr h d xs -> x ∉ xs -> detached h x ->
  exists h' d', task_deque_push h d x = Some (h', d') /\
    deque_repr h' d' (x :: xs) /\ links_only (x :: xs) h h'.
Proof.
  intros Hr Hx (tx & Htx & Hn & Hp). unfold task_deque_push.
  destruct xs as [|a xs].
  - apply deque_repr_nil in Hr as [E1 E2]. rewrite E1.
    eexists _, _. split; [done|]. split; [|apply links_only_refl].
    split; [|auto with dart]. simpl. rewrite Htx, Hn, Hp. done.
  - pose proof Hr as (E1 & [y E2] & ta & Hta & Hpa & Hs)%deque_repr_cons.
    destruct Hr as [_ Hnd]. rewrite E1.
    assert (x <> a) by set_solver.
    assert (Ha : a ∉ xs) by (by apply list.NoDup_cons in Hnd as [? _]).
    heap_simpl. unfold deque_nonnull. rewrite E2. simpl.
    eexists _, _. split; [done|]. split; [split|].
    + simpl. simplify_map_eq/=. split; [done|]. split; [done|].
      split; [done|]. split; [done|]. rewrite <- E2.
      dl_frame.
    + apply list.NoDup_cons. split; [set_solver|done].
    + links_solve.
Qed.

Lemma task_deque_pushback_spec h d xs x :
  deque_repr h d xs -> x ∉ xs -> detached h x ->
  exists h' d', task_deque_pushback h d x = Some (h', d') /\
    deque_repr h' d' (Spec.pushback x xs) /\ links_only (x :: xs) h h'.
Proof.
  intros Hr Hx (tx & Htx & Hn & Hp). unfold task_deque_pushback, Spec.pushback.
  destruct (snoc_or_nil xs) as [->|(ys & b & ->)].
  - apply deque_repr_nil in Hr as [E1 E2]. rewrite E1.
    eexists _, _. split; [done|]. split; [|apply links_only_refl].
    split; [|simpl; auto with dart]. simpl. rewrite Htx, Hn, Hp. done.
  - destruct (dq_head d) as [a|] eqn:E1.
    2:{ apply deque_repr_head_null in Hr as [Hnil _]; [|done].
        by destruct ys. }
    destruct Hr as [Hs Hnd]. apply dlseg_snoc in Hs as (E2 & tb & Htb & Hnb & Hs).
    apply NoDup_snoc in Hnd as [Hb Hnd].
    assert (x <> b) by set_solver.
    rewrite E2. heap_simpl.
    eexists _, _. split; [done|]. split; [split|].
    + simpl. apply dlseg_snoc. split; [done|]. eexists. simplify_map_eq/=.
      split; [done|]. split; [done|]. rewrite <- E1.
      apply dlseg_snoc. split; [done|]. eexists. simplify_map_eq/=.
      split; [done|]. split; [done|].
      dl_frame.
    + apply NoDup_snoc. split; [set_solver|]. by apply NoDup_snoc.
    + links_solve.
Qed.

Lemma deque_repr_tail_not_head h d x y xs :
  deque_repr h d (x :: y :: xs) -> dq_tail d <> Some x.
Proof.
  intros [Hs Hnd]. destruct (snoc_or_nil (y :: xs)) as [[=]|(ys & z & Ez)].
  rewrite Ez, app_comm_cons in Hs. apply dlseg_snoc in Hs as (-> & _).
  intros [= <-]. apply list.NoDup_cons in Hnd as [Hx _]. apply Hx. rewrite Ez. set_solver.
Qed.

Lemma task_deque_pop_spec h d xs :
  deque_repr h d xs ->
  exists h' d' r ys, task_deque_pop h d = Some (h', d', r) /\
    Spec.pop xs = (r, ys) /\ deque_repr h' d' ys /\
    links_only xs h h' /\ (forall y, r = Some y -> detached h' y).
Proof.
  intros Hr. unfold task_deque_pop. destruct xs as [|x xs].
  - pose proof Hr as [E1 E2]%deque_repr_nil. rewrite E1.
    erewrite deque_repr_consistent by done. simpl.
    eexists _, _, _, _. split; [done|]. by split; [|split; [|split]].
  - pose proof Hr as (E1 & [y E2] & tx & Htx & Hpx & Hs)%deque_repr_cons.
    destruct Hr as [_ Hnd]. apply list.NoDup_cons in Hnd as [Hx Hnd].
    rewrite E1. unfold deque_nonnull. rewrite E1, E2. simpl. rewrite Htx. simpl.
    destruct xs as [|b xs].
    + destruct Hs as [Hn Ht]. rewrite E2 in Ht. injection Ht as <-.
      rewrite ptr_eqb_refl. heap_simpl.
      eexists _, _, _, _. split; [done|]. split; [done|].
      split; [by apply deque_repr_nil|]. split; [links_solve|].
      intros ? [= <-]. eexists. simplify_map_eq/=. done.
    + assert (Hne : dq_tail d <> Some x).
      { apply (deque_repr_tail_not_head h d x b xs). split; [|by apply list.NoDup_cons].
        apply dlseg_cons. split; [done|]. eauto. }
      rewrite <- E2, ptr_eqb_neq by congruence.
      apply dlseg_cons in Hs as (Hnx & tb & Htb & Hpb & Hs). rewrite Hnx.
      apply list.NoDup_cons in Hnd as [Hb Hnd].
      assert (x <> b) by set_solver. heap_simpl. rewrite E2. simpl.
      eexists _, _, _, _. split; [done|]. split; [done|]. split; [split|split].
      * simpl. apply dlseg_cons. split; [done|]. eexists. simplify_map_eq/=.
        split; [done|]. split; [done|]. rewrite <- E2. dl_frame.
      * by apply list.NoDup_cons.
      * links_solve.
      * intros ? [= <-]. eexists. simplify_map_eq/=. done.
Qed.

Lemma task_deque_popback_spec h d xs :
  deque_repr h d xs ->
  exists h' d' r ys, task_deque_popback h d = Some (h', d', r) /\
    Spec.popback xs = (r, ys) /\ deque_repr h' d' ys /\
    links_only xs h h' /\ (forall y, r = Some y -> detached h' y).
Proof.
  intros Hr. unfold task_deque_popback.
  destruct (snoc_or_nil xs) as [->|(ys & x & ->)].
  - pose proof Hr as [E1 E2]%deque_repr_nil. rewrite E2.
    eexists _, _, _, _. split; [done|]. by split; [|split; [|split]].
  - rewrite Spec_popback_snoc.
    destruct (dq_head d) as [a|] eqn:E1.
    2:{ apply deque_repr_head_null in Hr as [Hnil _]; [|done]. by destruct ys. }
    destruct Hr as [Hs Hnd]. apply dlseg_snoc in Hs as (E2 & tx & Htx & Hnx & Hs).
    apply NoDup_snoc in Hnd as [Hx Hnd].
    unfold deque_nonnull. rewrite E1, E2. simpl. rewrite Htx. simpl.
    destruct (t_prev tx) as [p|] eqn:Ep.
    + destruct (snoc_or_nil ys) as [->|(zs & p' & ->)].
      { destruct Hs as [_ [=]]. }
      apply dlseg_snoc in Hs as ([= <-] & tp & Htp & Hnp & Hs).
      apply NoDup_snoc in Hnd as [Hp Hnd].
      assert (x <> p) by set_solver. heap_simpl.
      eexists _, _, _, _. split; [done|]. split; [done|]. split; [split|split].
      * simpl. rewrite <- E1. apply dlseg_snoc. split; [done|]. eexists.
        simplify_map_eq/=. split; [done|]. split; [done|]. dl_frame.
      * by apply NoDup_snoc.
      * links_solve.
      * intros ? [= <-]. eexists. simplify_map_eq/=. done.
    + apply dlseg_null_last in Hs as (-> & _ & _). heap_simpl.
      eexists _, _, _, _. split; [done|]. split; [done|].
      split; [by apply deque_repr_nil|]. split; [links_solve|].
      intros ? [= <-]. eexists. simplify_map_eq/=. done.
Qed.

Lemma task_deque_insert_spec h d xs x pos :
  deque_repr h d xs -> x ∉ xs -> detached h x ->
  exists h' d', task_deque_insert h d x pos = Some (h', d') /\
    deque_repr h' d' (Spec.insert_at (if pos =? 0 then 0 else S pos) x xs) /\
    links_only (x :: xs) h h'.
Proof.
  intros Hr Hx Hdet. unfold task_deque_insert.
  destruct (Nat.eqb_spec pos 0) as [->|Hpos]; simpl.
  { rewrite Spec_insert_at_0. by apply task_deque_push_spec. }
  destruct (dq_head d) as [a|] eqn:E1.
  2:{ pose proof (deque_repr_head_null _ _ _ Hr E1) as [-> _].
      unfold Spec.insert_at. simpl. by apply task_deque_push_spec. }
  rewrite ptr_eqb_neq by done. simpl. rewrite <- E1.
  erewrite insert_walk_spec by (apply Hr). simpl.
  destruct (xs !! pos) as [y|] eqn:Ey.
  2:{ rewrite Spec_insert_at_ge by (apply lookup_ge_None in Ey; lia).
      by apply task_deque_pushback_spec. }
  destruct (dlseg_lookup_Some h _ _ _ _ _ _ _ (proj1 Hr) Ey) as [ty Hty].
  rewrite Hty. simpl. erewrite (dlseg_lookup_next h) by (eauto; apply Hr).
  destruct (xs !! S pos) as [z|] eqn:Ez.
  2:{ rewrite Spec_insert_at_ge by (apply lookup_ge_None in Ez; lia).
      by apply task_deque_pushback_spec. }
  pose proof (deque_repr_nonnull h d xs Hr) as Hnn.
  assert (Exs : xs = take pos xs ++ y :: z :: drop (S (S pos)) xs).
  { rewrite <- (drop_S _ _ _ Ez). by rewrite take_drop_middle. }
  assert (Hlen : length (take pos xs) = pos).
  { apply length_take_le. apply lookup_lt_Some in Ey. lia. }
  remember (take pos xs) as ys eqn:Eys. remember (drop (S (S pos)) xs) as zs eqn:Ezs.
  rewrite Exs, <- Hlen, Spec_insert_at_middle.
  destruct Hr as [Hs Hnd]. rewrite Exs in Hs, Hnd, Hx.
  apply dlseg_app in Hs as (j & jn & Hys & Hs).
  apply dlseg_cons in Hs as (-> & ty' & Hty' & Hpy & Hs).
  rewrite Hty in Hty'. injection Hty' as <-.
  apply dlseg_cons in Hs as (Hny & tz & Htz & Hpz & Hs).
  destruct Hdet as (tx & Htx & Hnx & Hpx).
  pose proof Hnd as Hnd'. rewrite list.NoDup_app in Hnd. destruct Hnd as (_ & Hdis & Hnd).
  apply list.NoDup_cons in Hnd as [Hy Hnd]. apply list.NoDup_cons in Hnd as [Hz _].
  assert (y ∉ ys) by (intros ?; by apply (Hdis y); [|left]).
  assert (z ∉ ys) by (intros ?; by apply (Hdis z); [|right; left]).
  assert (x <> y) by set_solver. assert (x <> z) by set_solver. assert (y <> z) by set_solver.
  heap_simpl. rewrite Hnn; [|by destruct ys]. simpl.
  eexists _, _. split; [done|]. split; [split|].
  - apply dlseg_app. exists (t_prev ty), (Some y). split; [dl_frame|].
    simpl. simplify_map_eq/=. repeat split; try done. dl_frame.
  - rewrite <- Spec_insert_at_middle. by apply Spec_insert_at_NoDup.
  - links_solve.
Qed.

(** [task_deque_move] splices the source deque in front of the
    destination and leaves the source empty ([Spec.move]); it changes
    only link fields of the moved and destination nodes. *)
Lemma task_deque_move_spec h dst src dxs sxs :
  deque_repr h dst dxs -> deque_repr h src sxs -> (forall y, y ∈ sxs -> y ∉ dxs) ->
  exists h' dst' src', task_deque_move h dst src = Some (h', dst', src') /\
    deque_repr h' dst' (fst (Spec.move dxs sxs)) /\
    deque_repr h' src' (snd (Spec.move dxs sxs)) /\ links_only (sxs ++ dxs) h h'.
Proof.
  intros Hd Hs Hdis. unfold task_deque_move, Spec.move. simpl.
  destruct (snoc_or_nil sxs) as [->|(s0 & st & ->)].
  { pose proof Hs as [E1 _]%deque_repr_nil. rewrite E1.
    eexists _, _, _. split; [done|]. by split; [|split]. }
  pose proof (deque_repr_nonnull h src _ Hs ltac:(by destruct s0)) as Hnn.
  unfold deque_nonnull in Hnn.
  destruct (dq_head src) as [sh|] eqn:Esh; [|done].
  destruct (dq_tail src) as [st'|] eqn:Est; [|done].
  destruct Hs as [Hs Hnds]. rewrite Esh, Est in Hs.
  pose proof Hs as Hs'. apply dlseg_snoc in Hs' as ([= ->] & tst & Htst & Hnst & Hs0).
  assert (Hnd : NoDup ((s0 ++ [st]) ++ dxs)).
  { apply list.NoDup_app. split; [done|]. split; [done|]. apply Hd. }
  destruct dxs as [|dh dr].
  - pose proof Hd as [-> _]%deque_repr_nil. simpl.
    eexists _, _, _. split; [done|]. rewrite app_nil_r.
    split; [done|]. split; [by apply deque_repr_nil|]. apply links_only_refl.
  - pose proof Hd as (Edh & _ & tdh & Htdh & Hpdh & Hdr)%deque_repr_cons.
    rewrite Edh.
    assert (st <> dh) by (intros ->; apply (Hdis dh); set_solver).
    apply NoDup_app_disjoint with (x := st) in Hnd as Hst; [|set_solver].
    assert (dh ∉ s0) by (intros Hin; apply (Hdis dh); set_solver).
    apply NoDup_snoc in Hnds as [Hst0 _].
    destruct Hd as [_ Hndd]. apply list.NoDup_cons in Hndd as [Hdh Hndr].
    heap_simpl.
    eexists _, _, _. split; [done|]. split; [split|split; [by apply deque_repr_nil|]].
    + simpl. apply dlseg_app. exists (Some st), (Some dh). split.
      * apply dlseg_snoc. split; [done|]. eexists. simplify_map_eq/=.
        split; [done|]. split; [done|]. dl_frame.
      * simpl. simplify_map_eq/=. repeat split; try done. dl_frame.
    + done.
    + links_solve.
Qed.
End DequeRefinement.

(** ** Refinement of the public queue routines *)

Section QueueRefinement.
Implicit Types (h : heap) (xs : list nat) (q : list nat * list nat).

Lemma deque_repr_head_notin h d xs x :
  deque_repr h d xs -> x ∉ xs -> (Some x ==p dq_head d) = false.
Proof.
  intros Hr Hx. apply ptr_eqb_neq. destruct xs as [|a xs].
  - apply deque_repr_nil in Hr as [-> _]. done.
  - apply deque_repr_cons in Hr as (-> & _). intros [= ->]. set_solver.
Qed.

Lemma deque_repr_links_only S h h' d xs :
  deque_repr h d xs -> links_only S h h' -> (forall y, y ∈ xs -> y ∉ S) ->
  deque_repr h' d xs.
Proof. intros [Hs Hnd] HS Hd. split; [|done]. by eapply dlseg_links_only. Qed.

Lemma taskqueue_repr_insert_notin h tq q y t :
  taskqueue_repr h tq q -> y ∉ q.1 -> y ∉ q.2 -> taskqueue_repr (<[y := t]> h) tq q.
Proof.
  intros (Hhi & Hlo & Hdis) H1 H2. split; [|split; [|done]].
  - destruct Hhi as [Hs Hnd]. split; [|done]. by apply dlseg_insert_notin.
  - destruct Hlo as [Hs Hnd]. split; [|done]. by apply dlseg_insert_notin.
Qed.

(** The routines that add a task ([push], [pushback], [insert]) share
    their shape: clear the task's links, then run a deque routine on
    the deque of the task's priority. *)
Lemma taskqueue_add_spec (f : heap -> task_deque -> option (heap * task_deque))
    (g : list nat -> list nat) h tq q x tx :
  (forall h d xs, deque_repr h d xs -> x ∉ xs -> detached h x ->
     exists h' d', f h d = Some (h', d') /\ deque_repr h' d' (g xs) /\
                   links_only (x :: xs) h h') ->
  (forall xs y, y ∈ g xs -> y = x \/ y ∈ xs) ->
  taskqueue_repr h tq q -> x ∉ q.1 -> x ∉ q.2 -> h !! x = Some tx ->
  exists h' tq',
    (h1 ← hupd h (Some x) (set_next NULL);
     h2 ← hupd h1 (Some x) (set_prev NULL);
     on_prio_deque h2 tq x f) = Some (h', tq') /\
    taskqueue_repr h' tq' (Spec.tq_add (is_high_prio tx) g q) /\
    links_only (x :: q.1 ++ q.2) h h'.
Proof.
  intros Hf Hg Hr Hx1 Hx2 Htx. heap_simpl. unfold on_prio_deque.
  simplify_map_eq/=.
  set (h2 := <[x:=set_prev None (set_next None tx)]> (<[x:=set_next None tx]> h)).
  assert (Hr2 : taskqueue_repr h2 tq q) by (subst h2; repeat (apply taskqueue_repr_insert_notin || done)).
  assert (Hdet : detached h2 x) by (eexists; subst h2; by simplify_map_eq/=).
  assert (Hl2 : links_only (x :: q.1 ++ q.2) h h2) by (subst h2; links_solve).
  destruct Hr2 as (Hhi & Hlo & Hdis).
  change (is_high_prio (set_prev None (set_next None tx))) with (is_high_prio tx).
  unfold Spec.tq_add. destruct (is_high_prio tx).
  - destruct (Hf h2 _ _ Hhi Hx1 Hdet) as (h' & d' & -> & Hr' & Hl). simpl.
    eexists _, _. split; [done|]. split.
    + split; [done|]. split.
      * eapply deque_repr_links_only; [done|done|].
        intros y Hy [->|Hin]%elem_of_cons; [done|]. by apply (Hdis y).
      * intros y [->|Hy]%Hg; [done|]. by apply Hdis.
    + eapply links_only_trans; [done|]. eapply links_only_mono; [|done]. set_solver.
  - destruct (Hf h2 _ _ Hlo Hx2 Hdet) as (h' & d' & -> & Hr' & Hl). simpl.
    eexists _, _. split; [done|]. split.
    + split; [|split].
      * eapply deque_repr_links_only; [done|done|].
        intros y Hy [->|Hin]%elem_of_cons; [done|]. by apply (Hdis y).
      * done.
      * intros y Hy [->|Hy']%Hg; [done|]. by apply (Hdis y).
    + eapply links_only_trans; [done|]. eapply links_only_mono; [|done]. set_solver.
Qed.

(** C3: [dart_tasking_taskqueue_push_unsafe] prepends a task that is in
    neither deque to the high-priority deque when its [prio] is
    [DART_PRIO_HIGH] and to the low-priority deque otherwise
    ([Spec.tq_push]), keeping both deques well formed; only link
    fields change. *)
Lemma dart_tasking_taskqueue_push_unsafe_spec h tq q x tx :
  taskqueue_repr h tq q -> x ∉ q.1 -> x ∉ q.2 -> h !! x = Some tx ->
  exists h' tq', dart_tasking_taskqueue_push_unsafe h tq x = Some (h', tq') /\
    taskqueue_repr h' tq' (Spec.tq_push (is_high_prio tx) x q) /\
    links_only (x :: q.1 ++ q.2) h h'.
Proof.
  intros Hr Hx1 Hx2 Htx. unfold dart_tasking_taskqueue_push_unsafe.
  destruct Hr as (Hhi & Hlo & Hdis) eqn:E.
  rewrite (deque_repr_head_notin _ _ _ _ Hhi Hx1), (deque_repr_head_notin _ _ _ _ Hlo Hx2).
  simpl. apply taskqueue_add_spec; [|intros ?? Hy; unfold Spec.push in Hy; set_solver|done..].
  intros. by apply task_deque_push_spec.
Qed.

(** [dart_tasking_taskqueue_pushback_unsafe] appends the task to the
    deque of its priority ([Spec.tq_pushback]). *)
Lemma dart_tasking_taskqueue_pushback_unsafe_spec h tq q x tx :
  taskqueue_repr h tq q -> x ∉ q.1 -> x ∉ q.2 -> h !! x = Some tx ->
  exists h' tq', dart_tasking_taskqueue_pushback_unsafe h tq x = Some (h', tq') /\
    taskqueue_repr h' tq' (Spec.tq_pushback (is_high_prio tx) x q) /\
    links_only (x :: q.1 ++ q.2) h h'.
Proof.
  intros. apply taskqueue_add_spec; [|intros ?? Hy; unfold Spec.pushback in Hy; set_solver|done..].
  intros. by apply task_deque_pushback_spec.
Qed.

(** [dart_tasking_taskqueue_insert_unsafe h tq x pos] inserts the
    task into the deque of its priority at index [0] when [pos = 0] and
    at index [pos + 1] (clamped to the length) otherwise
    ([Spec.tq_insert]). *)
Lemma dart_tasking_taskqueue_insert_unsafe_spec h tq q x tx pos :
  taskqueue_repr h tq q -> x ∉ q.1 -> x ∉ q.2 -> h !! x = Some tx ->
  exists h' tq', dart_tasking_taskqueue_insert_unsafe h tq x pos = Some (h', tq') /\
    taskqueue_repr h' tq'
      (Spec.tq_insert (is_high_prio tx) (if pos =? 0 then 0 else S pos) x q) /\
    links_only (x :: q.1 ++ q.2) h h'.
Proof.
  intros. apply taskqueue_add_spec; [|intros ?? Hy; rewrite Spec_insert_at_perm in Hy; set_solver|done..].
  intros. by apply task_deque_insert_spec.
Qed.

Lemma Spec_pop_cases xs r ys :
  Spec.pop xs = (r, ys) ->
  (r = None /\ xs = [] /\ ys = []) \/ (exists x, r = Some x /\ xs = x :: ys).
Proof. destruct xs; simpl; intros [= <- <-]; eauto. Qed.

Lemma Spec_popback_cases xs r ys :
  Spec.popback xs = (r, ys) ->
  (r = None /\ xs = [] /\ ys = []) \/ (exists x, r = Some x /\ xs = ys ++ [x]).
Proof.
  destruct (snoc_or_nil xs) as [->|(xs' & x & ->)].
  - intros [= <- <-]. by left.
  - rewrite Spec_popback_snoc. intros [= <- <-]. eauto.
Qed.

(** [pop] and [popback] share their shape: take from the high-priority
    deque, and from the low-priority deque only when the first is empty. *)
Lemma taskqueue_take_spec
    (f : heap -> task_deque -> option (heap * task_deque * option nat))
    (sf : list nat -> option nat * list nat) h tq q :
  (forall h d xs, deque_repr h d xs ->
     exists h' d' r ys, f h d = Some (h', d', r) /\ sf xs = (r, ys) /\
       deque_repr h' d' ys /\ links_only xs h h' /\ (forall y, r = Some y -> detached h' y)) ->
  (forall xs r ys, sf xs = (r, ys) ->
     (r = None /\ xs = [] /\ ys = []) \/ (exists x, r = Some x /\ forall y, y ∈ ys -> y ∈ xs)) ->
  taskqueue_repr h tq q ->
  exists h' tq' r q',
    ('(h1, hi, r) ← f h (tq_highprio tq);
     let tq1 := with_highprio tq hi in
     match r with
     | Some _ => Some (h1, tq1, r)
     | None => '(h2, lo, r2) ← f h1 (tq_lowprio tq1); Some (h2, with_lowprio tq1 lo, r2)
     end) = Some (h', tq', r) /\
    (match sf q.1 with
     | (Some x, hi') => (Some x, (hi', q.2))
     | (None, _) => let '(r, lo') := sf q.2 in (r, ([], lo'))
     end) = (r, q') /\
    taskqueue_repr h' tq' q' /\ links_only (q.1 ++ q.2) h h' /\
    (forall y, r = Some y -> detached h' y).
Proof.
  intros Hf Hsf (Hhi & Hlo & Hdis). destruct q as [hi lo]. simpl in *.
  destruct (Hf _ _ _ Hhi) as (h1 & hi' & r & ys & -> & Hpop & Hr1 & Hl1 & Hdet1). simpl.
  rewrite Hpop. destruct (Hsf _ _ _ Hpop) as [(-> & -> & ->)|(x & -> & Hsub)].
  - assert (Hlo1 : deque_repr h1 (tq_lowprio tq) lo).
    { eapply deque_repr_links_only; [done|done|]. set_solver. }
    destruct (Hf _ _ _ Hlo1) as (h2 & lo' & r2 & zs & -> & Hpop2 & Hr2 & Hl2 & Hdet2).
    simpl. rewrite Hpop2. eexists _, _, _, _. split; [done|]. split; [done|]. split.
    + split; [|split; [done|set_solver]]. simpl.
      apply deque_repr_nil in Hr1. by apply deque_repr_nil.
    + split; [|done]. eapply links_only_trans; (eapply links_only_mono; [|done]); set_solver.
  - eexists _, _, _, _. split; [done|]. split; [done|]. split.
    + split; [done|]. split.
      * eapply deque_repr_links_only; [done|done|]. intros y Hy Hin. by apply (Hdis y).
      * intros y Hy. apply Hdis, Hsub, Hy.
    + split; [|done]. eapply links_only_mono; [|done]. set_solver.
Qed.

(** C2: [dart_tasking_taskqueue_pop_unsafe] returns the head of the
    high-priority deque when it is non-empty and the head of the
    low-priority deque otherwise ([Spec.tq_pop]), unlinks it (both links
    NULL) and leaves a well-formed queue; on an empty queue it returns
    NULL and changes nothing. *)
Lemma dart_tasking_taskqueue_pop_unsafe_spec h tq q :
  taskqueue_repr h tq q ->
  exists h' tq' r q', dart_tasking_taskqueue_pop_unsafe h tq = Some (h', tq', r) /\
    Spec.tq_pop q = (r, q') /\ taskqueue_repr h' tq' q' /\
    links_only (q.1 ++ q.2) h h' /\ (forall y, r = Some y -> detached h' y).
Proof.
  intros Hr. apply (taskqueue_take_spec task_deque_pop Spec.pop); [|clear; intros ??? [?|(x & -> & ->)]%Spec_pop_cases; [by left|right; eauto with set_solver]|done].
  intros. by apply task_deque_pop_spec.
Qed.

(** [dart_tasking_taskqueue_popback_unsafe] takes the tail of the
    high-priority deque, or of the low-priority deque when the first is
    empty ([Spec.tq_popback]): the stealing end of the queue. *)
Lemma dart_tasking_taskqueue_popback_unsafe_spec h tq q :
  taskqueue_repr h tq q ->
  exists h' tq' r q', dart_tasking_taskqueue_popback_unsafe h tq = Some (h', tq', r) /\
    Spec.tq_popback q = (r, q') /\ taskqueue_repr h' tq' q' /\
    links_only (q.1 ++ q.2) h h' /\ (forall y, r = Some y -> detached h' y).
Proof.
  intros Hr. apply (taskqueue_take_spec task_deque_popback Spec.popback); [|clear; intros ??? [?|(x & -> & ->)]%Spec_popback_cases; [by left|right; eauto with set_solver]|done].
  intros. by apply task_deque_popback_spec.
Qed.
(** A queue is unaffected by stores to the links of tasks it does not hold. *)
Lemma taskqueue_repr_links_only S h h' tq q :
  taskqueue_repr h tq q -> links_only S h h' -> (forall y, y ∈ q.1 ++ q.2 -> y ∉ S) ->
  taskqueue_repr h' tq q.
Proof.
  intros (Hhi & Hlo & Hdis) HS Hd. split_and!; [| |done];
    (eapply deque_repr_links_only; [done|done|]); intros y Hy; apply Hd; set_solver.
Qed.

(** The locked [dart_tasking_taskqueue_push] on a queue whose mutex is free. *)
Lemma dart_tasking_taskqueue_push_spec h tq q x tx :
  taskqueue_repr h tq q -> tq_locked tq = false -> x ∉ q.1 -> x ∉ q.2 -> h !! x = Some tx ->
  exists h' tq', dart_tasking_taskqueue_push h tq x = Some (h', tq') /\
    taskqueue_repr h' tq' (Spec.tq_push (is_high_prio tx) x q) /\ tq_locked tq' = false /\
    links_only (x :: q.1 ++ q.2) h h'.
Proof.
  intros Hr Hl Hx1 Hx2 Htx. unfold dart_tasking_taskqueue_push, with_lock. rewrite Hl.
  unfold dart_tasking_taskqueue_push_unsafe. cbv beta iota.
  destruct Hr as (Hhi & Hlo & Hdis) eqn:E. cbn [tq_highprio tq_lowprio tq_set_lock].
  rewrite (deque_repr_head_notin _ _ _ _ Hhi Hx1), (deque_repr_head_notin _ _ _ _ Hlo Hx2).
  cbn [negb andb dart_assert].
  destruct (taskqueue_add_spec (fun h d => task_deque_push h d x) (Spec.push x) h
              (tq_set_lock true tq) q x tx) as (h' & tq' & E' & Hr' & Hl'); try done.
  - intros. by apply task_deque_push_spec.
  - intros ?? Hy. unfold Spec.push in Hy. set_solver.
  - rewrite E'. simpl. eexists _, _. split; [reflexivity|]. done.
Qed.

(** The locked [dart_tasking_taskqueue_pop] on a queue whose mutex is free. *)
Lemma dart_tasking_taskqueue_pop_spec h tq q :
  taskqueue_repr h tq q -> tq_locked tq = false ->
  exists h' r tq' q', dart_tasking_taskqueue_pop h tq = Some (h', r, tq') /\
    Spec.tq_pop q = (r, q') /\ taskqueue_repr h' tq' q' /\ tq_locked tq' = false /\
    links_only (q.1 ++ q.2) h h' /\ (forall y, r = Some y -> detached h' y).
Proof.
  intros Hr Hl.
  destruct (taskqueue_take_spec task_deque_pop Spec.pop h (tq_set_lock true tq) q)
    as (h' & tq' & r & q' & E & Hq & Hr' & Hl' & Hd).
  - intros. by apply task_deque_pop_spec.
  - clear. intros ??? [?|(x & -> & ->)]%Spec_pop_cases; [by left|right; eauto with set_solver].
  - exact Hr.
  - assert (E' : dart_tasking_taskqueue_pop_unsafe h (tq_set_lock true tq) = Some (h', tq', r))
      by exact E.
    unfold dart_tasking_taskqueue_pop, with_lock. rewrite Hl, E'. simpl.
    eexists _, _, _, _. split; [done|]. split; [exact Hq|]. by split_and!.
Qed.
End QueueRefinement.

(** ** Where [insert] puts the task

    [requeue_task] calls [insert(q, task, delay)] for a positive delay
    (see [dart_tasking_instrumentation.c], line 623), and the
    specification says that the task goes [delay] positions from the
    head.  The search loop stops on the node at index [pos] and the task
    is linked after it: for [1 <= pos < length], the task lands at index
    [pos + 1]. *)

Section InsertIndex.
Lemma Spec_insert_at_lookup i x xs :
  i <= length xs -> Spec.insert_at i x xs !! i = Some x.
Proof.
  intros Hi. unfold Spec.insert_at.
  rewrite lookup_app_r; rewrite length_take_le by done; [|lia].
  by rewrite Nat.sub_diag.
Qed.

Lemma Spec_insert_at_lookup_before i x xs j :
  j < i -> i <= length xs -> Spec.insert_at i x xs !! j = xs !! j.
Proof.
  intros Hj Hi. unfold Spec.insert_at.
  rewrite lookup_app_l by (rewrite length_take_le; lia). by apply lookup_take_lt.
Qed.

(** for [1 <= pos < length xs], [task_deque_insert] puts the task at
    index [pos + 1] of the deque, not at index [pos]: the node that was
    at index [pos] stays in front of it. *)
Theorem task_deque_insert_index h d xs x pos :
  deque_repr h d xs -> x ∉ xs -> detached h x -> 1 <= pos < length xs ->
  exists h' d' ys, task_deque_insert h d x pos = Some (h', d') /\
    deque_repr h' d' ys /\ ys !! S pos = Some x /\ ys !! pos = xs !! pos.
Proof.
  intros Hr Hx Hdet Hpos.
  destruct (task_deque_insert_spec h d xs x pos Hr Hx Hdet) as (h' & d' & Hins & Hr' & _).
  destruct (Nat.eqb_spec pos 0) as [|_]; [lia|].
  exists h', d', (Spec.insert_at (S pos) x xs). split; [done|]. split; [done|].
  split; [apply Spec_insert_at_lookup; lia|]. apply Spec_insert_at_lookup_before; lia.
Qed.
End InsertIndex.

(** ** [task_deque_filter_runnable] *)

Section FilterRunnable.
Lemma datadeps_is_runnable_set_prev v t :
  datadeps_is_runnable (set_prev v t) = datadeps_is_runnable t.
Proof. done. Qed.

Lemma datadeps_is_runnable_set_next v t :
  datadeps_is_runnable (set_next v t) = datadeps_is_runnable t.
Proof. done. Qed.

(** A store into a link field leaves the runnability of every node as it was. *)
Lemma hupd_link_runnable h p f h' x :
  (forall t, datadeps_is_runnable (f t) = datadeps_is_runnable t) ->
  hupd h p f = Some h' ->
  datadeps_is_runnable <$> h' !! x = datadeps_is_runnable <$> h !! x.
Proof.
  intros Hf (p' & t & -> & Ht & ->)%hupd_Some_inv.
  destruct (decide (p' = x)) as [->|]; simplify_map_eq/=; [f_equal; apply Hf|done].
Qed.

(** The first loop keeps [task] at the old head: while that task is
    not runnable, no amount of fuel brings the loop to an end. *)
Lemma filter_runnable_head_loop_stuck fuel h d x :
  datadeps_is_runnable <$> h !! x = Some false ->
  filter_runnable_head_loop fuel h d (Some x) = None.
Proof.
  revert h d. induction fuel as [|fuel IH]; intros h d Hx; [done|].
  cbn [filter_runnable_head_loop].
  destruct (h !! x) as [t|] eqn:Ht; [|done]. simpl in Hx. injection Hx as Hx.
  rewrite bind_Some_eq, Hx.
  destruct (if t_next t is Some _ then hupd h (t_next t) (set_prev NULL) else Some h)
    as [h1|] eqn:E1; [|done]. rewrite bind_Some_eq.
  destruct (hupd h1 (Some x) (set_next NULL)) as [h2|] eqn:E2; [|done]. rewrite bind_Some_eq.
  apply IH. erewrite (hupd_link_runnable h1); [|apply datadeps_is_runnable_set_next|done].
  destruct (t_next t); [|injection E1 as <-; by rewrite Ht; cbn; rewrite Hx].
  erewrite (hupd_link_runnable h); [|apply datadeps_is_runnable_set_prev|done].
  by rewrite Ht; cbn; rewrite Hx.
Qed.

(** C31: when the head of the deque is not runnable,
    [task_deque_filter_runnable] does not terminate: for every bound on
    the number of iterations, the first loop is still running when the
    bound is reached. *)
Theorem task_deque_filter_runnable_diverges fuel h d x t :
  dq_head d = Some x -> h !! x = Some t -> datadeps_is_runnable t = false ->
  task_deque_filter_runnable fuel h d = None.
Proof.
  intros Hd Ht Hr. unfold task_deque_filter_runnable. rewrite Hd.
  rewrite filter_runnable_head_loop_stuck; [done|]. by rewrite Ht; cbn; rewrite Hr.
Qed.

(** On a segment of runnable tasks that ends the list, the second loop
    only clears the two links of every node it visits. *)
Lemma filter_runnable_rest_runnable fuel h pp p xs q :
  dlseg h pp p xs q NULL -> NoDup xs ->
  Forall (fun y => datadeps_is_runnable <$> h !! y = Some true) xs -> length xs < fuel ->
  exists h', filter_runnable_rest_loop fuel h p = Some h' /\
    Forall (detached h') xs /\ (forall y, y ∉ xs -> h' !! y = h !! y).
Proof.
  induction xs as [|x xs IH] in fuel, h, pp, p |- *; intros Hs Hnd Hr Hf;
    destruct fuel as [|fuel]; simpl in Hf; try lia.
  - destruct Hs as [-> _]. by exists h.
  - apply dlseg_cons in Hs as (-> & t & Ht & _ & Hs). pose proof (NoDup_cons_1_1 _ _ Hnd) as Hx. apply NoDup_cons_1_2 in Hnd.
    pose proof (Forall_inv Hr) as Hrx. apply Forall_inv_tail in Hr. cbv beta in Hrx. rewrite Ht in Hrx. injection Hrx as Hrx.
    cbn [filter_runnable_rest_loop]. rewrite Ht. cbn [mbind option_bind]. rewrite Hrx.
    unfold hupd. cbn [mbind option_bind]. rewrite Ht. cbn [mbind option_bind].
    rewrite lookup_insert_eq. cbn [mbind option_bind]. rewrite insert_insert_eq.
    set (h3 := <[x := set_next NULL (set_prev NULL t)]> h).
    destruct (IH fuel h3 (Some x) (t_next t)) as (h' & Hl & Hd & Ho); [by apply dlseg_insert_notin | done | | lia |].
    { apply Forall_forall. intros y Hy. rewrite Forall_forall in Hr.
      unfold h3. rewrite lookup_insert_ne by (intros ->; by apply Hx, list_elem_of_In). by apply Hr. }
    exists h'. split_and!; [done | constructor; [|done] | ].
    + exists (set_next NULL (set_prev NULL t)). rewrite Ho by done. unfold h3. by rewrite lookup_insert_eq.
    + intros y Hy. rewrite Ho by set_solver. unfold h3. rewrite lookup_insert_ne; [done | set_solver].
Qed.

(** C32: when every task is runnable, [task_deque_filter_runnable] should
    leave the deque as it is; instead, on every well-formed deque of at
    least two runnable tasks, its second loop clears the links of every
    node while head and tail stay: each task ends detached and the deque
    represents no list of tasks at all. *)
Theorem task_deque_filter_runnable_breaks_repr fuel h d xs :
  deque_repr h d xs -> 2 <= length xs -> length xs < fuel ->
  Forall (fun y => datadeps_is_runnable <$> h !! y = Some true) xs ->
  exists h', task_deque_filter_runnable fuel h d = Some (h', d) /\
    Forall (detached h') xs /\ forall ys, ~ deque_repr h' d ys.
Proof.
  intros [Hs Hnd] Hlen Hf Hr. destruct xs as [|x xs0]; simpl in Hlen; [lia|].
  destruct fuel as [|fuel']; [simpl in Hf; lia|].
  pose proof (dlseg_first _ _ _ _ _ _ Hs) as Hhd.
  destruct (dlseg_lookup_Some _ _ _ _ _ _ 0 x Hs eq_refl) as [t Ht].
  pose proof (Forall_inv Hr) as Hrx. cbv beta in Hrx. rewrite Ht in Hrx. injection Hrx as Hrx.
  destruct (filter_runnable_rest_runnable (S fuel') h NULL (dq_head d) (x :: xs0) (dq_tail d))
    as (h' & Hl & Hd & _); [done | done | done | done |].
  exists h'. unfold task_deque_filter_runnable. rewrite Hhd.
  cbn [filter_runnable_head_loop]. rewrite Ht. cbn [mbind option_bind]. rewrite Hrx.
  rewrite bind_Some_eq. cbv beta iota. rewrite Hl. split_and!; [done | done |].
  intros ys [Hs' _]. rewrite Hhd in Hs'.
  destruct ys as [|y ys]; [by destruct Hs' as [? _]|].
  apply dlseg_cons in Hs' as ([= <-] & tx & Htx & _ & Hs').
  destruct (Forall_inv Hd) as (tx' & Htx' & Hn & _). rewrite Htx in Htx'. injection Htx' as <-.
  rewrite Hn in Hs'. apply dlseg_null_first in Hs' as (_ & _ & Htl).
  destruct (snoc_or_nil xs0) as [->|(xs1 & z & ->)]; [simpl in Hlen; lia|].
  rewrite app_comm_cons in Hs. apply dlseg_snoc in Hs as [Hz _]. rewrite Hz in Htl. injection Htl as ->.
  rewrite app_comm_cons in Hnd. apply list.NoDup_app in Hnd as (_ & Hdis & _). by apply (Hdis z); set_solver.
Qed.

End FilterRunnable.

(** ** Witnesses on the concrete queue [ex_state] *)

Lemma dart_tasking_taskqueue_pop_unsafe_witness :
  taskqueue_repr ex_state.1 ex_state.2 ([1], [3; 2]) /\
  exists h' tq' r q', dart_tasking_taskqueue_pop_unsafe ex_state.1 ex_state.2 = Some (h', tq', r) /\
    Spec.tq_pop ([1], [3; 2]) = (r, q') /\ taskqueue_repr h' tq' q' /\
    links_only ([1] ++ [3; 2]) ex_state.1 h' /\ (forall y, r = Some y -> detached h' y).
Proof.
  assert (H : taskqueue_repr ex_state.1 ex_state.2 ([1], [3; 2])) by wit_decide.
  split; [exact H|]. exact (dart_tasking_taskqueue_pop_unsafe_spec _ _ _ H).
Defined.

Lemma dart_tasking_taskqueue_popback_unsafe_witness :
  taskqueue_repr ex_state.1 ex_state.2 ([1], [3; 2]) /\
  exists h' tq' r q', dart_tasking_taskqueue_popback_unsafe ex_state.1 ex_state.2 = Some (h', tq', r) /\
    Spec.tq_popback ([1], [3; 2]) = (r, q') /\ taskqueue_repr h' tq' q' /\
    links_only ([1] ++ [3; 2]) ex_state.1 h' /\ (forall y, r = Some y -> detached h' y).
Proof.
  assert (H : taskqueue_repr ex_state.1 ex_state.2 ([1], [3; 2])) by wit_decide.
  split; [exact H|]. exact (dart_tasking_taskqueue_popback_unsafe_spec _ _ _ H).
Defined.

Lemma dart_tasking_taskqueue_push_unsafe_witness :
  taskqueue_repr ex_state.1 ex_state.2 ([1], [3; 2]) /\ 4 ∉ [1] /\ 4 ∉ [3; 2] /\
  ex_state.1 !! 4 = Some (ex_task DART_PRIO_LOW) /\
  exists h' tq', dart_tasking_taskqueue_push_unsafe ex_state.1 ex_state.2 4 = Some (h', tq') /\
    taskqueue_repr h' tq' (Spec.tq_push (is_high_prio (ex_task DART_PRIO_LOW)) 4 ([1], [3; 2])) /\
    links_only (4 :: [1] ++ [3; 2]) ex_state.1 h'.
Proof.
  assert (H : taskqueue_repr ex_state.1 ex_state.2 ([1], [3; 2])) by wit_decide.
  assert (H1 : 4 ∉ [1]) by wit_decide. assert (H2 : 4 ∉ [3; 2]) by wit_decide.
  assert (H3 : ex_state.1 !! 4 = Some (ex_task DART_PRIO_LOW)) by (vm_compute; reflexivity).
  split; [exact H|]. split; [exact H1|]. split; [exact H2|]. split; [exact H3|].
  exact (dart_tasking_taskqueue_push_unsafe_spec _ _ ([1], [3; 2]) 4 _ H H1 H2 H3).
Defined.

Lemma dart_tasking_taskqueue_pushback_unsafe_witness :
  taskqueue_repr ex_state.1 ex_state.2 ([1], [3; 2]) /\ 4 ∉ [1] /\ 4 ∉ [3; 2] /\
  ex_state.1 !! 4 = Some (ex_task DART_PRIO_LOW) /\
  exists h' tq', dart_tasking_taskqueue_pushback_unsafe ex_state.1 ex_state.2 4 = Some (h', tq') /\
    taskqueue_repr h' tq' (Spec.tq_pushback (is_high_prio (ex_task DART_PRIO_LOW)) 4 ([1], [3; 2])) /\
    links_only (4 :: [1] ++ [3; 2]) ex_state.1 h'.
Proof.
  assert (H : taskqueue_repr ex_state.1 ex_state.2 ([1], [3; 2])) by wit_decide.
  assert (H1 : 4 ∉ [1]) by wit_decide. assert (H2 : 4 ∉ [3; 2]) by wit_decide.
  assert (H3 : ex_state.1 !! 4 = Some (ex_task DART_PRIO_LOW)) by (vm_compute; reflexivity).
  split; [exact H|]. split; [exact H1|]. split; [exact H2|]. split; [exact H3|].
  exact (dart_tasking_taskqueue_pushback_unsafe_spec _ _ ([1], [3; 2]) 4 _ H H1 H2 H3).
Defined.

Lemma dart_tasking_taskqueue_insert_unsafe_witness :
  taskqueue_repr ex_state.1 ex_state.2 ([1], [3; 2]) /\ 4 ∉ [1] /\ 4 ∉ [3; 2] /\
  ex_state.1 !! 4 = Some (ex_task DART_PRIO_LOW) /\
  exists h' tq', dart_tasking_taskqueue_insert_unsafe ex_state.1 ex_state.2 4 1 = Some (h', tq') /\
    taskqueue_repr h' tq'
      (Spec.tq_insert (is_high_prio (ex_task DART_PRIO_LOW)) (if 1 =? 0 then 0 else 2) 4 ([1], [3; 2])) /\
    links_only (4 :: [1] ++ [3; 2]) ex_state.1 h'.
Proof.
  assert (H : taskqueue_repr ex_state.1 ex_state.2 ([1], [3; 2])) by wit_decide.
  assert (H1 : 4 ∉ [1]) by wit_decide. assert (H2 : 4 ∉ [3; 2]) by wit_decide.
  assert (H3 : ex_state.1 !! 4 = Some (ex_task DART_PRIO_LOW)) by (vm_compute; reflexivity).
  split; [exact H|]. split; [exact H1|]. split; [exact H2|]. split; [exact H3|].
  exact (dart_tasking_taskqueue_insert_unsafe_spec _ _ ([1], [3; 2]) 4 _ 1 H H1 H2 H3).
Defined.

Lemma task_deque_insert_index_witness :
  deque_repr ex_state.1 (tq_lowprio ex_state.2) [3; 2] /\ 4 ∉ [3; 2] /\
  detached ex_state.1 4 /\ 1 <= 1 < length [3; 2] /\
  exists h' d' ys, task_deque_insert ex_state.1 (tq_lowprio ex_state.2) 4 1 = Some (h', d') /\
    deque_repr h' d' ys /\ ys !! 2 = Some 4 /\ ys !! 1 = [3; 2] !! 1.
Proof.
  assert (H : deque_repr ex_state.1 (tq_lowprio ex_state.2) [3; 2]) by wit_decide.
  assert (H1 : 4 ∉ [3; 2]) by wit_decide. assert (H2 : detached ex_state.1 4) by wit_decide.
  assert (H3 : 1 <= 1 < length [3; 2]) by (simpl; lia).
  split; [exact H|]. split; [exact H1|]. split; [exact H2|]. split; [exact H3|].
  exact (task_deque_insert_index _ _ _ 4 1 H H1 H2 H3).
Defined.

Lemma task_deque_move_witness :
  deque_repr ex_state.1 (tq_lowprio ex_state.2) [3; 2] /\
  deque_repr ex_state.1 (tq_highprio ex_state.2) [1] /\ (forall y, y ∈ [1] -> y ∉ [3; 2]) /\
  exists h' dst' src', task_deque_move ex_state.1 (tq_lowprio ex_state.2) (tq_highprio ex_state.2)
                         = Some (h', dst', src') /\
    deque_repr h' dst' (fst (Spec.move [3; 2] [1])) /\
    deque_repr h' src' (snd (Spec.move [3; 2] [1])) /\ links_only ([1] ++ [3; 2]) ex_state.1 h'.
Proof.
  assert (H : deque_repr ex_state.1 (tq_lowprio ex_state.2) [3; 2]) by wit_decide.
  assert (H1 : deque_repr ex_state.1 (tq_highprio ex_state.2) [1]) by wit_decide.
  assert (H2 : forall y, y ∈ [1] -> y ∉ [3; 2]) by wit_decide.
  split; [exact H|]. split; [exact H1|]. split; [exact H2|].
  exact (task_deque_move_spec _ _ _ _ _ H H1 H2).
Defined.

Lemma task_deque_filter_runnable_breaks_repr_witness :
  deque_repr ex_state.1 (tq_lowprio ex_state.2) [3; 2] /\
  exists h', task_deque_filter_runnable 3 ex_state.1 (tq_lowprio ex_state.2) = Some (h', tq_lowprio ex_state.2) /\
    Forall (detached h') [3; 2] /\ forall ys, ~ deque_repr h' (tq_lowprio ex_state.2) ys.
Proof.
  assert (H : deque_repr ex_state.1 (tq_lowprio ex_state.2) [3; 2]) by wit_decide.
  assert (H1 : Forall (fun y => datadeps_is_runnable <$> ex_state.1 !! y = Some true) [3; 2])
    by (repeat constructor).
  split; [exact H|].
  exact (task_deque_filter_runnable_breaks_repr 3 _ _ _ H ltac:(simpl; lia) ltac:(simpl; lia) H1).
Defined.

Lemma task_deque_filter_runnable_diverges_witness :
  dq_head (tq_lowprio ex_state.2) = Some 3 /\ ex_waiting_heap !! 3 = Some ex_waiting_task /\
  datadeps_is_runnable ex_waiting_task = false /\
  task_deque_filter_runnable 1000 ex_waiting_heap (tq_lowprio ex_state.2) = None.
Proof.
  assert (H : dq_head (tq_lowprio ex_state.2) = Some 3) by (vm_compute; reflexivity).
  assert (H1 : ex_waiting_heap !! 3 = Some ex_waiting_task) by (vm_compute; reflexivity).
  assert (H2 : datadeps_is_runnable ex_waiting_task = false) by (vm_compute; reflexivity).
  split; [exact H|]. split; [exact H1|]. split; [exact H2|].
  exact (task_deque_filter_runnable_diverges 1000 _ _ 3 _ H H1 H2).
Defined.
