(* ===== verification/Scheduler.v ===== *)
(** * The scheduler: worker threads, hot slots and work stealing

    [dart_tasking_instrumentation.c], lines 346-2245.  The runtime state
    [sched] gathers the globals of that file the scheduling routines
    touch: the task heap (shared with [TaskQueue]), [thread_pool] (an
    array of nullable thread pointers, filled in by each worker when it
    starts), [task_queue] (one [dart_taskqueue] per NUMA node),
    [num_threads] and [num_numa_nodes].  A [dart_thread] holds the
    fields of [dart_thread_t] the scheduler reads: its id and NUMA node,
    its array of hot slots [queue], the [next_task] slot filled by
    [yield], the last successful steal victim, the current task.

    The model is sequential: each routine runs without interference, so
    a compare-and-swap on a slot whose value was just read succeeds.
    The loops over threads and NUMA nodes are written with fuel (the
    number of iterations the C loop can make), and the theorems show the
    fuel is enough.  Loading a NULL or out-of-range thread pointer is a
    crash of the C code and [None] here. *)

From S2P Require Import Prelude Task TaskQueue.

(** ** Threads *)

(** [THREAD_QUEUE_SIZE], the number of hot slots of a thread: defined in
    a header outside the sources; the specification gives 4 to 8. *)
Definition THREAD_QUEUE_SIZE : nat := 8.

Record dart_thread := mk_thread {
  th_id : nat;
  th_numa : nat;
  th_queue : list (option nat);     (* the hot slots *)
  th_next_task : option nat;
  th_last_steal : nat;
  th_current_task : option nat;
  th_taskcntr : nat;
  th_is_utility : bool;
  th_delay : Z                      (* the delay argument of the last yield *)
}.

Definition set_th_queue (q : list (option nat)) (th : dart_thread) : dart_thread :=
  mk_thread (th_id th) (th_numa th) q (th_next_task th) (th_last_steal th)
    (th_current_task th) (th_taskcntr th) (th_is_utility th) (th_delay th).

Definition set_th_next_task (v : option nat) (th : dart_thread) : dart_thread :=
  mk_thread (th_id th) (th_numa th) (th_queue th) v (th_last_steal th)
    (th_current_task th) (th_taskcntr th) (th_is_utility th) (th_delay th).

Definition set_th_last_steal (v : nat) (th : dart_thread) : dart_thread :=
  mk_thread (th_id th) (th_numa th) (th_queue th) (th_next_task th) v
    (th_current_task th) (th_taskcntr th) (th_is_utility th) (th_delay th).

Definition set_th_current_task (v : option nat) (th : dart_thread) : dart_thread :=
  mk_thread (th_id th) (th_numa th) (th_queue th) (th_next_task th) (th_last_steal th)
    v (th_taskcntr th) (th_is_utility th) (th_delay th).

Definition incr_th_taskcntr (th : dart_thread) : dart_thread :=
  mk_thread (th_id th) (th_numa th) (th_queue th) (th_next_task th) (th_last_steal th)
    (th_current_task th) (S (th_taskcntr th)) (th_is_utility th) (th_delay th).

Definition set_th_delay (v : Z) (th : dart_thread) : dart_thread :=
  mk_thread (th_id th) (th_numa th) (th_queue th) (th_next_task th) (th_last_steal th)
    (th_current_task th) (th_taskcntr th) (th_is_utility th) v.

(** [dart_thread_init], lines 1343-1360 (the slots are zeroed by [calloc]). *)
Definition dart_thread_init (threadnum : nat) : dart_thread :=
  {| th_id := threadnum; th_numa := 0; th_queue := replicate THREAD_QUEUE_SIZE NULL;
     th_next_task := NULL; th_last_steal := 0; th_current_task := Some root_task_id;
     th_taskcntr := 0; th_is_utility := false; th_delay := 0 |}.

(** ** The runtime state *)

Record sched := mk_sched {
  s_heap : heap;
  s_pool : list (option dart_thread);   (* thread_pool *)
  s_queues : list dart_taskqueue;       (* task_queue[numa node] *)
  s_num_threads : nat;
  s_num_numa : nat
}.

Definition set_heap (h : heap) (s : sched) : sched :=
  mk_sched h (s_pool s) (s_queues s) (s_num_threads s) (s_num_numa s).

Definition set_pool (p : list (option dart_thread)) (s : sched) : sched :=
  mk_sched (s_heap s) p (s_queues s) (s_num_threads s) (s_num_numa s).

Definition set_queues (qs : list dart_taskqueue) (s : sched) : sched :=
  mk_sched (s_heap s) (s_pool s) qs (s_num_threads s) (s_num_numa s).

(** [thread_pool[i]]: [None] when [i] is out of range or the entry is NULL. *)
Definition get_thread (s : sched) (i : nat) : option dart_thread := s_pool s !! i ≫= id.

Definition set_thread (i : nat) (th : dart_thread) (s : sched) : sched :=
  set_pool (<[i := Some th]> (s_pool s)) s.

(** ** Hot slots *)

(** [next_task_thread], lines 867-879: the first non-NULL slot, in
    index order, is swapped with NULL and returned. *)
Fixpoint next_task_thread (q : list (option nat)) : list (option nat) * option nat :=
  match q with
  | [] => ([], NULL)
  | Some t :: q' => (NULL :: q', Some t)
  | None :: q' => let '(q'', r) := next_task_thread q' in (NULL :: q'', r)
  end.

(** [next_task_thread_back], lines 885-897: the same from the last slot
    down to slot 0. *)
Fixpoint next_task_thread_back (q : list (option nat)) : list (option nat) * option nat :=
  match q with
  | [] => ([], NULL)
  | s :: q' =>
      match next_task_thread_back q' with
      | (q'', Some t) => (s :: q'', Some t)
      | (q'', None) =>
          match s with
          | Some t => (NULL :: q'', Some t)
          | None => (NULL :: q'', NULL)
          end
      end
  end.

(** The slot loop of [dart__tasking__enqueue_runnable], lines 1722-1729:
    the first NULL slot receives the task; [None] when all are taken. *)
Fixpoint slot_put (x : nat) (q : list (option nat)) : option (list (option nat)) :=
  match q with
  | [] => None
  | None :: q' => Some (Some x :: q')
  | Some t :: q' => (fun q'' => Some t :: q'') <$> slot_put x q'
  end.

(** [next_task_thread_back(thread_pool[i])]: the pointer is not checked. *)
Definition steal_back (s : sched) (i : nat) : option (sched * option nat) :=
  th ← get_thread s i;
  let '(q', r) := next_task_thread_back (th_queue th) in
  Some (set_thread i (set_th_queue q' th) s, r).

(** ** [next_task], lines 900-963 *)

(** The successor of [target] in the round-robin scan:
    [target = (++target == num_threads) ? 0 : target]. *)
Definition next_target (n target : nat) : nat := if S target =? n then 0 else S target.

(** The two stealing loops, lines 918-931 and 945-959: visit the
    threads after [me] round-robin until [me] comes round again; a
    registered thread on the same NUMA node as [me] ([same = true]) or
    on another one ([same = false]) is a victim.  The first successful
    victim becomes [me]'s [last_steal_thread_id].  [None] when the
    fuel runs out or a thread pointer is loaded out of range. *)
Fixpoint steal_loop (same : bool) (fuel : nat) (s : sched) (me numa target : nat)
    : option (sched * option nat) :=
  match fuel with
  | 0 => None
  | S fuel' =>
      if target =? me then Some (s, NULL)
      else
        let next := next_target (s_num_threads s) target in
        match s_pool s !! target with
        | None => None
        | Some None => steal_loop same fuel' s me numa next
        | Some (Some victim) =>
            if Bool.eqb (th_numa victim =? numa) same then
              '(s1, r) ← steal_back s target;
              match r with
              | Some t =>
                  th ← get_thread s1 me;
                  Some (set_thread me (set_th_last_steal target th) s1, Some t)
              | None => steal_loop same fuel' s1 me numa next
              end
            else steal_loop same fuel' s me numa next
        end
  end.

(** The loop over the NUMA queues, lines 936-941:
    [do { task = pop(&task_queue[(numa + i) % num_numa_nodes]); ++i; }
     while (task == NULL && i < num_numa_nodes);] *)
Fixpoint queue_pop_loop (fuel : nat) (s : sched) (numa i : nat) : option (sched * option nat) :=
  match fuel with
  | 0 => None
  | S fuel' =>
      let idx := (numa + i) mod s_num_numa s in
      q ← s_queues s !! idx;
      '(h', r, q') ← dart_tasking_taskqueue_pop (s_heap s) q;
      let s1 := set_queues (<[idx := q']> (s_queues s)) (set_heap h' s) in
      match r with
      | Some _ => Some (s1, r)
      | None => if S i <? s_num_numa s then queue_pop_loop fuel' s1 numa (S i) else Some (s1, NULL)
      end
  end.

(** The thread's own work: the [next_task] slot, else its hot slots
    (lines 903-910). *)
Definition take_own (th : dart_thread) : dart_thread * option nat :=
  match th_next_task th with
  | Some t => (set_th_next_task NULL th, Some t)
  | None => let '(q', r) := next_task_thread (th_queue th) in (set_th_queue q' th, r)
  end.

Definition next_task (s : sched) (me : nat) : option (sched * option nat) :=
  th ← get_thread s me;
  let '(th1, r) := take_own th in
  let s1 := set_thread me th1 s in
  match r with
  | Some _ => Some (s1, r)
  | None =>
      '(s2, r2) ← steal_back s1 (th_last_steal th1);
      match r2 with
      | Some _ => Some (s2, r2)
      | None =>
          let n := s_num_threads s2 in
          '(s3, r3) ← steal_loop true n s2 me (th_numa th1) ((S me) mod n);
          match r3 with
          | Some _ => Some (s3, r3)
          | None =>
              '(s4, r4) ← queue_pop_loop (s_num_numa s3) s3 (th_numa th1) 0;
              match r4 with
              | Some _ => Some (s4, r4)
              | None =>
                  if 1 <? s_num_numa s4
                  then steal_loop false n s4 me (th_numa th1) ((S me) mod n)
                  else Some (s4, NULL)
              end
          end
      end
  end.

(** The tasks held by an array of slots, in slot order. *)
Definition slot_tasks (q : list (option nat)) : list nat := omap id q.

(** The number of steps of the round-robin scan from [target] back to [me]. *)
Definition steps (n me target : nat) : nat :=
  if target <=? me then me - target else me + n - target.

(** ** The tasks the scheduler holds, and its invariant *)

(** A thread holds the task in its [next_task] slot and those in its hot slots. *)
Definition thread_tasks (th : dart_thread) : list nat :=
  option_list (th_next_task th) ++ slot_tasks (th_queue th).

Definition pool_tasks (p : list (option dart_thread)) : list nat :=
  concat (map (from_option thread_tasks []) p).

(** The contents of the NUMA queues, as pairs (high, low) of lists. *)
Definition queue_tasks (Q : list (list nat * list nat)) : list nat :=
  concat (map (fun q => q.1 ++ q.2) Q).

(** The scheduler's invariant, relative to the abstract contents [Q] of
    the queues: each queue is well formed over the shared heap, no task
    is in two queues, [thread_pool] has [num_threads] entries and
    [task_queue] [num_numa_nodes] ones (at least one), no queue mutex is
    held between two operations, and the last steal victim of every
    registered thread is a registered thread. *)
Definition sched_wf (s : sched) (Q : list (list nat * list nat)) : Prop :=
  Forall2 (taskqueue_repr (s_heap s)) (s_queues s) Q /\
  NoDup (queue_tasks Q) /\
  length (s_pool s) = s_num_threads s /\
  length (s_queues s) = s_num_numa s /\ 0 < s_num_numa s /\
  Forall (fun tq => tq_locked tq = false) (s_queues s) /\
  (forall i th, get_thread s i = Some th -> is_Some (get_thread s (th_last_steal th))).

(** A concrete state for the witnesses: two threads on one NUMA node;
    thread 1 holds task 4 in its first hot slot; the queue of the node
    is [ex_state] (high deque [[1]], low deque [[3; 2]]). *)
Definition ex_sched : sched :=
  {| s_heap := ex_state.1;
     s_pool := [Some (dart_thread_init 0);
                Some (set_th_queue (Some 4 :: replicate 7 NULL) (dart_thread_init 1))];
     s_queues := [ex_state.2]; s_num_threads := 2; s_num_numa := 1 |}.

Lemma sched_wf_steal_Forall s :
  (forall i th, get_thread s i = Some th -> is_Some (get_thread s (th_last_steal th))) <->
  Forall (fun o => forall th, o = Some th -> is_Some (get_thread s (th_last_steal th))) (s_pool s).
Proof.
  rewrite list.Forall_lookup. unfold get_thread. split.
  - intros H i o Ho th ->. apply (H i). by rewrite Ho.
  - intros H i th Hi. destruct (s_pool s !! i) as [o|] eqn:E; [|done].
    simpl in Hi. subst o. by eapply H.
Qed.

#[export] Instance sched_wf_dec s Q : Decision (sched_wf s Q).
Proof.
  assert (Hd : Decision (Forall (fun o => forall th, o = Some th ->
                                   is_Some (get_thread s (th_last_steal th))) (s_pool s))).
  { apply Forall_dec. intros [th|]; [|left; done].
    destruct (decide (is_Some (get_thread s (th_last_steal th)))); [left|right]; naive_solver. }
  unfold sched_wf. destruct Hd as [H|H]; rewrite <- sched_wf_steal_Forall in H.
  - destruct (decide (Forall2 (taskqueue_repr (s_heap s)) (s_queues s) Q /\ NoDup (queue_tasks Q) /\
                      length (s_pool s) = s_num_threads s /\ length (s_queues s) = s_num_numa s /\
                      0 < s_num_numa s /\ Forall (fun tq => tq_locked tq = false) (s_queues s)));
      [left|right]; tauto.
  - right. tauto.
Defined.

(** ** Hot slots: which slot each scan takes *)

Section Slots.
Implicit Types (q : list (option nat)).

Lemma slot_tasks_insert_None q i t :
  q !! i = Some (Some t) -> slot_tasks q ≡ₚ t :: slot_tasks (<[i := NULL]> q).
Proof.
  unfold slot_tasks. revert i. induction q as [|s q IH]; intros [|i] Hi; simplify_eq/=.
  - done.
  - destruct s as [t'|]; simpl; [|by apply IH].
    rewrite (IH i Hi). by constructor.
Qed.

Lemma slot_tasks_insert_Some q i x :
  q !! i = Some NULL -> slot_tasks (<[i := Some x]> q) ≡ₚ x :: slot_tasks q.
Proof.
  unfold slot_tasks. revert i. induction q as [|s q IH]; intros [|i] Hi; simplify_eq/=.
  - done.
  - destruct s as [t'|]; simpl; [|by apply IH].
    rewrite (IH i Hi). by constructor.
Qed.

(** [next_task_thread] takes the first occupied slot, and only it. *)
Lemma next_task_thread_spec q :
  match next_task_thread q with
  | (q', None) => q' = q /\ Forall (fun s => s = NULL) q
  | (q', Some t) => exists i, q !! i = Some (Some t) /\
                      (forall j, j < i -> q !! j = Some NULL) /\ q' = <[i := NULL]> q
  end.
Proof.
  induction q as [|s q IH]; simpl; [done|].
  destruct s as [t|]; [exists 0; split_and!; [done|lia|done]|].
  destruct (next_task_thread q) as [q'' [t|]].
  - destruct IH as (i & Hi & Hlt & ->). exists (S i). split_and!; [done| |done].
    intros [|j] Hj; [done|]. apply Hlt. lia.
  - destruct IH as [-> Hall]. split; [done|]. by constructor.
Qed.

(** [next_task_thread_back] takes the last occupied slot, and only it. *)
Lemma next_task_thread_back_spec q :
  match next_task_thread_back q with
  | (q', None) => q' = q /\ Forall (fun s => s = NULL) q
  | (q', Some t) => exists i, q !! i = Some (Some t) /\
                      (forall j, i < j < length q -> q !! j = Some NULL) /\ q' = <[i := NULL]> q
  end.
Proof.
  induction q as [|s q IH]; simpl; [done|].
  destruct (next_task_thread_back q) as [q'' [t|]].
  - destruct IH as (i & Hi & Hlt & ->). exists (S i). split_and!; [done| |done].
    intros [|j] Hj; [lia|]. apply Hlt. simpl in Hj. lia.
  - destruct IH as [-> Hall]. destruct s as [t|].
    + exists 0. split_and!; [done| |done].
      intros [|j] Hj; [lia|]. simpl in Hj |- *. rewrite list.Forall_forall in Hall.
      destruct (q !! j) as [s|] eqn:E; [|apply lookup_ge_None in E; lia].
      by rewrite (Hall s (list_elem_of_lookup_2 _ _ _ E)).
    + split; [done|]. by constructor.
Qed.

(** [slot_put] fills the first free slot; it fails only when every slot
    is occupied. *)
Lemma slot_put_spec x q :
  match slot_put x q with
  | Some q' => exists i, q !! i = Some NULL /\
                 (forall j, j < i -> exists t, q !! j = Some (Some t)) /\ q' = <[i := Some x]> q
  | None => Forall (fun s => is_Some s) q
  end.
Proof.
  induction q as [|s q IH]; simpl; [done|].
  destruct s as [t|]; [|exists 0; split_and!; [done|lia|done]].
  destruct (slot_put x q) as [q''|]; simpl.
  - destruct IH as (i & Hi & Hlt & ->). exists (S i). split_and!; [done| |done].
    intros [|j] Hj; [eauto|]. apply Hlt. lia.
  - constructor; [eauto|done].
Qed.
End Slots.

(** ** Updating one thread of the pool *)

Section Pool.
Implicit Types (s : sched) (th : dart_thread).

Lemma get_thread_Some s i th : get_thread s i = Some th -> s_pool s !! i = Some (Some th).
Proof. unfold get_thread. destruct (s_pool s !! i) as [[]|]; naive_solver. Qed.

Lemma get_thread_set_thread s i j th th' :
  get_thread s i = Some th ->
  get_thread (set_thread i th' s) j = if decide (i = j) then Some th' else get_thread s j.
Proof.
  intros Hi%get_thread_Some. unfold get_thread, set_thread, set_pool. simpl.
  case_decide; subst.
  - rewrite list_lookup_insert_eq; [done|]. by eapply lookup_lt_Some.
  - by rewrite list_lookup_insert_ne.
Qed.

Lemma get_thread_set_thread_is_Some s i k th th' :
  get_thread s i = Some th -> is_Some (get_thread s k) ->
  is_Some (get_thread (set_thread i th' s) k).
Proof. intros Hi Hk. rewrite (get_thread_set_thread _ _ _ _ _ Hi). by case_decide. Qed.

(** Replacing thread [i] by [th1], which holds the tasks of [th] but [r]:
    the invariant is kept and the pool holds the same tasks but [r]. *)
Lemma set_thread_step s Q i th th1 r :
  sched_wf s Q -> get_thread s i = Some th ->
  thread_tasks th ≡ₚ option_list r ++ thread_tasks th1 ->
  is_Some (get_thread s (th_last_steal th1)) ->
  sched_wf (set_thread i th1 s) Q /\
  pool_tasks (s_pool s) ≡ₚ option_list r ++ pool_tasks (s_pool (set_thread i th1 s)).
Proof.
  intros (Hq & Hnd & Hlen & Hlq & Hnn & Hlock & Hsteal) Hi Hperm Hl. split.
  - split_and!; try done.
    + unfold set_thread, set_pool. simpl. by rewrite length_insert.
    + intros j thj Hj. rewrite (get_thread_set_thread _ _ _ _ _ Hi) in Hj.
      apply (get_thread_set_thread_is_Some _ _ _ _ _ Hi).
      case_decide; simplify_eq; [done|]. by eapply Hsteal.
  - pose proof (concat_map_insert (from_option thread_tasks []) (s_pool s) i
                  (Some th) (Some th1) (get_thread_Some _ _ _ Hi)) as Hc.
    simpl in Hc. rewrite Hperm in Hc.
    apply (Permutation_app_inv_r (thread_tasks th1)). rewrite Hc.
    unfold pool_tasks, set_thread, set_pool. simpl. solve_Permutation.
Qed.

Lemma take_own_spec th th1 r :
  take_own th = (th1, r) ->
  thread_tasks th ≡ₚ option_list r ++ thread_tasks th1 /\
  th_last_steal th1 = th_last_steal th /\ th_numa th1 = th_numa th.
Proof.
  destruct th as [id numa q nt ls ct cnt ut dl]. unfold take_own, thread_tasks. simpl.
  destruct nt as [t|].
  - intros [= <- <-]. done.
  - pose proof (next_task_thread_spec q) as Hs.
    destruct (next_task_thread q) as [q' [t|]].
    + intros [= <- <-]. destruct Hs as (i & Hi & _ & ->). simpl.
      split; [|done]. by apply slot_tasks_insert_None.
    + intros [= <- <-]. destruct Hs as [-> _]. done.
Qed.

Lemma steal_back_spec s i th :
  get_thread s i = Some th ->
  exists th1 r, steal_back s i = Some (set_thread i th1 s, r) /\
    thread_tasks th ≡ₚ option_list r ++ thread_tasks th1 /\
    th_last_steal th1 = th_last_steal th /\ th_numa th1 = th_numa th.
Proof.
  intros Hi. unfold steal_back. rewrite Hi. simpl.
  pose proof (next_task_thread_back_spec (th_queue th)) as Hs.
  destruct (next_task_thread_back (th_queue th)) as [q' [t|]].
  - destruct Hs as (k & Hk & _ & ->). eexists _, _. split; [done|].
    unfold thread_tasks. simpl. split; [|done].
    rewrite (slot_tasks_insert_None _ _ _ Hk). solve_Permutation.
  - destruct Hs as [-> _]. eexists _, _. split; [done|]. unfold thread_tasks. by destruct th.
Qed.
End Pool.

(** ** The stealing loops *)

Section StealLoop.
Context (same : bool) (me numa : nat) (Q : list (list nat * list nat)).

Lemma next_target_steps n target :
  target < n -> me < n -> target <> me ->
  next_target n target < n /\ S (steps n me (next_target n target)) = steps n me target.
Proof.
  intros Ht Hm Hne. unfold next_target, steps.
  destruct (Nat.eqb_spec (S target) n) as [E|E];
    repeat match goal with |- context [?a <=? ?b] => destruct (Nat.leb_spec a b) end; lia.
Qed.

Lemma first_target_steps n : me < n -> (S me) mod n < n /\ steps n me ((S me) mod n) < n.
Proof.
  intros Hm. destruct (decide (S me = n)) as [<-|Hne].
  - rewrite Nat.Div0.mod_same. unfold steps. simpl. lia.
  - rewrite Nat.mod_small by lia. unfold steps.
    destruct (Nat.leb_spec (S me) me); lia.
Qed.

Lemma set_pool_id s : set_pool (s_pool s) s = s.
Proof. by destruct s. Qed.

Lemma thread_tasks_set_th_last_steal v th : thread_tasks (set_th_last_steal v th) = thread_tasks th.
Proof. done. Qed.

(** With fuel beyond the number of steps back to [me], the loop ends;
    it keeps the invariant, touches only the thread pool, and the task
    it returns is one the pool held. *)
Lemma steal_loop_spec fuel s target :
  sched_wf s Q -> is_Some (get_thread s me) -> me < s_num_threads s ->
  target < s_num_threads s -> steps (s_num_threads s) me target < fuel ->
  exists p r, steal_loop same fuel s me numa target = Some (set_pool p s, r) /\
    sched_wf (set_pool p s) Q /\ is_Some (get_thread (set_pool p s) me) /\
    pool_tasks (s_pool s) ≡ₚ option_list r ++ pool_tasks p.
Proof.
  revert s target. induction fuel as [|fuel IH]; intros s target Hwf Hme Hm Ht Hf; [lia|].
  simpl. destruct (Nat.eqb_spec target me) as [->|Hne].
  { exists (s_pool s), NULL. rewrite set_pool_id. done. }
  destruct (next_target_steps _ _ Ht Hm Hne) as [Hnt Hst].
  pose proof Hwf as (_ & _ & Hlen & _).
  destruct (s_pool s !! target) as [o|] eqn:Eo; [|apply lookup_ge_None in Eo; lia].
  destruct o as [victim|]; [|apply IH; done || lia].
  destruct (Bool.eqb _ same); [|apply IH; done || lia].
  assert (Hv : get_thread s target = Some victim) by (unfold get_thread; by rewrite Eo).
  destruct (steal_back_spec _ _ _ Hv) as (th1 & r & -> & Hperm & Hls & _). simpl.
  destruct (set_thread_step s Q target victim th1 r Hwf Hv Hperm) as [Hwf1 Hp1].
  { rewrite Hls. by apply (proj2 (proj2 (proj2 (proj2 (proj2 (proj2 Hwf)))))) with target. }
  assert (Hme1 : is_Some (get_thread (set_thread target th1 s) me))
    by (by apply (get_thread_set_thread_is_Some _ _ _ victim)).
  destruct r as [t|].
  - destruct Hme1 as [thm Hthm]. rewrite Hthm. simpl.
    destruct (set_thread_step _ Q me thm (set_th_last_steal target thm) NULL Hwf1 Hthm)
      as [Hwf2 Hp2]; [by rewrite thread_tasks_set_th_last_steal|..].
    { simpl. rewrite (get_thread_set_thread _ _ _ _ _ Hv). by rewrite decide_True. }
    eexists _, (Some t). split; [reflexivity|]. split; [exact Hwf2|]. split.
    + eexists. unfold get_thread. simpl.
      rewrite list_lookup_insert_eq; [done|]. rewrite length_insert. lia.
    + rewrite Hp1, Hp2. done.
  - destruct (IH (set_thread target th1 s) (next_target (s_num_threads s) target))
      as (p & r & E & Hwf' & Hme' & Hp'); try done; [simpl; lia|].
    exists p, r. split; [exact E|]. split; [exact Hwf'|]. split; [exact Hme'|].
    rewrite Hp1, Hp'. done.
Qed.
End StealLoop.

(** ** The loop over the NUMA queues *)

Section QueueLoop.
Context (numa : nat).

Lemma Spec_tq_pop_perm q r q' :
  Spec.tq_pop q = (r, q') -> q.1 ++ q.2 ≡ₚ option_list r ++ q'.1 ++ q'.2.
Proof.
  destruct q as [[|x hi] [|y lo]]; simpl; intros [= <- <-]; simpl; done.
Qed.

Lemma get_thread_set_queues s qs h i :
  get_thread (set_queues qs (set_heap h s)) i = get_thread s i.
Proof. done. Qed.

(** Popping the queue of node [idx] keeps the invariant, and the task
    returned is one the queues held. *)
Lemma queue_pop_step s Q idx :
  sched_wf s Q -> idx < s_num_numa s ->
  exists tq h' r tq' qa', s_queues s !! idx = Some tq /\
    dart_tasking_taskqueue_pop (s_heap s) tq = Some (h', r, tq') /\
    sched_wf (set_queues (<[idx := tq']> (s_queues s)) (set_heap h' s)) (<[idx := qa']> Q) /\
    queue_tasks Q ≡ₚ option_list r ++ queue_tasks (<[idx := qa']> Q).
Proof.
  intros (Hq & Hnd & Hlen & Hlq & Hnn & Hlock & Hsteal) Hidx.
  destruct (lookup_lt_is_Some_2 (s_queues s) idx) as [tq Htq]; [lia|].
  destruct (Forall2_lookup_l _ _ _ _ _ Hq Htq) as (qa & Hqa & Hr).
  assert (Hl : tq_locked tq = false) by (rewrite list.Forall_lookup in Hlock; by eapply Hlock).
  destruct (dart_tasking_taskqueue_pop_spec _ _ _ Hr Hl)
    as (h' & r & tq' & qa' & Hpop & Hsp & Hr' & Hl' & Hlo & _).
  pose proof (Spec_tq_pop_perm _ _ _ Hsp) as Hperm.
  assert (HQ : queue_tasks Q ≡ₚ option_list r ++ queue_tasks (<[idx := qa']> Q)).
  { pose proof (concat_map_insert (fun q => q.1 ++ q.2) Q idx qa qa' Hqa) as Hc.
    rewrite Hperm in Hc. apply (Permutation_app_inv_r (qa'.1 ++ qa'.2)).
    unfold queue_tasks. rewrite Hc. solve_Permutation. }
  exists tq, h', r, tq', qa'. split; [done|]. split; [done|]. split; [|done].
  unfold sched_wf. simpl. split_and!; try done.
  - apply Forall2_same_length_lookup_2.
    + rewrite !length_insert. by eapply Forall2_length.
    + intros j tj qj Htj Hqj.
      destruct (decide (idx = j)) as [<-|Hne].
      * rewrite list_lookup_insert_eq in Htj by (eapply lookup_lt_Some; eauto).
        rewrite (list_lookup_insert_eq Q idx qa') in Hqj; [by simplify_eq|by eapply lookup_lt_Some].
      * rewrite list_lookup_insert_ne in Htj by done. rewrite list_lookup_insert_ne in Hqj by done.
        eapply taskqueue_repr_links_only; [by eapply Forall2_lookup_lr|exact Hlo|].
        intros y Hy Hy'. by apply (NoDup_concat_map_disjoint (fun q => q.1 ++ q.2) Q j idx qj qa
                                     Hnd Hqj Hqa (fun E => Hne (eq_sym E)) y Hy).
  - by eapply NoDup_perm_app_inv.
  - simpl. by rewrite length_insert.
  - by apply list.Forall_insert.
Qed.

Lemma queue_pop_loop_spec fuel s Q i :
  sched_wf s Q -> i + fuel = s_num_numa s -> i < s_num_numa s ->
  exists qs h' r Q', queue_pop_loop fuel s numa i = Some (set_queues qs (set_heap h' s), r) /\
    sched_wf (set_queues qs (set_heap h' s)) Q' /\ queue_tasks Q ≡ₚ option_list r ++ queue_tasks Q'.
Proof.
  revert s Q i. induction fuel as [|fuel IH]; intros s Q i Hwf Hf Hi; [lia|].
  pose proof Hwf as (_ & _ & _ & _ & Hnn & _).
  destruct (queue_pop_step s Q ((numa + i) mod s_num_numa s) Hwf)
    as (tq & h' & r & tq' & qa' & Htq & Hpop & Hwf1 & HQ); [by apply Nat.mod_upper_bound; lia|].
  simpl. rewrite Htq. simpl. rewrite Hpop. simpl. destruct r as [t|].
  - do 4 eexists. split; [reflexivity|]. split; [exact Hwf1|exact HQ].
  - destruct (Nat.ltb_spec (S i) (s_num_numa s)) as [Hlt|Hge].
    + destruct (IH _ _ (S i) Hwf1) as (qs & h'' & r' & Q' & E & Hwf' & HQ'); [simpl; lia|simpl; lia|].
      exists qs, h'', r', Q'. split; [exact E|]. split; [exact Hwf'|]. by rewrite HQ, HQ'.
    + do 4 eexists. split; [reflexivity|]. split; [exact Hwf1|exact HQ].
Qed.
End QueueLoop.

(** ** [next_task] *)

Section NextTask.
Implicit Types (s : sched) (Q : list (list nat * list nat)).

Lemma wf_last_steal s Q i th :
  sched_wf s Q -> get_thread s i = Some th -> is_Some (get_thread s (th_last_steal th)).
Proof. intros (_ & _ & _ & _ & _ & _ & H). apply H. Qed.

Lemma get_thread_set_thread_eq s i th th' :
  get_thread s i = Some th -> get_thread (set_thread i th' s) i = Some th'.
Proof. intros Hi. rewrite (get_thread_set_thread _ _ _ _ _ Hi). by rewrite decide_True. Qed.

(** C1: [next_task] never crashes on a well-formed scheduler state
    (every thread pointer it loads is registered, both stealing loops
    and the loop over the NUMA queues end), keeps the invariant, and
    loses or duplicates no task: the tasks in the hot slots, the
    [next_task] slots and the NUMA queues before the call are the task
    it returns plus those held after it. *)
Theorem next_task_spec s Q me :
  sched_wf s Q -> me < s_num_threads s -> is_Some (get_thread s me) ->
  exists s' r Q', next_task s me = Some (s', r) /\ sched_wf s' Q' /\
    s_num_threads s' = s_num_threads s /\ s_num_numa s' = s_num_numa s /\
    is_Some (get_thread s' me) /\
    pool_tasks (s_pool s) ++ queue_tasks Q ≡ₚ
      option_list r ++ pool_tasks (s_pool s') ++ queue_tasks Q'.
Proof.
  intros Hwf Hm [th Hth]. unfold next_task. rewrite Hth. simpl.
  destruct (take_own th) as [th1 r] eqn:Eo. apply take_own_spec in Eo as (Hp & Hls & _).
  destruct (set_thread_step s Q me th th1 r Hwf Hth Hp) as [Hwf1 Hp1];
    [rewrite Hls; by eapply wf_last_steal|].
  pose proof (get_thread_set_thread_eq _ _ _ th1 Hth) as Hth1.
  destruct r as [t|].
  { eexists _, _, Q. split; [reflexivity|]. split_and!; try done.
    rewrite Hp1. solve_Permutation. }
  destruct (wf_last_steal _ _ _ _ Hwf1 Hth1) as [v Hv].
  destruct (steal_back_spec _ _ _ Hv) as (v1 & r2 & -> & Hp' & Hls' & _). simpl.
  destruct (set_thread_step _ Q _ v v1 r2 Hwf1 Hv Hp') as [Hwf2 Hp2];
    [rewrite Hls'; by eapply wf_last_steal|].
  assert (Hme2 : is_Some (get_thread (set_thread (th_last_steal th1) v1 (set_thread me th1 s)) me))
    by (eapply get_thread_set_thread_is_Some; eauto).
  destruct r2 as [t|].
  { eexists _, _, Q. split; [reflexivity|]. split_and!; try done.
    rewrite Hp1, Hp2. solve_Permutation. }
  destruct (first_target_steps me (s_num_threads s) Hm) as [Ht Hst].
  destruct (steal_loop_spec true me (th_numa th1) Q (s_num_threads s) _ _ Hwf2 Hme2 Hm Ht Hst)
    as (p & r3 & -> & Hwf3 & Hme3 & Hp3). simpl.
  destruct r3 as [t|].
  { eexists _, _, Q. split; [reflexivity|]. split_and!; try done.
    rewrite Hp1, Hp2, Hp3. solve_Permutation. }
  pose proof Hwf3 as (_ & _ & _ & _ & Hnn & _).
  destruct (queue_pop_loop_spec (th_numa th1) (s_num_numa s) _ Q 0 Hwf3)
    as (qs & h' & r4 & Q' & -> & Hwf4 & HQ4); [done|done|]. simpl.
  destruct r4 as [t|].
  { eexists _, _, Q'. split; [reflexivity|]. split_and!; try done.
    rewrite Hp1, Hp2, Hp3, HQ4. solve_Permutation. }
  destruct (Nat.ltb_spec 1 (s_num_numa s)).
  - destruct (steal_loop_spec false me (th_numa th1) Q' (s_num_threads s) _ _ Hwf4 Hme3 Hm Ht Hst)
      as (p' & r5 & -> & Hwf5 & Hme5 & Hp5).
    eexists _, _, Q'. split; [reflexivity|]. split_and!; try done.
    rewrite Hp1, Hp2, Hp3, HQ4, Hp5. solve_Permutation.
  - eexists _, _, Q'. split; [reflexivity|]. split_and!; try done.
    rewrite Hp1, Hp2, Hp3, HQ4. solve_Permutation.
Qed.
End NextTask.

Lemma next_task_spec_witness :
  sched_wf ex_sched [([1], [3; 2])] /\ 0 < s_num_threads ex_sched /\
  is_Some (get_thread ex_sched 0) /\
  exists s' r Q', next_task ex_sched 0 = Some (s', r) /\ sched_wf s' Q' /\
    s_num_threads s' = s_num_threads ex_sched /\ s_num_numa s' = s_num_numa ex_sched /\
    is_Some (get_thread s' 0) /\
    pool_tasks (s_pool ex_sched) ++ queue_tasks [([1], [3; 2])] ≡ₚ
      option_list r ++ pool_tasks (s_pool s') ++ queue_tasks Q'.
Proof.
  assert (H1 : sched_wf ex_sched [([1], [3; 2])]) by wit_decide.
  assert (H2 : 0 < s_num_threads ex_sched) by (simpl; lia).
  assert (H3 : is_Some (get_thread ex_sched 0)) by (vm_compute; eexists; reflexivity).
  split; [exact H1|]. split; [exact H2|]. split; [exact H3|].
  exact (next_task_spec ex_sched _ 0 H1 H2 H3).
Defined.

