(* ===== verification/Context.v ===== *)
(** * Execution contexts: the per-thread pool of task stacks

    [dart_tasking_context.c].  A context ([context_list_t]) is a block
    holding the metadata, the owning thread and the stack of a task.
    Each thread keeps a free list of released contexts
    ([thread->ctxlist]); [dart__tasking__context_create] reuses the
    head of the calling thread's list or allocates a new block,
    [dart__tasking__context_release] pushes a context back onto the list
    of the thread that allocated it, [dart__tasking__context_cleanup]
    frees the calling thread's list.

    Sizes are [size_t] values: integers modulo [2^64], with the
    wrap-around of the C arithmetic written out.  With [DART_DEBUG] the
    first and the last word of a stack hold the canary [0xDEADBEEF],
    written on creation and checked on release. *)

From S2P Require Import Prelude.

(** ** Sizes *)

Definition SIZE_T_BITS : Z := 64.

(** Reduction modulo [2^64]: the value a [size_t] expression takes. *)
Definition size_t_wrap (z : Z) : Z := z mod 2 ^ SIZE_T_BITS.

(** [DEFAULT_TASK_STACK_SIZE], line 36: [1<<21]. *)
Definition DEFAULT_TASK_STACK_SIZE : Z := Z.shiftl 1 21.

(** [PER_THREAD_CTX_STORE], line 39: "the maximum number of ctx to
    store per thread". *)
Definition PER_THREAD_CTX_STORE : nat := 10.

(** The stack canary of the debug build. *)
Definition STACK_CANARY : Z := 3735928559.  (* 0xDEADBEEF *)

(** [dart__tasking__context_adjust_size], lines 75-79:
    [(size + mask) & ~mask] with [mask = page_size - 1]. *)
Definition context_adjust_size (page_size size : Z) : Z :=
  let mask := size_t_wrap (page_size - 1) in
  Z.land (size_t_wrap (size + mask)) (Z.lnot mask).

(** [dart__tasking__context_init], lines 87-101: the stack size from the
    environment ([-1] when unset), else the current [task_stack_size]
    ([cur]; [DEFAULT_TASK_STACK_SIZE] until a size has been set);
    raised to the page size when smaller. *)
Definition context_init_stack_size (page_size cur env_stack_size : Z) : Z :=
  let tss := if (-1 <? env_stack_size)%Z then env_stack_size else cur in
  if (tss <? page_size)%Z then page_size else tss.

(** The layout [dart__tasking__context_allocate] gives a block with
    guard pages ([USE_MPROTECT], lines 125-161), as offsets from the
    page-aligned start of the block: the stack starts after the
    metadata and the lower guard page, and the upper guard page starts
    at [stack + task_stack_size]. *)
Definition ctx_stack_offset (page_size meta : Z) : Z := context_adjust_size page_size meta + page_size.

Definition ctx_ub_guard_offset (page_size meta task_stack_size : Z) : Z :=
  ctx_stack_offset page_size meta + task_stack_size.

Definition ctx_lb_guard_offset (page_size meta : Z) : Z :=
  ctx_stack_offset page_size meta - page_size.

(** ** The pool *)

Record context := mk_ctx {
  c_owner : nat;          (* ctxlist->owner *)
  c_fn : option nat;      (* ctx.fn *)
  c_arg : option nat;     (* ctx.arg *)
  c_canary_lo : Z;        (* the first word of the stack *)
  c_canary_hi : Z         (* the last word of the stack *)
}.

Record ctx_state := mk_cs {
  cs_stack_size : Z;              (* task_stack_size *)
  cs_debug : bool;                (* DART_DEBUG *)
  cs_ctx : gmap nat context;      (* the allocated blocks *)
  cs_lists : list (list nat);     (* thread->ctxlist of each thread *)
  cs_brk : nat                    (* the next block the allocator returns *)
}.

Definition set_cs (ctxs : gmap nat context) (lists : list (list nat)) (brk : nat)
    (cs : ctx_state) : ctx_state :=
  mk_cs (cs_stack_size cs) (cs_debug cs) ctxs lists brk.

(** [dart__tasking__context_create], lines 211-255, for thread [me]:
    pop the thread's free list, or allocate a block owned by [me]; in
    the debug build write the canaries; record [fn] and [arg]. *)
Definition context_create (cs : ctx_state) (me : nat) (fn arg : nat) : option (ctx_state * nat) :=
  l ← cs_lists cs !! me;
  let '(c, lists, brk, owner) :=
    match l with
    | c :: l' => (c, <[me := l']> (cs_lists cs), cs_brk cs,
                  from_option c_owner me (cs_ctx cs !! c))
    | [] => (cs_brk cs, cs_lists cs, S (cs_brk cs), me)
    end in
  let old := cs_ctx cs !! c in
  let lo := if cs_debug cs then STACK_CANARY else from_option c_canary_lo 0%Z old in
  let hi := if cs_debug cs then STACK_CANARY else from_option c_canary_hi 0%Z old in
  Some (set_cs (<[c := mk_ctx owner (Some fn) (Some arg) lo hi]> (cs_ctx cs)) lists brk cs, c).

(** The debug check of [dart__tasking__context_release], lines 263-272:
    a warning is logged when the first word AND the last word of the
    stack differ from the canary. *)
Definition context_release_warns (cs : ctx_state) (ctx : context) : bool :=
  cs_debug cs && negb (c_canary_lo ctx =? STACK_CANARY)%Z && negb (c_canary_hi ctx =? STACK_CANARY)%Z.

(** [dart__tasking__context_release], lines 257-287: the context goes
    back onto the free list of its owner.  The result also says whether
    the overflow warning was logged. *)
Definition context_release (cs : ctx_state) (c : nat) : option (ctx_state * bool) :=
  ctx ← cs_ctx cs !! c;
  l ← cs_lists cs !! c_owner ctx;
  Some (set_cs (cs_ctx cs) (<[c_owner ctx := c :: l]> (cs_lists cs)) (cs_brk cs) cs,
        context_release_warns cs ctx).

(** [dart__tasking__context_free], lines 186-209. *)
Definition context_free (cs : ctx_state) (c : nat) : ctx_state :=
  set_cs (delete c (cs_ctx cs)) (cs_lists cs) (cs_brk cs) cs.

(** [dart__tasking__context_cleanup], lines 343-351: pop and free every
    context of the calling thread's list. *)
Fixpoint context_free_all (cs : ctx_state) (l : list nat) : ctx_state :=
  match l with
  | [] => cs
  | c :: l' => context_free_all (context_free cs c) l'
  end.

Definition context_cleanup (cs : ctx_state) (me : nat) : option ctx_state :=
  l ← cs_lists cs !! me;
  let cs1 := set_cs (cs_ctx cs) (<[me := []]> (cs_lists cs)) (cs_brk cs) cs in
  Some (context_free_all cs1 l).

(** ** The invariant of the pool

    Every context on the free list of thread [i] is an allocated block
    owned by [i]; no context is on two lists or twice on one; every
    allocated block lies below the allocator's next address. *)
Definition all_free (cs : ctx_state) : list nat := concat (cs_lists cs).

Definition ctx_wf (cs : ctx_state) : Prop :=
  NoDup (all_free cs) /\
  (forall i l c, cs_lists cs !! i = Some l -> c ∈ l ->
     exists ctx, cs_ctx cs !! c = Some ctx /\ c_owner ctx = i) /\
  (forall c, is_Some (cs_ctx cs !! c) -> c < cs_brk cs).

(** A concrete pool for the witnesses: thread 0 keeps the released
    contexts 0-9; context 10 is in use and the first word of its stack
    was overwritten. *)
Definition ex_ctx (lo : Z) : context := mk_ctx 0 (Some 0) (Some 1) lo STACK_CANARY.

Definition ex_cs : ctx_state :=
  mk_cs DEFAULT_TASK_STACK_SIZE true
    (<[10 := ex_ctx 0]> (list_to_map (map (fun c => (c, ex_ctx STACK_CANARY)) (seq 0 10))))
    [seq 0 10; []] 11.

Lemma ctx_wf_alt cs :
  ctx_wf cs <->
  NoDup (all_free cs) /\
  Forall (fun '(i, l) => Forall (fun c => exists ctx, cs_ctx cs !! c = Some ctx /\ c_owner ctx = i) l)
         (imap pair (cs_lists cs)) /\
  map_Forall (fun c _ => c < cs_brk cs) (cs_ctx cs).
Proof.
  unfold ctx_wf. rewrite list.Forall_lookup, map_Forall_lookup.
  setoid_rewrite list_lookup_imap. split.
  - intros (Hnd & Ho & Hb). split_and!; [done| |].
    + intros i [j l] Hi. destruct (cs_lists cs !! i) as [l'|] eqn:E; simplify_eq/=.
      rewrite list.Forall_forall. intros c Hc. by apply (Ho j l c).
    + intros c ctx Hc. apply Hb. by rewrite Hc.
  - intros (Hnd & Ho & Hb). split_and!; [done| |].
    + intros i l c Hi Hc. specialize (Ho i (i, l)). rewrite Hi in Ho. simpl in Ho.
      rewrite list.Forall_forall in Ho. by apply Ho.
    + intros c [ctx Hc]. by apply (Hb c ctx).
Qed.

#[export] Instance ctx_wf_dec cs : Decision (ctx_wf cs).
Proof.
  assert (D : Decision (Forall (fun '(i, l) =>
             Forall (fun c => exists ctx, cs_ctx cs !! c = Some ctx /\ c_owner ctx = i) l)
           (imap pair (cs_lists cs)))).
  { apply Forall_dec. intros [i l]. apply Forall_dec. intros c.
    destruct (cs_ctx cs !! c) as [ctx|] eqn:E.
    + destruct (decide (c_owner ctx = i)); [left; eauto|right; naive_solver].
    + right. naive_solver. }
  destruct (decide (NoDup (all_free cs))) as [H1|H1]; [|right; rewrite ctx_wf_alt; tauto].
  destruct D as [H2|H2]; [|right; rewrite ctx_wf_alt; tauto].
  destruct (decide (map_Forall (fun c _ => c < cs_brk cs) (cs_ctx cs))) as [H3|H3];
    [left; by apply ctx_wf_alt|right; rewrite ctx_wf_alt; tauto].
Defined.

(** ** Page rounding *)

Section Rounding.
Context (k : Z) (Hk : (0 < k < SIZE_T_BITS)%Z).

Lemma size_t_wrap_small z : (0 <= z < 2 ^ SIZE_T_BITS)%Z -> size_t_wrap z = z.
Proof. intros. unfold size_t_wrap. by apply Z.mod_small. Qed.

Lemma page_mask : size_t_wrap (2 ^ k - 1) = Z.ones k.
Proof.
  assert (2 ^ k < 2 ^ SIZE_T_BITS)%Z by (apply Z.pow_lt_mono_r; unfold SIZE_T_BITS in *; lia).
  assert (0 < 2 ^ k)%Z by (apply Z.pow_pos_nonneg; lia).
  rewrite Z.ones_equiv, size_t_wrap_small; lia.
Qed.

(** Clearing the low [k] bits rounds down to a multiple of [2^k]. *)
Lemma land_lnot_ones x : Z.land x (Z.lnot (Z.ones k)) = (x / 2 ^ k * 2 ^ k)%Z.
Proof.
  rewrite <- Z.ldiff_land, Z.ldiff_ones_r by lia.
  by rewrite Z.shiftl_mul_pow2, Z.shiftr_div_pow2 by lia.
Qed.

Lemma context_adjust_size_eq size :
  context_adjust_size (2 ^ k) size = (size_t_wrap (size + 2 ^ k - 1) / 2 ^ k * 2 ^ k)%Z.
Proof.
  unfold context_adjust_size. rewrite page_mask, land_lnot_ones. do 3 f_equal. rewrite Z.ones_equiv. lia.
Qed.

Lemma pow_k_bounds : (0 < 2 ^ k /\ 2 ^ k < 2 ^ SIZE_T_BITS)%Z.
Proof.
  split; [apply Z.pow_pos_nonneg; lia|]. apply Z.pow_lt_mono_r; unfold SIZE_T_BITS in *; lia.
Qed.

(** for a page of [2^k] bytes and a size whose rounding does not
    overflow [size_t], [dart__tasking__context_adjust_size] returns the
    least multiple of the page size that is not below the size. *)
Theorem context_adjust_size_rounds size :
  (0 <= size)%Z -> (size + 2 ^ k - 1 < 2 ^ SIZE_T_BITS)%Z ->
  (context_adjust_size (2 ^ k) size mod 2 ^ k = 0 /\
   size <= context_adjust_size (2 ^ k) size < size + 2 ^ k)%Z.
Proof.
  intros H0 Hov. destruct pow_k_bounds as [Hp Hp'].
  rewrite context_adjust_size_eq, size_t_wrap_small by lia.
  pose proof (Z.div_mod (size + 2 ^ k - 1) (2 ^ k) ltac:(lia)) as Hd.
  pose proof (Z.mod_pos_bound (size + 2 ^ k - 1) (2 ^ k) Hp) as Hm.
  split; [apply Z.mod_mul; lia|]. lia.
Qed.

(** C38: the addition in [dart__tasking__context_adjust_size] is done
    on [size_t]: for the [2^k - 1] largest sizes it wraps around and the
    rounded size is 0. *)
Theorem context_adjust_size_overflow size :
  (2 ^ SIZE_T_BITS - 2 ^ k < size < 2 ^ SIZE_T_BITS)%Z ->
  context_adjust_size (2 ^ k) size = 0%Z.
Proof.
  intros Hs. destruct pow_k_bounds as [Hp Hp'].
  rewrite context_adjust_size_eq.
  assert (E : size_t_wrap (size + 2 ^ k - 1) = (size + 2 ^ k - 1 - 2 ^ SIZE_T_BITS)%Z).
  { unfold size_t_wrap. symmetry. apply (Z.mod_unique _ _ 1); lia. }
  rewrite E, Z.div_small by lia. done.
Qed.

(** The offset of the upper guard page is the stack size modulo the page. *)
Lemma ctx_ub_guard_offset_mod meta tss :
  (0 <= meta)%Z -> (meta + 2 ^ k - 1 < 2 ^ SIZE_T_BITS)%Z ->
  (ctx_ub_guard_offset (2 ^ k) meta tss mod 2 ^ k = tss mod 2 ^ k)%Z.
Proof.
  intros Hm Hov. destruct pow_k_bounds as [Hp Hp'].
  unfold ctx_ub_guard_offset, ctx_stack_offset.
  rewrite context_adjust_size_eq, size_t_wrap_small by lia.
  set (q := ((meta + 2 ^ k - 1) / 2 ^ k)%Z).
  replace (q * 2 ^ k + 2 ^ k + tss)%Z with (tss + (q + 1) * 2 ^ k)%Z by ring.
  apply Z.mod_add. lia.
Qed.

(** C39: [dart__tasking__context_init] raises the stack size to a page
    only when it is smaller than a page, and keeps a larger size that is
    not a multiple of the page size; the upper guard page that
    [dart__tasking__context_allocate] would protect under [USE_MPROTECT]
    is not page aligned (the specification has page-aligned stacks with
    guard pages; line 4 of the file leaves [USE_MPROTECT] undefined, so
    the default build allocates no guard page at all). *)
Theorem context_init_misaligned_guard meta cur env :
  (0 <= meta)%Z -> (meta + 2 ^ k - 1 < 2 ^ SIZE_T_BITS)%Z ->
  (2 ^ k <= env)%Z -> (env mod 2 ^ k <> 0)%Z ->
  context_init_stack_size (2 ^ k) cur env = env /\
  (ctx_ub_guard_offset (2 ^ k) meta (context_init_stack_size (2 ^ k) cur env) mod 2 ^ k <> 0)%Z.
Proof.
  intros Hm Hov Henv Hnm. destruct pow_k_bounds as [Hp Hp'].
  assert (E : context_init_stack_size (2 ^ k) cur env = env).
  { unfold context_init_stack_size.
    destruct (Z.ltb_spec (-1) env); [|lia]. destruct (Z.ltb_spec env (2 ^ k)); lia. }
  split; [exact E|]. rewrite E, ctx_ub_guard_offset_mod; done.
Qed.
End Rounding.

(** ** The pool keeps its invariant *)

Section Pool.
Implicit Types (cs : ctx_state).

Lemma ctx_wf_free_alloc cs i l c :
  ctx_wf cs -> cs_lists cs !! i = Some l -> c ∈ l ->
  exists ctx, cs_ctx cs !! c = Some ctx /\ c_owner ctx = i /\ c < cs_brk cs.
Proof.
  intros (_ & Ho & Hb) Hi Hc. destruct (Ho _ _ _ Hi Hc) as (ctx & E & <-).
  exists ctx. split_and!; [done|done|]. apply Hb. by rewrite E.
Qed.

(** C9: [dart__tasking__context_create] hands out a context owned by the
    calling thread that is on no free list, and keeps the invariant. *)
Lemma context_create_spec cs me fn arg l :
  ctx_wf cs -> cs_lists cs !! me = Some l ->
  exists cs' c ctx, context_create cs me fn arg = Some (cs', c) /\
    cs_ctx cs' !! c = Some ctx /\ c_owner ctx = me /\ c_fn ctx = Some fn /\
    c ∉ all_free cs' /\ ctx_wf cs' /\
    (forall c', c' <> c -> cs_ctx cs' !! c' = cs_ctx cs !! c').
Proof.
  intros Hwf Hl. pose proof Hwf as (Hnd & Ho & Hb). unfold context_create. rewrite Hl. simpl.
  destruct l as [|c l'].
  - assert (Hfresh : cs_ctx cs !! cs_brk cs = None).
    { destruct (cs_ctx cs !! cs_brk cs) eqn:E; [|done]. specialize (Hb (cs_brk cs)). rewrite E in Hb.
      destruct (Nat.lt_irrefl (cs_brk cs)). by apply Hb. }
    eexists _, _, _. split; [reflexivity|]. simpl. rewrite lookup_insert_eq.
    split_and!; [done|done|done| | |].
    + intros Hin. apply elem_of_concat_lookup in Hin as (i & l & Hi & Hc).
      destruct (ctx_wf_free_alloc _ _ _ _ Hwf Hi Hc) as (? & _ & _ & Hlt). lia.
    + split_and!; simpl; [exact Hnd| |].
      * intros i l c Hi Hc. destruct (ctx_wf_free_alloc _ _ _ _ Hwf Hi Hc) as (ctx & E & Hown & Hlt).
        exists ctx. rewrite lookup_insert_ne by lia. done.
      * intros c [x Hx]. destruct (decide (c = cs_brk cs)) as [->|Hne]; [lia|].
        rewrite lookup_insert_ne in Hx by done. specialize (Hb c ltac:(eauto)). lia.
    + intros c' Hne. simpl. by rewrite lookup_insert_ne.
  - destruct (ctx_wf_free_alloc _ _ _ _ Hwf Hl (list_elem_of_here _ _)) as (ctx & E & Hown & Hlt).
    rewrite E. simpl. rewrite Hown.
    assert (Hperm : all_free cs ≡ₚ c :: all_free (set_cs (<[c := ctx]> (cs_ctx cs))
                                                         (<[me := l']> (cs_lists cs)) (cs_brk cs) cs)).
    { unfold all_free. simpl. apply (Permutation_app_inv_r l').
      rewrite (concat_insert _ _ _ l' Hl). solve_Permutation. }
    unfold all_free in Hperm. simpl in Hperm. rewrite Hperm in Hnd.
    apply list.NoDup_cons in Hnd as [Hc Hnd'].
    eexists _, _, _. split; [reflexivity|]. simpl. rewrite lookup_insert_eq.
    split_and!; [done|done|done|exact Hc| |].
    + split_and!; simpl; [exact Hnd'| |].
      * intros i l c' Hi Hc'. destruct (decide (i = me)) as [->|Hne].
        -- rewrite list_lookup_insert_eq in Hi by (eapply lookup_lt_Some; eauto).
           injection Hi as <-. rewrite lookup_insert_ne.
           ++ apply (Ho me (c :: l')); [done|by apply list_elem_of_further].
           ++ intros ->. apply Hc, elem_of_concat_lookup. exists me, l'. split; [|done].
              apply list_lookup_insert_eq. by eapply lookup_lt_Some.
        -- rewrite list_lookup_insert_ne in Hi by done. rewrite lookup_insert_ne.
           ++ by apply (Ho i l).
           ++ intros ->. apply Hc, elem_of_concat_lookup. exists i, l. split; [|done].
              by rewrite list_lookup_insert_ne.
      * intros c' [x Hx]. destruct (decide (c' = c)) as [->|Hne]; [done|].
        rewrite lookup_insert_ne in Hx by done. apply Hb. eauto.
    + intros c' Hne. simpl. by rewrite lookup_insert_ne.
Qed.

(** [dart__tasking__context_release] puts the context on the free list
    of the thread that allocated it, whichever thread releases it. *)
Lemma context_release_spec cs c ctx l :
  ctx_wf cs -> cs_ctx cs !! c = Some ctx -> c ∉ all_free cs ->
  cs_lists cs !! c_owner ctx = Some l ->
  exists cs', context_release cs c = Some (cs', context_release_warns cs ctx) /\
    cs_lists cs' = <[c_owner ctx := c :: l]> (cs_lists cs) /\ cs_ctx cs' = cs_ctx cs /\
    ctx_wf cs'.
Proof.
  intros (Hnd & Ho & Hb) Hc Hfree Hl. unfold context_release. rewrite Hc. simpl. rewrite Hl. simpl.
  eexists. split; [reflexivity|]. split; [done|]. split; [done|]. simpl.
  assert (Hperm : all_free cs ++ [c] ++ l ≡ₚ
                  concat (<[c_owner ctx := c :: l]> (cs_lists cs)) ++ l).
  { unfold all_free. rewrite (concat_insert _ _ _ (c :: l) Hl). solve_Permutation. }
  split_and!; [| |exact Hb].
  - unfold all_free. simpl. rewrite app_assoc in Hperm. apply (Permutation_app_inv_r l) in Hperm.
    rewrite <- Hperm. apply NoDup_snoc. done.
  - intros i l' c' Hi Hc'. simpl in Hi. destruct (decide (i = c_owner ctx)) as [->|Hne].
    + rewrite list_lookup_insert_eq in Hi by (eapply lookup_lt_Some; eauto).
      injection Hi as <-. apply elem_of_cons in Hc' as [->|Hc']; [by exists ctx|].
      by apply (Ho _ l).
    + rewrite list_lookup_insert_ne in Hi by done. by apply (Ho i l').
Qed.

Lemma context_free_all_lookup cs l c :
  cs_ctx (context_free_all cs l) !! c = if decide (c ∈ l) then None else cs_ctx cs !! c.
Proof.
  revert cs. induction l as [|c' l IH]; intros cs; simpl.
  - repeat case_decide; set_solver || done.
  - rewrite IH. unfold context_free. simpl.
    case_decide as H1; case_decide as H2; [done|set_solver| |].
    + assert (c = c') as -> by set_solver. by rewrite lookup_delete_eq.
    + rewrite lookup_delete_ne; [done|set_solver].
Qed.

Lemma context_free_all_lists cs l :
  cs_lists (context_free_all cs l) = cs_lists cs /\ cs_brk (context_free_all cs l) = cs_brk cs.
Proof. revert cs. induction l as [|c l IH]; intros cs; simpl; [done|]. by rewrite (proj1 (IH _)), (proj2 (IH _)). Qed.

(** [dart__tasking__context_cleanup] frees exactly the contexts on the
    calling thread's list, empties that list, and keeps the invariant. *)
Lemma context_cleanup_spec cs me l :
  ctx_wf cs -> cs_lists cs !! me = Some l ->
  exists cs', context_cleanup cs me = Some cs' /\ ctx_wf cs' /\
    cs_lists cs' = <[me := []]> (cs_lists cs) /\
    (forall c, cs_ctx cs' !! c = if decide (c ∈ l) then None else cs_ctx cs !! c).
Proof.
  intros (Hnd & Ho & Hb) Hl. unfold context_cleanup. rewrite Hl. simpl.
  eexists. split; [reflexivity|].
  destruct (context_free_all_lists (set_cs (cs_ctx cs) (<[me:=[]]> (cs_lists cs)) (cs_brk cs) cs) l)
    as [El Eb].
  rewrite El. simpl in El, Eb.
  split; [|split; [done|intros c; by rewrite context_free_all_lookup]].
  unfold ctx_wf, all_free. rewrite El, Eb. split_and!.
  - pose proof (concat_insert (cs_lists cs) me l [] Hl) as Hp. rewrite app_nil_r in Hp.
    unfold all_free in Hnd. rewrite Hp in Hnd. by apply list.NoDup_app in Hnd as (? & _ & _).
  - intros i l' c Hi Hc. rewrite context_free_all_lookup. simpl.
    destruct (decide (i = me)) as [->|Hne].
    + rewrite list_lookup_insert_eq in Hi by (eapply lookup_lt_Some; eauto).
      injection Hi as <-. set_solver.
    + rewrite list_lookup_insert_ne in Hi by done.
      rewrite decide_False; [by apply (Ho i l')|].
      intros Hcl. apply (NoDup_concat_map_disjoint id (cs_lists cs) i me l' l) with c; try done.
      by rewrite map_id.
  - intros c [x Hx]. rewrite context_free_all_lookup in Hx. simpl in Hx.
    case_decide; [done|]. apply Hb. eauto.
Qed.

(** C36: the debug check of [dart__tasking__context_release] warns only
    when both canaries are overwritten: an overflow that destroyed the
    canary at one end of the stack and not the other goes unreported. *)
Theorem context_release_misses_one_canary cs c ctx cs' w :
  cs_debug cs = true -> cs_ctx cs !! c = Some ctx ->
  c_canary_lo ctx <> STACK_CANARY -> c_canary_hi ctx = STACK_CANARY ->
  context_release cs c = Some (cs', w) -> w = false.
Proof.
  intros Hd Hc Hlo Hhi. unfold context_release. rewrite Hc. simpl.
  destruct (cs_lists cs !! c_owner ctx); simpl; [|done]. intros [= _ <-].
  unfold context_release_warns. rewrite Hhi, Z.eqb_refl. by rewrite andb_false_r.
Qed.

(** [PER_THREAD_CTX_STORE] is documented as the maximum number of
    contexts a thread keeps, but no routine reads it:
    [dart__tasking__context_release] pushes onto a free list that already
    holds that many contexts. *)
Theorem context_release_unbounded cs c ctx l :
  ctx_wf cs -> cs_ctx cs !! c = Some ctx -> c ∉ all_free cs ->
  cs_lists cs !! c_owner ctx = Some l -> PER_THREAD_CTX_STORE <= length l ->
  exists cs' w, context_release cs c = Some (cs', w) /\
    exists l', cs_lists cs' !! c_owner ctx = Some l' /\ PER_THREAD_CTX_STORE < length l'.
Proof.
  intros Hwf Hc Hfree Hl Hlen.
  destruct (context_release_spec cs c ctx l Hwf Hc Hfree Hl) as (cs' & E & El & _).
  eexists cs', _. split; [exact E|]. exists (c :: l). rewrite El.
  split; [apply list_lookup_insert_eq; by eapply lookup_lt_Some|simpl; lia].
Qed.
End Pool.

(** ** Witnesses *)

Lemma context_adjust_size_rounds_witness :
  (0 < 12 < SIZE_T_BITS)%Z /\ (0 <= 5000)%Z /\ (5000 + 2 ^ 12 - 1 < 2 ^ SIZE_T_BITS)%Z /\
  (context_adjust_size (2 ^ 12) 5000 mod 2 ^ 12 = 0 /\
   5000 <= context_adjust_size (2 ^ 12) 5000 < 5000 + 2 ^ 12)%Z.
Proof.
  assert (Hk : (0 < 12 < SIZE_T_BITS)%Z) by (unfold SIZE_T_BITS; lia).
  assert (H0 : (0 <= 5000)%Z) by lia.
  assert (H1 : (5000 + 2 ^ 12 - 1 < 2 ^ SIZE_T_BITS)%Z) by (vm_compute; reflexivity).
  split; [exact Hk|]. split; [exact H0|]. split; [exact H1|].
  exact (context_adjust_size_rounds 12 Hk 5000 H0 H1).
Defined.

Lemma context_adjust_size_overflow_witness :
  (0 < 12 < SIZE_T_BITS)%Z /\
  (2 ^ SIZE_T_BITS - 2 ^ 12 < 2 ^ SIZE_T_BITS - 1 < 2 ^ SIZE_T_BITS)%Z /\
  context_adjust_size (2 ^ 12) (2 ^ SIZE_T_BITS - 1) = 0%Z.
Proof.
  assert (Hk : (0 < 12 < SIZE_T_BITS)%Z) by (unfold SIZE_T_BITS; lia).
  assert (H1 : (2 ^ SIZE_T_BITS - 2 ^ 12 < 2 ^ SIZE_T_BITS - 1 < 2 ^ SIZE_T_BITS)%Z)
    by (split; vm_compute; reflexivity).
  split; [exact Hk|]. split; [exact H1|].
  exact (context_adjust_size_overflow 12 Hk _ H1).
Defined.

Lemma context_init_misaligned_guard_witness :
  (0 < 12 < SIZE_T_BITS)%Z /\ (0 <= 200)%Z /\ (200 + 2 ^ 12 - 1 < 2 ^ SIZE_T_BITS)%Z /\
  (2 ^ 12 <= 8292)%Z /\ (8292 mod 2 ^ 12 <> 0)%Z /\
  context_init_stack_size (2 ^ 12) DEFAULT_TASK_STACK_SIZE 8292 = 8292%Z /\
  (ctx_ub_guard_offset (2 ^ 12) 200 (context_init_stack_size (2 ^ 12) DEFAULT_TASK_STACK_SIZE 8292)
     mod 2 ^ 12 <> 0)%Z.
Proof.
  assert (Hk : (0 < 12 < SIZE_T_BITS)%Z) by (unfold SIZE_T_BITS; lia).
  assert (H0 : (0 <= 200)%Z) by lia.
  assert (H1 : (200 + 2 ^ 12 - 1 < 2 ^ SIZE_T_BITS)%Z) by (vm_compute; reflexivity).
  assert (H2 : (2 ^ 12 <= 8292)%Z) by (vm_compute; discriminate).
  assert (H3 : (8292 mod 2 ^ 12 <> 0)%Z) by (vm_compute; discriminate).
  split; [exact Hk|]. split; [exact H0|]. split; [exact H1|]. split; [exact H2|]. split; [exact H3|].
  exact (context_init_misaligned_guard 12 Hk 200 DEFAULT_TASK_STACK_SIZE 8292 H0 H1 H2 H3).
Defined.

Lemma context_release_misses_one_canary_witness :
  cs_debug ex_cs = true /\ cs_ctx ex_cs !! 10 = Some (ex_ctx 0) /\
  c_canary_lo (ex_ctx 0) <> STACK_CANARY /\ c_canary_hi (ex_ctx 0) = STACK_CANARY /\
  context_release ex_cs 10 =
    Some (set_cs (cs_ctx ex_cs) [10 :: seq 0 10; []] 11 ex_cs, false) /\ false = false.
Proof.
  assert (H1 : cs_debug ex_cs = true) by reflexivity.
  assert (H2 : cs_ctx ex_cs !! 10 = Some (ex_ctx 0)) by (vm_compute; reflexivity).
  assert (H3 : c_canary_lo (ex_ctx 0) <> STACK_CANARY) by (vm_compute; discriminate).
  assert (H4 : c_canary_hi (ex_ctx 0) = STACK_CANARY) by reflexivity.
  assert (H5 : context_release ex_cs 10 =
                 Some (set_cs (cs_ctx ex_cs) [10 :: seq 0 10; []] 11 ex_cs, false))
    by (vm_compute; reflexivity).
  split_and!; try assumption.
  exact (context_release_misses_one_canary ex_cs 10 (ex_ctx 0) _ _ H1 H2 H3 H4 H5).
Defined.

Lemma context_release_unbounded_witness :
  ctx_wf ex_cs /\ cs_ctx ex_cs !! 10 = Some (ex_ctx 0) /\ 10 ∉ all_free ex_cs /\
  cs_lists ex_cs !! c_owner (ex_ctx 0) = Some (seq 0 10) /\
  PER_THREAD_CTX_STORE <= length (seq 0 10) /\
  exists cs' w, context_release ex_cs 10 = Some (cs', w) /\
    exists l', cs_lists cs' !! c_owner (ex_ctx 0) = Some l' /\ PER_THREAD_CTX_STORE < length l'.
Proof.
  assert (H1 : ctx_wf ex_cs) by wit_decide.
  assert (H2 : cs_ctx ex_cs !! 10 = Some (ex_ctx 0)) by (vm_compute; reflexivity).
  assert (H3 : 10 ∉ all_free ex_cs) by wit_decide.
  assert (H4 : cs_lists ex_cs !! c_owner (ex_ctx 0) = Some (seq 0 10)) by reflexivity.
  assert (H5 : PER_THREAD_CTX_STORE <= length (seq 0 10)) by (vm_compute; lia).
  split_and!; try assumption.
  exact (context_release_unbounded ex_cs 10 (ex_ctx 0) (seq 0 10) H1 H2 H3 H4 H5).
Defined.


Lemma context_create_spec_witness :
  ctx_wf ex_cs /\ cs_lists ex_cs !! 1 = Some [] /\
  exists cs' c ctx, context_create ex_cs 1 7 8 = Some (cs', c) /\
    cs_ctx cs' !! c = Some ctx /\ c_owner ctx = 1 /\ c_fn ctx = Some 7 /\
    c ∉ all_free cs' /\ ctx_wf cs' /\
    (forall c', c' <> c -> cs_ctx cs' !! c' = cs_ctx ex_cs !! c').
Proof.
  assert (H1 : ctx_wf ex_cs) by wit_decide.
  assert (H2 : cs_lists ex_cs !! 1 = Some []) by reflexivity.
  split; [exact H1|]. split; [exact H2|].
  exact (context_create_spec ex_cs 1 7 8 [] H1 H2).
Defined.

Lemma context_cleanup_spec_witness :
  ctx_wf ex_cs /\ cs_lists ex_cs !! 0 = Some (seq 0 10) /\
  exists cs', context_cleanup ex_cs 0 = Some cs' /\ ctx_wf cs' /\
    cs_lists cs' = <[0 := []]> (cs_lists ex_cs) /\
    (forall c, cs_ctx cs' !! c = if decide (c ∈ seq 0 10) then None else cs_ctx ex_cs !! c).
Proof.
  assert (H1 : ctx_wf ex_cs) by wit_decide.
  assert (H2 : cs_lists ex_cs !! 0 = Some (seq 0 10)) by reflexivity.
  split; [exact H1|]. split; [exact H2|].
  exact (context_cleanup_spec ex_cs 0 (seq 0 10) H1 H2).
Defined.
