(* ===== verification/ContextSwitch.v ===== *)
(** * Entering and switching execution contexts

    [src/dart-impl/tasking/src/internal/dart_tasking_context.c] with
    [USE_UCONTEXT]: [dart__tasking__context_entry] (lines 103-121),
    [dart__tasking__context_invoke] (lines 288-307) and
    [dart__tasking__context_swap] (lines 309-339), on top of the pool
    of [Context].

    [dart__tasking__context_create] ends with [makecontext], which sets
    the context to start in [dart__tasking__context_entry], and stores
    [fn] and [arg].  Jumping to a context the first time runs the entry
    function, which finds the context through the thread's
    [ctx_to_enter] (set by [invoke] and [swap] when the target's [fn]
    is non-NULL), clears [ctx_to_enter], [fn] and [arg], and calls
    [fn(arg)]; later jumps resume where the context was left.  The
    state of each [ucontext_t] is [ctx_pc] (at the entry point,
    suspended by [swapcontext], or running); the thread's own
    [retctx], zeroed by [calloc], is [CTX_RET]. *)

From S2P Require Import Prelude Context.

(** ** State *)

(** A [context_t*]: a context of the pool, or [&thread->retctx]. *)
Inductive ctx_ref := CTX_POOL (c : nat) | CTX_RET (thread : nat).

(** Where a [ucontext_t] of the pool continues when jumped to. *)
Inductive ctx_pc := PC_ENTRY | PC_SUSPENDED | PC_RUNNING.

#[export] Instance ctx_ref_eq_dec : EqDecision ctx_ref.
Proof. solve_decision. Defined.

#[export] Instance ctx_pc_eq_dec : EqDecision ctx_pc.
Proof. solve_decision. Defined.

Record sw_state := mk_sw {
  sw_cs : ctx_state;                    (* the pool of [Context] *)
  sw_to_enter : list (option nat);      (* thread->ctx_to_enter of each thread *)
  sw_pc : gmap nat ctx_pc               (* the ucontext of each pool context *)
}.

(** What runs after a jump: the entry function calls [fn(arg)] of
    context [c], or the target resumes. *)
Inductive sw_outcome := SW_ENTER (fn arg : option nat) (c : nat) | SW_RESUME (r : ctx_ref).

(** The result of [dart__tasking__context_swap]: the jump happened (the
    call returns [DART_OK] when the old context is resumed), or
    [swapcontext] failed and the call returns [rc]. *)
Inductive swap_result := SWAP_SWITCHED (o : sw_outcome) | SWAP_FAILED (rc : dart_ret).

Definition set_pc (c : nat) (p : ctx_pc) (st : sw_state) : sw_state :=
  mk_sw (sw_cs st) (sw_to_enter st) (<[c := p]> (sw_pc st)).

(** [ctx->fn = ctx->arg = NULL]. *)
Definition cleared (ctx : context) : context :=
  mk_ctx (c_owner ctx) None None (c_canary_lo ctx) (c_canary_hi ctx).

Definition clear_fn (c : nat) (st : sw_state) : sw_state :=
  let cs := sw_cs st in
  let ctxs := match cs_ctx cs !! c with
              | Some ctx => <[c := cleared ctx]> (cs_ctx cs)
              | None => cs_ctx cs
              end in
  mk_sw (set_cs ctxs (cs_lists cs) (cs_brk cs) cs) (sw_to_enter st) (sw_pc st).

(** [ctx->fn] of a context; the [retctx] of a thread is zeroed. *)
Definition ctx_fn (st : sw_state) (r : ctx_ref) : option (option nat) :=
  match r with
  | CTX_POOL c => c_fn <$> cs_ctx (sw_cs st) !! c
  | CTX_RET _ => Some None
  end.

(** ** Operations *)

(** [dart__tasking__context_create], lines 211-255, with its
    [makecontext] (line 246): the context starts at the entry point. *)
Definition sw_context_create (st : sw_state) (me fn arg : nat) : option (sw_state * nat) :=
  '(cs', c) ← context_create (sw_cs st) me fn arg;
  Some (mk_sw cs' (sw_to_enter st) (<[c := PC_ENTRY]> (sw_pc st)), c).

(** [if (ctx->fn) thread->ctx_to_enter = ctxlist;] (lines 292-299 and
    313-319) on thread [me]. *)
Definition set_to_enter (st : sw_state) (me : nat) (r : ctx_ref) : option sw_state :=
  f ← ctx_fn st r;
  match f, r with
  | Some _, CTX_POOL c =>
      te ← store (sw_to_enter st) me (Some c);
      Some (mk_sw (sw_cs st) te (sw_pc st))
  | _, _ => Some st
  end.

(** [dart__tasking__context_entry], lines 103-121, on thread [me]: the
    function and argument it calls, and the context they came from. *)
Definition context_entry (st : sw_state) (me : nat) : option (sw_state * sw_outcome) :=
  cl ← sw_to_enter st !! me;
  c ← cl;                                         (* DART_ASSERT(ctxlist != NULL) *)
  ctx ← cs_ctx (sw_cs st) !! c;
  te ← store (sw_to_enter st) me None;
  let st1 := clear_fn c (mk_sw (sw_cs st) te (sw_pc st)) in
  _ ← c_fn ctx;                                   (* fn(arg) through a NULL pointer faults *)
  Some (st1, SW_ENTER (c_fn ctx) (c_arg ctx) c).

(** [setcontext] / [swapcontext] to [r] on thread [me]: a context at
    its entry point runs [dart__tasking__context_entry]; a suspended one
    resumes; jumping into a running context is undefined. *)
Definition jump (st : sw_state) (me : nat) (r : ctx_ref) : option (sw_state * sw_outcome) :=
  match r with
  | CTX_RET _ => Some (st, SW_RESUME r)
  | CTX_POOL c =>
      pc ← sw_pc st !! c;
      match pc with
      | PC_ENTRY => '(st1, o) ← context_entry st me; Some (set_pc c PC_RUNNING st1, o)
      | PC_SUSPENDED => Some (set_pc c PC_RUNNING st, SW_RESUME r)
      | PC_RUNNING => None
      end
  end.

(** [dart__tasking__context_invoke], lines 288-307. *)
Definition dart__tasking__context_invoke (st : sw_state) (me : nat) (r : ctx_ref)
    : option (sw_state * sw_outcome) :=
  st1 ← set_to_enter st me r;
  jump st1 me r.

(** [dart__tasking__context_swap], lines 309-339: [swap_ok] is whether
    [swapcontext] succeeds; the old context is saved as suspended. *)
Definition dart__tasking__context_swap (st : sw_state) (me : nat) (old new : ctx_ref)
    (swap_ok : bool) : option (sw_state * swap_result) :=
  st1 ← set_to_enter st me new;
  fo ← ctx_fn st1 old;
  let st2 := match fo, old with
             | Some _, CTX_POOL c => clear_fn c st1
             | _, _ => st1
             end in
  if swap_ok then
    let st3 := match old with CTX_POOL c => set_pc c PC_SUSPENDED st2 | CTX_RET _ => st2 end in
    '(st4, o) ← jump st3 me new;
    Some (st4, SWAP_SWITCHED o)
  else Some (st2, SWAP_FAILED DART_ERR_OTHER).

(** ** The invariant

    A context of the pool is at its entry point exactly when its [fn]
    is set, and no thread has a pending [ctx_to_enter] between
    operations. *)
Definition sw_wf (st : sw_state) : Prop :=
  (forall c p, sw_pc st !! c = Some p ->
     exists ctx, cs_ctx (sw_cs st) !! c = Some ctx /\ (p = PC_ENTRY <-> is_Some (c_fn ctx))) /\
  Forall (fun o => o = None) (sw_to_enter st).

(** ** Example data: the pool [ex_cs] of [Context], two threads, no
    context switched to yet. *)
Definition ex_sw : sw_state := mk_sw ex_cs [None; None] ∅.

(** ** Lemmas *)

Section Lemmas.
Implicit Types (st : sw_state) (c : nat) (ctx : context).

Lemma clear_fn_lookup st c c' ctx :
  cs_ctx (sw_cs st) !! c = Some ctx ->
  cs_ctx (sw_cs (clear_fn c st)) !! c' =
    if decide (c' = c) then Some (cleared ctx) else cs_ctx (sw_cs st) !! c'.
Proof.
  intros Hc. unfold clear_fn. rewrite Hc. simpl.
  case_decide; subst; [by rewrite lookup_insert_eq | by rewrite lookup_insert_ne].
Qed.

Lemma set_to_enter_fresh st me c ctx :
  cs_ctx (sw_cs st) !! c = Some ctx -> is_Some (c_fn ctx) -> me < length (sw_to_enter st) ->
  set_to_enter st me (CTX_POOL c) = Some (mk_sw (sw_cs st) (<[me := Some c]> (sw_to_enter st)) (sw_pc st)).
Proof.
  intros Hc [f Hf] Hme. unfold set_to_enter. simpl. rewrite Hc. simpl. rewrite Hf.
  cbn [mbind option_bind]. by rewrite store_ok.
Qed.

Lemma set_to_enter_nofn st me r : ctx_fn st r = Some None -> set_to_enter st me r = Some st.
Proof. intros H. unfold set_to_enter. rewrite H. simpl. by destruct r. Qed.

Lemma context_entry_spec st me c ctx f :
  sw_to_enter st !! me = Some (Some c) -> cs_ctx (sw_cs st) !! c = Some ctx -> c_fn ctx = Some f ->
  context_entry st me =
    Some (clear_fn c (mk_sw (sw_cs st) (<[me := None]> (sw_to_enter st)) (sw_pc st)),
          SW_ENTER (c_fn ctx) (c_arg ctx) c).
Proof.
  intros Hme Hc Hf. unfold context_entry. rewrite Hme. simpl. rewrite Hc. simpl.
  rewrite store_ok by (by eapply lookup_lt_Some). simpl. by rewrite Hf.
Qed.

Lemma not_entry_no_fn p ctx :
  p <> PC_ENTRY -> (p = PC_ENTRY <-> is_Some (c_fn ctx)) -> c_fn ctx = None.
Proof. intros Hp Hiff. destruct (c_fn ctx) eqn:E; [|done]. exfalso. apply Hp, Hiff. by eexists. Qed.

(** Under the invariant, [ctx_to_enter] set for a jump and cleared by
    the entry function comes back to [None]. *)
Lemma to_enter_restore st me c :
  Forall (fun o => o = None) (sw_to_enter st) -> me < length (sw_to_enter st) ->
  <[me := None]> (<[me := Some c]> (sw_to_enter st)) = sw_to_enter st.
Proof.
  intros Hall Hme. rewrite list_insert_insert_eq.
  destruct (lookup_lt_is_Some_2 _ _ Hme) as [o Ho].
  rewrite list.Forall_lookup in Hall. apply list_insert_id. by rewrite Ho, (Hall _ _ Ho).
Qed.

(** A jump into a context of the pool from a well-formed state: a
    context at its entry point runs its own [fn(arg)] and is then
    running with [fn] cleared; a suspended one resumes. *)
Lemma switch_pool st me c ctx p :
  sw_wf st -> me < length (sw_to_enter st) ->
  cs_ctx (sw_cs st) !! c = Some ctx -> sw_pc st !! c = Some p ->
  (set_to_enter st me (CTX_POOL c) ≫= fun st1 => jump st1 me (CTX_POOL c)) =
    match p with
    | PC_ENTRY => Some (set_pc c PC_RUNNING (clear_fn c st), SW_ENTER (c_fn ctx) (c_arg ctx) c)
    | PC_SUSPENDED => Some (set_pc c PC_RUNNING st, SW_RESUME (CTX_POOL c))
    | PC_RUNNING => None
    end.
Proof.
  intros [Hpc Hall] Hme Hc Hp.
  destruct (Hpc _ _ Hp) as (ctx' & Hc' & Hiff). rewrite Hc in Hc'. injection Hc' as <-.
  destruct p.
  - destruct (proj1 Hiff eq_refl) as [f Hf].
    rewrite (set_to_enter_fresh _ _ _ ctx) by (done || by eexists). simpl. rewrite Hp. simpl.
    rewrite (context_entry_spec _ _ c ctx f) by (simpl; done || by rewrite list_lookup_insert_eq).
    simpl. rewrite to_enter_restore by done. by destruct st.
  - assert (Hf : c_fn ctx = None) by (apply (not_entry_no_fn PC_SUSPENDED); [discriminate | done]).
    rewrite set_to_enter_nofn by (simpl; rewrite Hc; simpl; by rewrite Hf). simpl. by rewrite Hp.
  - assert (Hf : c_fn ctx = None) by (apply (not_entry_no_fn PC_RUNNING); [discriminate | done]).
    rewrite set_to_enter_nofn by (simpl; rewrite Hc; simpl; by rewrite Hf). simpl. by rewrite Hp.
Qed.

Lemma sw_wf_set_pc st c p ctx :
  sw_wf st -> cs_ctx (sw_cs st) !! c = Some ctx -> (p = PC_ENTRY <-> is_Some (c_fn ctx)) ->
  sw_wf (set_pc c p st).
Proof.
  intros [Hpc Hall] Hc Hiff. split; [|done]. intros c' p' Hp'. simpl in Hp'.
  destruct (decide (c' = c)) as [->|Hne].
  - rewrite lookup_insert_eq in Hp'. injection Hp' as <-. eauto.
  - rewrite lookup_insert_ne in Hp' by done. by apply Hpc.
Qed.

Lemma sw_wf_clear st c p ctx :
  sw_wf st -> cs_ctx (sw_cs st) !! c = Some ctx -> p <> PC_ENTRY ->
  sw_wf (set_pc c p (clear_fn c st)).
Proof.
  intros [Hpc Hall] Hc Hp. split; [|done]. intros c' p' Hp'. simpl in Hp'.
  change (sw_cs (set_pc c p (clear_fn c st))) with (sw_cs (clear_fn c st)).
  rewrite (clear_fn_lookup _ _ _ ctx) by done.
  destruct (decide (c' = c)) as [->|Hne].
  - rewrite lookup_insert_eq in Hp'. injection Hp' as <-. exists (cleared ctx).
    split; [done|]. simpl. split; [done | by intros [? ?]].
  - rewrite lookup_insert_ne in Hp' by done. by apply Hpc.
Qed.

Lemma sw_wf_entry_running st c ctx :
  sw_wf st -> cs_ctx (sw_cs st) !! c = Some ctx -> sw_wf (set_pc c PC_RUNNING (clear_fn c st)).
Proof. intros. by eapply sw_wf_clear. Qed.

(** A context that is not at its entry point (suspended or running)
    changes between these two states freely. *)
Lemma sw_wf_resume st c p p' :
  sw_wf st -> sw_pc st !! c = Some p -> p <> PC_ENTRY -> p' <> PC_ENTRY -> sw_wf (set_pc c p' st).
Proof.
  intros Hwf Hp Hne Hne'. destruct (proj1 Hwf _ _ Hp) as (ctx & Hc & Hiff).
  apply (sw_wf_set_pc _ _ _ ctx); [done | done |].
  rewrite (not_entry_no_fn p ctx) by done. split; [intros; contradiction | by intros [? ?]].
Qed.

Lemma context_create_lookup cs me fn arg cs' c :
  context_create cs me fn arg = Some (cs', c) ->
  exists o lo hi, cs_ctx cs' = <[c := mk_ctx o (Some fn) (Some arg) lo hi]> (cs_ctx cs).
Proof.
  unfold context_create. intros H. apply bind_Some in H as (l & _ & H).
  destruct l; simpl in H; simplify_eq; simpl; eauto.
Qed.

Lemma sw_context_create_spec st me fn arg st' c :
  sw_wf st -> sw_context_create st me fn arg = Some (st', c) ->
  sw_wf st' /\ sw_to_enter st' = sw_to_enter st /\ sw_pc st' !! c = Some PC_ENTRY /\
  exists o lo hi, cs_ctx (sw_cs st') !! c = Some (mk_ctx o (Some fn) (Some arg) lo hi).
Proof.
  intros [Hpc Hall] H. unfold sw_context_create in H. apply bind_Some in H as ([cs' c'] & Hc & H).
  simplify_eq. destruct (context_create_lookup _ _ _ _ _ _ Hc) as (o & lo & hi & Hcs).
  split_and!; [split; [|done] | done | simpl; by rewrite lookup_insert_eq | exists o, lo, hi; simpl; by rewrite Hcs, lookup_insert_eq].
  intros c0 p Hp. simpl in *. rewrite Hcs.
  destruct (decide (c0 = c)) as [->|Hne].
  - rewrite lookup_insert_eq in Hp. injection Hp as <-. rewrite lookup_insert_eq. eexists; split; [done|].
    simpl. split; [by eexists | done].
  - rewrite lookup_insert_ne in Hp by done. rewrite lookup_insert_ne by done. by apply Hpc.
Qed.

Lemma swap_ret_to_pool st me t c :
  dart__tasking__context_swap st me (CTX_RET t) (CTX_POOL c) true =
  (set_to_enter st me (CTX_POOL c) ≫= fun st1 => jump st1 me (CTX_POOL c))
    ≫= fun '(st4, o) => Some (st4, SWAP_SWITCHED o).
Proof.
  unfold dart__tasking__context_swap. destruct (set_to_enter st me (CTX_POOL c)) as [st1|]; [|done].
  simpl. by destruct (jump st1 me (CTX_POOL c)) as [[]|].
Qed.

Lemma swap_pool_to_ret st me c t ctx :
  cs_ctx (sw_cs st) !! c = Some ctx ->
  dart__tasking__context_swap st me (CTX_POOL c) (CTX_RET t) true =
    Some (set_pc c PC_SUSPENDED (if bool_decide (c_fn ctx = None) then st else clear_fn c st),
          SWAP_SWITCHED (SW_RESUME (CTX_RET t))).
Proof.
  intros Hc. unfold dart__tasking__context_swap. rewrite set_to_enter_nofn by done. simpl.
  rewrite Hc. simpl. by destruct (c_fn ctx).
Qed.

End Lemmas.

(** ** Properties of context switching *)

(** C22: The switching protocol keeps its invariant (a context is at
    its entry point exactly when its [fn] is set, and no [ctx_to_enter]
    is left pending): [context_create], [context_invoke], and
    [context_swap] from the thread's [retctx] into a context and back
    (the two uses in [dart_tasking_instrumentation.c]) preserve it. *)
Theorem context_switch_preserves_wf st me :
  sw_wf st -> me < length (sw_to_enter st) ->
  (forall fn arg st' c, sw_context_create st me fn arg = Some (st', c) -> sw_wf st') /\
  (forall r st' o, dart__tasking__context_invoke st me r = Some (st', o) -> sw_wf st') /\
  (forall t c st' res, dart__tasking__context_swap st me (CTX_RET t) (CTX_POOL c) true = Some (st', res) ->
     sw_wf st') /\
  (forall t c st' res, dart__tasking__context_swap st me (CTX_POOL c) (CTX_RET t) true = Some (st', res) ->
     sw_wf st').
Proof.
  intros Hwf Hme. split_and!.
  - intros fn arg st' c H. by apply (sw_context_create_spec _ _ _ _ _ _ Hwf H).
  - intros [c|t] st' o H; unfold dart__tasking__context_invoke in H.
    + destruct (cs_ctx (sw_cs st) !! c) as [ctx|] eqn:Hc; [|unfold set_to_enter in H; simpl in H; by rewrite Hc in H].
      destruct (sw_pc st !! c) as [p|] eqn:Hp.
      * rewrite (switch_pool _ _ _ ctx p) in H by done.
        destruct p; simplify_eq; [by eapply sw_wf_entry_running | by eapply sw_wf_resume].
      * unfold set_to_enter in H. simpl in H. rewrite Hc in H. simpl in H.
        destruct (c_fn ctx); simpl in H; [destruct (store _ _ _); simpl in H; [|done]|]; simpl in H; by rewrite Hp in H.
    + rewrite set_to_enter_nofn in H by done. simpl in H. by simplify_eq.
  - intros t c st' res H. rewrite swap_ret_to_pool in H.
    destruct (cs_ctx (sw_cs st) !! c) as [ctx|] eqn:Hc; [|unfold set_to_enter in H; simpl in H; by rewrite Hc in H].
    destruct (sw_pc st !! c) as [p|] eqn:Hp.
    + rewrite (switch_pool _ _ _ ctx p) in H by done.
      destruct p; simpl in H; simplify_eq; [by eapply sw_wf_entry_running | by eapply sw_wf_resume].
    + unfold set_to_enter in H. simpl in H. rewrite Hc in H. simpl in H.
      destruct (c_fn ctx); simpl in H; [destruct (store _ _ _); simpl in H; [|done]|]; simpl in H; by rewrite Hp in H.
  - intros t c st' res H.
    destruct (cs_ctx (sw_cs st) !! c) as [ctx|] eqn:Hc;
      [|unfold dart__tasking__context_swap, set_to_enter in H; simpl in H; by rewrite Hc in H].
    rewrite (swap_pool_to_ret _ _ _ _ ctx) in H by done. injection H as <- _.
    case_bool_decide as Hf; [|by eapply sw_wf_clear].
    apply (sw_wf_set_pc _ _ _ ctx); [done | done |]. rewrite Hf. split; [done | by intros [? ?]].
Qed.

(** C21: A task's context runs its entry function once: after
    [context_create], the first [context_swap] from the thread's
    [retctx] enters it and calls [fn(arg)]; a swap back to [retctx]
    (a yield) and another swap into it (the task resumed) resume it
    without calling [fn] again, and the invariant holds throughout. *)
Theorem task_context_entered_once st me fn arg st1 c :
  sw_wf st -> me < length (sw_to_enter st) ->
  sw_context_create st me fn arg = Some (st1, c) ->
  exists st2 st3 st4,
    dart__tasking__context_swap st1 me (CTX_RET me) (CTX_POOL c) true =
      Some (st2, SWAP_SWITCHED (SW_ENTER (Some fn) (Some arg) c)) /\
    dart__tasking__context_swap st2 me (CTX_POOL c) (CTX_RET me) true =
      Some (st3, SWAP_SWITCHED (SW_RESUME (CTX_RET me))) /\
    dart__tasking__context_swap st3 me (CTX_RET me) (CTX_POOL c) true =
      Some (st4, SWAP_SWITCHED (SW_RESUME (CTX_POOL c))) /\
    sw_wf st4.
Proof.
  intros Hwf Hme Hcr.
  destruct (sw_context_create_spec _ _ _ _ _ _ Hwf Hcr) as (Hwf1 & Hte & Hp1 & o & lo & hi & Hc1).
  assert (Hme1 : me < length (sw_to_enter st1)) by (by rewrite Hte).
  set (ctx := mk_ctx o (Some fn) (Some arg) lo hi) in *.
  set (st2 := set_pc c PC_RUNNING (clear_fn c st1)).
  assert (Hwf2 : sw_wf st2) by (by eapply sw_wf_entry_running).
  assert (Hc2 : cs_ctx (sw_cs st2) !! c = Some (cleared ctx)).
  { change (sw_cs st2) with (sw_cs (clear_fn c st1)). by rewrite (clear_fn_lookup _ _ _ ctx), decide_True. }
  set (st3 := set_pc c PC_SUSPENDED st2).
  assert (Hwf3 : sw_wf st3).
  { apply (sw_wf_set_pc _ _ _ (cleared ctx)); [done | done |]. split; [done | by intros [? ?]]. }
  exists st2, st3, (set_pc c PC_RUNNING st3). split_and!.
  - rewrite swap_ret_to_pool, (switch_pool _ _ _ ctx PC_ENTRY) by done. done.
  - by rewrite (swap_pool_to_ret _ _ _ _ (cleared ctx)).
  - rewrite swap_ret_to_pool, (switch_pool _ _ _ (cleared ctx) PC_SUSPENDED) by (done || by simpl; rewrite lookup_insert_eq).
    done.
  - apply (sw_wf_set_pc _ _ _ (cleared ctx)); [done | done |]. split; [done | by intros [? ?]].
Qed.

(** ** Witnesses *)

Lemma ex_sw_wf : sw_wf ex_sw.
Proof. split; [intros c p Hp; simpl in Hp; by rewrite lookup_empty in Hp | repeat constructor]. Qed.

Lemma task_context_entered_once_witness :
  exists st2 st3 st4,
    dart__tasking__context_swap (from_option fst ex_sw (sw_context_create ex_sw 0 1 7)) 0
      (CTX_RET 0) (CTX_POOL (from_option snd 0 (sw_context_create ex_sw 0 1 7))) true =
      Some (st2, SWAP_SWITCHED (SW_ENTER (Some 1) (Some 7)
                                  (from_option snd 0 (sw_context_create ex_sw 0 1 7)))) /\
    dart__tasking__context_swap st2 0 (CTX_POOL (from_option snd 0 (sw_context_create ex_sw 0 1 7)))
      (CTX_RET 0) true = Some (st3, SWAP_SWITCHED (SW_RESUME (CTX_RET 0))) /\
    dart__tasking__context_swap st3 0 (CTX_RET 0)
      (CTX_POOL (from_option snd 0 (sw_context_create ex_sw 0 1 7))) true =
      Some (st4, SWAP_SWITCHED (SW_RESUME (CTX_POOL (from_option snd 0 (sw_context_create ex_sw 0 1 7))))) /\
    sw_wf st4.
Proof.
  apply (task_context_entered_once ex_sw 0 1 7).
  - exact ex_sw_wf.
  - simpl. lia.
  - vm_compute. reflexivity.
Defined.

Lemma context_switch_preserves_wf_witness :
  sw_wf ex_sw /\ 0 < length (sw_to_enter ex_sw) /\
  (forall fn arg st' c, sw_context_create ex_sw 0 fn arg = Some (st', c) -> sw_wf st') /\
  (forall r st' o, dart__tasking__context_invoke ex_sw 0 r = Some (st', o) -> sw_wf st') /\
  (forall t c st' res, dart__tasking__context_swap ex_sw 0 (CTX_RET t) (CTX_POOL c) true = Some (st', res) ->
     sw_wf st') /\
  (forall t c st' res, dart__tasking__context_swap ex_sw 0 (CTX_POOL c) (CTX_RET t) true = Some (st', res) ->
     sw_wf st').
Proof.
  split; [exact ex_sw_wf|]. split; [simpl; lia|].
  exact (context_switch_preserves_wf ex_sw 0 ex_sw_wf ltac:(simpl; lia)).
Defined.
