(* ===== verification/MemPool.v ===== *)
(** * The size-keyed memory pool of the copy-in engine

    [dart_tasking_copyin.c], lines 15-96: a list of pools, one per
    requested size ([mem_pool], pushed at the head), each with a stack
    of free elements; an element is a header [mem_pool_elem_t]
    ([magic], a back reference to its pool, the address [mem] of the
    buffer right after the header) followed by the buffer.
    [allocate_from_mempool] pops an element of the pool of the size or
    [malloc]s a new one; [return_to_mempool] finds the header in front
    of the buffer, checks its magic word and pushes it back onto its
    pool.

    Addresses are natural numbers handed out by a bump allocator
    [ms_brk]; a pool occupies one address, an element [ELEM_HDR_SIZE]
    addresses of header and [size] of buffer.  The element headers are
    a finite map; a read at an address that holds no header fails
    ([None]), as the magic check of the C code would on memory that
    holds anything else. *)

From S2P Require Import Prelude.

(** [MEMPOOL_MAGIC_NUM], line 15. *)
Definition MEMPOOL_MAGIC_NUM : Z := 3735928559.  (* 0xDEADBEEF *)

(** [sizeof(mem_pool_elem_t)] (lines 19-24): the stack link, [mem],
    [magic] and [mpool], one 8-byte word each. *)
Definition ELEM_HDR_SIZE : nat := 32.

(** [struct mem_pool_elem], lines 19-24 (the stack link is the position
    of the element on its pool's free list). *)
Record mem_pool_elem := mk_elem { e_magic : Z; e_mpool : nat; e_mem : nat }.

(** [struct mem_pool], lines 27-31: the pool at address [pool_addr]
    (the list link is its position in [ms_pools]). *)
Record mem_pool := mk_pool { pool_addr : nat; pool_size : nat; pool_elems : list nat }.

(** The globals [mem_pool] (line 32), the element headers in memory and
    the next address [malloc] returns. *)
Record mp_state := mk_mp {
  ms_pools : list mem_pool;
  ms_elems : gmap nat mem_pool_elem;
  ms_brk : nat
}.

(** [find_mem_pool], lines 44-53. *)
Fixpoint find_mem_pool (size : nat) (pools : list mem_pool) : option mem_pool :=
  match pools with
  | [] => None
  | p :: ps => if size =? pool_size p then Some p else find_mem_pool size ps
  end.

(** The pool at address [a] ([elem->mpool] dereferenced). *)
Definition pool_at (a : nat) (pools : list mem_pool) : option mem_pool :=
  List.find (fun p => pool_addr p =? a) pools.

(** A store [mpool->elems = es] through the pool pointer [a]. *)
Definition set_pool_elems (a : nat) (es : list nat) (pools : list mem_pool) : list mem_pool :=
  map (fun p => if pool_addr p =? a then mk_pool (pool_addr p) (pool_size p) es else p) pools.

(** [allocate_from_mempool], lines 55-85.  The pool is looked up
    without the lock, and once more under [mpool_lock] before a new
    one is pushed (lines 63-71); the threads of the model run one at a
    time, so the second lookup sees the list the first one saw. *)
Definition allocate_from_mempool (ms : mp_state) (size : nat) : option (mp_state * nat) :=
  let '(mpool, ms1) :=
    match find_mem_pool size (ms_pools ms) with
    | Some p => (p, ms)
    | None =>
        match find_mem_pool size (ms_pools ms) with
        | Some p => (p, ms)
        | None =>
            let p := mk_pool (ms_brk ms) size [] in
            (p, mk_mp (p :: ms_pools ms) (ms_elems ms) (S (ms_brk ms)))
        end
    end in
  match pool_elems mpool with
  | e :: es =>
      el ← ms_elems ms1 !! e;
      Some (mk_mp (set_pool_elems (pool_addr mpool) es (ms_pools ms1)) (ms_elems ms1) (ms_brk ms1),
            e_mem el)
  | [] =>
      let e := ms_brk ms1 in
      let el := mk_elem MEMPOOL_MAGIC_NUM (pool_addr mpool) (e + ELEM_HDR_SIZE) in
      Some (mk_mp (ms_pools ms1) (<[e := el]> (ms_elems ms1)) (e + ELEM_HDR_SIZE + size), e_mem el)
  end.

(** [return_to_mempool], lines 88-96. *)
Definition return_to_mempool (ms : mp_state) (mem : nat) : option mp_state :=
  let e := mem - ELEM_HDR_SIZE in
  el ← ms_elems ms !! e;
  dart_assert (e_magic el =? MEMPOOL_MAGIC_NUM)%Z
    (p ← pool_at (e_mpool el) (ms_pools ms);
     Some (mk_mp (set_pool_elems (e_mpool el) (e :: pool_elems p) (ms_pools ms))
                 (ms_elems ms) (ms_brk ms))).

(** ** The invariant of the pool *)

(** The elements on the free lists. *)
Definition mp_free (ms : mp_state) : list nat := concat (map pool_elems (ms_pools ms)).

(** The element at [e] belongs to the pool at [a]. *)
Definition elem_of_pool (ms : mp_state) (a e : nat) : Prop :=
  e_mpool <$> ms_elems ms !! e = Some a.

(** At most one pool per size and per address; no element twice on the
    free lists; every free element belongs to the pool whose list it is
    on; every header carries the magic word, points to its buffer and
    to a pool of the list; every address lies below [ms_brk], and no
    pool address holds a header. *)
Definition mp_wf (ms : mp_state) : Prop :=
  NoDup (map pool_addr (ms_pools ms)) /\
  NoDup (map pool_size (ms_pools ms)) /\
  NoDup (mp_free ms) /\
  Forall (fun p => pool_addr p < ms_brk ms /\ ms_elems ms !! pool_addr p = None /\
                   Forall (elem_of_pool ms (pool_addr p)) (pool_elems p)) (ms_pools ms) /\
  map_Forall (fun e el => e_magic el = MEMPOOL_MAGIC_NUM /\ e_mem el = e + ELEM_HDR_SIZE /\
                          e < ms_brk ms /\ e_mpool el ∈ map pool_addr (ms_pools ms)) (ms_elems ms).

(** The buffer [mem] of size [size] is handed out: its header is an
    element of the pool of that size, and it is on no free list. *)
Definition handed_out (ms : mp_state) (mem size : nat) : Prop :=
  ELEM_HDR_SIZE <= mem /\
  (exists el p, ms_elems ms !! (mem - ELEM_HDR_SIZE) = Some el /\ e_mem el = mem /\
     p ∈ ms_pools ms /\ pool_addr p = e_mpool el /\ pool_size p = size) /\
  mem - ELEM_HDR_SIZE ∉ mp_free ms.

(** An empty pool list, and one with a pool of 64-byte buffers holding
    two free elements. *)
Definition mp_empty : mp_state := mk_mp [] ∅ 1.

Definition ex_mp : mp_state :=
  mk_mp [mk_pool 1 64 [2; 98]; mk_pool 200 16 []]
        (<[2 := mk_elem MEMPOOL_MAGIC_NUM 1 34]> (<[98 := mk_elem MEMPOOL_MAGIC_NUM 1 130]> ∅))
        300.

(** [ex_mp] after handing out the buffer at 34. *)
Definition ex_mp_out : mp_state :=
  mk_mp [mk_pool 1 64 [98]; mk_pool 200 16 []] (ms_elems ex_mp) 300.

#[export] Instance mp_wf_dec ms : Decision (mp_wf ms).
Proof. unfold mp_wf, elem_of_pool. solve_decision. Defined.

(** ** Lookups and updates of the pool list *)

Section PoolList.
Implicit Types (ps : list mem_pool) (p : mem_pool).

Lemma find_mem_pool_Some size ps p :
  find_mem_pool size ps = Some p -> p ∈ ps /\ pool_size p = size.
Proof.
  induction ps as [|q ps IH]; simpl; [done|].
  destruct (Nat.eqb_spec size (pool_size q)) as [->|]; [intros [= <-]; split; [left|]; done|].
  intros H. destruct (IH H). split; [by right|done].
Qed.

Lemma find_mem_pool_None size ps :
  find_mem_pool size ps = None -> Forall (fun p => pool_size p <> size) ps.
Proof.
  induction ps as [|q ps IH]; simpl; [done|].
  destruct (Nat.eqb_spec size (pool_size q)); [done|]. intros H. constructor; [done|auto].
Qed.

Lemma find_mem_pool_in size ps p :
  NoDup (map pool_size ps) -> p ∈ ps -> pool_size p = size -> find_mem_pool size ps = Some p.
Proof.
  induction ps as [|q ps IH]; simpl; [by intros _ ?%elem_of_nil|].
  intros [Hq Hnd]%list.NoDup_cons Hp Hs. apply elem_of_cons in Hp as [->|Hp].
  - by rewrite Hs, Nat.eqb_refl.
  - destruct (Nat.eqb_spec size (pool_size q)) as [E|]; [|by apply IH].
    exfalso. apply Hq. rewrite <-E, <-Hs. by apply list_elem_of_fmap_2.
Qed.

Lemma pool_at_Some a ps p : pool_at a ps = Some p -> p ∈ ps /\ pool_addr p = a.
Proof.
  intros H. apply find_some in H as [Hin Ha%Nat.eqb_eq].
  split; [by apply list_elem_of_In|done].
Qed.

Lemma pool_at_in ps p : NoDup (map pool_addr ps) -> p ∈ ps -> pool_at (pool_addr p) ps = Some p.
Proof.
  unfold pool_at. induction ps as [|q ps IH]; simpl; [by intros _ ?%elem_of_nil|].
  intros [Hq Hnd]%list.NoDup_cons Hp. apply elem_of_cons in Hp as [->|Hp]; [by rewrite Nat.eqb_refl|].
  destruct (Nat.eqb_spec (pool_addr q) (pool_addr p)) as [E|]; [|by apply IH].
  exfalso. apply Hq. rewrite E. by apply list_elem_of_fmap_2.
Qed.

Lemma set_pool_elems_addrs a es ps : map pool_addr (set_pool_elems a es ps) = map pool_addr ps.
Proof. unfold set_pool_elems. rewrite map_map. apply map_ext. intros p. by destruct (_ =? _). Qed.

Lemma set_pool_elems_sizes a es ps : map pool_size (set_pool_elems a es ps) = map pool_size ps.
Proof. unfold set_pool_elems. rewrite map_map. apply map_ext. intros p. by destruct (_ =? _). Qed.

(** With distinct addresses, the store through a pool pointer updates
    one position of the list. *)
Lemma set_pool_elems_insert ps i p es :
  NoDup (map pool_addr ps) -> ps !! i = Some p ->
  set_pool_elems (pool_addr p) es ps = <[i := mk_pool (pool_addr p) (pool_size p) es]> ps.
Proof.
  intros Hnd Hi. apply list_eq. intros j. unfold set_pool_elems.
  change (map ?f ps) with (f <$> ps). rewrite list_lookup_fmap.
  destruct (decide (j = i)) as [->|Hne].
  - rewrite Hi, list_lookup_insert_eq by (by eapply lookup_lt_Some). simpl. by rewrite Nat.eqb_refl.
  - rewrite list_lookup_insert_ne by done. destruct (ps !! j) as [q|] eqn:Hj; simpl; [|done].
    destruct (Nat.eqb_spec (pool_addr q) (pool_addr p)) as [E|]; [|done].
    exfalso. apply Hne. change (map pool_addr ps) with (pool_addr <$> ps) in Hnd.
    eapply NoDup_lookup; [exact Hnd| |]; rewrite list_lookup_fmap; [rewrite Hj|rewrite Hi]; simpl;
      [rewrite E|]; reflexivity.
Qed.

Lemma set_pool_elems_twice a es es' ps :
  set_pool_elems a es (set_pool_elems a es' ps) = set_pool_elems a es ps.
Proof.
  unfold set_pool_elems. rewrite map_map. apply map_ext. intros p.
  destruct (Nat.eqb_spec (pool_addr p) a) as [E|E]; simpl; [by rewrite E, Nat.eqb_refl|].
  by destruct (Nat.eqb_spec (pool_addr p) a).
Qed.

Lemma set_pool_elems_id ps p :
  NoDup (map pool_addr ps) -> p ∈ ps -> set_pool_elems (pool_addr p) (pool_elems p) ps = ps.
Proof.
  intros Hnd [i Hi]%list_elem_of_lookup. rewrite (set_pool_elems_insert _ i p) by done.
  destruct p. by apply list_insert_id.
Qed.

Lemma find_set_pool_elems size ps p es :
  NoDup (map pool_addr ps) -> NoDup (map pool_size ps) -> p ∈ ps -> pool_size p = size ->
  find_mem_pool size (set_pool_elems (pool_addr p) es ps) = Some (mk_pool (pool_addr p) size es).
Proof.
  intros Ha Hs [i Hi]%list_elem_of_lookup <-. rewrite (set_pool_elems_insert _ i p) by done.
  apply find_mem_pool_in.
  - rewrite <-(set_pool_elems_insert _ i p), set_pool_elems_sizes by done. done.
  - apply list_elem_of_lookup. exists i. apply list_lookup_insert_eq. by eapply lookup_lt_Some.
  - done.
Qed.

(** The free lists after a store to the list of one pool. *)
Lemma free_set_pool_elems ps i p es :
  NoDup (map pool_addr ps) -> ps !! i = Some p ->
  concat (map pool_elems ps) ++ es ≡ₚ
  concat (map pool_elems (set_pool_elems (pool_addr p) es ps)) ++ pool_elems p.
Proof.
  intros Hnd Hi. rewrite (set_pool_elems_insert _ i p) by done.
  exact (concat_map_insert pool_elems ps i p (mk_pool (pool_addr p) (pool_size p) es) Hi).
Qed.
End PoolList.

(** ** Preservation of the invariant *)

Section Wf.
Implicit Types (ms : mp_state) (p : mem_pool).

Lemma wf_pool_of_free ms p e :
  mp_wf ms -> p ∈ ms_pools ms -> e ∈ pool_elems p ->
  exists el, ms_elems ms !! e = Some el /\ e_mpool el = pool_addr p.
Proof.
  intros (_ & _ & _ & Hp & _) Hin He.
  eapply list.Forall_forall in Hp as (_ & _ & Hes); [|exact Hin].
  eapply list.Forall_forall in Hes; [|exact He]. unfold elem_of_pool in Hes.
  destruct (ms_elems ms !! e) as [el|]; [|done]. injection Hes as <-. eauto.
Qed.

Lemma wf_free_lt ms e : mp_wf ms -> e ∈ mp_free ms -> e < ms_brk ms.
Proof.
  intros Hwf He. unfold mp_free in He. apply elem_of_concat_map in He as (p & Hi & He).
  destruct (wf_pool_of_free ms p e Hwf Hi He) as (el & Hel & _).
  destruct Hwf as (_ & _ & _ & _ & Hm). by destruct (Hm e el Hel) as (_ & _ & ? & _).
Qed.

(** A store to the free list of one pool keeps the invariant when the
    new list holds elements of that pool and no element twice. *)
Lemma wf_set_pool_elems ms p es :
  mp_wf ms -> p ∈ ms_pools ms -> Forall (elem_of_pool ms (pool_addr p)) es ->
  NoDup (concat (map pool_elems (set_pool_elems (pool_addr p) es (ms_pools ms)))) ->
  mp_wf (mk_mp (set_pool_elems (pool_addr p) es (ms_pools ms)) (ms_elems ms) (ms_brk ms)).
Proof.
  intros (Ha & Hs & _ & Hp & Hm) Hin Hes Hnd. apply list_elem_of_lookup_1 in Hin as [i Hi].
  unfold mp_wf, mp_free. simpl. rewrite set_pool_elems_addrs, set_pool_elems_sizes.
  split_and!; [done|done|done| |done].
  rewrite (set_pool_elems_insert _ i p) by done. apply Forall_insert; [done|].
  eapply Forall_lookup_1 in Hp as (? & ? & _); [|exact Hi]. done.
Qed.

(** Popping the head of a pool's free list. *)
Lemma wf_pop ms p e es :
  mp_wf ms -> p ∈ ms_pools ms -> pool_elems p = e :: es ->
  let ms' := mk_mp (set_pool_elems (pool_addr p) es (ms_pools ms)) (ms_elems ms) (ms_brk ms) in
  mp_wf ms' /\ mp_free ms ≡ₚ e :: mp_free ms'.
Proof.
  intros Hwf Hin He ms'. pose proof Hwf as (Ha & _ & Hnd & Hp & _).
  pose proof Hin as [i Hi]%list_elem_of_lookup_1.
  pose proof (free_set_pool_elems _ i p es Ha Hi) as Hperm. rewrite He in Hperm.
  assert (Hf : mp_free ms ≡ₚ e :: mp_free ms').
  { apply (Permutation_app_inv_r es). rewrite Hperm. simpl.
    by rewrite <-Permutation_middle. }
  split; [|exact Hf]. apply wf_set_pool_elems; [done|done| |].
  - eapply list.Forall_forall in Hp as (_ & _ & Hes); [|exact Hin]. rewrite He in Hes.
    by apply list.Forall_cons in Hes as [_ ?].
  - unfold mp_free in Hf. rewrite Hf in Hnd. by apply list.NoDup_cons in Hnd as [_ ?].
Qed.

(** Pushing a handed-out element of a pool onto its free list. *)
Lemma wf_push ms p e :
  mp_wf ms -> p ∈ ms_pools ms -> elem_of_pool ms (pool_addr p) e -> e ∉ mp_free ms ->
  let ms' := mk_mp (set_pool_elems (pool_addr p) (e :: pool_elems p) (ms_pools ms))
                   (ms_elems ms) (ms_brk ms) in
  mp_wf ms' /\ mp_free ms' ≡ₚ e :: mp_free ms.
Proof.
  intros Hwf Hin He Hfree ms'. pose proof Hwf as (Ha & _ & Hnd & Hp & _).
  pose proof Hin as [i Hi]%list_elem_of_lookup_1.
  pose proof (free_set_pool_elems _ i p (e :: pool_elems p) Ha Hi) as Hperm.
  assert (Hf : mp_free ms' ≡ₚ e :: mp_free ms).
  { apply (Permutation_app_inv_r (pool_elems p)). unfold mp_free. simpl. rewrite <-Hperm.
    by rewrite <-Permutation_middle. }
  split; [|exact Hf]. apply wf_set_pool_elems; [done|done| |].
  - constructor; [done|]. eapply list.Forall_forall in Hp as (_ & _ & ?); [|exact Hin]. done.
  - change (NoDup (mp_free ms')). rewrite Hf. by apply list.NoDup_cons.
Qed.
(** No header lies at or above [ms_brk]. *)
Lemma wf_elems_brk ms e : mp_wf ms -> ms_brk ms <= e -> ms_elems ms !! e = None.
Proof.
  intros (_ & _ & _ & _ & Hm) He. destruct (ms_elems ms !! e) as [el|] eqn:E; [|done].
  apply Hm in E as (_ & _ & ? & _). lia.
Qed.

(** A new, empty pool for a size no pool has, at the next address. *)
Lemma wf_new_pool ms size :
  mp_wf ms -> Forall (fun p => pool_size p <> size) (ms_pools ms) ->
  mp_wf (mk_mp (mk_pool (ms_brk ms) size [] :: ms_pools ms) (ms_elems ms) (S (ms_brk ms))).
Proof.
  intros Hwf Hsz. pose proof Hwf as (Ha & Hs & Hnd & Hp & Hm).
  unfold mp_wf, mp_free. simpl. split_and!.
  - constructor; [|done]. intros (q & Eq & Hq)%list_elem_of_fmap_1.
    eapply list.Forall_forall in Hp as (? & _); [|exact Hq]. lia.
  - constructor; [|done]. intros (q & Eq & Hq)%list_elem_of_fmap_1.
    eapply list.Forall_forall in Hsz; [|exact Hq]. done.
  - done.
  - constructor; [split_and!; [simpl; lia|by apply wf_elems_brk|done]|].
    eapply list.Forall_impl; [exact Hp|]. intros q (? & ? & ?). split_and!; [lia|done|done].
  - eapply map_Forall_impl; [exact Hm|]. intros e el (? & ? & ? & ?). split_and!; [done|done|lia|].
    by right.
Qed.

(** A new element of the pool at [a], at the next address. *)
Lemma wf_fresh_elem ms a size :
  mp_wf ms -> a ∈ map pool_addr (ms_pools ms) ->
  mp_wf (mk_mp (ms_pools ms)
               (<[ms_brk ms := mk_elem MEMPOOL_MAGIC_NUM a (ms_brk ms + ELEM_HDR_SIZE)]> (ms_elems ms))
               (ms_brk ms + ELEM_HDR_SIZE + size)).
Proof.
  intros Hwf Ha'. pose proof Hwf as (Ha & Hs & Hnd & Hp & Hm).
  unfold mp_wf, mp_free. simpl. split_and!; [done|done|done| |].
  - apply list.Forall_forall. intros q Hq.
    pose proof (proj1 (list.Forall_forall _ _) Hp q Hq) as (Hlt & Hnone & Hes).
    split_and!; [lia|rewrite lookup_insert_ne by lia; done|].
    apply list.Forall_forall. intros e He.
    destruct (wf_pool_of_free ms q e Hwf Hq He) as (el & Hel & Hmp).
    assert (e < ms_brk ms) by (by destruct (Hm e el Hel) as (_ & _ & ? & _)).
    unfold elem_of_pool. simpl. rewrite lookup_insert_ne, Hel by lia. by rewrite <-Hmp.
  - apply map_Forall_insert_2; [simpl; split_and!; [done|done|unfold ELEM_HDR_SIZE; lia|done]|].
    eapply map_Forall_impl; [exact Hm|]. intros e el (? & ? & ? & ?). split_and!; [done|done|lia|done].
Qed.
End Wf.

(** ** Allocation and return *)

Section Ops.
Implicit Types (ms : mp_state) (p : mem_pool).

(** A new element for the pool [p] (lines 76-82). *)
Lemma alloc_fresh ms p :
  mp_wf ms -> p ∈ ms_pools ms ->
  let ms' := mk_mp (ms_pools ms)
    (<[ms_brk ms := mk_elem MEMPOOL_MAGIC_NUM (pool_addr p) (ms_brk ms + ELEM_HDR_SIZE)]> (ms_elems ms))
    (ms_brk ms + ELEM_HDR_SIZE + pool_size p) in
  mp_wf ms' /\ handed_out ms' (ms_brk ms + ELEM_HDR_SIZE) (pool_size p) /\
  mp_free ms' = mp_free ms /\ ms_elems ms !! ms_brk ms = None.
Proof.
  intros Hwf Hin ms'.
  assert (Hwf' : mp_wf ms') by (apply wf_fresh_elem; [done|by apply list_elem_of_fmap_2]).
  split_and!; [exact Hwf'| |done|by apply wf_elems_brk].
  split_and!; rewrite ?Nat.add_sub; [lia| |].
  - eexists _, p. simpl. by rewrite lookup_insert_eq.
  - intros Hf. apply (wf_free_lt ms) in Hf; [lia|done].
Qed.

(** The head of the free list of the pool [p] (line 74). *)
Lemma alloc_pop ms p e es :
  mp_wf ms -> p ∈ ms_pools ms -> pool_elems p = e :: es ->
  exists el, ms_elems ms !! e = Some el /\
  let ms' := mk_mp (set_pool_elems (pool_addr p) es (ms_pools ms)) (ms_elems ms) (ms_brk ms) in
  mp_wf ms' /\ handed_out ms' (e_mem el) (pool_size p) /\ e_mem el - ELEM_HDR_SIZE :: mp_free ms' ≡ₚ mp_free ms.
Proof.
  intros Hwf Hin He. destruct (wf_pool_of_free ms p e Hwf Hin) as (el & Hel & Hmp); [rewrite He; left|].
  exists el. split; [done|]. intros ms'.
  destruct (wf_pop ms p e es Hwf Hin He) as [Hwf' Hf].
  assert (Hmem : e_mem el = e + ELEM_HDR_SIZE) by (destruct Hwf as (_ & _ & _ & _ & Hm); by apply Hm in Hel as (_ & ? & _)).
  rewrite Hmem, Nat.add_sub. split_and!; [done| |by symmetry].
  - pose proof Hin as [i Hi]%list_elem_of_lookup_1.
    split; [lia|]. rewrite Nat.add_sub. split; [|]; cycle 1.
    + intros Hfr. destruct Hwf as (_ & _ & Hnd & _). rewrite Hf in Hnd.
      by apply list.NoDup_cons in Hnd as [? _].
    + exists el, (mk_pool (pool_addr p) (pool_size p) es). split_and!; [done|by rewrite Hmem| |done|done].
      simpl. rewrite (set_pool_elems_insert _ i p) by (by destruct Hwf). apply list_elem_of_lookup.
      exists i. apply list_lookup_insert_eq. by eapply lookup_lt_Some.
Qed.
(** [allocate_from_mempool] always returns: it hands out a buffer of
    the requested size that is on no free list, keeps the invariant,
    and either pops it from the free list of its pool or allocates a
    new element, leaving every other free buffer where it was. *)
Theorem allocate_from_mempool_spec ms size :
  mp_wf ms ->
  exists ms' mem, allocate_from_mempool ms size = Some (ms', mem) /\ mp_wf ms' /\
    handed_out ms' mem size /\
    ((mem - ELEM_HDR_SIZE :: mp_free ms' ≡ₚ mp_free ms) \/
     (mp_free ms' = mp_free ms /\ ms_elems ms !! (mem - ELEM_HDR_SIZE) = None)).
Proof.
  intros Hwf. unfold allocate_from_mempool.
  destruct (find_mem_pool size (ms_pools ms)) as [p|] eqn:Ef.
  - apply find_mem_pool_Some in Ef as [Hin <-].
    destruct (pool_elems p) as [|e es] eqn:Ee.
    + destruct (alloc_fresh ms p Hwf Hin) as (Hwf' & Hho & Hf & Hn).
      eexists _, _. split; [reflexivity|]. split_and!; [done|done|]. right. simpl. by rewrite Nat.add_sub.
    + destruct (alloc_pop ms p e es Hwf Hin Ee) as (el & Hel & Hwf' & Hho & Hf).
      rewrite Hel. eexists _, _. split; [reflexivity|]. eauto.
  - pose proof (wf_new_pool ms size Hwf (find_mem_pool_None _ _ Ef)) as Hwf1.
    destruct (alloc_fresh _ (mk_pool (ms_brk ms) size []) Hwf1 (list_elem_of_here _ _))
      as (Hwf' & Hho & Hf & Hn).
    eexists _, _. split; [reflexivity|]. split_and!; [done|done|]. right.
    cbn [e_mem ms_brk]. rewrite Nat.add_sub. split; [done|]. apply wf_elems_brk; [done|simpl; lia].
Qed.

(** [return_to_mempool] on a handed-out buffer of size [size] passes the
    magic check, keeps the invariant and puts the buffer back on the
    free list of the pool of that size, at its head. *)
Theorem return_to_mempool_spec ms mem size :
  mp_wf ms -> handed_out ms mem size ->
  exists ms', return_to_mempool ms mem = Some ms' /\ mp_wf ms' /\
    mp_free ms' ≡ₚ mem - ELEM_HDR_SIZE :: mp_free ms /\
    exists p, find_mem_pool size (ms_pools ms') = Some p /\
              head (pool_elems p) = Some (mem - ELEM_HDR_SIZE).
Proof.
  intros Hwf (_ & (el & p & Hel & _ & Hin & Ha & <-) & Hfree).
  pose proof Hwf as (Hna & Hns & _ & _ & Hm).
  pose proof (Hm _ _ Hel) as (Hmag & _).
  unfold return_to_mempool. rewrite Hel. simpl. rewrite Hmag, Z.eqb_refl. simpl.
  rewrite <-Ha, (pool_at_in _ p Hna Hin). simpl.
  destruct (wf_push ms p (mem - ELEM_HDR_SIZE) Hwf Hin) as [Hwf' Hf];
    [unfold elem_of_pool; by rewrite Hel, Ha|done|].
  eexists. split; [reflexivity|]. split_and!; [done|done|].
  eexists. split; [by apply find_set_pool_elems|done].
Qed.

(** C8: a buffer returned to the pool is the next one handed out for its
    size: allocating, returning and allocating again gives the same
    buffer and the same pool state as the first allocation. *)
Theorem mempool_roundtrip ms size ms1 mem :
  mp_wf ms -> allocate_from_mempool ms size = Some (ms1, mem) ->
  exists ms2, return_to_mempool ms1 mem = Some ms2 /\
              allocate_from_mempool ms2 size = Some (ms1, mem).
Proof.
  intros Hwf Ha. destruct (allocate_from_mempool_spec ms size Hwf) as (ms' & mem' & E & Hwf1 & Hho & _).
  rewrite Ha in E. injection E as <- <-.
  pose proof Hho as (_ & (el & p & Hel & Hmem & Hin & Hpa & Hsz) & Hfree).
  pose proof Hwf1 as (Hna & Hns & _ & _ & Hm). pose proof (Hm _ _ Hel) as (Hmag & _).
  unfold return_to_mempool. rewrite Hel. simpl. rewrite Hmag, Z.eqb_refl. simpl.
  rewrite <-Hpa, (pool_at_in _ p Hna Hin). simpl.
  eexists. split; [reflexivity|]. unfold allocate_from_mempool. simpl.
  rewrite (find_set_pool_elems _ _ p _ Hna Hns Hin Hsz). simpl. rewrite Hel. simpl. rewrite Hmem.
  rewrite set_pool_elems_twice, (set_pool_elems_id _ p Hna Hin). by destruct ms1.
Qed.
End Ops.

(** ** Witnesses *)

Lemma allocate_from_mempool_spec_witness :
  mp_wf ex_mp /\
  exists ms' mem, allocate_from_mempool ex_mp 16 = Some (ms', mem) /\ mp_wf ms' /\
    handed_out ms' mem 16 /\
    ((mem - ELEM_HDR_SIZE :: mp_free ms' ≡ₚ mp_free ex_mp) \/
     (mp_free ms' = mp_free ex_mp /\ ms_elems ex_mp !! (mem - ELEM_HDR_SIZE) = None)).
Proof.
  assert (H : mp_wf ex_mp) by wit_decide.
  split; [exact H|]. exact (allocate_from_mempool_spec ex_mp 16 H).
Defined.

Lemma return_to_mempool_spec_witness :
  mp_wf ex_mp_out /\ handed_out ex_mp_out 34 64 /\
  exists ms', return_to_mempool ex_mp_out 34 = Some ms' /\ mp_wf ms' /\
    mp_free ms' ≡ₚ 34 - ELEM_HDR_SIZE :: mp_free ex_mp_out /\
    exists p, find_mem_pool 64 (ms_pools ms') = Some p /\
              head (pool_elems p) = Some (34 - ELEM_HDR_SIZE).
Proof.
  assert (H1 : mp_wf ex_mp_out) by wit_decide.
  assert (H2 : handed_out ex_mp_out 34 64).
  { split; [vm_compute; lia|]. split.
    - exists (mk_elem MEMPOOL_MAGIC_NUM 1 34), (mk_pool 1 64 [98]).
      split_and!; [vm_compute; reflexivity|reflexivity|left|reflexivity|reflexivity].
    - vm_compute. intros Hin. set_solver. }
  split; [exact H1|]. split; [exact H2|]. exact (return_to_mempool_spec ex_mp_out 34 64 H1 H2).
Defined.

Lemma mempool_roundtrip_witness :
  mp_wf ex_mp /\ allocate_from_mempool ex_mp 64 = Some (ex_mp_out, 34) /\
  exists ms2, return_to_mempool ex_mp_out 34 = Some ms2 /\
              allocate_from_mempool ms2 64 = Some (ex_mp_out, 34).
Proof.
  assert (H1 : mp_wf ex_mp) by wit_decide.
  assert (H2 : allocate_from_mempool ex_mp 64 = Some (ex_mp_out, 34)) by (vm_compute; reflexivity).
  split; [exact H1|]. split; [exact H2|]. exact (mempool_roundtrip ex_mp 64 ex_mp_out 34 H1 H2).
Defined.
