(* ===== verification/Lifecycle.v ===== *)
(** * The task life cycle

    [dart_tasking_instrumentation.c]: the allocation of descriptors
    ([allocate_task], the per-thread free lists and memory pools),
    [create_task] and [dart__tasking__create_task],
    [dart__tasking__enqueue_runnable], [handle_task],
    [handle_inline_task], [requeue_task], [dart__tasking__destroy_task],
    [dart__tasking__taskref_free], [dart__tasking__task_wait] and
    [dart__tasking__task_test].

    The runtime state [runtime] extends the scheduler state with the
    globals these routines use: [task_free_lists] (one stack per
    thread), the thread-private [__taskpool] of each thread, the
    deferred queue [local_deferred_tasks], the tasks handed to the wait
    engine, and the next address [malloc] returns.

    The modules these routines call but that are not among the sources
    (dependency engine, phases, cancellation, remote progress, the wait
    engine) are the parameters [ext] of the operations: their answers
    are inputs of the model, and their effects on the runtime state are
    those the specification gives them. *)

From S2P Require Import Prelude Task TaskQueue Scheduler Context.

(** ** Descriptor allocation *)

(** [TASK_MEMPOOL_SIZE], line 488. *)
Definition TASK_MEMPOOL_SIZE : nat := 64.

(** [struct task_mempool], lines 492-496: the descriptors of a pool are
    the addresses [base], ..., [base + 63]; [pos] is the next one. *)
Record task_mempool := mk_mempool { mp_base : nat; mp_pos : nat }.

Record runtime := mk_rt {
  r_sched : sched;
  r_free : list (list nat);                 (* task_free_lists[thread] *)
  r_taskpool : list (option task_mempool);  (* __taskpool of each thread *)
  r_deferred : dart_taskqueue;              (* local_deferred_tasks *)
  r_wait : list nat;                        (* tasks passed to dart__task__wait_enqueue *)
  r_brk : nat;                              (* the next address malloc returns *)
  r_ctx : ctx_state                         (* the context pool *)
}.

Definition r_heap (r : runtime) : heap := s_heap (r_sched r).

Definition set_sched (s : sched) (r : runtime) : runtime :=
  mk_rt s (r_free r) (r_taskpool r) (r_deferred r) (r_wait r) (r_brk r) (r_ctx r).

Definition set_rheap (h : heap) (r : runtime) : runtime := set_sched (set_heap h (r_sched r)) r.

Definition set_free (fl : list (list nat)) (r : runtime) : runtime :=
  mk_rt (r_sched r) fl (r_taskpool r) (r_deferred r) (r_wait r) (r_brk r) (r_ctx r).

Definition set_taskpool (tp : list (option task_mempool)) (brk : nat) (r : runtime) : runtime :=
  mk_rt (r_sched r) (r_free r) tp (r_deferred r) (r_wait r) brk (r_ctx r).

Definition set_deferred (q : dart_taskqueue) (r : runtime) : runtime :=
  mk_rt (r_sched r) (r_free r) (r_taskpool r) q (r_wait r) (r_brk r) (r_ctx r).

Definition push_wait (x : nat) (r : runtime) : runtime :=
  mk_rt (r_sched r) (r_free r) (r_taskpool r) (r_deferred r) (x :: r_wait r) (r_brk r) (r_ctx r).

Definition set_ctx (cs : ctx_state) (r : runtime) : runtime :=
  mk_rt (r_sched r) (r_free r) (r_taskpool r) (r_deferred r) (r_wait r) (r_brk r) cs.

(** A store through a task pointer in the runtime's heap. *)
Definition rupd (r : runtime) (x : nat) (f : task -> task) : option runtime :=
  h' ← hupd (r_heap r) (Some x) f; Some (set_rheap h' r).

(** Memory that [malloc] returns is not initialised; the model reads it
    as a descriptor whose fields are all zero or NULL. *)
Definition blank_task : task :=
  {| t_next := NULL; t_prev := NULL; t_flags := 0; t_prio := 0; t_state := DART_TASK_NASCENT;
     t_parent := NULL; t_num_children := 0; t_unresolved_deps := 0;
     t_unresolved_remote_deps := 0; t_phase := 0; t_instance := 0; t_owner := 0;
     t_taskctx := NULL; t_wait_handle := NULL; t_fn := NULL |}.

(** [allocate_task], lines 966-993 (with the memory pool): pop the
    thread's free list; when it is empty, take the next descriptor of
    the thread's pool, starting a new pool when there is none or when
    [pos == TASK_MEMPOOL_SIZE-1]. *)
Definition allocate_task (r : runtime) (me : nat) : option (runtime * nat) :=
  fl ← r_free r !! me;
  match fl with
  | x :: fl' => Some (set_free (<[me := fl']> (r_free r)) r, x)
  | [] =>
      pool ← r_taskpool r !! me;
      let '(p, brk) :=
        match pool with
        | Some p => if mp_pos p =? TASK_MEMPOOL_SIZE - 1
                    then (mk_mempool (r_brk r) 0, r_brk r + TASK_MEMPOOL_SIZE)
                    else (p, r_brk r)
        | None => (mk_mempool (r_brk r) 0, r_brk r + TASK_MEMPOOL_SIZE)
        end in
      let x := mp_base p + mp_pos p in
      let r1 := set_taskpool (<[me := Some (mk_mempool (mp_base p) (S (mp_pos p)))]> (r_taskpool r))
                             brk r in
      let t := default blank_task (r_heap r !! x) in
      Some (set_rheap (<[x := set_owner me t]> (r_heap r1)) r1, x)
  end.

(** [dart__tasking__destroy_task], lines 1080-1106: the descriptor goes
    back onto the free list of its owner.  (Freeing the data buffer,
    the phase count and [dart_tasking_datadeps_reset] touch no state of
    the model.) *)
Definition destroy_task (r : runtime) (x : nat) : option runtime :=
  t ← r_heap r !! x;
  r1 ← rupd r x (set_state DART_TASK_DESTROYED);
  fl ← r_free r1 !! t_owner t;
  Some (set_free (<[t_owner t := x :: fl]> (r_free r1)) r1).

(** ** Threads of the runtime *)

Definition get_me (r : runtime) (me : nat) : option dart_thread := get_thread (r_sched r) me.

Definition set_me (r : runtime) (me : nat) (th : dart_thread) : runtime :=
  set_sched (set_thread me th (r_sched r)) r.

(** [set_current_task], lines 853-857. *)
Definition set_current (r : runtime) (me : nat) (v : option nat) : option runtime :=
  th ← get_me r me; Some (set_me r me (set_th_current_task v th)).

Definition incr_taskcntr (r : runtime) (me : nat) : option runtime :=
  th ← get_me r me; Some (set_me r me (incr_th_taskcntr th)).

(** [parent->num_children] incremented or decremented. *)
Definition add_children (r : runtime) (p : nat) (d : Z) : option runtime :=
  rupd r p (fun tp => set_num_children (t_num_children tp + d) tp).

(** The function pointer [wrap_task] that every task context runs. *)
Definition wrap_task_fn : nat := 0.

(** ** The modules outside the sources

    [x_cancel]: [dart__tasking__cancellation_requested()];
    [x_phase_current], [x_phase_runnable]: the phase module;
    [x_comm_enqueued]: the flag [dart_tasking_remote_handle_comm_task]
    sets; [x_numa_node]: the NUMA node of [task->numaptr] (0 unless
    NUMA placement is on); [x_run]: the task's function, from its
    invocation to the moment control comes back to the scheduler;
    [x_release]: [dart_tasking_datadeps_release_local_task]. *)
Record ext := mk_ext {
  x_cancel : bool;
  x_phase_current : Z;
  x_phase_runnable : Z -> bool;
  x_comm_enqueued : bool;
  x_numa_node : nat;
  x_run : runtime -> nat -> option runtime;
  x_release : runtime -> nat -> option runtime
}.

(** The result of [dart__tasking__enqueue_runnable]: which return path
    the call took. *)
Inductive enq_outcome :=
| ENQ_CANCELLED | ENQ_REFUSED | ENQ_DEFERRED | ENQ_COMM | ENQ_INLINE | ENQ_SLOT | ENQ_QUEUE.

Section Ops.
Context (DART_PHASE_ANY : Z) (var_space_size : nat) (e : ext).

(** [create_task], lines 996-1078, on thread [me]: the fields it stores
    ([next] and [owner] are kept; [instance] is incremented, never
    reset). *)
Definition create_task (r : runtime) (me fn data_size : nat) (prio : Z)
    : option (runtime * nat) :=
  '(r1, x) ← allocate_task r me;
  th ← get_me r1 me;
  parent ← th_current_task th;
  tp ← r_heap r1 !! parent;
  t ← r_heap r1 !! x;
  let f0 := if (0 <? data_size) && (var_space_size <? data_size)
            then DART_TASK_DATA_ALLOCATED else 0%Z in
  let phase := if bool_decide (t_state tp = DART_TASK_ROOT)
               then x_phase_current e else DART_PHASE_ANY in
  let '(prio', fl) :=
    if (prio =? DART_PRIO_PARENT)%Z then (t_prio tp, f0)
    else if (prio =? DART_PRIO_INLINE)%Z
    then (DART_PRIO_HIGH, Z.lor (Z.lor f0 DART_TASK_INLINE) DART_TASK_IMMEDIATE)
    else (prio, f0) in
  let t' := {| t_next := t_next t; t_prev := NULL; t_flags := fl; t_prio := prio';
               t_state := DART_TASK_NASCENT; t_parent := Some parent; t_num_children := 0;
               t_unresolved_deps := 0; t_unresolved_remote_deps := 0; t_phase := phase;
               t_instance := t_instance t + 1; t_owner := t_owner t; t_taskctx := NULL;
               t_wait_handle := NULL; t_fn := Some fn |} in
  Some (set_rheap (<[x := t']> (r_heap r1)) r1, x).

(** [dart__tasking__allocate_dummytask], lines 1109-1123: [memset] the
    whole descriptor to zero, then state and parent. *)
Definition allocate_dummytask (r : runtime) (me : nat) : option (runtime * nat) :=
  '(r1, x) ← allocate_task r me;
  th ← get_me r1 me;
  parent ← th_current_task th;
  tp ← r_heap r1 !! parent;
  let phase := if bool_decide (t_state tp = DART_TASK_ROOT)
               then x_phase_current e else DART_PHASE_ANY in
  let t' := {| t_next := NULL; t_prev := NULL; t_flags := 0; t_prio := 0;
               t_state := DART_TASK_DUMMY; t_parent := Some parent; t_num_children := 0;
               t_unresolved_deps := 0; t_unresolved_remote_deps := 0; t_phase := phase;
               t_instance := 0; t_owner := 0; t_taskctx := NULL; t_wait_handle := NULL;
               t_fn := NULL |} in
  Some (set_rheap (<[x := t']> (r_heap r1)) r1, x).

(** [requeue_task], lines 615-627: back into the queue of the thread's
    NUMA node, at the head ([delay == 0]), at position [delay]
    ([delay > 0]) or at the tail ([delay < 0]). *)
Definition requeue_task (r : runtime) (me x : nat) : option runtime :=
  th ← get_me r me;
  let idx := th_numa th in
  q ← s_queues (r_sched r) !! idx;
  let delay := th_delay th in
  '(h', q') ← (if (delay =? 0)%Z then dart_tasking_taskqueue_push (r_heap r) q x
               else if (0 <? delay)%Z then dart_tasking_taskqueue_insert (r_heap r) q x (Z.to_nat delay)
               else dart_tasking_taskqueue_pushback (r_heap r) q x);
  Some (set_sched (set_queues (<[idx := q']> (s_queues (r_sched r))) (set_heap h' (r_sched r))) r).

(** [dart__tasking__context_release(task->taskctx); task->taskctx = NULL;] *)
Definition release_ctx (r : runtime) (x : nat) : option runtime :=
  t ← r_heap r !! x;
  c ← t_taskctx t;
  '(cs', _) ← context_release (r_ctx r) c;
  rupd (set_ctx cs' r) x (set_taskctx NULL).

(** [invoke_task] ([USE_UCONTEXT]), lines 643-668: unless cancellation
    is requested, create the task's context on its first invocation,
    make it the current task and run it. *)
Definition invoke_task (r : runtime) (me x : nat) : option runtime :=
  if x_cancel e then set_current r me (Some x)
  else
    t ← r_heap r !! x;
    r1 ← (match t_taskctx t with
          | Some _ => Some r
          | None =>
              dart_assert (bool_decide (is_Some (t_fn t)))
                ('(cs', c) ← context_create (r_ctx r) me wrap_task_fn x;
                 rupd (set_ctx cs' r) x (set_taskctx (Some c)))
          end);
    r2 ← set_current r1 me (Some x);
    x_run e r2 x.

(** The end of a task: release its dependencies, mark it finished,
    destroy it unless a reference is held, and tell the parent. *)
Definition finish_task (r : runtime) (x : nat) (with_ctx : bool) : option runtime :=
  r1 ← x_release e r x;
  r2 ← rupd r1 x (set_state DART_TASK_FINISHED);
  t2 ← r_heap r2 !! x;
  r3 ← (if with_ctx then release_ctx r2 x else Some r2);
  parent ← t_parent t2;
  r4 ← (if has_flag t2 DART_TASK_HAS_REF then Some r3 else destroy_task r3 x);
  add_children r4 parent (-1).

(** [next_task] on the runtime, retried once after remote progress
    (whose effect lies outside the model). *)
Definition next_task_retry (r : runtime) (me : nat) : option (runtime * option nat) :=
  '(s1, nt) ← next_task (r_sched r) me;
  match nt with
  | Some _ => Some (set_sched s1 r, nt)
  | None => '(s2, nt2) ← next_task s1 me; Some (set_sched s2 r, nt2)
  end.

(** [handle_task] (lines 1144-1251), [handle_inline_task] (lines
    1258-1322), [dart__tasking__handle_task_internal] (lines 1325-1333)
    and the loop of [dart__tasking__task_complete] (lines 1905-1917),
    which call one another; [fuel] bounds the depth of the nesting and
    the iterations of the loop.  After [invoke_task] returns, [handle_task]
    reads the thread's current task ([prev_task], line 1178) and, on the
    completion path, reads it again ([task = get_current_task()], line
    1209), as the source does.  The assertion [IS_ACTIVE_TASK(task)]
    (line 1154) is not modelled: the macro is defined in a header
    outside the sources. *)
Fixpoint handle_task_internal (fuel : nat) (r : runtime) (me : nat) (task : option nat)
    {struct fuel} : option runtime :=
  match fuel with
  | 0 => None
  | S f =>
      match task with
      | None => Some r
      | Some x =>
          t ← r_heap r !! x;
          if has_flag t DART_TASK_INLINE then handle_inline_task f r me x
          else handle_task f r me x
      end
  end
with handle_task (fuel : nat) (r : runtime) (me x : nat) {struct fuel} : option runtime :=
  match fuel with
  | 0 => None
  | S f =>
      th ← get_me r me;
      let current := th_current_task th in
      t ← r_heap r !! x;
      dart_assert ((t_unresolved_deps t =? 0)%Z && (t_unresolved_remote_deps t =? 0)%Z)
       (r1 ← rupd r x (set_state DART_TASK_RUNNING);
        r2 ← invoke_task r1 me x;
        th2 ← get_me r2 me;
        prev ← th_current_task th2;                 (* prev_task = dart_task_current_task() *)
        t2 ← r_heap r2 !! prev;
        r3 ← (match t_state t2 with
              | DART_TASK_DETACHED => r' ← release_ctx r2 x; Some (push_wait prev r')
              | DART_TASK_BLOCKED => Some (push_wait prev r2)
              | DART_TASK_SUSPENDED => requeue_task r2 me prev
              | st =>
                  dart_assert (bool_decide (st = DART_TASK_RUNNING \/ st = DART_TASK_CANCELLED))
                   (r' ← (if negb (t_num_children t2 =? 0)%Z && negb (x_cancel e)
                          then task_complete_loop f r2 me prev else Some r2);
                    th' ← get_me r' me;
                    cur ← th_current_task th';          (* task = get_current_task() *)
                    dart_assert (negb (cur =? root_task_id))
                     (r'' ← finish_task r' cur true;
                      incr_taskcntr r'' me))
              end);
        set_current r3 me current)
  end
with handle_inline_task (fuel : nat) (r : runtime) (me x : nat) {struct fuel} : option runtime :=
  match fuel with
  | 0 => None
  | S f =>
      t ← r_heap r !! x;
      dart_assert (bool_decide (is_Some (t_fn t)))
       (th ← get_me r me;
        let current := th_current_task th in
        r1 ← rupd r x (set_state DART_TASK_RUNNING);
        r2 ← set_current r1 me (Some x);
        r3 ← x_run e r2 x;
        t3 ← r_heap r3 !! x;
        r4 ← (if negb (t_num_children t3 =? 0)%Z && negb (x_cancel e)
              then task_complete_loop f r3 me x else Some r3);
        t4 ← r_heap r4 !! x;
        r5 ← (if bool_decide (t_state t4 = DART_TASK_DETACHED) then Some (push_wait x r4)
              else finish_task r4 x false);
        r6 ← set_current r5 me current;
        incr_taskcntr r6 me)
  end
with task_complete_loop (fuel : nat) (r : runtime) (me x : nat) {struct fuel} : option runtime :=
  match fuel with
  | 0 => None
  | S f =>
      t ← r_heap r !! x;
      if (0 <? t_num_children t)%Z then
        '(r1, nt) ← next_task_retry r me;
        r2 ← handle_task_internal f r1 me nt;
        task_complete_loop f r2 me x
      else Some r
  end.

(** [dart__tasking__enqueue_runnable], lines 1658-1756, on thread [me].
    [fuel] is passed to [handle_inline_task] for an immediate task.
    (When cancellation is requested the task goes to
    [dart__tasking__cancel_task], which is outside the sources.) *)
Definition enqueue_runnable (fuel : nat) (r : runtime) (me x : nat)
    : option (runtime * enq_outcome) :=
  if x_cancel e then Some (r, ENQ_CANCELLED)
  else
    t ← r_heap r !! x;
    if bool_decide (t_state t = DART_TASK_DEFERRED) then Some (r, ENQ_REFUSED)
    else
      let queued :=
        match t_state t with
        | DART_TASK_CREATED => if datadeps_is_runnable t then Some DART_TASK_QUEUED else None
        | DART_TASK_SUSPENDED => Some DART_TASK_SUSPENDED
        | _ => None
        end in
      match queued with
      | None => Some (r, ENQ_REFUSED)
      | Some st =>
          r1 ← rupd r x (set_state st);
          t1 ← r_heap r1 !! x;
          p ←
            (if bool_decide (t_parent t1 = Some root_task_id) && negb (x_phase_runnable e (t_phase t1))
             then
               if bool_decide (t_state t1 = DART_TASK_CREATED \/ t_state t1 = DART_TASK_QUEUED) then
                 r' ← rupd r1 x (set_state DART_TASK_DEFERRED);
                 '(h', q') ← dart_tasking_taskqueue_pushback_unsafe (r_heap r') (r_deferred r') x;
                 Some (set_deferred q' (set_rheap h' r'), true)
               else Some (r1, false)
             else Some (r1, false));
          let '(r2, enqueued) := (p : runtime * bool) in
          if enqueued then Some (r2, ENQ_DEFERRED)
          else if has_flag t1 DART_TASK_IS_COMMTASK && x_comm_enqueued e then Some (r2, ENQ_COMM)
          else if has_flag t1 DART_TASK_IMMEDIATE then
            r3 ← handle_inline_task fuel r2 me x; Some (r3, ENQ_INLINE)
          else
            th ← get_me r2 me;
            let numa := x_numa_node e in
            match (if negb (th_is_utility th) && (numa =? th_numa th)
                   then slot_put x (th_queue th) else None) with
            | Some q' => Some (set_me r2 me (set_th_queue q' th), ENQ_SLOT)
            | None =>
                q ← s_queues (r_sched r2) !! numa;
                '(h', q') ← dart_tasking_taskqueue_push (r_heap r2) q x;
                Some (set_sched (set_queues (<[numa := q']> (s_queues (r_sched r2)))
                                            (set_heap h' (r_sched r2))) r2, ENQ_QUEUE)
            end
      end.

(** [dart__tasking__create_task], lines 1759-1811: [with_ref] says
    whether [ref] is non-NULL; [udeps] and [rdeps] are the unresolved
    local and remote dependencies [dart_tasking_datadeps_handle_task]
    registers.  The result carries the task created, [NULL] when the
    creation is ignored under cancellation; it is also the value
    stored to [*ref] when [with_ref] holds (under cancellation [*ref]
    is not written). *)
Definition dart__tasking__create_task (fuel : nat) (r : runtime) (me fn data_size : nat)
    (udeps rdeps prio flags : Z) (with_ref : bool) : option (runtime * option nat) :=
  if x_cancel e then Some (r, NULL)
  else
    '(r1, x) ← create_task r me fn data_size prio;
    r2 ← (if with_ref then rupd r1 x (set_flag DART_TASK_HAS_REF) else Some r1);
    r3 ← (if negb (Z.land flags DART_TASK_NOYIELD =? 0)%Z
          then rupd r2 x (set_flag DART_TASK_INLINE) else Some r2);
    t3 ← r_heap r3 !! x;
    parent ← t_parent t3;
    r4 ← add_children r3 parent 1;
    r5 ← rupd r4 x (set_unresolved udeps rdeps);
    r6 ← rupd r5 x (set_state DART_TASK_CREATED);
    t6 ← r_heap r6 !! x;
    r7 ← (if datadeps_is_runnable t6 then fst <$> enqueue_runnable fuel r6 me x else Some r6);
    Some (r7, Some x).

(** [dart__tasking__mark_detached], lines 545-550. *)
Definition mark_detached (r : runtime) (x : nat) : option runtime :=
  rupd r x (set_state DART_TASK_DETACHED).

(** [dart__tasking__release_detached], lines 553-583. *)
Definition release_detached (r : runtime) (x : nat) : option runtime :=
  t ← r_heap r !! x;
  dart_assert (bool_decide (t_state t = DART_TASK_DETACHED)) (finish_task r x false).

(** [dart__tasking__taskref_free], lines 1938-1958.  [tr] is the
    argument: [None] for a NULL pointer, [Some v] for a pointer to the
    reference [v]; the result carries the new value of [*tr]. *)
Definition taskref_free (r : runtime) (tr : option (option nat))
    : option (runtime * option (option nat) * dart_ret) :=
  match tr with
  | None | Some None => Some (r, tr, DART_ERR_INVAL)
  | Some (Some x) =>
      r1 ← rupd r x (unset_flag DART_TASK_HAS_REF);
      t ← r_heap r1 !! x;
      if bool_decide (t_state t = DART_TASK_FINISHED) then
        r2 ← destroy_task r1 x; Some (r2, Some NULL, DART_OK)
      else Some (r1, tr, DART_OK)
  end.

(** The loop of [dart__tasking__task_wait], lines 1972-1989: run tasks
    until the awaited one is finished. *)
Fixpoint wait_loop (fuel : nat) (r : runtime) (me x : nat) : option runtime :=
  match fuel with
  | 0 => None
  | S f =>
      t ← r_heap r !! x;
      if bool_decide (t_state t = DART_TASK_FINISHED) then Some r
      else
        '(r1, nt) ← next_task_retry r me;
        r2 ← handle_task_internal f r1 me nt;
        wait_loop f r2 me x
  end.

(** [dart__tasking__task_wait], lines 1961-1998. *)
Definition task_wait (fuel : nat) (r : runtime) (me : nat) (tr : option (option nat))
    : option (runtime * option (option nat) * dart_ret) :=
  match tr with
  | None | Some None => Some (r, tr, DART_ERR_INVAL)
  | Some (Some x) =>
      t ← r_heap r !! x;
      if bool_decide (t_state t = DART_TASK_DESTROYED) then Some (r, tr, DART_ERR_INVAL)
      else
        r1 ← wait_loop fuel r me x;
        r2 ← rupd r1 x (unset_flag DART_TASK_HAS_REF);
        r3 ← destroy_task r2 x;
        Some (r3, Some NULL, DART_OK)
  end.

(** [dart__tasking__task_test], lines 2001-2037: [flag_null] says
    whether [flag] is NULL; the result carries [*tr], [*flag] (when
    written) and the return code. *)
Definition task_test (fuel : nat) (r : runtime) (me : nat) (tr : option (option nat))
    (flag_null : bool) : option (runtime * option (option nat) * option Z * dart_ret) :=
  if flag_null then Some (r, tr, @None Z, DART_ERR_INVAL)
  else
    match tr with
    | None | Some None => Some (r, tr, Some 0%Z, DART_ERR_INVAL)
    | Some (Some x) =>
        t ← r_heap r !! x;
        if bool_decide (t_state t = DART_TASK_DESTROYED) then Some (r, tr, Some 0%Z, DART_ERR_INVAL)
        else
          r1 ← (if (s_num_threads (r_sched r) =? 1) && negb (bool_decide (t_state t = DART_TASK_FINISHED))
                then '(r', nt) ← next_task_retry r me; handle_task_internal fuel r' me nt
                else Some r);
          t1 ← r_heap r1 !! x;
          if bool_decide (t_state t1 = DART_TASK_FINISHED) then
            r2 ← destroy_task r1 x; Some (r2, Some NULL, Some 1%Z, DART_OK)
          else Some (r1, tr, Some 0%Z, DART_OK)
    end.
End Ops.

(** ** Concrete states for the witnesses

    [ex_rt]: the scheduler state [ex_sched] with the root task (0), a
    running task 5 that holds a reference, and a created runnable task
    6, all children of the root; the context pool [ex_cs]. *)
Definition ex_ext (cancel : bool) : ext :=
  {| x_cancel := cancel; x_phase_current := 0; x_phase_runnable := fun _ => true;
     x_comm_enqueued := false; x_numa_node := 0; x_run := fun r _ => Some r;
     x_release := fun r _ => Some r |}.

Definition ex_created_task : task := set_state DART_TASK_CREATED (ex_task DART_PRIO_LOW).

Definition ex_ref_task : task :=
  set_state DART_TASK_RUNNING (set_flag DART_TASK_HAS_REF (ex_task DART_PRIO_LOW)).

Definition ex_rt : runtime :=
  {| r_sched := set_heap (<[0 := root_task]> (<[5 := ex_ref_task]> (<[6 := ex_created_task]>
                            (s_heap ex_sched)))) ex_sched;
     r_free := [[]; []]; r_taskpool := [None; None]; r_deferred := dart_tasking_taskqueue_init;
     r_wait := []; r_brk := 100; r_ctx := ex_cs |}.

(** [ex_rt] with a pool of thread 0 at its last position, and with
    descriptor 2 on the free list of thread 0. *)
Definition ex_rt_pool : runtime := set_taskpool [Some (mk_mempool 36 63); None] 100 ex_rt.

Definition ex_rt_free : runtime := set_free [[2]; []] ex_rt.

Definition ex_task2 : task := default blank_task (r_heap ex_rt_free !! 2).

(** ** The end of a referenced task

    [x] was destroyed once between [r] and [r']: it is marked
    destroyed and was pushed once on the free list of its owner [o]. *)
Definition destroyed_once (r r' : runtime) (x o : nat) : Prop :=
  (exists t', r_heap r' !! x = Some t' /\ t_state t' = DART_TASK_DESTROYED) /\
  exists fl, r_free r !! o = Some fl /\ r_free r' = <[o := x :: fl]> (r_free r).

(** ** Allocation of descriptors *)

Section Allocation.

(** C40: [allocate_task] starts a new pool when the current one has
    [pos == TASK_MEMPOOL_SIZE-1]: the last descriptor of every pool,
    [base + 63], is never handed out, and a pool of 64 descriptors
    serves 63 tasks. *)
Theorem allocate_task_skips_last_slot r me p :
  r_free r !! me = Some [] -> r_taskpool r !! me = Some (Some p) ->
  mp_pos p = TASK_MEMPOOL_SIZE - 1 ->
  exists r', allocate_task r me = Some (r', r_brk r) /\
    r_taskpool r' !! me = Some (Some (mk_mempool (r_brk r) 1)) /\
    r_brk r' = r_brk r + TASK_MEMPOOL_SIZE.
Proof.
  intros Hf Hp Hpos. unfold allocate_task. rewrite Hf. simpl. rewrite Hp. simpl.
  rewrite Hpos, Nat.eqb_refl. simpl.
  eexists. split; [by rewrite Nat.add_0_r|].
  split; [|done]. simpl. apply list_lookup_insert_eq. by eapply lookup_lt_Some.
Qed.
End Allocation.

Lemma allocate_task_free r me x fl :
  r_free r !! me = Some (x :: fl) -> allocate_task r me = Some (set_free (<[me := fl]> (r_free r)) r, x).
Proof. intros Hf. unfold allocate_task. by rewrite Hf. Qed.

Lemma get_me_set_free r l me : get_me (set_free l r) me = get_me r me.
Proof. done. Qed.

Lemma r_heap_set_free r l : r_heap (set_free l r) = r_heap r.
Proof. done. Qed.

(** a descriptor taken from the free list keeps its [instance]
    counter and its [owner] under [create_task] ("never reset the
    instance counter", "owner is only set once"), but
    [dart__tasking__allocate_dummytask] clears the whole descriptor with
    [memset]: the recycled descriptor restarts at instance 0 and
    belongs to thread 0. *)
Theorem allocate_dummytask_resets_instance PA vs e r me x fl t th p tp fn ds prio :
  r_free r !! me = Some (x :: fl) -> r_heap r !! x = Some t ->
  get_me r me = Some th -> th_current_task th = Some p -> r_heap r !! p = Some tp ->
  (exists r' t', create_task PA vs e r me fn ds prio = Some (r', x) /\ r_heap r' !! x = Some t' /\
     t_instance t' = (t_instance t + 1)%Z /\ t_owner t' = t_owner t) /\
  (exists r' t', allocate_dummytask PA e r me = Some (r', x) /\ r_heap r' !! x = Some t' /\
     t_instance t' = 0%Z /\ t_owner t' = 0 /\ t_state t' = DART_TASK_DUMMY).
Proof.
  intros Hf Ht Hth Hp Htp.
  split; [unfold create_task|unfold allocate_dummytask];
    rewrite (allocate_task_free _ _ _ _ Hf); cbn -[get_me r_heap set_free];
    rewrite get_me_set_free, Hth; cbn -[get_me r_heap set_free];
    rewrite Hp; cbn -[get_me r_heap set_free]; rewrite r_heap_set_free, Htp; cbn -[get_me r_heap set_free].
  - rewrite Ht. cbn -[get_me r_heap set_free].
    destruct (if (prio =? DART_PRIO_PARENT)%Z then _ else _) as [prio' fl'].
    eexists _, _. split; [reflexivity|]. unfold r_heap. simpl. rewrite lookup_insert_eq. done.
  - eexists _, _. split; [reflexivity|]. unfold r_heap. simpl. rewrite lookup_insert_eq. done.
Qed.

Section RefProtocol.
Context (e : ext) (r : runtime) (x p o : nat) (t tp : task) (fl : list nat).
Hypothesis Hrel : forall r0, x_release e r0 x = Some r0.
Hypothesis Ht : r_heap r !! x = Some t.
Hypothesis Hflag : has_flag t DART_TASK_HAS_REF = true.
Hypothesis Hpar : t_parent t = Some p.
Hypothesis Hpx : p <> x.
Hypothesis Htp : r_heap r !! p = Some tp.
Hypothesis Hown : t_owner t = o.
Hypothesis Hfl : r_free r !! o = Some fl.

Lemma has_flag_set_state s t0 f : has_flag (set_state s t0) f = has_flag t0 f.
Proof. done. Qed.

(** Evaluate stores and loads through the runtime's heap. *)
Ltac rt_simpl :=
  unfold rupd, add_children, destroy_task, r_heap, set_rheap, set_sched, set_heap, set_free in *;
  simpl in *; heap_simpl.

(** The task finishes while the reference is held, then the reference is freed. *)
Lemma finish_then_free :
  exists r1 r2, finish_task e r x false = Some r1 /\
    taskref_free r1 (Some (Some x)) = Some (r2, Some NULL, DART_OK) /\ destroyed_once r r2 x o.
Proof.
  unfold finish_task. rewrite Hrel. rt_simpl. rewrite has_flag_set_state, Hflag. rt_simpl.
  eexists _, _. split; [reflexivity|]. unfold taskref_free. rt_simpl.
  split; [reflexivity|]. unfold destroyed_once, r_heap. simpl.
  split; [eexists; split; [by simplify_map_eq|done]|]. by exists fl.
Qed.

(** The reference is freed while the task runs, then the task finishes. *)
Lemma free_then_finish :
  t_state t <> DART_TASK_FINISHED ->
  exists r1 r2, taskref_free r (Some (Some x)) = Some (r1, Some (Some x), DART_OK) /\
    finish_task e r1 x false = Some r2 /\ destroyed_once r r2 x o.
Proof.
  intros Hst. unfold taskref_free. rt_simpl. rewrite bool_decide_false by done.
  eexists _, _. split; [reflexivity|].
  unfold finish_task. rewrite Hrel. rt_simpl.
  rewrite has_flag_set_state, has_flag_unset_flag. rt_simpl. rt_simpl.
  split; [reflexivity|]. unfold destroyed_once, r_heap. simpl.
  split; [eexists; split; [by simplify_map_eq|done]|]. by exists fl.
Qed.

(** C4: a task created with a reference ([DART_TASK_HAS_REF]) and
    without successors is destroyed exactly once, whichever comes first:
    its completion ([finish_task], the common end of [handle_task],
    [handle_inline_task] and [dart__tasking__release_detached]) or
    [dart__tasking__taskref_free].  In both orders the descriptor ends
    [DART_TASK_DESTROYED] and is pushed once onto its owner's free list. *)
Theorem taskref_destroyed_once :
  t_state t <> DART_TASK_FINISHED ->
  (exists r1 r2, finish_task e r x false = Some r1 /\
     taskref_free r1 (Some (Some x)) = Some (r2, Some NULL, DART_OK) /\ destroyed_once r r2 x o) /\
  (exists r1 r2, taskref_free r (Some (Some x)) = Some (r1, Some (Some x), DART_OK) /\
     finish_task e r1 x false = Some r2 /\ destroyed_once r r2 x o).
Proof. intros Hst. split; [apply finish_then_free|by apply free_then_finish]. Qed.
End RefProtocol.

Section Cancellation.
Context (PA : Z) (vs : nat) (e : ext).

Lemma get_me_set_me r me th : me < length (s_pool (r_sched r)) -> get_me (set_me r me th) me = Some th.
Proof.
  intros Hlt. unfold get_me, set_me, get_thread. simpl. by rewrite list_lookup_insert_eq.
Qed.

Lemma get_me_lt r me th : get_me r me = Some th -> me < length (s_pool (r_sched r)).
Proof.
  unfold get_me, get_thread. destruct (s_pool (r_sched r) !! me) eqn:E; [|done].
  intros _. by eapply lookup_lt_Some.
Qed.

Lemma get_me_set_rheap r h me : get_me (set_rheap h r) me = get_me r me.
Proof. done. Qed.

(** C37: when cancellation has been requested, [invoke_task] does not
    create a context for a task that never ran, and [handle_task] then
    passes the task's NULL [taskctx] to [dart__tasking__context_release],
    which dereferences it: handling such a task crashes. *)
Theorem handle_task_cancel_null_ctx r me x t th f :
  x_cancel e = true -> (forall r0, x_release e r0 x = Some r0) ->
  get_me r me = Some th -> r_heap r !! x = Some t -> t_taskctx t = NULL ->
  t_unresolved_deps t = 0%Z -> t_unresolved_remote_deps t = 0%Z -> t_num_children t = 0%Z ->
  handle_task e (S f) r me x = None.
Proof.
  intros Hc Hrel Hth Ht Hctx Hd Hr Hn. cbn [handle_task]. rewrite Hth. simpl.
  rewrite Ht. simpl. rewrite Hd, Hr. simpl.
  unfold rupd. rewrite (hupd_Some _ _ _ _ Ht). simpl.
  unfold invoke_task. rewrite Hc. unfold set_current. rewrite get_me_set_rheap, Hth. simpl.
  pose proof (get_me_lt _ _ _ Hth) as Hlt.
  rewrite get_me_set_me by done. simpl.
  unfold r_heap, set_me, set_sched. simpl. rewrite lookup_insert_eq. simpl.
  rewrite Hn. simpl. unfold get_me, get_thread, set_thread, set_pool. simpl.
  rewrite list_lookup_insert_eq by done. simpl. destruct (x =? root_task_id); [done|]. simpl.
  unfold finish_task. rewrite Hrel. unfold rupd, r_heap. simpl.
  rewrite lookup_insert_eq. simpl. unfold release_ctx, r_heap. simpl.
  rewrite lookup_insert_eq. simpl. by rewrite Hctx.
Qed.
End Cancellation.

Section Enqueue.
Context (e : ext).

Lemma r_heap_set_rheap r h : r_heap (set_rheap h r) = h.
Proof. done. Qed.

(** C5: [dart__tasking__enqueue_runnable] marks a created, runnable task
    [DART_TASK_QUEUED]; when it is neither deferred, nor a
    communication task, nor immediate, and the current worker is on the
    task's NUMA node, the task goes into the worker's first free hot
    slot, and only when every slot is taken into the NUMA queue, where
    it is pushed as [dart_tasking_taskqueue_push] does. *)
Theorem enqueue_runnable_placement fuel r me x t th :
  x_cancel e = false -> r_heap r !! x = Some t -> t_state t = DART_TASK_CREATED ->
  datadeps_is_runnable t = true ->
  (t_parent t = Some root_task_id -> x_phase_runnable e (t_phase t) = true) ->
  has_flag t DART_TASK_IS_COMMTASK = false -> has_flag t DART_TASK_IMMEDIATE = false ->
  get_me r me = Some th -> th_is_utility th = false -> x_numa_node e = th_numa th ->
  match slot_put x (th_queue th) with
  | Some q' => exists r', enqueue_runnable e fuel r me x = Some (r', ENQ_SLOT) /\
      r_heap r' !! x = Some (set_state DART_TASK_QUEUED t) /\
      get_me r' me = Some (set_th_queue q' th) /\ s_queues (r_sched r') = s_queues (r_sched r)
  | None => forall tq q, s_queues (r_sched r) !! th_numa th = Some tq ->
      taskqueue_repr (r_heap r) tq q -> tq_locked tq = false -> x ∉ q.1 -> x ∉ q.2 ->
      exists r' tq', enqueue_runnable e fuel r me x = Some (r', ENQ_QUEUE) /\
        (exists t', r_heap r' !! x = Some t' /\ t_state t' = DART_TASK_QUEUED) /\
        s_queues (r_sched r') !! th_numa th = Some tq' /\
        taskqueue_repr (r_heap r') tq' (Spec.tq_push (is_high_prio t) x q)
  end.
Proof.
  intros Hc Ht Hst Hrun Hph Hcomm Himm Hth Hut Hnuma.
  assert (Hdef : bool_decide (t_parent t = Some root_task_id) && negb (x_phase_runnable e (t_phase t)) = false).
  { destruct (bool_decide_reflect (t_parent t = Some root_task_id)) as [E|]; [|done].
    by rewrite (Hph E). }
  unfold enqueue_runnable. rewrite Hc, Ht. simpl. rewrite Hst. simpl. rewrite Hrun.
  unfold rupd. rewrite (hupd_Some _ _ _ _ Ht). simpl. rewrite !r_heap_set_rheap.
  rewrite lookup_insert_eq. simpl. rewrite Hdef. simpl.
  change (has_flag (set_state DART_TASK_QUEUED t)) with (has_flag t).
  rewrite Hcomm, Himm. simpl. rewrite get_me_set_rheap, Hth. simpl. rewrite Hut, Hnuma, Nat.eqb_refl.
  simpl. pose proof (lookup_lt_Some _ _ _ (get_thread_Some _ _ _ Hth)) as Hlt.
  destruct (slot_put x (th_queue th)) as [q'|].
  - eexists. split; [reflexivity|]. split_and!.
    + unfold r_heap, set_me, set_sched. simpl. by rewrite lookup_insert_eq.
    + apply get_me_set_me. done.
    + done.
  - intros tq q Htq Hr Hl Hx1 Hx2. simpl. rewrite Htq. simpl.
    assert (Hr' : taskqueue_repr (<[x := set_state DART_TASK_QUEUED t]> (r_heap r)) tq q)
      by (by apply taskqueue_repr_insert_notin).
    destruct (dart_tasking_taskqueue_push_spec _ _ _ x _ Hr' Hl Hx1 Hx2 (lookup_insert_eq _ _ _))
      as (h' & tq' & Ep & Hr'' & _ & Hlo).
    rewrite r_heap_set_rheap, Ep. simpl.
    eexists _, tq'. split; [reflexivity|]. split; [|split].
    + destruct Hlo as [_ Hs]. specialize (Hs x). rewrite lookup_insert_eq in Hs.
      unfold r_heap. simpl. destruct (h' !! x) as [t'|]; [|done].
      exists t'. split; [done|]. simpl in Hs.
      assert (E : t_state (strip t') = t_state (strip (set_state DART_TASK_QUEUED t))) by congruence.
      exact E.
    + simpl. rewrite list_lookup_insert_eq; [done|]. by eapply lookup_lt_Some.
    + exact Hr''.
Qed.
End Enqueue.

(** ** Witnesses *)

Lemma allocate_task_skips_last_slot_witness :
  r_free ex_rt_pool !! 0 = Some [] /\ r_taskpool ex_rt_pool !! 0 = Some (Some (mk_mempool 36 63)) /\
  mp_pos (mk_mempool 36 63) = TASK_MEMPOOL_SIZE - 1 /\
  exists r', allocate_task ex_rt_pool 0 = Some (r', r_brk ex_rt_pool) /\
    r_taskpool r' !! 0 = Some (Some (mk_mempool (r_brk ex_rt_pool) 1)) /\
    r_brk r' = r_brk ex_rt_pool + TASK_MEMPOOL_SIZE.
Proof.
  assert (H1 : r_free ex_rt_pool !! 0 = Some []) by reflexivity.
  assert (H2 : r_taskpool ex_rt_pool !! 0 = Some (Some (mk_mempool 36 63))) by reflexivity.
  assert (H3 : mp_pos (mk_mempool 36 63) = TASK_MEMPOOL_SIZE - 1) by reflexivity.
  split_and!; try assumption. exact (allocate_task_skips_last_slot ex_rt_pool 0 _ H1 H2 H3).
Defined.

Lemma allocate_dummytask_resets_instance_witness :
  r_free ex_rt_free !! 0 = Some [2] /\ r_heap ex_rt_free !! 2 = Some ex_task2 /\
  get_me ex_rt_free 0 = Some (dart_thread_init 0) /\ th_current_task (dart_thread_init 0) = Some 0 /\
  r_heap ex_rt_free !! 0 = Some root_task /\
  (exists r' t', create_task (-1) 64 (ex_ext false) ex_rt_free 0 1 0 DART_PRIO_INLINE = Some (r', 2) /\
     r_heap r' !! 2 = Some t' /\ t_instance t' = (t_instance ex_task2 + 1)%Z /\
     t_owner t' = t_owner ex_task2) /\
  (exists r' t', allocate_dummytask (-1) (ex_ext false) ex_rt_free 0 = Some (r', 2) /\
     r_heap r' !! 2 = Some t' /\ t_instance t' = 0%Z /\ t_owner t' = 0 /\ t_state t' = DART_TASK_DUMMY).
Proof.
  assert (H1 : r_free ex_rt_free !! 0 = Some [2]) by reflexivity.
  assert (H2 : r_heap ex_rt_free !! 2 = Some ex_task2) by (vm_compute; reflexivity).
  assert (H3 : get_me ex_rt_free 0 = Some (dart_thread_init 0)) by (vm_compute; reflexivity).
  assert (H4 : th_current_task (dart_thread_init 0) = Some 0) by reflexivity.
  assert (H5 : r_heap ex_rt_free !! 0 = Some root_task) by (vm_compute; reflexivity).
  pose proof (allocate_dummytask_resets_instance (-1) 64 (ex_ext false) ex_rt_free 0 2 [] ex_task2 _ 0
                root_task 1 0 DART_PRIO_INLINE H1 H2 H3 H4 H5) as [A B].
  split_and!; assumption.
Defined.

Lemma taskref_destroyed_once_witness :
  (forall r0, x_release (ex_ext false) r0 5 = Some r0) /\
  r_heap ex_rt !! 5 = Some ex_ref_task /\ has_flag ex_ref_task DART_TASK_HAS_REF = true /\
  t_parent ex_ref_task = Some 0 /\ 0 <> 5 /\ r_heap ex_rt !! 0 = Some root_task /\
  t_owner ex_ref_task = 0 /\ r_free ex_rt !! 0 = Some [] /\ t_state ex_ref_task <> DART_TASK_FINISHED /\
  (exists r1 r2, finish_task (ex_ext false) ex_rt 5 false = Some r1 /\
     taskref_free r1 (Some (Some 5)) = Some (r2, Some NULL, DART_OK) /\ destroyed_once ex_rt r2 5 0) /\
  (exists r1 r2, taskref_free ex_rt (Some (Some 5)) = Some (r1, Some (Some 5), DART_OK) /\
     finish_task (ex_ext false) r1 5 false = Some r2 /\ destroyed_once ex_rt r2 5 0).
Proof.
  assert (H0 : forall r0, x_release (ex_ext false) r0 5 = Some r0) by reflexivity.
  assert (H1 : r_heap ex_rt !! 5 = Some ex_ref_task) by (vm_compute; reflexivity).
  assert (H2 : has_flag ex_ref_task DART_TASK_HAS_REF = true) by reflexivity.
  assert (H3 : t_parent ex_ref_task = Some 0) by reflexivity.
  assert (H4 : 0 <> 5) by lia.
  assert (H5 : r_heap ex_rt !! 0 = Some root_task) by (vm_compute; reflexivity).
  assert (H6 : t_owner ex_ref_task = 0) by reflexivity.
  assert (H7 : r_free ex_rt !! 0 = Some []) by reflexivity.
  assert (H8 : t_state ex_ref_task <> DART_TASK_FINISHED) by discriminate.
  pose proof (taskref_destroyed_once (ex_ext false) ex_rt 5 0 0 ex_ref_task root_task []
                H0 H1 H2 H3 H4 H5 H6 H7 H8) as [A B].
  split_and!; assumption.
Defined.

Lemma handle_task_cancel_null_ctx_witness :
  x_cancel (ex_ext true) = true /\ (forall r0, x_release (ex_ext true) r0 3 = Some r0) /\
  get_me ex_rt 0 = Some (dart_thread_init 0) /\
  r_heap ex_rt !! 3 = Some (default blank_task (r_heap ex_rt !! 3)) /\
  t_taskctx (default blank_task (r_heap ex_rt !! 3)) = NULL /\
  t_unresolved_deps (default blank_task (r_heap ex_rt !! 3)) = 0%Z /\
  t_unresolved_remote_deps (default blank_task (r_heap ex_rt !! 3)) = 0%Z /\
  t_num_children (default blank_task (r_heap ex_rt !! 3)) = 0%Z /\
  handle_task (ex_ext true) 6 ex_rt 0 3 = None.
Proof.
  assert (H0 : x_cancel (ex_ext true) = true) by reflexivity.
  assert (H1 : forall r0, x_release (ex_ext true) r0 3 = Some r0) by reflexivity.
  assert (H2 : get_me ex_rt 0 = Some (dart_thread_init 0)) by (vm_compute; reflexivity).
  assert (H3 : r_heap ex_rt !! 3 = Some (default blank_task (r_heap ex_rt !! 3)))
    by (vm_compute; reflexivity).
  assert (H4 : t_taskctx (default blank_task (r_heap ex_rt !! 3)) = NULL) by (vm_compute; reflexivity).
  assert (H5 : t_unresolved_deps (default blank_task (r_heap ex_rt !! 3)) = 0%Z) by (vm_compute; reflexivity).
  assert (H6 : t_unresolved_remote_deps (default blank_task (r_heap ex_rt !! 3)) = 0%Z)
    by (vm_compute; reflexivity).
  assert (H7 : t_num_children (default blank_task (r_heap ex_rt !! 3)) = 0%Z) by (vm_compute; reflexivity).
  split_and!; try assumption.
  exact (handle_task_cancel_null_ctx (ex_ext true) ex_rt 0 3 _ _ 5 H0 H1 H2 H3 H4 H5 H6 H7).
Defined.

Lemma enqueue_runnable_placement_witness :
  x_cancel (ex_ext false) = false /\ r_heap ex_rt !! 6 = Some ex_created_task /\
  t_state ex_created_task = DART_TASK_CREATED /\ datadeps_is_runnable ex_created_task = true /\
  (t_parent ex_created_task = Some root_task_id ->
     x_phase_runnable (ex_ext false) (t_phase ex_created_task) = true) /\
  has_flag ex_created_task DART_TASK_IS_COMMTASK = false /\
  has_flag ex_created_task DART_TASK_IMMEDIATE = false /\
  get_me ex_rt 0 = Some (dart_thread_init 0) /\ th_is_utility (dart_thread_init 0) = false /\
  x_numa_node (ex_ext false) = th_numa (dart_thread_init 0) /\
  exists r', enqueue_runnable (ex_ext false) 3 ex_rt 0 6 = Some (r', ENQ_SLOT) /\
    r_heap r' !! 6 = Some (set_state DART_TASK_QUEUED ex_created_task) /\
    get_me r' 0 = Some (set_th_queue (Some 6 :: replicate 7 NULL) (dart_thread_init 0)) /\
    s_queues (r_sched r') = s_queues (r_sched ex_rt).
Proof.
  assert (H0 : x_cancel (ex_ext false) = false) by reflexivity.
  assert (H1 : r_heap ex_rt !! 6 = Some ex_created_task) by (vm_compute; reflexivity).
  assert (H2 : t_state ex_created_task = DART_TASK_CREATED) by reflexivity.
  assert (H3 : datadeps_is_runnable ex_created_task = true) by reflexivity.
  assert (H4 : t_parent ex_created_task = Some root_task_id ->
               x_phase_runnable (ex_ext false) (t_phase ex_created_task) = true) by reflexivity.
  assert (H5 : has_flag ex_created_task DART_TASK_IS_COMMTASK = false) by reflexivity.
  assert (H6 : has_flag ex_created_task DART_TASK_IMMEDIATE = false) by reflexivity.
  assert (H7 : get_me ex_rt 0 = Some (dart_thread_init 0)) by (vm_compute; reflexivity).
  assert (H8 : th_is_utility (dart_thread_init 0) = false) by reflexivity.
  assert (H9 : x_numa_node (ex_ext false) = th_numa (dart_thread_init 0)) by reflexivity.
  split_and!; try assumption.
  exact (enqueue_runnable_placement (ex_ext false) 3 ex_rt 0 6 _ _ H0 H1 H2 H3 H4 H5 H6 H7 H8 H9).
Defined.
