(* ===== verification/Copyin.v ===== *)
(** * The copy-in engine

    [dart_tasking_copyin.c], lines 99-548: the communication tasks that
    prefetch the data of a [COPYIN] dependency.  With the [GET]
    implementation one task with an [IN] dependency on the source
    issues a one-sided get; with [SENDRECV] the task receives what the
    owner of the source sends after a send request, and the owner
    creates the matching send tasks later from the stack
    [delayed_tasks].  The buffer comes from the memory pool of
    [MemPool] when the dependency has none; the destructor of the
    dependency returns it.

    The state [cp_state] is the runtime of [Lifecycle] with the globals
    of this file: the memory pool, [delayed_tasks], the tag counter,
    the implementation chosen on first use, and what the engine keeps
    per task: the copy of its [copyin_taskdata] argument and its owned
    dependency records.  The send requests handed to the remote module
    are recorded in order.

    The dependency engine, the unit numbering, [dart_myid] and the
    environment are the parameters of the section [Ops]. *)

From S2P Require Import Prelude Task TaskQueue Scheduler Context MemPool Lifecycle.

(** ** Data *)

(** [COPYIN_TASK_PRIO], line 13. *)
Definition COPYIN_TASK_PRIO : Z := INT_MAX - 1.

(** [enum dart_copyin_t], lines 99-103. *)
Inductive dart_copyin_t := COPYIN_IMPL_UNDEFINED | COPYIN_IMPL_GET | COPYIN_IMPL_SENDRECV.

(** [enum dart_copyin_wait_t], lines 105-111. *)
Inductive dart_copyin_wait_t :=
| COPYIN_WAIT_UNDEFINED | COPYIN_WAIT_BLOCK | COPYIN_WAIT_DETACH
| COPYIN_WAIT_DETACH_INLINE | COPYIN_WAIT_YIELD.

#[export] Instance dart_copyin_t_eq_dec : EqDecision dart_copyin_t.
Proof. solve_decision. Defined.
#[export] Instance dart_copyin_wait_t_eq_dec : EqDecision dart_copyin_wait_t.
Proof. solve_decision. Defined.

(** [dart_task_deptype_t]. *)
Inductive dart_task_deptype :=
| DART_DEP_IN | DART_DEP_OUT | DART_DEP_INOUT | DART_DEP_DIRECT
| DART_DEP_COPYIN | DART_DEP_COPYIN_R | DART_DEP_COPYIN_OUT | DART_DEP_DELAYED_IN.

#[export] Instance dart_task_deptype_eq_dec : EqDecision dart_task_deptype.
Proof. solve_decision. Defined.

(** [dart_gptr_t]: unit, team, segment and address (or offset). *)
Record dart_gptr := mk_gptr { g_unit : nat; g_team : nat; g_seg : Z; g_addr : nat }.

#[export] Instance dart_gptr_eq_dec : EqDecision dart_gptr.
Proof. solve_decision. Defined.

Definition DART_GPTR_NULL : dart_gptr := mk_gptr 0 0 0 0.
Definition DART_TEAM_ALL : nat := 0.
Definition DART_SEGMENT_LOCAL : Z := 0.

(** The [copyin] member of a dependency: source, size and destination
    buffer ([dest], NULL when the engine has to provide one). *)
Record copyin_info := mk_ci { ci_gptr : dart_gptr; ci_size : nat; ci_dest : option nat }.

(** [dart_task_dep_t]. *)
Record dart_task_dep := mk_dep {
  d_type : dart_task_deptype; d_gptr : dart_gptr; d_copyin : copyin_info; d_phase : Z
}.

Definition set_dep_type (ty : dart_task_deptype) (d : dart_task_dep) : dart_task_dep :=
  mk_dep ty (d_gptr d) (d_copyin d) (d_phase d).

Definition set_dep_dest (dest : option nat) (d : dart_task_dep) : dart_task_dep :=
  mk_dep (d_type d) (d_gptr d) (mk_ci (ci_gptr (d_copyin d)) (ci_size (d_copyin d)) dest) (d_phase d).

(** A dependency record of the dependency hash table
    ([dart_dephash_elem_t]): the dependency, whether the copy-in
    destructor is installed, and [dep_list], the record it is attached
    to. *)
Record dephash_elem := mk_dh { dh_dep : dart_task_dep; dh_dtor : bool; dh_dep_list : option nat }.

(** [struct copyin_taskdata], lines 135-140. *)
Record copyin_taskdata := mk_td { td_src : dart_gptr; td_num_bytes : nat; td_unit : nat; td_tag : Z }.

(** [sizeof(struct copyin_taskdata)]: a 16-byte global pointer, a
    [size_t] and two 4-byte integers. *)
Definition COPYIN_TASKDATA_SIZE : nat := 32.

(** [struct copyin_task], lines 142-146. *)
Record copyin_task := mk_ct { ct_in_dep : dart_task_dep; ct_arg : copyin_taskdata }.

(** The task functions, as the function pointers [create_task] stores. *)
Definition COPYIN_RECV_FN : nat := 1.
Definition COPYIN_SEND_FN : nat := 2.
Definition COPYIN_GET_FN : nat := 3.

(** A send request [dart_tasking_remote_sendrequest] hands to the
    remote module: target unit, source, size, tag, phase. *)
Record sendrequest := mk_sr { sr_unit : nat; sr_gptr : dart_gptr; sr_size : nat; sr_tag : Z; sr_phase : Z }.

(** The communication the task functions post: [dart_recv_handle],
    the local [memcpy], [dart_send_handle] and [dart_get_handle]. *)
Inductive comm_op :=
| OP_RECV (dest : nat) (bytes : nat) (tag : Z) (unit : nat)
| OP_MEMCPY (dest src : nat) (bytes : nat)
| OP_SEND (src : nat) (bytes : nat) (tag : Z) (unit : nat)
| OP_GET (dest : nat) (src : dart_gptr) (bytes : nat).

(** The buffer a transfer writes into and its length. *)
Definition op_target (o : comm_op) : option (nat * nat) :=
  match o with
  | OP_RECV dest bytes _ _ | OP_MEMCPY dest _ bytes | OP_GET dest _ bytes => Some (dest, bytes)
  | OP_SEND _ _ _ _ => None
  end.

Record cp_state := mk_cp {
  cp_rt : runtime;
  cp_mp : mp_state;                     (* mem_pool *)
  cp_delayed : list copyin_task;        (* delayed_tasks, head first *)
  cp_tag : Z;                           (* global_tag_counter *)
  cp_impl : dart_copyin_t;              (* the static impl of dart_tasking_copyin_create_task *)
  cp_args : gmap nat copyin_taskdata;   (* the copy of arg in each created task *)
  cp_owned : gmap nat (list nat);       (* task->deps_owned *)
  cp_dephash : gmap nat dephash_elem;   (* the dependency records *)
  cp_sent : list sendrequest;           (* send requests, oldest first *)
  cp_ops : list comm_op                 (* communication posted, oldest first *)
}.

Definition set_cp_rt (r : runtime) (cs : cp_state) : cp_state :=
  mk_cp r (cp_mp cs) (cp_delayed cs) (cp_tag cs) (cp_impl cs) (cp_args cs) (cp_owned cs)
        (cp_dephash cs) (cp_sent cs) (cp_ops cs).
Definition set_cp_mp (m : mp_state) (cs : cp_state) : cp_state :=
  mk_cp (cp_rt cs) m (cp_delayed cs) (cp_tag cs) (cp_impl cs) (cp_args cs) (cp_owned cs)
        (cp_dephash cs) (cp_sent cs) (cp_ops cs).
Definition set_cp_delayed (l : list copyin_task) (cs : cp_state) : cp_state :=
  mk_cp (cp_rt cs) (cp_mp cs) l (cp_tag cs) (cp_impl cs) (cp_args cs) (cp_owned cs)
        (cp_dephash cs) (cp_sent cs) (cp_ops cs).
Definition set_cp_tag (t : Z) (cs : cp_state) : cp_state :=
  mk_cp (cp_rt cs) (cp_mp cs) (cp_delayed cs) t (cp_impl cs) (cp_args cs) (cp_owned cs)
        (cp_dephash cs) (cp_sent cs) (cp_ops cs).
Definition set_cp_impl (i : dart_copyin_t) (cs : cp_state) : cp_state :=
  mk_cp (cp_rt cs) (cp_mp cs) (cp_delayed cs) (cp_tag cs) i (cp_args cs) (cp_owned cs)
        (cp_dephash cs) (cp_sent cs) (cp_ops cs).
Definition set_cp_dephash (dh : gmap nat dephash_elem) (cs : cp_state) : cp_state :=
  mk_cp (cp_rt cs) (cp_mp cs) (cp_delayed cs) (cp_tag cs) (cp_impl cs) (cp_args cs) (cp_owned cs)
        dh (cp_sent cs) (cp_ops cs).
Definition push_sent (sr : sendrequest) (cs : cp_state) : cp_state :=
  mk_cp (cp_rt cs) (cp_mp cs) (cp_delayed cs) (cp_tag cs) (cp_impl cs) (cp_args cs) (cp_owned cs)
        (cp_dephash cs) (cp_sent cs ++ [sr]) (cp_ops cs).
Definition post_op (o : comm_op) (cs : cp_state) : cp_state :=
  mk_cp (cp_rt cs) (cp_mp cs) (cp_delayed cs) (cp_tag cs) (cp_impl cs) (cp_args cs) (cp_owned cs)
        (cp_dephash cs) (cp_sent cs) (cp_ops cs ++ [o]).

(** The next free address of a dependency record. *)
Definition dh_fresh (dh : gmap nat dephash_elem) : nat := S (max_list (elements (dom dh))).

(** The records of [deps], one per dependency, at [a], [a+1], ... *)
Fixpoint insert_deps (dh : gmap nat dephash_elem) (a : nat) (deps : list dart_task_dep)
    : gmap nat dephash_elem :=
  match deps with
  | [] => dh
  | d :: ds => insert_deps (<[a := mk_dh d false None]> dh) (S a) ds
  end.

(** The dependency engine records the dependencies of a new task as
    records it owns, in order, at fresh addresses, and keeps the copy
    of its argument. *)
Definition register_task (x : nat) (arg : copyin_taskdata) (deps : list dart_task_dep)
    (cs : cp_state) : cp_state :=
  let base := dh_fresh (cp_dephash cs) in
  mk_cp (cp_rt cs) (cp_mp cs) (cp_delayed cs) (cp_tag cs) (cp_impl cs)
        (<[x := arg]> (cp_args cs)) (<[x := seq base (length deps)]> (cp_owned cs))
        (insert_deps (cp_dephash cs) base deps) (cp_sent cs) (cp_ops cs).

(** ** Concrete states for the witnesses

    A copy-in dependency of 64 bytes from unit 1, the engine state on
    top of [ex_rt], and a state whose current task (the root task 0)
    owns the [COPYIN_OUT] record 1 without buffer. *)
Definition ex_dep : dart_task_dep :=
  mk_dep DART_DEP_COPYIN (mk_gptr 1 0 0 4096) (mk_ci (mk_gptr 1 0 0 4096) 64 NULL) 0.

Definition ex_uninit : dart_task_dep := mk_dep DART_DEP_IN DART_GPTR_NULL (mk_ci DART_GPTR_NULL 0 NULL) 0.

Definition ex_cp : cp_state := mk_cp ex_rt ex_mp [] 5 COPYIN_IMPL_UNDEFINED ∅ ∅ ∅ [] [].

Definition ex_cp_owned : cp_state :=
  mk_cp ex_rt ex_mp [] 0 COPYIN_IMPL_GET ∅ {[0 := [1]]}
        {[1 := mk_dh (set_dep_type DART_DEP_COPYIN_OUT ex_dep) false NULL]} [] [].

(** What [create_task] returns on [ex_rt] for a copy-in function. *)
Definition ex_new_rt (fn : nat) : runtime :=
  fst (default (ex_rt, 0) (create_task (-1) 64 (ex_ext false) ex_rt 0 fn COPYIN_TASKDATA_SIZE COPYIN_TASK_PRIO)).
Definition ex_new (fn : nat) : nat :=
  snd (default (ex_rt, 0) (create_task (-1) 64 (ex_ext false) ex_rt 0 fn COPYIN_TASKDATA_SIZE COPYIN_TASK_PRIO)).

(** ** The operations

    Parameters: [myid] is [dart_myid()]; [unit_l2g team u] is
    [dart_team_unit_l2g]; [localize_gptr] is
    [dart_tasking_datadeps_localize_gptr]; [dep_counts deps] are the
    unresolved local and remote dependencies the dependency engine
    registers for [deps]; [env_impl] and [wait_type] are the values
    [dart__base__env__str2int] returns for [DART_COPYIN_IMPL] (default
    [GET]) and [DART_COPYIN_WAIT]; [uninit] is what the uninitialised
    slots of the local [deps] arrays hold; [yield] is
    [dart_task_yield(-1)]. *)
Section Ops.
Context (DART_PHASE_ANY : Z) (var_space_size : nat) (e : ext) (fuel me myid : nat).
Context (unit_l2g : nat -> nat -> nat) (localize_gptr : dart_gptr -> dart_gptr).
Context (dep_counts : list dart_task_dep -> Z * Z).
Context (env_impl : dart_copyin_t) (wait_type : dart_copyin_wait_t) (uninit : dart_task_dep).
Context (yield : runtime -> option runtime).

(** [flags = (wait_type == COPYIN_WAIT_DETACH_INLINE) ? DART_TASK_NOYIELD : 0]. *)
Definition copyin_flags : Z :=
  if bool_decide (wait_type = COPYIN_WAIT_DETACH_INLINE) then DART_TASK_NOYIELD else 0%Z.

(** The output dependency on a caller-provided buffer (lines 237-249
    and 289-301): only [type] and [gptr] are set. *)
Definition dest_dep (dest : nat) : dart_task_dep :=
  mk_dep DART_DEP_OUT (mk_gptr myid DART_TEAM_ALL DART_SEGMENT_LOCAL dest)
         (d_copyin uninit) (d_phase uninit).

Definition dest_deps (dep : dart_task_dep) : list dart_task_dep :=
  match ci_dest (d_copyin dep) with Some dest => [dest_dep dest] | None => [] end.

(** The end of both creation routines (lines 255-266 and 309-321):
    create the task with a reference, set [DART_TASK_IS_COMMTASK] and
    free the reference.  Under cancellation [dart__tasking__create_task]
    writes nothing to [task], which is then an uninitialised pointer. *)
Definition copyin_spawn (cs : cp_state) (fn : nat) (arg : copyin_taskdata)
    (deps : list dart_task_dep) : option cp_state :=
  let '(udeps, rdeps) := dep_counts deps in
  '(r1, created) ← dart__tasking__create_task DART_PHASE_ANY var_space_size e fuel (cp_rt cs) me fn
                     COPYIN_TASKDATA_SIZE udeps rdeps COPYIN_TASK_PRIO copyin_flags true;
  x ← created;
  r2 ← rupd r1 x (set_flag DART_TASK_IS_COMMTASK);
  '(r3, _, _) ← taskref_free r2 (Some (Some x));
  Some (register_task x arg deps (set_cp_rt r3 cs)).

(** The dependencies of the receiving task (lines 231-249). *)
Definition copyin_sendrecv_deps (dep : dart_task_dep) : list dart_task_dep :=
  set_dep_type DART_DEP_COPYIN_OUT dep :: dest_deps dep.

(** The dependencies of the GET task (lines 279-301). *)
Definition copyin_get_deps (dep : dart_task_dep) : list dart_task_dep :=
  mk_dep DART_DEP_IN (ci_gptr (d_copyin dep)) (d_copyin uninit) (d_phase dep) ::
  set_dep_type DART_DEP_COPYIN_OUT dep :: dest_deps dep.

(** [dart_tasking_copyin_create_task_sendrecv], lines 193-269. *)
Definition dart_tasking_copyin_create_task_sendrecv (cs : cp_state) (dep : dart_task_dep)
    : option cp_state :=
  let send_unit := unit_l2g (g_team (d_gptr dep)) (g_unit (d_gptr dep)) in
  let '(cs1, tag, src) :=
    if negb (myid =? send_unit) then
      (push_sent (mk_sr send_unit (ci_gptr (d_copyin dep)) (ci_size (d_copyin dep)) (cp_tag cs) (d_phase dep))
                 (set_cp_tag (cp_tag cs + 1) cs), cp_tag cs, DART_GPTR_NULL)
    else (cs, 0%Z, localize_gptr (ci_gptr (d_copyin dep))) in
  let arg := mk_td src (ci_size (d_copyin dep)) send_unit tag in
  copyin_spawn cs1 COPYIN_RECV_FN arg (copyin_sendrecv_deps dep).

(** [dart_tasking_copyin_create_task_get], lines 271-324. *)
Definition dart_tasking_copyin_create_task_get (cs : cp_state) (dep : dart_task_dep)
    : option cp_state :=
  copyin_spawn cs COPYIN_GET_FN (mk_td (ci_gptr (d_copyin dep)) (ci_size (d_copyin dep)) 0 0)
               (copyin_get_deps dep).

(** [dart_tasking_copyin_create_task], lines 326-353: the
    implementation is read from the environment on the first call. *)
Definition dart_tasking_copyin_create_task (cs : cp_state) (dep : dart_task_dep)
    : option (cp_state * dart_ret) :=
  let cs1 := if bool_decide (cp_impl cs = COPYIN_IMPL_UNDEFINED) then set_cp_impl env_impl cs else cs in
  match cp_impl cs1 with
  | COPYIN_IMPL_SENDRECV => cs2 ← dart_tasking_copyin_create_task_sendrecv cs1 dep; Some (cs2, DART_OK)
  | COPYIN_IMPL_GET => cs2 ← dart_tasking_copyin_create_task_get cs1 dep; Some (cs2, DART_OK)
  | COPYIN_IMPL_UNDEFINED => dart_assert false (Some (cs1, DART_ERR_INVAL))
  end.

(** [dart_tasking_copyin_sendrequest], lines 355-379: [num_bytes] is an
    [int32_t] stored into the [size_t] field. *)
Definition dart_tasking_copyin_sendrequest (cs : cp_state) (src_gptr : dart_gptr) (num_bytes : Z)
    (phase tag : Z) (unit : nat) : cp_state :=
  let ct := mk_ct (mk_dep DART_DEP_DELAYED_IN src_gptr (d_copyin uninit) phase)
                  (mk_td (localize_gptr src_gptr) (Z.to_nat (size_t_wrap num_bytes)) unit tag) in
  set_cp_delayed (ct :: cp_delayed cs) cs.

(** The loop of [dart_tasking_copyin_create_delayed_tasks], lines
    385-396: pop a request, create its send task (without a
    reference), free the request. *)
Fixpoint create_delayed_loop (cs : cp_state) (l : list copyin_task) {struct l} : option cp_state :=
  match l with
  | [] => Some (set_cp_delayed [] cs)
  | ct :: l' =>
      let '(udeps, rdeps) := dep_counts [ct_in_dep ct] in
      '(r1, created) ← dart__tasking__create_task DART_PHASE_ANY var_space_size e fuel (cp_rt cs) me
                         COPYIN_SEND_FN COPYIN_TASKDATA_SIZE udeps rdeps COPYIN_TASK_PRIO copyin_flags false;
      let cs1 := set_cp_delayed l' (set_cp_rt r1 cs) in
      cs2 ← (match created with
             | Some x => Some (register_task x (ct_arg ct) [ct_in_dep ct] cs1)
             | None => Some cs1
             end);
      create_delayed_loop cs2 l'
  end.

(** [dart_tasking_copyin_create_delayed_tasks], lines 381-398. *)
Definition dart_tasking_copyin_create_delayed_tasks (cs : cp_state) : option cp_state :=
  create_delayed_loop cs (cp_delayed cs).
(** [dart__tasking__current_task()] on thread [me]. *)
Definition current_task (cs : cp_state) : option nat :=
  th ← get_me (cp_rt cs) me; th_current_task th.

(** [wait_for_handle], lines 501-521.  Blocking and detaching hand the
    handle to the wait engine; the test-yield strategy lowers the
    task's priority, yields until [dart_test_local] reports completion
    (its answers are [tests]), and sets [COPYIN_TASK_PRIO] again. *)
Fixpoint test_yield_loop (r : runtime) (tests : list bool) : option runtime :=
  match tests with
  | [] => None
  | done :: tests' => if done then Some r else r' ← yield r; test_yield_loop r' tests'
  end.

Definition wait_for_handle (cs : cp_state) (tests : list bool) : option cp_state :=
  match wait_type with
  | COPYIN_WAIT_BLOCK | COPYIN_WAIT_DETACH | COPYIN_WAIT_DETACH_INLINE => Some cs
  | _ =>
      x ← current_task cs;
      r1 ← rupd (cp_rt cs) x (set_prio DART_PRIO_LOW);
      r2 ← test_yield_loop r1 tests;
      r3 ← rupd r2 x (set_prio COPYIN_TASK_PRIO);
      Some (set_cp_rt r3 cs)
  end.

(** The search loop of [dart_tasking_copyin_prepare_dep] (lines
    436-441): the first record of type [COPYIN_OUT] in [deps_owned];
    [Some None] when there is none. *)
Fixpoint find_copyin_out (dh : gmap nat dephash_elem) (l : list nat) : option (option nat) :=
  match l with
  | [] => Some NULL
  | a :: l' =>
      el ← dh !! a;
      if bool_decide (d_type (dh_dep el) = DART_DEP_COPYIN_OUT) then Some (Some a)
      else find_copyin_out dh l'
  end.

(** [dart_tasking_copyin_prepare_dep], lines 428-451: the record of the
    current task's [COPYIN_OUT] dependency, with a buffer from the pool
    and the destructor installed when it had no buffer. *)
Definition dart_tasking_copyin_prepare_dep (cs : cp_state) : option (cp_state * nat) :=
  x ← current_task cs;
  owned ← cp_owned cs !! x;
  found ← find_copyin_out (cp_dephash cs) owned;
  a ← found;
  el ← cp_dephash cs !! a;
  match ci_dest (d_copyin (dh_dep el)) with
  | None =>
      '(mp', mem) ← allocate_from_mempool (cp_mp cs) (ci_size (d_copyin (dh_dep el)));
      Some (set_cp_dephash (<[a := mk_dh (set_dep_dest (Some mem) (dh_dep el)) true (dh_dep_list el)]>
                              (cp_dephash cs)) (set_cp_mp mp' cs), a)
  | Some _ => Some (cs, a)
  end.

(** [dart_tasking_copyin_release_mem], lines 418-426: the destructor of
    the record [a]. *)
Definition dart_tasking_copyin_release_mem (cs : cp_state) (a : nat) : option cp_state :=
  el ← cp_dephash cs !! a;
  dest ← ci_dest (d_copyin (dh_dep el));
  mp' ← return_to_mempool (cp_mp cs) dest;
  Some (set_cp_dephash (<[a := mk_dh (set_dep_dest NULL (dh_dep el)) (dh_dtor el) (dh_dep_list el)]>
                          (cp_dephash cs)) (set_cp_mp mp' cs)).

(** The record [a] after [prepare_dep]: its destination buffer. *)
Definition dep_dest (cs : cp_state) (a : nat) : option nat :=
  el ← cp_dephash cs !! a; ci_dest (d_copyin (dh_dep el)).

(** [dart_tasking_copyin_recv_taskfn], lines 453-478, run by the
    current task with argument [td]. *)
Definition dart_tasking_copyin_recv_taskfn (cs : cp_state) (td : copyin_taskdata) (tests : list bool)
    : option cp_state :=
  '(cs1, a) ← dart_tasking_copyin_prepare_dep cs;
  dest ← dep_dest cs1 a;
  if bool_decide (td_src td = DART_GPTR_NULL) then
    wait_for_handle (post_op (OP_RECV dest (td_num_bytes td) (td_tag td) (td_unit td)) cs1) tests
  else Some (post_op (OP_MEMCPY dest (g_addr (td_src td)) (td_num_bytes td)) cs1).

(** [dart_tasking_copyin_get_taskfn], lines 481-498. *)
Definition dart_tasking_copyin_get_taskfn (cs : cp_state) (tests : list bool) : option cp_state :=
  '(cs1, a) ← dart_tasking_copyin_prepare_dep cs;
  el ← cp_dephash cs1 !! a;
  dest ← ci_dest (d_copyin (dh_dep el));
  wait_for_handle (post_op (OP_GET dest (ci_gptr (d_copyin (dh_dep el))) (ci_size (d_copyin (dh_dep el)))) cs1)
                  tests.

(** [dart_tasking_copyin_send_taskfn], lines 400-416. *)
Definition dart_tasking_copyin_send_taskfn (cs : cp_state) (td : copyin_taskdata) (tests : list bool)
    : option cp_state :=
  wait_for_handle (post_op (OP_SEND (g_addr (td_src td)) (td_num_bytes td) (td_tag td) (td_unit td)) cs) tests.

(** The search loop of [dart__tasking__copyin_info] (lines 529-536): the
    [depnum]-th record of type [COPYIN] or [COPYIN_R]. *)
Fixpoint find_copyin_dep (dh : gmap nat dephash_elem) (l : list nat) (i depnum : nat)
    : option (option nat) :=
  match l with
  | [] => Some NULL
  | a :: l' =>
      el ← dh !! a;
      if bool_decide (d_type (dh_dep el) = DART_DEP_COPYIN \/ d_type (dh_dep el) = DART_DEP_COPYIN_R)
      then (if i =? depnum then Some (Some a) else find_copyin_dep dh l' (S i) depnum)
      else find_copyin_dep dh l' i depnum
  end.

(** [dart__tasking__copyin_info], lines 524-548: the local address of
    the data of the [depnum]-th copy-in dependency of task [x]. *)
Definition dart__tasking__copyin_info (cs : cp_state) (x depnum : nat) : option (option nat) :=
  owned ← cp_owned cs !! x;
  found ← find_copyin_dep (cp_dephash cs) owned 0 depnum;
  a ← found;
  el ← cp_dephash cs !! a;
  o ← dh_dep_list el;
  out ← cp_dephash cs !! o;
  if bool_decide (d_type (dh_dep out) = DART_DEP_COPYIN_OUT) then Some (ci_dest (d_copyin (dh_dep out)))
  else Some (Some (g_addr (d_gptr (dh_dep out)))).

(** ** Lemmas on the runtime operations the engine calls *)

(** Evaluate the stores of the runtime through the heap. *)
Ltac rt_eval :=
  repeat (progress (unfold add_children, rupd in *; rewrite ?r_heap_set_rheap in *; heap_simpl)).

Section RuntimeLemmas.

Lemma rupd_Some_inv r y f r' :
  rupd r y f = Some r' -> exists t, r_heap r !! y = Some t /\ r' = set_rheap (<[y := f t]> (r_heap r)) r.
Proof. unfold rupd, hupd. simpl. intros; opt_simpl. eauto. Qed.

Lemma rupd_Some r y f t : r_heap r !! y = Some t -> rupd r y f = Some (set_rheap (<[y := f t]> (r_heap r)) r).
Proof. intros Hy. unfold rupd. by rewrite (hupd_Some _ _ _ _ Hy). Qed.

(** A store that keeps an observation [g] of every task keeps it on
    the whole heap. *)
Lemma rupd_obs {A} (g : task -> A) r y f r' :
  rupd r y f = Some r' -> (forall t, g (f t) = g t) ->
  forall z, g <$> r_heap r' !! z = g <$> r_heap r !! z.
Proof.
  intros (t & Ht & ->)%rupd_Some_inv Hg z. rewrite r_heap_set_rheap.
  destruct (decide (z = y)) as [->|]; [by rewrite lookup_insert_eq, Ht; simpl; rewrite Hg|].
  by rewrite lookup_insert_ne.
Qed.

Lemma add_children_obs {A} (g : task -> A) r p d r' :
  add_children r p d = Some r' -> (forall t v, g (set_num_children v t) = g t) ->
  forall z, g <$> r_heap r' !! z = g <$> r_heap r !! z.
Proof. intros H Hg. eapply rupd_obs; [exact H|]. intros t. apply Hg. Qed.

(** [create_task] with a priority other than [PARENT] and [INLINE]
    stores that priority into a [NASCENT] descriptor without flags of
    reference or communication, whose parent is a task of the heap. *)
Lemma create_task_spec r fn ds prio r1 x :
  create_task DART_PHASE_ANY var_space_size e r me fn ds prio = Some (r1, x) ->
  prio <> DART_PRIO_PARENT -> prio <> DART_PRIO_INLINE ->
  exists t p, r_heap r1 !! x = Some t /\ t_prio t = prio /\ t_state t = DART_TASK_NASCENT /\
    t_parent t = Some p /\ is_Some (r_heap r1 !! p) /\
    has_flag t DART_TASK_HAS_REF = false /\ has_flag t DART_TASK_IS_COMMTASK = false.
Proof.
  intros H Hp Hi. unfold create_task in H.
  destruct (allocate_task r me) as [[ra xa]|]; simpl in H; [|done].
  destruct (get_me ra me) as [th|]; simpl in H; [|done].
  destruct (th_current_task th) as [par|]; simpl in H; [|done].
  destruct (r_heap ra !! par) as [tp|] eqn:Etp; simpl in H; [|done].
  destruct (r_heap ra !! xa) as [t0|]; simpl in H; [|done].
  rewrite <-Z.eqb_neq in Hp, Hi. rewrite Hp, Hi in H. simpl in H.
  injection H as <- <-. eexists _, par. rewrite r_heap_set_rheap, lookup_insert_eq.
  split_and!; [done|done|done|done| |by destruct (_ && _)|by destruct (_ && _)].
  destruct (decide (par = xa)) as [->|]; [by rewrite lookup_insert_eq|by rewrite lookup_insert_ne].
Qed.

(** [dart__tasking__create_task] for a task that is not runnable at
    creation: the task is [CREATED], keeps its priority, carries
    [DART_TASK_HAS_REF] exactly when a reference is requested, and is
    not enqueued. *)
Lemma dart_create_task_blocked r fn ds u rd prio flags wr r1 x :
  x_cancel e = false -> create_task DART_PHASE_ANY var_space_size e r me fn ds prio = Some (r1, x) ->
  prio <> DART_PRIO_PARENT -> prio <> DART_PRIO_INLINE -> (u <> 0 \/ rd <> 0)%Z ->
  exists r7 t, dart__tasking__create_task DART_PHASE_ANY var_space_size e fuel r me fn ds u rd prio flags wr
                 = Some (r7, Some x) /\
    r_heap r7 !! x = Some t /\ t_prio t = prio /\ t_state t = DART_TASK_CREATED /\
    has_flag t DART_TASK_HAS_REF = wr /\ has_flag t DART_TASK_IS_COMMTASK = false.
Proof.
  intros Hc H Hp Hi Hu.
  destruct (create_task_spec _ _ _ _ _ _ H Hp Hi)
    as (t & p & Ht & Hpr & Hst & Hpar & [tp Htp] & Href & Hcomm).
  unfold dart__tasking__create_task. rewrite Hc, H. simpl.
  destruct (decide (p = x)) as [->|Hpx];
    destruct wr, (negb (Z.land flags DART_TASK_NOYIELD =? 0)%Z); rt_eval;
    rewrite datadeps_is_runnable_set_unresolved;
    (destruct Hu as [Hu|Hu]; apply Z.eqb_neq in Hu; rewrite Hu; [|rewrite andb_false_r]); simpl;
    eexists _, _; (split; [reflexivity|]); rt_eval; (split; [reflexivity|]); simpl; flag_simpl;
    split_and!; done.
Qed.
End RuntimeLemmas.

(** ** The records of the dependency engine *)

Section Records.

Lemma insert_deps_old dh a deps k : k < a -> insert_deps dh a deps !! k = dh !! k.
Proof.
  revert dh a. induction deps as [|d ds IH]; intros dh a Hk; [done|].
  simpl. rewrite IH by lia. by rewrite lookup_insert_ne by lia.
Qed.

Lemma insert_deps_new dh a deps i d :
  deps !! i = Some d -> insert_deps dh a deps !! (a + i) = Some (mk_dh d false None).
Proof.
  revert dh a i. induction deps as [|d0 ds IH]; intros dh a i; [done|].
  destruct i as [|i]; simpl.
  - intros [= ->]. rewrite Nat.add_0_r, insert_deps_old by lia. by rewrite lookup_insert_eq.
  - intros Hi. rewrite <-Nat.add_succ_comm. by apply IH.
Qed.

Lemma dh_fresh_gt dh k : is_Some (dh !! k) -> k < dh_fresh dh.
Proof.
  intros Hk. unfold dh_fresh. apply Nat.lt_succ_r, max_list_elem_of_le.
  apply elem_of_elements. by apply elem_of_dom.
Qed.

(** Registering keeps every record that was there. *)
Lemma register_task_old x arg deps cs k el :
  cp_dephash cs !! k = Some el -> cp_dephash (register_task x arg deps cs) !! k = Some el.
Proof.
  intros Hk. simpl. rewrite insert_deps_old; [done|]. apply dh_fresh_gt. by rewrite Hk.
Qed.
(** The search of [prepare_dep] over the records of a registered task
    finds the first [COPYIN_OUT] dependency of the list. *)
Lemma find_copyin_out_registered dh base deps :
  find_copyin_out (insert_deps dh base deps) (seq base (length deps)) =
  Some (match list_find (fun d => d_type d = DART_DEP_COPYIN_OUT) deps with
        | Some (i, _) => Some (base + i)
        | None => NULL
        end).
Proof.
  revert dh base. induction deps as [|d ds IH]; intros dh base; [done|].
  simpl. rewrite insert_deps_old, lookup_insert_eq by lia. simpl.
  destruct (decide (d_type d = DART_DEP_COPYIN_OUT)) as [Hd|Hd].
  - rewrite bool_decide_true by done. by rewrite Nat.add_0_r.
  - rewrite bool_decide_false by done. rewrite IH.
    destruct (list_find _ ds) as [[i d']|]; simpl; [by rewrite Nat.add_succ_r|done].
Qed.

End Records.

(** ** Properties of the engine *)

Lemma COPYIN_TASK_PRIO_ne : COPYIN_TASK_PRIO <> DART_PRIO_PARENT /\ COPYIN_TASK_PRIO <> DART_PRIO_INLINE.
Proof. unfold COPYIN_TASK_PRIO, INT_MAX, DART_PRIO_PARENT, DART_PRIO_INLINE. lia. Qed.

(** The common end of the creation routines, for a task that is not
    runnable when it is created: it exists, is [CREATED] with the
    copy-in priority, flagged as a communication task, without a
    reference, and registered with its argument and dependencies. *)
Lemma copyin_spawn_blocked cs fn arg deps r1 x :
  x_cancel e = false ->
  create_task DART_PHASE_ANY var_space_size e (cp_rt cs) me fn COPYIN_TASKDATA_SIZE COPYIN_TASK_PRIO
    = Some (r1, x) ->
  (dep_counts deps).1 <> 0%Z \/ (dep_counts deps).2 <> 0%Z ->
  exists cs' t, copyin_spawn cs fn arg deps = Some cs' /\
    r_heap (cp_rt cs') !! x = Some t /\ t_prio t = COPYIN_TASK_PRIO /\
    t_state t = DART_TASK_CREATED /\ has_flag t DART_TASK_IS_COMMTASK = true /\
    has_flag t DART_TASK_HAS_REF = false /\
    cs' = register_task x arg deps (set_cp_rt (cp_rt cs') cs).
Proof.
  intros Hc Hct Hu. unfold copyin_spawn. destruct (dep_counts deps) as [u rd]. simpl in Hu.
  destruct COPYIN_TASK_PRIO_ne as [Hp Hi].
  destruct (dart_create_task_blocked _ _ _ u rd _ copyin_flags true _ _ Hc Hct Hp Hi Hu)
    as (r7 & t & E & Ht & Hpr & Hst & Href & Hcomm).
  rewrite E. simpl. unfold taskref_free. rt_eval.
  rewrite bool_decide_false by (simpl; rewrite Hst; discriminate). simpl.
  eexists _, _. split; [reflexivity|]. simpl. rt_eval.
  split; [reflexivity|]. simpl. flag_simpl. split_and!; done.
Qed.

(** The record of the [COPYIN_OUT] dependency of a task registered
    with [deps], whose first [COPYIN_OUT] dependency is at [i]. *)
Lemma register_task_copyin_out x arg deps cs i d :
  list_find (fun d => d_type d = DART_DEP_COPYIN_OUT) deps = Some (i, d) ->
  let cs' := register_task x arg deps cs in
  exists owned a, cp_owned cs' !! x = Some owned /\
    find_copyin_out (cp_dephash cs') owned = Some (Some a) /\
    cp_dephash cs' !! a = Some (mk_dh d false None).
Proof.
  intros Hf cs'. eexists _, _. split; [simpl; by rewrite lookup_insert_eq|].
  simpl. rewrite find_copyin_out_registered, Hf. split; [reflexivity|].
  apply insert_deps_new. by apply list_find_Some in Hf as (? & _).
Qed.

(** C27: a copy-in task of the [GET] implementation that is not
    runnable when it is created gets [COPYIN_TASK_PRIO], is flagged as
    a communication task, loses its reference, and its [COPYIN_OUT]
    record is the dependency it serves.  Its priority is not
    [DART_PRIO_HIGH], so [dart_tasking_taskqueue_push_unsafe] and its
    variants put it on the low-priority deque: the copy-in tasks do not
    outrun the computation (the specification says they do). *)
Theorem dart_tasking_copyin_create_task_get_spec cs dep r1 x :
  x_cancel e = false ->
  create_task DART_PHASE_ANY var_space_size e (cp_rt cs) me COPYIN_GET_FN COPYIN_TASKDATA_SIZE
    COPYIN_TASK_PRIO = Some (r1, x) ->
  (dep_counts (copyin_get_deps dep)).1 <> 0%Z \/ (dep_counts (copyin_get_deps dep)).2 <> 0%Z ->
  exists cs' t, dart_tasking_copyin_create_task_get cs dep = Some cs' /\
    r_heap (cp_rt cs') !! x = Some t /\ t_prio t = COPYIN_TASK_PRIO /\ is_high_prio t = false /\
    t_state t = DART_TASK_CREATED /\ has_flag t DART_TASK_IS_COMMTASK = true /\
    has_flag t DART_TASK_HAS_REF = false /\
    cp_args cs' !! x = Some (mk_td (ci_gptr (d_copyin dep)) (ci_size (d_copyin dep)) 0 0) /\
    exists owned a, cp_owned cs' !! x = Some owned /\
      find_copyin_out (cp_dephash cs') owned = Some (Some a) /\
      cp_dephash cs' !! a = Some (mk_dh (set_dep_type DART_DEP_COPYIN_OUT dep) false None).
Proof.
  intros Hc Hct Hu. unfold dart_tasking_copyin_create_task_get.
  destruct (copyin_spawn_blocked _ _ (mk_td (ci_gptr (d_copyin dep)) (ci_size (d_copyin dep)) 0 0)
              _ _ _ Hc Hct Hu) as (cs' & t & E & Ht & Hpr & Hst & Hcomm & Href & Heq).
  exists cs', t. rewrite E. split_and!; try done.
  - unfold is_high_prio. rewrite Hpr. reflexivity.
  - rewrite Heq. simpl. by rewrite lookup_insert_eq.
  - rewrite Heq. apply (register_task_copyin_out _ _ _ _ 1). reflexivity.
Qed.

(** Under cancellation the creation routines never get a task. *)
Lemma copyin_spawn_cancelled cs fn arg deps : x_cancel e = true -> copyin_spawn cs fn arg deps = None.
Proof.
  intros Hc. unfold copyin_spawn. destruct (dep_counts deps).
  unfold dart__tasking__create_task. by rewrite Hc.
Qed.

(** C33: when cancellation has been requested,
    [dart__tasking__create_task] ignores the creation and does not write
    [*ref]; [dart_tasking_copyin_create_task] then sets
    [DART_TASK_IS_COMMTASK] on (and frees the reference of) the
    uninitialised pointer [task]: a copy-in dependency submitted during
    cancellation always fails, with either implementation. *)
Theorem dart_tasking_copyin_create_task_cancelled cs dep :
  x_cancel e = true -> dart_tasking_copyin_create_task cs dep = None.
Proof.
  intros Hc. unfold dart_tasking_copyin_create_task.
  destruct (cp_impl (if bool_decide _ then _ else _)); [done| |].
  - unfold dart_tasking_copyin_create_task_get. by rewrite copyin_spawn_cancelled.
  - unfold dart_tasking_copyin_create_task_sendrecv.
    destruct (negb _); by rewrite copyin_spawn_cancelled.
Qed.

(** [prepare_dep] on a task whose [COPYIN_OUT] record has no buffer
    takes one of the record's size from the pool and installs the
    destructor. *)
Lemma prepare_dep_alloc cs x owned a el :
  mp_wf (cp_mp cs) -> current_task cs = Some x -> cp_owned cs !! x = Some owned ->
  find_copyin_out (cp_dephash cs) owned = Some (Some a) -> cp_dephash cs !! a = Some el ->
  ci_dest (d_copyin (dh_dep el)) = NULL ->
  exists cs1 mem, dart_tasking_copyin_prepare_dep cs = Some (cs1, a) /\ dep_dest cs1 a = Some mem /\
    mp_wf (cp_mp cs1) /\ handed_out (cp_mp cs1) mem (ci_size (d_copyin (dh_dep el))) /\
    cp_dephash cs1 !! a = Some (mk_dh (set_dep_dest (Some mem) (dh_dep el)) true (dh_dep_list el)) /\
    cp_rt cs1 = cp_rt cs /\ cp_ops cs1 = cp_ops cs /\
    (forall b, b <> a -> cp_dephash cs1 !! b = cp_dephash cs !! b).
Proof.
  intros Hwf Hx Ho Hf Hel Hd. unfold dart_tasking_copyin_prepare_dep.
  rewrite Hx. simpl. rewrite Ho. simpl. rewrite Hf. simpl. rewrite Hel. simpl. rewrite Hd.
  destruct (allocate_from_mempool_spec (cp_mp cs) (ci_size (d_copyin (dh_dep el))) Hwf)
    as (mp' & mem & E & Hwf' & Hho & _).
  rewrite E. simpl. eexists _, mem. split; [reflexivity|].
  unfold dep_dest. simpl. rewrite lookup_insert_eq. simpl.
  split_and!; try done. intros b Hb. by rewrite lookup_insert_ne.
Qed.

(** C7: a copy-in buffer the engine takes from the pool for a
    [COPYIN_OUT] dependency without a buffer has exactly the size of the
    dependency, and its destructor [dart_tasking_copyin_release_mem]
    returns it to the pool of that size, at the head of its free list,
    and clears the dependency's buffer (the specification: a copy-in
    buffer acquired from the pool is returned to the same size class). *)
Theorem copyin_buffer_returned cs x owned a el :
  mp_wf (cp_mp cs) -> current_task cs = Some x -> cp_owned cs !! x = Some owned ->
  find_copyin_out (cp_dephash cs) owned = Some (Some a) -> cp_dephash cs !! a = Some el ->
  ci_dest (d_copyin (dh_dep el)) = NULL ->
  exists cs1 cs2 mem p, dart_tasking_copyin_prepare_dep cs = Some (cs1, a) /\
    dep_dest cs1 a = Some mem /\ handed_out (cp_mp cs1) mem (ci_size (d_copyin (dh_dep el))) /\
    dart_tasking_copyin_release_mem cs1 a = Some cs2 /\ dep_dest cs2 a = NULL /\
    mp_wf (cp_mp cs2) /\ find_mem_pool (ci_size (d_copyin (dh_dep el))) (ms_pools (cp_mp cs2)) = Some p /\
    head (pool_elems p) = Some (mem - ELEM_HDR_SIZE).
Proof.
  intros Hwf Hx Ho Hf Hel Hd.
  destruct (prepare_dep_alloc cs x owned a el Hwf Hx Ho Hf Hel Hd)
    as (cs1 & mem & E & Hdd & Hwf1 & Hho & Ha & _).
  destruct (return_to_mempool_spec _ _ _ Hwf1 Hho) as (mp2 & E2 & Hwf2 & _ & p & Hp & Hh).
  exists cs1.
  eexists (set_cp_dephash (<[a := mk_dh (set_dep_dest NULL (set_dep_dest (Some mem) (dh_dep el))) true
                                   (dh_dep_list el)]> (cp_dephash cs1)) (set_cp_mp mp2 cs1)).
  exists mem, p. split_and!; try done.
  - unfold dart_tasking_copyin_release_mem. rewrite Ha. simpl. rewrite E2. reflexivity.
  - unfold dep_dest. simpl. by rewrite lookup_insert_eq.
Qed.

(** [dart_tasking_copyin_create_task_sendrecv] for a task that is not
    runnable when it is created, with the parts of the state the
    routine leaves untouched: when the source is remote it sends
    one request carrying the next tag of [global_tag_counter], which it
    increments, and the receiving task gets that tag and a NULL source;
    when the source is local it sends nothing, keeps the counter, and
    the task copies from the localised source with tag 0.  Either way
    the task has the copy-in priority and the communication flag, and
    its [COPYIN_OUT] record is the dependency it serves. *)
Lemma sendrecv_blocked cs dep r1 x :
  x_cancel e = false ->
  create_task DART_PHASE_ANY var_space_size e (cp_rt cs) me COPYIN_RECV_FN COPYIN_TASKDATA_SIZE
    COPYIN_TASK_PRIO = Some (r1, x) ->
  (dep_counts (copyin_sendrecv_deps dep)).1 <> 0%Z \/ (dep_counts (copyin_sendrecv_deps dep)).2 <> 0%Z ->
  exists cs' t, dart_tasking_copyin_create_task_sendrecv cs dep = Some cs' /\
    r_heap (cp_rt cs') !! x = Some t /\ t_prio t = COPYIN_TASK_PRIO /\
    has_flag t DART_TASK_IS_COMMTASK = true /\
    (if myid =? unit_l2g (g_team (d_gptr dep)) (g_unit (d_gptr dep))
     then cp_tag cs' = cp_tag cs /\ cp_sent cs' = cp_sent cs /\
          cp_args cs' !! x = Some (mk_td (localize_gptr (ci_gptr (d_copyin dep))) (ci_size (d_copyin dep))
                                         (unit_l2g (g_team (d_gptr dep)) (g_unit (d_gptr dep))) 0)
     else cp_tag cs' = (cp_tag cs + 1)%Z /\
          cp_sent cs' = cp_sent cs ++ [mk_sr (unit_l2g (g_team (d_gptr dep)) (g_unit (d_gptr dep)))
                                             (ci_gptr (d_copyin dep)) (ci_size (d_copyin dep))
                                             (cp_tag cs) (d_phase dep)] /\
          cp_args cs' !! x = Some (mk_td DART_GPTR_NULL (ci_size (d_copyin dep))
                                         (unit_l2g (g_team (d_gptr dep)) (g_unit (d_gptr dep))) (cp_tag cs))) /\
    (exists owned a, cp_owned cs' !! x = Some owned /\
      find_copyin_out (cp_dephash cs') owned = Some (Some a) /\
      cp_dephash cs' !! a = Some (mk_dh (set_dep_type DART_DEP_COPYIN_OUT dep) false None)) /\
    cp_mp cs' = cp_mp cs /\ cp_ops cs' = cp_ops cs.
Proof.
  intros Hc Hct Hu. unfold dart_tasking_copyin_create_task_sendrecv.
  destruct (myid =? unit_l2g _ _); simpl.
  all: match goal with
       | |- context [copyin_spawn ?cs1 _ ?arg _] =>
           destruct (copyin_spawn_blocked cs1 _ arg _ _ _ Hc Hct Hu)
             as (cs' & t & E & Ht & Hpr & _ & Hcomm & _ & Heq)
       end.
  all: exists cs', t; rewrite E; split_and!; try done; rewrite Heq;
         first [apply (register_task_copyin_out _ _ _ _ 0); reflexivity
               |simpl; try done; by rewrite lookup_insert_eq].
Qed.

(** [dart_tasking_copyin_create_task_sendrecv] for a task that is
    not runnable when it is created: when the source is remote it sends
    one request carrying the next tag of [global_tag_counter], which it
    increments, and the receiving task gets that tag and a NULL source;
    when the source is local it sends nothing, keeps the counter, and
    the task copies from the localised source with tag 0.  Either way
    the task has the copy-in priority and the communication flag, and
    its [COPYIN_OUT] record is the dependency it serves. *)
Theorem dart_tasking_copyin_create_task_sendrecv_spec cs dep r1 x :
  x_cancel e = false ->
  create_task DART_PHASE_ANY var_space_size e (cp_rt cs) me COPYIN_RECV_FN COPYIN_TASKDATA_SIZE
    COPYIN_TASK_PRIO = Some (r1, x) ->
  (dep_counts (copyin_sendrecv_deps dep)).1 <> 0%Z \/ (dep_counts (copyin_sendrecv_deps dep)).2 <> 0%Z ->
  exists cs' t, dart_tasking_copyin_create_task_sendrecv cs dep = Some cs' /\
    r_heap (cp_rt cs') !! x = Some t /\ t_prio t = COPYIN_TASK_PRIO /\
    has_flag t DART_TASK_IS_COMMTASK = true /\
    (if myid =? unit_l2g (g_team (d_gptr dep)) (g_unit (d_gptr dep))
     then cp_tag cs' = cp_tag cs /\ cp_sent cs' = cp_sent cs /\
          cp_args cs' !! x = Some (mk_td (localize_gptr (ci_gptr (d_copyin dep))) (ci_size (d_copyin dep))
                                         (unit_l2g (g_team (d_gptr dep)) (g_unit (d_gptr dep))) 0)
     else cp_tag cs' = (cp_tag cs + 1)%Z /\
          cp_sent cs' = cp_sent cs ++ [mk_sr (unit_l2g (g_team (d_gptr dep)) (g_unit (d_gptr dep)))
                                             (ci_gptr (d_copyin dep)) (ci_size (d_copyin dep))
                                             (cp_tag cs) (d_phase dep)] /\
          cp_args cs' !! x = Some (mk_td DART_GPTR_NULL (ci_size (d_copyin dep))
                                         (unit_l2g (g_team (d_gptr dep)) (g_unit (d_gptr dep))) (cp_tag cs))) /\
    exists owned a, cp_owned cs' !! x = Some owned /\
      find_copyin_out (cp_dephash cs') owned = Some (Some a) /\
      cp_dephash cs' !! a = Some (mk_dh (set_dep_type DART_DEP_COPYIN_OUT dep) false None).
Proof.
  intros Hc Hct Hu. destruct (sendrecv_blocked cs dep r1 x Hc Hct Hu) as (cs' & t & H).
  exists cs', t. tauto.
Qed.


Lemma wait_for_handle_nowait cs tests :
  wait_type <> COPYIN_WAIT_YIELD -> wait_type <> COPYIN_WAIT_UNDEFINED ->
  wait_for_handle cs tests = Some cs.
Proof. unfold wait_for_handle. by destruct wait_type. Qed.

(** C6: end to end, the receive of the [SENDRECV] implementation fits
    its buffer.  A receiving task created for a dependency without a
    buffer (and not runnable at creation) carries the dependency's size
    as [num_bytes]; whenever it later runs, in whatever runtime state,
    [dart_tasking_copyin_recv_taskfn] takes a buffer of exactly that
    size from the pool and posts one transfer (receive or local copy)
    of exactly that many bytes into it. *)
Theorem copyin_recv_transfer_fits cs dep r1 x :
  x_cancel e = false ->
  create_task DART_PHASE_ANY var_space_size e (cp_rt cs) me COPYIN_RECV_FN COPYIN_TASKDATA_SIZE
    COPYIN_TASK_PRIO = Some (r1, x) ->
  (dep_counts (copyin_sendrecv_deps dep)).1 <> 0%Z \/ (dep_counts (copyin_sendrecv_deps dep)).2 <> 0%Z ->
  mp_wf (cp_mp cs) -> ci_dest (d_copyin dep) = NULL ->
  wait_type <> COPYIN_WAIT_YIELD -> wait_type <> COPYIN_WAIT_UNDEFINED ->
  exists cs1 td, dart_tasking_copyin_create_task_sendrecv cs dep = Some cs1 /\ cp_args cs1 !! x = Some td /\
    forall r' tests, current_task (set_cp_rt r' cs1) = Some x ->
      exists cs2 mem o, dart_tasking_copyin_recv_taskfn (set_cp_rt r' cs1) td tests = Some cs2 /\
        cp_ops cs2 = cp_ops cs ++ [o] /\ op_target o = Some (mem, ci_size (d_copyin dep)) /\
        handed_out (cp_mp cs2) mem (ci_size (d_copyin dep)).
Proof.
  intros Hc Hct Hu Hwf Hd Hy Hun.
  destruct (sendrecv_blocked cs dep r1 x Hc Hct Hu)
    as (cs' & t & E & _ & _ & _ & Hbr & (owned & a & Ho & Hf & Ha) & Hmp & Hops).
  assert (Htd : exists td, cp_args cs' !! x = Some td /\ td_num_bytes td = ci_size (d_copyin dep))
    by (destruct (myid =? _); destruct Hbr as (_ & _ & ?); eauto).
  destruct Htd as (td & Htd & Hn). exists cs', td. split_and!; [done|done|]. intros r' tests Hcur.
  destruct (prepare_dep_alloc (set_cp_rt r' cs') x owned a _ ltac:(simpl; by rewrite Hmp) Hcur Ho Hf Ha Hd)
    as (cs1 & mem & E1 & Hdd & _ & Hho & _ & _ & Hops1 & _).
  unfold dart_tasking_copyin_recv_taskfn. rewrite E1. simpl. rewrite Hdd. simpl.
  case_bool_decide; [rewrite wait_for_handle_nowait by done|];
    eexists _, mem, _; (split; [reflexivity|]); simpl; rewrite Hops1, Hn; simpl; by rewrite Hops.
Qed.

End Ops.

(** ** Witnesses

    Parameters: [DART_PHASE_ANY = -1], an inline data budget of 64
    bytes, no cancellation, thread 0 on unit 0, every dependency list
    blocked on one unresolved local dependency, the blocking wait. *)

Local Notation ex_counts := (fun _ : list dart_task_dep => (1%Z, 0%Z)).
Local Notation ex_l2g := (fun _ u : nat => u).
Local Notation ex_loc := (fun g : dart_gptr => g).

Lemma dart_tasking_copyin_create_task_get_spec_witness :
  x_cancel (ex_ext false) = false /\
  create_task (-1) 64 (ex_ext false) (cp_rt ex_cp) 0 COPYIN_GET_FN COPYIN_TASKDATA_SIZE COPYIN_TASK_PRIO
    = Some (ex_new_rt COPYIN_GET_FN, ex_new COPYIN_GET_FN) /\
  ((ex_counts (copyin_get_deps 0 ex_uninit ex_dep)).1 <> 0%Z \/
   (ex_counts (copyin_get_deps 0 ex_uninit ex_dep)).2 <> 0%Z) /\
  exists cs' t, dart_tasking_copyin_create_task_get (-1) 64 (ex_ext false) 10 0 0 ex_counts
                  COPYIN_WAIT_BLOCK ex_uninit ex_cp ex_dep = Some cs' /\
    r_heap (cp_rt cs') !! ex_new COPYIN_GET_FN = Some t /\ t_prio t = COPYIN_TASK_PRIO /\
    is_high_prio t = false /\ t_state t = DART_TASK_CREATED /\
    has_flag t DART_TASK_IS_COMMTASK = true /\ has_flag t DART_TASK_HAS_REF = false /\
    cp_args cs' !! ex_new COPYIN_GET_FN = Some (mk_td (ci_gptr (d_copyin ex_dep)) (ci_size (d_copyin ex_dep)) 0 0) /\
    exists owned a, cp_owned cs' !! ex_new COPYIN_GET_FN = Some owned /\
      find_copyin_out (cp_dephash cs') owned = Some (Some a) /\
      cp_dephash cs' !! a = Some (mk_dh (set_dep_type DART_DEP_COPYIN_OUT ex_dep) false None).
Proof.
  assert (H1 : x_cancel (ex_ext false) = false) by reflexivity.
  assert (H2 : create_task (-1) 64 (ex_ext false) (cp_rt ex_cp) 0 COPYIN_GET_FN COPYIN_TASKDATA_SIZE
                 COPYIN_TASK_PRIO = Some (ex_new_rt COPYIN_GET_FN, ex_new COPYIN_GET_FN))
    by (vm_compute; reflexivity).
  assert (H3 : (ex_counts (copyin_get_deps 0 ex_uninit ex_dep)).1 <> 0%Z \/
               (ex_counts (copyin_get_deps 0 ex_uninit ex_dep)).2 <> 0%Z) by (left; simpl; lia).
  split; [exact H1|]. split; [exact H2|]. split; [exact H3|].
  exact (dart_tasking_copyin_create_task_get_spec (-1) 64 (ex_ext false) 10 0 0 ex_counts
           COPYIN_WAIT_BLOCK ex_uninit ex_cp ex_dep _ _ H1 H2 H3).
Defined.

Lemma dart_tasking_copyin_create_task_cancelled_witness :
  x_cancel (ex_ext true) = true /\
  dart_tasking_copyin_create_task (-1) 64 (ex_ext true) 10 0 0 ex_l2g ex_loc ex_counts COPYIN_IMPL_GET
    COPYIN_WAIT_BLOCK ex_uninit ex_cp ex_dep = None.
Proof.
  assert (H : x_cancel (ex_ext true) = true) by reflexivity.
  split; [exact H|]. exact (dart_tasking_copyin_create_task_cancelled (-1) 64 (ex_ext true) 10 0 0
                              ex_l2g ex_loc ex_counts COPYIN_IMPL_GET COPYIN_WAIT_BLOCK ex_uninit ex_cp ex_dep H).
Defined.

Lemma copyin_buffer_returned_witness :
  mp_wf (cp_mp ex_cp_owned) /\ current_task 0 ex_cp_owned = Some 0 /\
  cp_owned ex_cp_owned !! 0 = Some [1] /\
  find_copyin_out (cp_dephash ex_cp_owned) [1] = Some (Some 1) /\
  cp_dephash ex_cp_owned !! 1 = Some (mk_dh (set_dep_type DART_DEP_COPYIN_OUT ex_dep) false NULL) /\
  ci_dest (d_copyin (set_dep_type DART_DEP_COPYIN_OUT ex_dep)) = NULL /\
  exists cs1 cs2 mem p, dart_tasking_copyin_prepare_dep 0 ex_cp_owned = Some (cs1, 1) /\
    dep_dest cs1 1 = Some mem /\ handed_out (cp_mp cs1) mem (ci_size (d_copyin ex_dep)) /\
    dart_tasking_copyin_release_mem cs1 1 = Some cs2 /\ dep_dest cs2 1 = NULL /\
    mp_wf (cp_mp cs2) /\ find_mem_pool (ci_size (d_copyin ex_dep)) (ms_pools (cp_mp cs2)) = Some p /\
    head (pool_elems p) = Some (mem - ELEM_HDR_SIZE).
Proof.
  assert (H1 : mp_wf (cp_mp ex_cp_owned)) by wit_decide.
  assert (H2 : current_task 0 ex_cp_owned = Some 0) by (vm_compute; reflexivity).
  assert (H3 : cp_owned ex_cp_owned !! 0 = Some [1]) by reflexivity.
  assert (H4 : find_copyin_out (cp_dephash ex_cp_owned) [1] = Some (Some 1)) by (vm_compute; reflexivity).
  assert (H5 : cp_dephash ex_cp_owned !! 1 = Some (mk_dh (set_dep_type DART_DEP_COPYIN_OUT ex_dep) false NULL))
    by reflexivity.
  assert (H6 : ci_dest (d_copyin (set_dep_type DART_DEP_COPYIN_OUT ex_dep)) = NULL) by reflexivity.
  split_and!; try assumption.
  exact (copyin_buffer_returned 0 ex_cp_owned 0 [1] 1 _ H1 H2 H3 H4 H5 H6).
Defined.

Lemma dart_tasking_copyin_create_task_sendrecv_spec_witness :
  x_cancel (ex_ext false) = false /\
  create_task (-1) 64 (ex_ext false) (cp_rt ex_cp) 0 COPYIN_RECV_FN COPYIN_TASKDATA_SIZE COPYIN_TASK_PRIO
    = Some (ex_new_rt COPYIN_RECV_FN, ex_new COPYIN_RECV_FN) /\
  ((ex_counts (copyin_sendrecv_deps 0 ex_uninit ex_dep)).1 <> 0%Z \/
   (ex_counts (copyin_sendrecv_deps 0 ex_uninit ex_dep)).2 <> 0%Z) /\
  exists cs' t, dart_tasking_copyin_create_task_sendrecv (-1) 64 (ex_ext false) 10 0 0 ex_l2g ex_loc
                  ex_counts COPYIN_WAIT_BLOCK ex_uninit ex_cp ex_dep = Some cs' /\
    r_heap (cp_rt cs') !! ex_new COPYIN_RECV_FN = Some t /\ t_prio t = COPYIN_TASK_PRIO /\
    has_flag t DART_TASK_IS_COMMTASK = true /\
    (if 0 =? ex_l2g (g_team (d_gptr ex_dep)) (g_unit (d_gptr ex_dep))
     then cp_tag cs' = cp_tag ex_cp /\ cp_sent cs' = cp_sent ex_cp /\
          cp_args cs' !! ex_new COPYIN_RECV_FN =
            Some (mk_td (ex_loc (ci_gptr (d_copyin ex_dep))) (ci_size (d_copyin ex_dep))
                        (ex_l2g (g_team (d_gptr ex_dep)) (g_unit (d_gptr ex_dep))) 0)
     else cp_tag cs' = (cp_tag ex_cp + 1)%Z /\
          cp_sent cs' = cp_sent ex_cp ++ [mk_sr (ex_l2g (g_team (d_gptr ex_dep)) (g_unit (d_gptr ex_dep)))
                                                (ci_gptr (d_copyin ex_dep)) (ci_size (d_copyin ex_dep))
                                                (cp_tag ex_cp) (d_phase ex_dep)] /\
          cp_args cs' !! ex_new COPYIN_RECV_FN =
            Some (mk_td DART_GPTR_NULL (ci_size (d_copyin ex_dep))
                        (ex_l2g (g_team (d_gptr ex_dep)) (g_unit (d_gptr ex_dep))) (cp_tag ex_cp))) /\
    exists owned a, cp_owned cs' !! ex_new COPYIN_RECV_FN = Some owned /\
      find_copyin_out (cp_dephash cs') owned = Some (Some a) /\
      cp_dephash cs' !! a = Some (mk_dh (set_dep_type DART_DEP_COPYIN_OUT ex_dep) false None).
Proof.
  assert (H1 : x_cancel (ex_ext false) = false) by reflexivity.
  assert (H2 : create_task (-1) 64 (ex_ext false) (cp_rt ex_cp) 0 COPYIN_RECV_FN COPYIN_TASKDATA_SIZE
                 COPYIN_TASK_PRIO = Some (ex_new_rt COPYIN_RECV_FN, ex_new COPYIN_RECV_FN))
    by (vm_compute; reflexivity).
  assert (H3 : (ex_counts (copyin_sendrecv_deps 0 ex_uninit ex_dep)).1 <> 0%Z \/
               (ex_counts (copyin_sendrecv_deps 0 ex_uninit ex_dep)).2 <> 0%Z) by (left; simpl; lia).
  split; [exact H1|]. split; [exact H2|]. split; [exact H3|].
  exact (dart_tasking_copyin_create_task_sendrecv_spec (-1) 64 (ex_ext false) 10 0 0 ex_l2g ex_loc
           ex_counts COPYIN_WAIT_BLOCK ex_uninit Some ex_cp ex_dep _ _ H1 H2 H3).
Defined.

Lemma copyin_recv_transfer_fits_witness :
  x_cancel (ex_ext false) = false /\
  create_task (-1) 64 (ex_ext false) (cp_rt ex_cp) 0 COPYIN_RECV_FN COPYIN_TASKDATA_SIZE COPYIN_TASK_PRIO
    = Some (ex_new_rt COPYIN_RECV_FN, ex_new COPYIN_RECV_FN) /\
  ((ex_counts (copyin_sendrecv_deps 0 ex_uninit ex_dep)).1 <> 0%Z \/
   (ex_counts (copyin_sendrecv_deps 0 ex_uninit ex_dep)).2 <> 0%Z) /\
  mp_wf (cp_mp ex_cp) /\ ci_dest (d_copyin ex_dep) = NULL /\
  COPYIN_WAIT_BLOCK <> COPYIN_WAIT_YIELD /\ COPYIN_WAIT_BLOCK <> COPYIN_WAIT_UNDEFINED /\
  exists cs1 td, dart_tasking_copyin_create_task_sendrecv (-1) 64 (ex_ext false) 10 0 0 ex_l2g ex_loc
                   ex_counts COPYIN_WAIT_BLOCK ex_uninit ex_cp ex_dep = Some cs1 /\
    cp_args cs1 !! ex_new COPYIN_RECV_FN = Some td /\
    forall r' tests, current_task 0 (set_cp_rt r' cs1) = Some (ex_new COPYIN_RECV_FN) ->
      exists cs2 mem o, dart_tasking_copyin_recv_taskfn 0 COPYIN_WAIT_BLOCK Some (set_cp_rt r' cs1) td tests
                          = Some cs2 /\
        cp_ops cs2 = cp_ops ex_cp ++ [o] /\ op_target o = Some (mem, ci_size (d_copyin ex_dep)) /\
        handed_out (cp_mp cs2) mem (ci_size (d_copyin ex_dep)).
Proof.
  assert (H1 : x_cancel (ex_ext false) = false) by reflexivity.
  assert (H2 : create_task (-1) 64 (ex_ext false) (cp_rt ex_cp) 0 COPYIN_RECV_FN COPYIN_TASKDATA_SIZE
                 COPYIN_TASK_PRIO = Some (ex_new_rt COPYIN_RECV_FN, ex_new COPYIN_RECV_FN))
    by (vm_compute; reflexivity).
  assert (H3 : (ex_counts (copyin_sendrecv_deps 0 ex_uninit ex_dep)).1 <> 0%Z \/
               (ex_counts (copyin_sendrecv_deps 0 ex_uninit ex_dep)).2 <> 0%Z) by (left; simpl; lia).
  assert (H4 : mp_wf (cp_mp ex_cp)) by wit_decide.
  assert (H5 : ci_dest (d_copyin ex_dep) = NULL) by reflexivity.
  assert (H6 : COPYIN_WAIT_BLOCK <> COPYIN_WAIT_YIELD) by discriminate.
  assert (H7 : COPYIN_WAIT_BLOCK <> COPYIN_WAIT_UNDEFINED) by discriminate.
  split_and!; try assumption.
  exact (copyin_recv_transfer_fits (-1) 64 (ex_ext false) 10 0 0 ex_l2g ex_loc ex_counts
           COPYIN_WAIT_BLOCK ex_uninit Some ex_cp ex_dep _ _ H1 H2 H3 H4 H5 H6 H7).
Defined.
