(* ===== verification/Amsgq.v ===== *)
(** * The active-message queue over MPI send/recv

    [src/dash/dash-lib/Zhou/GlobIter.h], lines 177-712: the
    [sendrecv] implementation of DART's active-message queues.  A queue
    pre-posts [msg_count] persistent receives of [msg_size] bytes; a
    send either goes out directly ([MPI_Ssend]/[MPI_Send]) or is copied
    into one of [msg_count] send buffers and posted with
    [MPI_Issend]/[MPI_Isend], the outstanding requests being kept in the
    prefix [0, send_tailpos) of [send_reqs]; finished requests are
    removed by [amsgq_test_sendreqs_unsafe], which moves requests from
    the back into the holes.  With regular (not synchronous) sends the
    queue counts the messages sent to and received from every peer, so
    that [process_blocking] can close a round.

    MPI is the environment: the answers of [MPI_Testsome] and the
    other tests are arguments of the operations, the messages posted
    and the buffers written are recorded in [world], and [malloc] hands
    out addresses from [w_brk].  A request handle is [None] for
    [MPI_REQUEST_NULL] and [Some b] for an outstanding send from the
    buffer at [b].  The two mutexes make each operation a sequential
    section; the [int64_t] counters are kept as [Z] (a wrap-around would
    need 2^63 messages); only the message buffers are tracked as heap
    blocks, not the arrays that hold them.

    The theorems: the compaction of finished send requests and
    [trysend] keep the send slots well formed ([send_wf]) provided
    [MPI_Testsome] reports in increasing order, and a concrete run shows
    what happens otherwise; the results of [openq], of non-blocking
    processing and of a blocking round; the round-completion check
    against a reference predicate; the fuel of the final loop; the
    open/close round trip and the two defects of [closeq]. *)

From S2P Require Import Prelude.
From stdpp Require Import sorting.

(** ** State *)

(** [struct dart_amsgq_impl_data], lines 222-245.  The counters are
    [None] while they are not allocated (they are only with regular
    sends, lines 373-378); the send arrays are empty with direct
    sends. *)
Record amsgq := mk_q {
  q_recv_reqs : list bool;              (* persistent receives; true = started *)
  q_recv_bufs : list nat;
  q_send_reqs : list (option nat);
  q_send_bufs : list nat;
  q_send_count : option (list Z);
  q_recv_count : option (list Z);
  q_send_round_count : option (list Z);
  q_recv_round_count : option (list Z);
  q_send_tailpos : nat;
  q_msg_size : nat;
  q_msg_count : nat;
  q_comm_size : nat;
  q_tag : Z;
  q_direct : bool;
  q_sync : bool
}.

(** What the queue does to the world: messages posted (target, size,
    synchronous?), the bytes written into a send buffer (buffer,
    length), the messages handed to [dart__amsgq__process_buffer]
    (buffer, length), the live heap blocks and the next address. *)
Record send_op := mk_send { so_target : nat; so_size : nat; so_sync : bool; so_buf : option nat }.

Record world := mk_world {
  w_sends : list send_op;
  w_writes : list (nat * nat);
  w_processed : list (nat * nat);
  w_live : list nat;
  w_brk : nat;
  w_tag : Z                             (* amsgq_mpi_tag, line 220 *)
}.

Definition set_tailpos (n : nat) (q : amsgq) : amsgq :=
  mk_q (q_recv_reqs q) (q_recv_bufs q) (q_send_reqs q) (q_send_bufs q) (q_send_count q)
       (q_recv_count q) (q_send_round_count q) (q_recv_round_count q) n (q_msg_size q)
       (q_msg_count q) (q_comm_size q) (q_tag q) (q_direct q) (q_sync q).

Definition set_send (reqs : list (option nat)) (bufs : list nat) (q : amsgq) : amsgq :=
  mk_q (q_recv_reqs q) (q_recv_bufs q) reqs bufs (q_send_count q)
       (q_recv_count q) (q_send_round_count q) (q_recv_round_count q) (q_send_tailpos q) (q_msg_size q)
       (q_msg_count q) (q_comm_size q) (q_tag q) (q_direct q) (q_sync q).

Definition set_send_count (c : option (list Z)) (q : amsgq) : amsgq :=
  mk_q (q_recv_reqs q) (q_recv_bufs q) (q_send_reqs q) (q_send_bufs q) c
       (q_recv_count q) (q_send_round_count q) (q_recv_round_count q) (q_send_tailpos q) (q_msg_size q)
       (q_msg_count q) (q_comm_size q) (q_tag q) (q_direct q) (q_sync q).

Definition set_recv_count (c : option (list Z)) (q : amsgq) : amsgq :=
  mk_q (q_recv_reqs q) (q_recv_bufs q) (q_send_reqs q) (q_send_bufs q) (q_send_count q)
       c (q_send_round_count q) (q_recv_round_count q) (q_send_tailpos q) (q_msg_size q)
       (q_msg_count q) (q_comm_size q) (q_tag q) (q_direct q) (q_sync q).

Definition set_round_counts (s r : option (list Z)) (q : amsgq) : amsgq :=
  mk_q (q_recv_reqs q) (q_recv_bufs q) (q_send_reqs q) (q_send_bufs q) (q_send_count q)
       (q_recv_count q) s r (q_send_tailpos q) (q_msg_size q)
       (q_msg_count q) (q_comm_size q) (q_tag q) (q_direct q) (q_sync q).

Definition post_send (o : send_op) (w : world) : world :=
  mk_world (w_sends w ++ [o]) (w_writes w) (w_processed w) (w_live w) (w_brk w) (w_tag w).

Definition record_write (b n : nat) (w : world) : world :=
  mk_world (w_sends w) (w_writes w ++ [(b, n)]) (w_processed w) (w_live w) (w_brk w) (w_tag w).

(** [x[i]++] on a counter array that must be allocated and hold [i]. *)
Definition incr_at (c : option (list Z)) (i : nat) : option (option (list Z)) :=
  l ← c; v ← l !! i; Some (Some (<[i := (v + 1)%Z]> l)).

Definition mpi_ret (ok : bool) : dart_ret := if ok then DART_OK else DART_ERR_AGAIN.

(** ** Removing finished send requests: [amsgq_test_sendreqs_unsafe] *)

(** [MPI_Testsome] sets the requests it reports in [send_outidx] to
    [MPI_REQUEST_NULL]. *)
Definition complete_reqs (reqs : list (option nat)) (done : list nat) : list (option nat) :=
  foldl (fun rs d => <[d := None]> rs) reqs done.

(** [while (back_pos > done_idx && send_reqs[back_pos] == MPI_REQUEST_NULL)
    back_pos--;], lines 274-275. *)
Fixpoint skip_null (reqs : list (option nat)) (d bp : nat) : nat :=
  match bp with
  | 0 => 0
  | S bp' => if (d <? bp) && bool_decide (reqs !! bp = Some None) then skip_null reqs d bp' else bp
  end.

(** The [for] loop over [send_outidx], lines 270-289: move the request and
    buffer at [back_pos] into the finished slot [done_idx] (the buffers
    are swapped, so none is lost), or stop where the two meet. *)
Fixpoint compact (reqs : list (option nat)) (bufs : list nat) (bp : nat) (done : list nat)
    : list (option nat) * list nat :=
  match done with
  | [] => (reqs, bufs)
  | d :: ds =>
      let bp1 := skip_null reqs d bp in
      if bp1 <=? d then (reqs, bufs)
      else
        let reqs1 := <[bp1 := None]> (<[d := default None (reqs !! bp1)]> reqs) in
        let bufs1 := <[bp1 := default 0 (bufs !! d)]> (<[d := default 0 (bufs !! bp1)]> bufs) in
        compact reqs1 bufs1 (pred bp1) ds
  end.

(** Lines 247-298.  [done] is what [MPI_Testsome] reports in
    [send_outidx] for the first [send_tailpos] requests. *)
Definition amsgq_test_sendreqs_unsafe (q : amsgq) (done : list nat) : amsgq * dart_ret :=
  let outcount := length done in
  let reqs1 := complete_reqs (q_send_reqs q) done in
  if 0 <? outcount then
    if outcount =? q_send_tailpos q then (set_tailpos 0 (set_send reqs1 (q_send_bufs q) q), DART_OK)
    else
      let '(reqs2, bufs2) := compact reqs1 (q_send_bufs q) (pred (q_msg_count q)) done in
      (set_tailpos (q_send_tailpos q - outcount) (set_send reqs2 bufs2 q), DART_OK)
  else (q, DART_ERR_AGAIN).

(** Lines 404-410: a free slot, if need be after removing the finished
    requests. *)
Definition amsgq_acquire_slot (q : amsgq) (done : list nat) : amsgq * dart_ret :=
  if q_send_tailpos q =? q_msg_count q then amsgq_test_sendreqs_unsafe q done else (q, DART_OK).

(** ** Sending: [dart_amsg_sendrecv_trysend], lines 389-455

    [done] is the answer of [MPI_Testsome] should all send slots be
    taken, [ok] whether MPI accepts the send.  The message is copied
    ([memcpy], of [data_size] bytes) into the buffer of the first free
    slot whatever its size. *)
Definition dart_amsg_sendrecv_trysend (q : amsgq) (w : world) (target data_size : nat)
    (done : list nat) (ok : bool) : option (amsgq * world * dart_ret) :=
  dart_assert (q_send_tailpos q <=? q_msg_count q)
  (if negb (q_direct q) then
     let '(q1, ret) := amsgq_acquire_slot q done in
     match ret with
     | DART_OK =>
         let idx := q_send_tailpos q1 in
         sendbuf ← q_send_bufs q1 !! idx;
         let w1 := record_write sendbuf data_size w in
         let q2 := set_send (<[idx := Some sendbuf]> (q_send_reqs q1)) (q_send_bufs q1)
                            (set_tailpos (S idx) q1) in
         if q_sync q then
           Some (q2, post_send (mk_send target data_size true (Some sendbuf)) w1, mpi_ret ok)
         else
           c ← incr_at (q_send_count q2) target;
           Some (set_send_count c q2, post_send (mk_send target data_size false (Some sendbuf)) w1,
                 mpi_ret ok)
     | _ => Some (q1, w, ret)
     end
   else if q_sync q then
     Some (q, post_send (mk_send target data_size true None) w, mpi_ret ok)
   else
     c ← incr_at (q_send_count q) target;
     Some (set_send_count c q, post_send (mk_send target data_size false None) w, mpi_ret ok)).

(** ** Opening a queue: [dart_amsg_sendrecv_openq], lines 300-387 *)

(** [malloc(n)]: a fresh block at the break. *)
Definition malloc (n : nat) (w : world) : nat * world :=
  (w_brk w, mk_world (w_sends w) (w_writes w) (w_processed w) (w_live w ++ [w_brk w])
                     (w_brk w + S n) (w_tag w)).

Definition free (b : nat) (w : world) : world :=
  mk_world (w_sends w) (w_writes w) (w_processed w) (filter (fun a => a <> b) (w_live w))
           (w_brk w) (w_tag w).

(** The loop posting the receives, lines 357-371: per slot a receive
    buffer and, unless sends are direct, a send buffer. *)
Fixpoint alloc_bufs (k msg_size : nat) (direct : bool) (w : world) : list nat * list nat * world :=
  match k with
  | 0 => ([], [], w)
  | S k' =>
      let '(r, w1) := malloc msg_size w in
      let '(s, w2) := if direct then (None, w1) else let '(s, w2) := malloc msg_size w1 in (Some s, w2) in
      let '(rs, ss, w3) := alloc_bufs k' msg_size direct w2 in
      (r :: rs, option_list s ++ ss, w3)
  end.

(** [env_sync] and [env_direct] are the values of
    [DART_AMSGQ_SENDRECV_SYNC] and [DART_AMSGQ_SENDRECV_DIRECT] if set,
    [team_size] the size of the team's communicator if the team is
    known. *)
Definition dart_amsg_sendrecv_openq (w : world) (msg_size msg_count : nat)
    (env_sync env_direct : option bool) (team_size : option nat) : option amsgq * world * dart_ret :=
  let sync := default true env_sync in
  let direct := default (negb sync) env_direct in
  match team_size with
  | None => (None, w, DART_ERR_INVAL)
  | Some n =>
      let '(rbufs, sbufs, w1) := alloc_bufs msg_count msg_size direct w in
      let counts := if sync then None else Some (replicate n 0%Z) in
      let q := mk_q (replicate msg_count true) rbufs
                    (if direct then [] else replicate msg_count None) sbufs
                    counts counts counts counts 0 msg_size msg_count n (w_tag w) direct sync in
      (Some q, mk_world (w_sends w1) (w_writes w1) (w_processed w1) (w_live w1) (w_brk w1)
                        (w_tag w1 + 1)%Z, DART_OK)
  end.

(** ** Receiving: [amsg_sendrecv_process_internal], lines 457-518

    A message reported by [MPI_Testsome]: the slot, the number of bytes
    ([MPI_Get_elements]) and the sender.  The answers of the successive
    calls of [MPI_Testsome] are a list of batches; an empty batch, or no
    batch left, means no message has arrived. *)
Record recv_msg := mk_msg { rm_idx : nat; rm_size : nat; rm_source : nat }.

(** The body of the [for] loop, lines 488-509. *)
Definition recv_one (q : amsgq) (w : world) (m : recv_msg) : option (amsgq * world) :=
  dbuf ← q_recv_bufs q !! rm_idx m;
  dart_assert (0 <? rm_size m)
  (c ← (if q_sync q then Some (q_recv_count q) else incr_at (q_recv_count q) (rm_source m));
   let q1 := set_recv_count c q in
   let w1 := mk_world (w_sends w) (w_writes w) (w_processed w ++ [(dbuf, rm_size m)])
                      (w_live w) (w_brk w) (w_tag w) in
   Some (q1, w1)).

Fixpoint recv_batch (q : amsgq) (w : world) (b : list recv_msg) : option (amsgq * world) :=
  match b with
  | [] => Some (q, w)
  | m :: b' => '(q1, w1) ← recv_one q w m; recv_batch q1 w1 b'
  end.

(** The [do ... while (blocking && num_msg > 0)] loop, lines 478-512;
    returns the answers not consumed. *)
Fixpoint recv_loop (q : amsgq) (w : world) (blocking : bool) (bs : list (list recv_msg))
    : option (amsgq * world * list (list recv_msg)) :=
  match bs with
  | [] => Some (q, w, [])
  | b :: bs' =>
      '(q1, w1) ← recv_batch q w b;
      if blocking && (0 <? length b) then recv_loop q1 w1 blocking bs' else Some (q1, w1, bs')
  end.

(** [dart_amsg_sendrecv_process], lines 520-525: the non-blocking
    variant gives up if another thread holds the processing mutex. *)
Definition dart_amsg_sendrecv_process (q : amsgq) (w : world) (busy : bool) (bs : list (list recv_msg))
    : option (amsgq * world * list (list recv_msg) * dart_ret) :=
  if busy then Some (q, w, bs, DART_ERR_AGAIN)
  else '(q1, w1, bs1) ← recv_loop q w false bs; Some (q1, w1, bs1, DART_OK).

(** ** Ending a round: [dart_amsg_sendrevc_process_blocking], lines 541-636 *)

(** [dart_amsgq_sendrecv_check_round_completion], lines 527-539: no
    peer has announced more messages for this round than were received
    from it. *)
Fixpoint round_complete_loop (rrc rc : list Z) (i k : nat) : option bool :=
  match k with
  | 0 => Some true
  | S k' =>
      a ← rrc !! i; b ← rc !! i;
      if (0 <? a - b)%Z then Some false else round_complete_loop rrc rc (S i) k'
  end.

Definition dart_amsgq_sendrecv_check_round_completion (q : amsgq) : option bool :=
  rrc ← q_recv_round_count q; rc ← q_recv_count q; round_complete_loop rrc rc 0 (q_comm_size q).

(** Lines 554-560: the round's send counts are copied and the counters
    reset ([memcpy] and [memset] of the first [comm_size] entries, which
    both arrays must have). *)
Definition round_snapshot (q : amsgq) : option amsgq :=
  if q_sync q then Some q
  else
    let n := q_comm_size q in
    sc ← q_send_count q; src ← q_send_round_count q;
    dart_assert ((n <=? length sc) && (n <=? length src))
    (Some (set_send_count (Some (replicate n 0%Z ++ drop n sc))
                          (set_round_counts (Some (take n sc ++ drop n src)) (q_recv_round_count q) q))).

(** The [do ... while (!(barrier_flag && send_flag))] loop, lines
    578-604.  Each iteration consumes one pair of answers: of
    [MPI_Test] on the barrier (or all-to-all) request, and of
    [MPI_Testall] on the outstanding sends.  [incoming] is what the
    [MPI_Ialltoall] delivers into [recv_round_count]; [req] says whether
    that request was posted.  No answer left means the loop does not
    end. *)
Fixpoint blocking_loop (env : list (bool * bool)) (q : amsgq) (w : world) (bs : list (list recv_msg))
    (req barrier sendf : bool) (incoming : list Z) : option (amsgq * world * list (list recv_msg)) :=
  match env with
  | [] => None
  | (tb, ts) :: env' =>
      '(q1, w1, bs1) ← recv_loop q w true bs;
      let barrier1 := if req then tb else barrier in
      let '(q2, sendf1, req1) :=
        if sendf then (q1, true, req)
        else
          let sf := if q_direct q1 then true else ts in
          let q1' := if negb (q_direct q1) && ts
                     then set_tailpos 0 (set_send (complete_reqs (q_send_reqs q1) (seq 0 (q_send_tailpos q1)))
                                                  (q_send_bufs q1) q1)
                     else q1 in
          if sf then
            (if q_sync q1' then q1' else set_round_counts (q_send_round_count q1') (Some incoming) q1',
             true, true)
          else (q1', false, req) in
      if barrier1 && sendf1 then Some (q2, w1, bs1)
      else blocking_loop env' q2 w1 bs1 req1 barrier1 sendf1 incoming
  end.

(** [while (!dart_amsgq_sendrecv_check_round_completion(amsgq))
    amsg_sendrecv_process_internal(amsgq, true, true);], lines 609-613,
    with [fuel] iterations. *)
Fixpoint round_loop (fuel : nat) (q : amsgq) (w : world) (bs : list (list recv_msg))
    : option (amsgq * world * list (list recv_msg)) :=
  match dart_amsgq_sendrecv_check_round_completion q with
  | None => None
  | Some true => Some (q, w, bs)
  | Some false =>
      match fuel with
      | 0 => None
      | S f => '(q1, w1, bs1) ← recv_loop q w true bs; round_loop f q1 w1 bs1
      end
  end.

(** [recv_count[i] -= recv_round_count[i]] for every peer, lines 626-630. *)
Fixpoint sub_round_loop (rc rrc : list Z) (i k : nat) : option (list Z) :=
  match k with
  | 0 => Some rc
  | S k' => a ← rc !! i; b ← rrc !! i; sub_round_loop (<[i := (a - b)%Z]> rc) rrc (S i) k'
  end.

(** The whole operation.  Every call of [recv_loop] that finds no
    message consumes an answer, so [S (length bs)] iterations of the
    final loop are as many as the answers allow: after them no message
    can arrive and the C loop spins for ever. *)
Definition dart_amsg_sendrevc_process_blocking (q : amsgq) (w : world) (bs : list (list recv_msg))
    (env : list (bool * bool)) (incoming : list Z)
    : option (amsgq * world * list (list recv_msg) * dart_ret) :=
  q1 ← round_snapshot q;
  '(q2, w2, bs2) ← blocking_loop env q1 w bs false false false incoming;
  '(q3, w3, bs3) ← (if q_sync q2 then Some (q2, w2, bs2) else round_loop (S (length bs2)) q2 w2 bs2);
  q4 ← (if q_sync q3 then Some q3
        else rc ← q_recv_count q3; rrc ← q_recv_round_count q3;
             rc' ← sub_round_loop rc rrc 0 (q_comm_size q3);
             Some (set_recv_count (Some rc') q3));
  Some (q4, w3, bs3, DART_OK).

(** ** Closing: [dart_amsg_sendrecv_closeq], lines 638-701 *)

(** The frees of the [!direct_send] loop, lines 659-666. *)
Fixpoint free_slots (rb sb : list nat) (w : world) : world :=
  match rb, sb with
  | r :: rb', s :: sb' => free_slots rb' sb' (free s (free r w))
  | _, _ => w
  end.

(** The assertions of lines 682-689, which read both counter arrays. *)
Fixpoint close_asserts (rc sc : option (list Z)) (i k : nat) : option unit :=
  match k with
  | 0 => Some tt
  | S k' =>
      r ← rc; a ← r !! i; dart_assert (bool_decide (a = 0%Z) : bool)
      (s ← sc; b ← s !! i; dart_assert (bool_decide (b = 0%Z) : bool) (close_asserts rc sc (S i) k'))
  end.

Definition dart_amsg_sendrecv_closeq (q : amsgq) (w : world) : option (world * dart_ret) :=
  let w1 := if q_direct q then w else free_slots (q_recv_bufs q) (q_send_bufs q) w in
  _ ← close_asserts (q_recv_count q) (q_send_count q) 0 (q_comm_size q);
  Some (w1, DART_OK).

(** ** The implementation table: [dart_amsg_sendrecv_init], lines 704-712

    [dart_amsgq_impl_t] (declared outside the sources) is the table of
    operations through which DART's active-message layer calls a queue
    implementation; the send/recv implementation fills it with the five
    operations above. *)
Record dart_amsgq_impl := mk_impl {
  impl_openq : world -> nat -> nat -> option bool -> option bool -> option nat ->
               option amsgq * world * dart_ret;
  impl_closeq : amsgq -> world -> option (world * dart_ret);
  impl_trysend : amsgq -> world -> nat -> nat -> list nat -> bool -> option (amsgq * world * dart_ret);
  impl_process : amsgq -> world -> bool -> list (list recv_msg) ->
                 option (amsgq * world * list (list recv_msg) * dart_ret);
  impl_process_blocking : amsgq -> world -> list (list recv_msg) -> list (bool * bool) -> list Z ->
                          option (amsgq * world * list (list recv_msg) * dart_ret)
}.

Definition dart_amsg_sendrecv_init : dart_amsgq_impl :=
  mk_impl dart_amsg_sendrecv_openq dart_amsg_sendrecv_closeq dart_amsg_sendrecv_trysend
          dart_amsg_sendrecv_process dart_amsg_sendrevc_process_blocking.

(** ** Invariants *)

(** Number of outstanding requests. *)
Definition outstanding (reqs : list (option nat)) : nat := length (filter is_Some reqs).

(** The send slots of a buffered queue: [msg_count] distinct buffers,
    the first [send_tailpos] slots outstanding sends from their own
    buffer, the others [MPI_REQUEST_NULL]. *)
Definition send_wf (q : amsgq) : Prop :=
  length (q_send_bufs q) = q_msg_count q /\ q_send_tailpos q <= q_msg_count q /\
  NoDup (q_send_bufs q) /\
  q_send_reqs q = (Some <$> take (q_send_tailpos q) (q_send_bufs q))
                  ++ replicate (q_msg_count q - q_send_tailpos q) None.

#[export] Instance send_wf_dec q : Decision (send_wf q).
Proof. unfold send_wf; apply _. Defined.

(** What [MPI_Testsome] may report for the first [tailpos] requests:
    indices of that range, in increasing order. *)
Definition testsome_answer (tailpos : nat) (done : list nat) : Prop :=
  StronglySorted lt done /\ Forall (fun d => d < tailpos) done.

#[export] Instance testsome_answer_dec t d : Decision (testsome_answer t d).
Proof. unfold testsome_answer; apply _. Defined.

(** The invariant of the [for] loop of [amsgq_test_sendreqs_unsafe]
    over the [n] slots, [m] of which hold outstanding requests: no
    request above [back_pos], each in the slot of its buffer, and the
    free slots below [m] are the finished ones still to be filled, which
    come in increasing order. *)
Definition compact_inv (n m : nat) (reqs : list (option nat)) (bufs : list nat) (bp : nat)
    (ds : list nat) : Prop :=
  length reqs = n /\ length bufs = n /\ outstanding reqs = m /\ m <= n /\ (0 < n -> bp < n) /\
  (forall i b, reqs !! i = Some (Some b) -> i <= bp /\ bufs !! i = Some b) /\
  (forall i, i < m -> reqs !! i = Some None -> i ∈ ds) /\
  (forall d, d ∈ ds -> reqs !! d = Some None) /\
  StronglySorted lt ds.

(** A per-peer counter array allocated with [n] entries. *)
Definition count_len (c : option (list Z)) (n : nat) : Prop := exists l, c = Some l /\ length l = n.

(** Receiving changes only the receive counters, and keeps their size. *)
Definition recv_frame (q q' : amsgq) : Prop :=
  q' = set_recv_count (q_recv_count q') q /\
  (q_sync q = true -> q_recv_count q' = q_recv_count q) /\
  (forall n, count_len (q_recv_count q) n -> count_len (q_recv_count q') n).

(** Reference for [dart_amsgq_sendrecv_check_round_completion]: every
    peer announced at most as many messages for the round as were
    received from it. *)
Definition round_complete_ref (rrc rc : list Z) : bool :=
  forallb (fun p => bool_decide (p.1 <= p.2)%Z) (zip rrc rc).

(** The heap below the break: every live block lies below [w_brk]. *)
Definition heap_wf (w : world) : Prop := forall a, a ∈ w_live w -> a < w_brk w.

(** ** Concrete queues for the witnesses

    A buffered queue with regular sends between two units, its six send
    slots all taken. *)
Definition ex_sbufs : list nat := [100; 200; 300; 400; 500; 600].

Definition ex_q : amsgq :=
  mk_q (replicate 6 true) [1; 2; 3; 4; 5; 6] (Some <$> ex_sbufs) ex_sbufs
       (Some [3; 3]%Z) (Some [0; 0]%Z) (Some [0; 0]%Z) (Some [0; 0]%Z) 6 64 6 2 10001 false false.

Definition ex_w : world := mk_world [] [] [] [1; 2; 3; 4; 5; 6; 100; 200; 300; 400; 500; 600] 1000 10002.

(** A round on [ex_q]: one batch of two messages from unit 1, the sends
    finished at the first test, the all-to-all finished at the second;
    unit 1 announces two messages, unit 0 none. *)
Definition ex_batches : list (list recv_msg) := [[mk_msg 0 8 1; mk_msg 2 8 1]].
Definition ex_env : list (bool * bool) := [(false, true); (true, true)].
Definition ex_incoming : list Z := [0; 2]%Z.

(** ** Lemmas on the send slots *)

Lemma outstanding_cons_Some x l : outstanding (Some x :: l) = S (outstanding l).
Proof. unfold outstanding. rewrite filter_cons_True by done. done. Qed.

Lemma outstanding_cons_None l : outstanding (None :: l) = outstanding l.
Proof. unfold outstanding. rewrite filter_cons_False by apply is_Some_None. done. Qed.

Lemma outstanding_app l1 l2 : outstanding (l1 ++ l2) = outstanding l1 + outstanding l2.
Proof. unfold outstanding. by rewrite filter_app, length_app. Qed.

#[export] Instance outstanding_perm : Proper ((≡ₚ) ==> (=)) outstanding.
Proof. intros l1 l2 Hp. unfold outstanding. by rewrite Hp. Qed.

Ltac outstanding_ind l :=
  induction l as [|[?|] ? IH]; intros [|?]; simpl;
  rewrite ?outstanding_cons_Some, ?outstanding_cons_None; try done.

Lemma outstanding_le l : outstanding l <= length l.
Proof.
  induction l as [|[?|] ? IH]; simpl;
    rewrite ?outstanding_cons_Some, ?outstanding_cons_None; [done| |]; lia.
Qed.

Lemma outstanding_lt l i : l !! i = Some None -> outstanding l < length l.
Proof.
  revert i; outstanding_ind l; intros; pose proof (outstanding_le l); try lia.
  all: specialize (IH _ ltac:(eassumption)); lia.
Qed.

Lemma outstanding_pos l j x : l !! j = Some (Some x) -> 0 < outstanding l.
Proof. revert j; outstanding_ind l; intros; try lia; eauto. Qed.

Lemma outstanding_pos_inv l : 0 < outstanding l -> exists j x, l !! j = Some (Some x).
Proof.
  induction l as [|[x|] l IH]; simpl; rewrite ?outstanding_cons_Some, ?outstanding_cons_None.
  - inversion 1.
  - intros _. by exists 0, x.
  - intros (j & y & Hj)%IH. by exists (S j), y.
Qed.

Lemma outstanding_full l : (forall i, l !! i <> Some None) -> outstanding l = length l.
Proof.
  induction l as [|[x|] l IH]; intros Hl; simpl; rewrite ?outstanding_cons_Some, ?outstanding_cons_None.
  - done.
  - f_equal. apply IH. intros i. apply (Hl (S i)).
  - by destruct (Hl 0).
Qed.

Lemma outstanding_insert_None l d x :
  l !! d = Some (Some x) -> S (outstanding (<[d := None]> l)) = outstanding l.
Proof.
  intros H. pose proof (lookup_lt_Some _ _ _ H) as Hlt. unfold outstanding.
  rewrite insert_take_drop by done.
  replace (filter is_Some l) with (filter is_Some (take d l ++ Some x :: drop (S d) l))
    by (by rewrite take_drop_middle).
  rewrite !filter_app, !length_app, filter_cons_False, filter_cons_True by (auto; apply is_Some_None).
  simpl; lia.
Qed.

Lemma length_complete_reqs l ds : length (complete_reqs l ds) = length l.
Proof.
  unfold complete_reqs. revert l; induction ds as [|d ds IH]; intros l; simpl; [done|].
  by rewrite IH, length_insert.
Qed.

Lemma lookup_complete_reqs l ds i :
  complete_reqs l ds !! i = if decide (i ∈ ds) then (fun _ => None) <$> l !! i else l !! i.
Proof.
  unfold complete_reqs. revert l; induction ds as [|d ds IH]; intros l; simpl; [done|].
  rewrite IH, list_lookup_insert.
  destruct (l !! i) eqn:E;
    [pose proof (lookup_lt_Some _ _ _ E) | pose proof (lookup_ge_None_1 _ _ E)];
    repeat case_decide; simpl; first [done | exfalso; set_solver by lia].
Qed.

(** The inner [while] loop stops at the last slot, at or below
    [back_pos], that holds a request, or at [done_idx]. *)
Lemma skip_null_spec reqs d bp :
  skip_null reqs d bp <= bp /\ (d <= bp -> d <= skip_null reqs d bp) /\
  (forall i, skip_null reqs d bp < i <= bp -> reqs !! i = Some None) /\
  (d < skip_null reqs d bp -> reqs !! skip_null reqs d bp <> Some None).
Proof.
  induction bp as [|bp IH]; simpl; [repeat split; intros; lia|].
  destruct (d <? S bp) eqn:Hd; simpl; [apply Nat.ltb_lt in Hd | apply Nat.ltb_ge in Hd].
  - case_bool_decide as Hn; [|repeat split; intros; auto with lia].
    destruct IH as (H1 & H2 & H3 & H4). repeat split; auto with lia.
    intros i Hi. destruct (decide (i = S bp)) as [->|]; [done | apply H3; lia].
  - repeat split; intros; lia.
Qed.

(** With [m] outstanding requests, a free slot below [m] means a
    request at or above [m]. *)
Lemma hole_below_request_above m reqs i :
  outstanding reqs = m -> i < m -> reqs !! i = Some None ->
  exists j x, m <= j /\ reqs !! j = Some (Some x).
Proof.
  intros Hm Hi Hl. rewrite <- (take_drop m reqs), outstanding_app in Hm.
  assert (outstanding (take m reqs) < m).
  { pose proof (outstanding_lt (take m reqs) i) as H.
    rewrite lookup_take_lt, length_take in H by lia. specialize (H Hl). lia. }
  destruct (outstanding_pos_inv (drop m reqs)) as (j & x & Hj); [lia|].
  exists (m + j), x. rewrite lookup_drop in Hj. split; [lia | done].
Qed.

(** ... and no free slot below [m] means the requests are the first [m]
    slots. *)
Lemma no_hole_below m reqs :
  outstanding reqs = m -> m <= length reqs -> (forall i, i < m -> reqs !! i <> Some None) ->
  forall j x, reqs !! j = Some (Some x) -> j < m.
Proof.
  intros Hm Hle Hf j x Hj. destruct (decide (j < m)); [done | exfalso].
  rewrite <- (take_drop m reqs), outstanding_app, outstanding_full, length_take in Hm.
  - pose proof (outstanding_pos (drop m reqs) (j - m) x) as Hp.
    rewrite lookup_drop, Nat.add_comm, Nat.sub_add in Hp by lia. specialize (Hp Hj). lia.
  - intros i. destruct (decide (i < m)).
    + rewrite lookup_take_lt by lia. auto.
    + by rewrite lookup_take_ge by lia.
Qed.

Ltac ins_simpl :=
  repeat first [ rewrite list_lookup_insert_ne in * by lia
               | rewrite list_lookup_insert_eq in * by (rewrite ?length_insert; lia) ].

(** One iteration of the loop: either the two positions met and every
    slot below [m] holds a request, or the request at [back_pos] moves
    into the finished slot [done_idx] and the invariant holds for the
    rest of the finished slots. *)
Lemma compact_step n m reqs bufs bp d ds :
  compact_inv n m reqs bufs bp (d :: ds) ->
  (skip_null reqs d bp <= d -> forall i, i < m -> reqs !! i <> Some None) /\
  (d < skip_null reqs d bp ->
   exists x y, reqs !! skip_null reqs d bp = Some (Some x) /\ bufs !! d = Some y /\
     bufs !! skip_null reqs d bp = Some x /\
     compact_inv n m (<[skip_null reqs d bp := None]> (<[d := Some x]> reqs))
                     (<[skip_null reqs d bp := y]> (<[d := x]> bufs))
                     (pred (skip_null reqs d bp)) ds).
Proof.
  intros (Hr & Hb & Hm & Hmn & Hbp & Hpair & Hhole & Hds & Hs).
  pose proof (skip_null_spec reqs d bp) as (S1 & S2 & S3 & S4).
  set (bp1 := skip_null reqs d bp) in *.
  assert (Hd : reqs !! d = Some None) by (apply Hds; set_solver).
  pose proof (lookup_lt_Some _ _ _ Hd) as Hdn.
  apply StronglySorted_inv in Hs as [Hs Hlt]. rewrite list.Forall_forall in Hlt.
  (* a request above [m] lies at or below [bp1] *)
  assert (Habove : forall j x, reqs !! j = Some (Some x) -> d <= j -> j <= bp1).
  { intros j x Hj Hdj. destruct (decide (j <= bp1)); [done|].
    destruct (Hpair _ _ Hj). rewrite S3 in Hj by lia. done. }
  split.
  - intros Hle i Hi Hn.
    assert (d <= i).
    { pose proof (Hhole i Hi Hn) as Hin.
      apply elem_of_cons in Hin as [->|Hin]; [lia | specialize (Hlt _ Hin); lia]. }
    destruct (hole_below_request_above m reqs i Hm Hi Hn) as (j & x & Hj & Hjx).
    pose proof (Habove j x Hjx). lia.
  - intros Hlt1.
    destruct (lookup_lt_is_Some_2 reqs bp1) as [[x|] Hx]; [lia| |by destruct (S4 Hlt1)].
    destruct (lookup_lt_is_Some_2 bufs d) as [y Hy]; [lia|].
    assert (Hm1 : m <= bp1).
    { destruct (decide (d < m)); [|lia].
      destruct (hole_below_request_above m reqs d Hm ltac:(lia) Hd) as (j & z & Hj & Hjz).
      pose proof (Habove j z Hjz). lia. }
    destruct (Hpair _ _ Hx) as [_ Hbx].
    exists x, y. split_and!; try done. unfold compact_inv. rewrite !length_insert.
    split_and!; try done; try lia.
    + rewrite (Permutation_insert_swap reqs d bp1 None (Some x)) by done. done.
    + intros i b Hib. destruct (decide (i = bp1)) as [->|]; [by ins_simpl|].
      destruct (decide (i = d)) as [->|]; ins_simpl; [simplify_eq; split; [lia|done]|].
      destruct (Hpair _ _ Hib). split; [|done].
      destruct (decide (i <= bp)); [|lia]. destruct (decide (i < bp1)); [lia|].
      rewrite S3 in Hib by lia. done.
    + intros i Hi Hib. destruct (decide (i = d)) as [->|]; [by ins_simpl|]. ins_simpl.
      apply Hhole in Hib; [set_solver|lia].
    + intros d' Hd'. pose proof (Hlt d' Hd').
      destruct (decide (d' = bp1)) as [->|]; ins_simpl; [done|]. apply Hds. set_solver.
Qed.

(** The loop ends with the requests in the first [m] slots, each in the
    slot of its buffer; it only swaps slots. *)
Lemma compact_spec n m reqs bufs bp ds reqs' bufs' :
  compact_inv n m reqs bufs bp ds -> compact reqs bufs bp ds = (reqs', bufs') ->
  length reqs' = n /\ reqs' ≡ₚ reqs /\ bufs' ≡ₚ bufs /\
  (forall i b, reqs' !! i = Some (Some b) -> bufs' !! i = Some b) /\
  (forall i, i < m -> reqs' !! i <> Some None).
Proof.
  revert reqs bufs bp. induction ds as [|d ds IH]; intros reqs bufs bp Hinv Hc; simpl in Hc.
  - simplify_eq. destruct Hinv as (Hr & _ & _ & _ & _ & Hpair & Hhole & _).
    split_and!; try done.
    + intros i b H. by apply Hpair in H as [_ ?].
    + intros i Hi Hn. apply Hhole in Hn; [by apply not_elem_of_nil in Hn | done].
  - pose proof (compact_step _ _ _ _ _ _ _ Hinv) as [Hbreak Hmove].
    destruct (skip_null reqs d bp <=? d) eqn:Hle; [apply Nat.leb_le in Hle | apply Nat.leb_gt in Hle].
    + simplify_eq. destruct Hinv as (Hr & _ & _ & _ & _ & Hpair & _).
      split_and!; auto. intros i b H. by apply Hpair in H as [_ ?].
    + destruct (Hmove Hle) as (x & y & Hx & Hy & Hbx & Hinv1).
      rewrite Hx, Hy, Hbx in Hc. simpl in Hc.
      destruct (IH _ _ _ Hinv1 Hc) as (H1 & H2 & H3 & H4 & H5).
      destruct Hinv as (_ & _ & _ & _ & _ & _ & _ & Hds & _).
      split_and!; auto.
      * rewrite H2. apply Permutation_insert_swap; [apply Hds; set_solver | done].
      * rewrite H3. by apply Permutation_insert_swap.
Qed.

Lemma outstanding_fmap_Some l : outstanding (Some <$> l) = length l.
Proof. induction l; simpl; rewrite ?outstanding_cons_Some; auto. Qed.

Lemma outstanding_replicate_None k : outstanding (replicate k None) = 0.
Proof. induction k; simpl; rewrite ?outstanding_cons_None; auto. Qed.

Lemma strictly_sorted_NoDup (l : list nat) : StronglySorted lt l -> NoDup l.
Proof.
  induction 1 as [|a l _ IH Hf]; constructor; [|done].
  rewrite list.Forall_forall in Hf. intros Ha%Hf. lia.
Qed.

(** The slots of a well-formed queue, one by one. *)
Lemma send_slots_lookup t n (bufs : list nat) i :
  length bufs = n -> t <= n ->
  ((Some <$> take t bufs) ++ replicate (n - t) None) !! i =
  if decide (i < t) then Some <$> bufs !! i else if decide (i < n) then Some None else None.
Proof.
  intros Hb Ht. assert (length (Some <$> take t bufs) = t) by (rewrite length_fmap, length_take; lia).
  repeat case_decide.
  - rewrite lookup_app_l, list_lookup_fmap, lookup_take_lt by lia. done.
  - rewrite lookup_app_r, lookup_replicate_2 by lia. done.
  - apply lookup_ge_None_2. rewrite length_app, length_replicate. lia.
Qed.

(** [n] slots of which the [m] outstanding requests fill the first [m],
    each in the slot of its buffer, are the slots of a well-formed
    queue. *)
Lemma send_slots_eq n m reqs bufs :
  length reqs = n -> length bufs = n -> m <= n -> outstanding reqs = m ->
  (forall i b, reqs !! i = Some (Some b) -> bufs !! i = Some b) ->
  (forall i, i < m -> reqs !! i <> Some None) ->
  reqs = (Some <$> take m bufs) ++ replicate (n - m) None.
Proof.
  intros Hr Hb Hmn Hm Hpair Hfull. apply list_eq. intros i.
  rewrite send_slots_lookup by done. repeat case_decide.
  - destruct (lookup_lt_is_Some_2 reqs i) as [[b|] Hi]; [lia| |by destruct (Hfull i)].
    rewrite Hi, (Hpair _ _ Hi). done.
  - destruct (lookup_lt_is_Some_2 reqs i) as [[b|] Hi]; [lia| |done].
    pose proof (no_hole_below m reqs Hm ltac:(lia) Hfull i b Hi). lia.
  - apply lookup_ge_None_2. lia.
Qed.

(** [MPI_Testsome] frees one outstanding request per reported index. *)
Lemma outstanding_complete_reqs l ds :
  NoDup ds -> (forall d, d ∈ ds -> exists x, l !! d = Some (Some x)) ->
  outstanding (complete_reqs l ds) + length ds = outstanding l.
Proof.
  unfold complete_reqs. revert l; induction ds as [|d ds IH]; intros l Hnd Hds; simpl; [lia|].
  apply NoDup_cons in Hnd as [Hd Hnd].
  destruct (Hds d) as [x Hx]; [set_solver|].
  rewrite <- (outstanding_insert_None l d x Hx), <- (IH (<[d := None]> l) Hnd); [lia|].
  intros d' Hd'. rewrite list_lookup_insert_ne by set_solver. apply Hds. set_solver.
Qed.

(** The loop starts in its invariant. *)
Lemma compact_inv_init q done :
  send_wf q -> testsome_answer (q_send_tailpos q) done ->
  compact_inv (q_msg_count q) (q_send_tailpos q - length done)
    (complete_reqs (q_send_reqs q) done) (q_send_bufs q) (pred (q_msg_count q)) done.
Proof.
  intros (Hb & Ht & _ & Hr) [Hs Hlt]. rewrite list.Forall_forall in Hlt.
  assert (Hl : forall i, q_send_reqs q !! i =
    if decide (i < q_send_tailpos q) then Some <$> q_send_bufs q !! i
    else if decide (i < q_msg_count q) then Some None else None)
    by (intros; rewrite Hr; by apply send_slots_lookup).
  assert (Hdone : forall d, d ∈ done -> exists x, q_send_reqs q !! d = Some (Some x)).
  { intros d Hd. specialize (Hlt d Hd). rewrite Hl, decide_True by done.
    destruct (lookup_lt_is_Some_2 (q_send_bufs q) d) as [x ->]; [lia|]. by exists x. }
  pose proof (outstanding_complete_reqs _ _ (strictly_sorted_NoDup _ Hs) Hdone) as Hout.
  assert (outstanding (q_send_reqs q) = q_send_tailpos q).
  { rewrite Hr, outstanding_app, outstanding_fmap_Some, outstanding_replicate_None, length_take. lia. }
  split_and!; try done; try lia.
  - rewrite length_complete_reqs, Hr, length_app, length_fmap, length_take, length_replicate. lia.
  - intros i b Hi. rewrite lookup_complete_reqs in Hi.
    case_decide; [by destruct (q_send_reqs q !! i)|]. rewrite Hl in Hi.
    repeat case_decide; [|done|done].
    destruct (q_send_bufs q !! i) eqn:E; simplify_eq/=. split; [lia|done].
  - intros i Hi Hn. rewrite lookup_complete_reqs in Hn. case_decide; [done|].
    rewrite Hl in Hn. repeat case_decide; [by destruct (q_send_bufs q !! i)|lia|done].
  - intros d Hd. rewrite lookup_complete_reqs, decide_True by done.
    by destruct (Hdone d Hd) as [x ->].
Qed.

(** [send_wf] from the slot-wise description of the send arrays. *)
Lemma send_wf_slots q :
  length (q_send_reqs q) = q_msg_count q -> length (q_send_bufs q) = q_msg_count q ->
  q_send_tailpos q <= q_msg_count q -> NoDup (q_send_bufs q) ->
  outstanding (q_send_reqs q) = q_send_tailpos q ->
  (forall i b, q_send_reqs q !! i = Some (Some b) -> q_send_bufs q !! i = Some b) ->
  (forall i, i < q_send_tailpos q -> q_send_reqs q !! i <> Some None) ->
  send_wf q.
Proof. intros. split_and!; try done. by eapply send_slots_eq. Qed.

(** The two outcomes of [amsgq_test_sendreqs_unsafe] on a well-formed
    queue with an increasing answer of [MPI_Testsome]: nothing finished,
    or a well-formed queue whose send arrays are a rearrangement of the
    arrays after the completion of the reported requests. *)
Lemma amsgq_test_sendreqs_result q done q' ret :
  send_wf q -> testsome_answer (q_send_tailpos q) done ->
  amsgq_test_sendreqs_unsafe q done = (q', ret) ->
  (done = [] /\ q' = q /\ ret = DART_ERR_AGAIN) \/
  (done <> [] /\ ret = DART_OK /\ send_wf q' /\
   exists reqs' bufs', q' = set_tailpos (q_send_tailpos q - length done) (set_send reqs' bufs' q) /\
     reqs' ≡ₚ complete_reqs (q_send_reqs q) done /\ bufs' ≡ₚ q_send_bufs q).
Proof.
  intros Hwf Hans Heq. pose proof (compact_inv_init q done Hwf Hans) as Hinv.
  pose proof Hwf as (Hb & Ht & Hnd & _). unfold amsgq_test_sendreqs_unsafe in Heq.
  destruct (0 <? length done) eqn:H0; [apply Nat.ltb_lt in H0 | apply Nat.ltb_ge in H0].
  2: { left. destruct done; [by simplify_eq/= | simpl in H0; lia]. }
  right. assert (done <> []) by (destruct done; simpl in *; [lia|done]).
  pose proof Hinv as (Hr1 & _ & Hout & _ & _ & Hpair & Hhole & _).
  destruct (length done =? q_send_tailpos q) eqn:Ht0; [apply Nat.eqb_eq in Ht0|].
  - simplify_eq. split_and!; try done.
    + apply send_wf_slots; simpl; try done; [lia|lia| |].
      * intros i b Hi. by apply Hpair in Hi as [_ ?].
      * intros; lia.
    + eexists _, _. split_and!; [|done|done]. by rewrite Ht0, Nat.sub_diag.
  - destruct (compact _ _ _ _) as [reqs2 bufs2] eqn:Ec. simplify_eq.
    destruct (compact_spec _ _ _ _ _ _ _ _ Hinv Ec) as (H1 & H2 & H3 & H4 & H5).
    split_and!; try done; [|by eexists _, _].
    apply send_wf_slots; simpl; rewrite ?H2, ?H3; try done; lia.
Qed.

(** The buffers of the outstanding sends of a well-formed queue are its
    first [send_tailpos] buffers. *)
Lemma send_wf_outstanding_bufs q :
  send_wf q -> omap id (q_send_reqs q) = take (q_send_tailpos q) (q_send_bufs q).
Proof.
  intros (_ & _ & _ & ->). rewrite omap_app.
  assert (forall l : list nat, omap id (Some <$> l) = l) as ->
    by (induction l; simpl; f_equal; auto).
  assert (forall k, omap (@id (option nat)) (replicate k None) = []) as ->
    by (induction k; simpl; auto).
  apply app_nil_r.
Qed.

(** Posting a send in the first free slot. *)
Lemma send_slots_push t n (bufs : list nat) b :
  length bufs = n -> t < n -> bufs !! t = Some b ->
  <[t := Some b]> ((Some <$> take t bufs) ++ replicate (n - t) None)
  = (Some <$> take (S t) bufs) ++ replicate (n - S t) None.
Proof.
  intros Hb Ht Hbt. apply list_eq. intros i.
  rewrite list_lookup_insert, !send_slots_lookup by lia.
  rewrite length_app, length_fmap, length_take, length_replicate.
  repeat case_decide; destruct_and?; subst; rewrite ?Hbt; try done; lia.
Qed.

Lemma NoDup_lookup_not_in_take (l : list nat) i b :
  NoDup l -> l !! i = Some b -> b ∉ take i l.
Proof.
  intros Hnd Hi. rewrite <- (take_drop_middle l i b Hi) in Hnd.
  apply NoDup_app in Hnd as (_ & Hdis & _). intros Hb. by apply (Hdis b Hb), list_elem_of_here.
Qed.

(** In a well-formed queue with a free slot, the buffer of the first
    free slot carries no outstanding send. *)
Lemma send_wf_free_slot q :
  send_wf q -> q_send_tailpos q < q_msg_count q ->
  exists b, q_send_bufs q !! q_send_tailpos q = Some b /\ b ∉ omap id (q_send_reqs q).
Proof.
  intros Hwf Ht. pose proof Hwf as (Hb & _ & Hnd & _).
  destruct (lookup_lt_is_Some_2 (q_send_bufs q) (q_send_tailpos q)) as [b Hbt]; [lia|].
  exists b. rewrite send_wf_outstanding_bufs by done. split; [done|].
  by apply NoDup_lookup_not_in_take.
Qed.

(** C10: [amsgq_test_sendreqs_unsafe] on a well-formed queue, given the
    finished requests in increasing order as [MPI_Testsome] reports
    them, keeps the queue well formed; the outstanding sends afterwards
    are exactly those [MPI_Testsome] did not report, [send_tailpos]
    drops by their number, and no send buffer is lost.  It returns
    [DART_ERR_AGAIN] exactly when nothing has finished. *)
Theorem amsgq_test_sendreqs_unsafe_spec q done q' ret :
  send_wf q -> testsome_answer (q_send_tailpos q) done ->
  amsgq_test_sendreqs_unsafe q done = (q', ret) ->
  send_wf q' /\ q_send_tailpos q' = q_send_tailpos q - length done /\
  q_send_bufs q' ≡ₚ q_send_bufs q /\
  omap id (q_send_reqs q') ≡ₚ omap id (complete_reqs (q_send_reqs q) done) /\
  (ret = DART_OK <-> done <> []).
Proof.
  intros Hwf Hans Heq.
  destruct (amsgq_test_sendreqs_result q done q' ret Hwf Hans Heq)
    as [(-> & -> & ->) | (Hne & -> & Hwf' & reqs' & bufs' & -> & Hr & Hb)].
  - split_and!; simpl; try done; try lia. all: split; [discriminate | by intros []].
  - split_and!; simpl; try done. by rewrite Hr.
Qed.

(** When [amsgq_acquire_slot] succeeds on a well-formed queue (with an
    increasing answer of [MPI_Testsome]), the queue is well formed, its
    outstanding sends are those MPI has not reported finished, and the
    buffer of its first free slot belongs to none of them. *)
Lemma amsgq_acquire_slot_free q done q1 :
  send_wf q -> testsome_answer (q_send_tailpos q) done ->
  amsgq_acquire_slot q done = (q1, DART_OK) ->
  send_wf q1 /\ q_send_tailpos q1 < q_msg_count q1 /\
  q_send_count q1 = q_send_count q /\ q_sync q1 = q_sync q /\
  omap id (q_send_reqs q1)
    ≡ₚ omap id (complete_reqs (q_send_reqs q) (if q_send_tailpos q =? q_msg_count q then done else [])) /\
  exists b, q_send_bufs q1 !! q_send_tailpos q1 = Some b /\ b ∉ omap id (q_send_reqs q1).
Proof.
  intros Hwf Hans Heq. unfold amsgq_acquire_slot in Heq.
  assert (send_wf q1 /\ q_send_tailpos q1 < q_msg_count q1 /\
    q_send_count q1 = q_send_count q /\ q_sync q1 = q_sync q /\
    omap id (q_send_reqs q1)
    ≡ₚ omap id (complete_reqs (q_send_reqs q) (if q_send_tailpos q =? q_msg_count q then done else [])))
    as (Hwf1 & Ht1 & ? & ? & ?).
  { destruct (q_send_tailpos q =? q_msg_count q) eqn:Ht; [apply Nat.eqb_eq in Ht|].
    - destruct (amsgq_test_sendreqs_result q done q1 DART_OK Hwf Hans Heq)
        as [(_ & _ & ?) | (Hne & _ & Hwf' & reqs' & bufs' & -> & Hr & _)]; [done|].
      split_and!; try done; [|by simpl; rewrite Hr]. destruct done as [|d ds]; [done|].
      destruct Hans as [_ Hf]. apply list.Forall_cons in Hf as [? _]. simpl; lia.
    - simplify_eq. apply Nat.eqb_neq in Ht. split_and!; try done.
      destruct Hwf as (_ & ? & _); lia. }
  split_and!; try done. by apply send_wf_free_slot.
Qed.

(** Posting a send in the first free slot keeps the queue well formed. *)
Lemma send_wf_push q b :
  send_wf q -> q_send_tailpos q < q_msg_count q -> q_send_bufs q !! q_send_tailpos q = Some b ->
  send_wf (set_send (<[q_send_tailpos q := Some b]> (q_send_reqs q)) (q_send_bufs q)
                    (set_tailpos (S (q_send_tailpos q)) q)).
Proof.
  intros (Hb & Ht & Hnd & Hr) Hlt Hbt. split_and!; simpl; try done; try lia.
  rewrite Hr. by apply send_slots_push.
Qed.

(** C12: [dart_amsg_sendrecv_trysend] on a well-formed buffered queue
    (with an increasing answer of [MPI_Testsome]) keeps it well formed.
    Either every slot is taken and nothing has finished, and it returns
    [DART_ERR_AGAIN] without sending, or it copies the message into a
    buffer [b] that no send MPI still has outstanding uses, posts one
    message from [b] to [target], records it as the last outstanding
    request and, with regular sends, counts it for [target]. *)
Theorem dart_amsg_sendrecv_trysend_spec q w target size done ok q' w' ret :
  send_wf q -> q_direct q = false -> testsome_answer (q_send_tailpos q) done ->
  dart_amsg_sendrecv_trysend q w target size done ok = Some (q', w', ret) ->
  send_wf q' /\
  ((done = [] /\ q_send_tailpos q = q_msg_count q /\ q' = q /\ w' = w /\ ret = DART_ERR_AGAIN) \/
   (exists b, w_writes w' = w_writes w ++ [(b, size)] /\
      w_sends w' = w_sends w ++ [mk_send target size (q_sync q) (Some b)] /\
      b ∉ omap id (complete_reqs (q_send_reqs q)
                     (if q_send_tailpos q =? q_msg_count q then done else [])) /\
      q_send_reqs q' !! pred (q_send_tailpos q') = Some (Some b) /\
      (q_sync q = false -> Some (q_send_count q') = incr_at (q_send_count q) target) /\
      ret = mpi_ret ok)).
Proof.
  intros Hwf Hd Hans Heq. unfold dart_amsg_sendrecv_trysend, dart_assert in Heq.
  destruct (q_send_tailpos q <=? q_msg_count q); [|done]. rewrite Hd in Heq. simpl in Heq.
  destruct (amsgq_acquire_slot q done) as [q1 r1] eqn:Ha. destruct r1.
  2-4: unfold amsgq_acquire_slot in Ha;
    destruct (q_send_tailpos q =? q_msg_count q) eqn:Ht; [apply Nat.eqb_eq in Ht|done];
    destruct (amsgq_test_sendreqs_result q done q1 _ Hwf Hans Ha)
      as [(-> & -> & ?) | (_ & ? & _)]; simplify_eq; try (split; [done | left; done]).
  destruct (amsgq_acquire_slot_free q done q1 Hwf Hans Ha)
    as (Hwf1 & Ht1 & Hc & Hs & Hperm & b & Hb & Hnot).
  rewrite Hb in Heq. simpl in Heq.
  pose proof (send_wf_push q1 b Hwf1 Ht1 Hb) as Hwf2.
  assert (Hlen : q_send_tailpos q1 < length (q_send_reqs q1)).
  { destruct Hwf1 as (? & ? & _ & ->).
    rewrite length_app, length_fmap, length_take, length_replicate. lia. }
  destruct (q_sync q) eqn:Hsy; simpl in Heq.
  - simplify_eq/=. split; [done|]. right. exists b.
    split_and!; try done; [by rewrite <- Hperm | by ins_simpl].
  - destruct (incr_at _ _) eqn:Hi; simplify_eq/=. split; [done|]. right. exists b.
    split_and!; try done; [by rewrite <- Hperm | by ins_simpl | by rewrite <- Hc, Hi].
Qed.

(** ** Witnesses and the unordered answer of [MPI_Testsome] *)

Lemma amsgq_test_sendreqs_unsafe_spec_witness :
  send_wf ex_q /\ testsome_answer (q_send_tailpos ex_q) [1; 4] /\
  exists q' ret, amsgq_test_sendreqs_unsafe ex_q [1; 4] = (q', ret) /\
  send_wf q' /\ q_send_tailpos q' = q_send_tailpos ex_q - 2 /\
  q_send_bufs q' ≡ₚ q_send_bufs ex_q /\
  omap id (q_send_reqs q') ≡ₚ omap id (complete_reqs (q_send_reqs ex_q) [1; 4]) /\
  (ret = DART_OK <-> [1; 4] <> []).
Proof.
  assert (H1 : send_wf ex_q) by wit_decide.
  assert (H2 : testsome_answer (q_send_tailpos ex_q) [1; 4]) by wit_decide.
  split_and!; try assumption. eexists _, _. split; [reflexivity|].
  exact (amsgq_test_sendreqs_unsafe_spec ex_q [1; 4] _ _ H1 H2 eq_refl).
Defined.

Lemma dart_amsg_sendrecv_trysend_spec_witness :
  send_wf ex_q /\ q_direct ex_q = false /\ testsome_answer (q_send_tailpos ex_q) [1; 4] /\
  exists q' w' ret, dart_amsg_sendrecv_trysend ex_q ex_w 1 16 [1; 4] true = Some (q', w', ret) /\
  send_wf q' /\
  ((([1; 4] : list nat) = [] /\ q_send_tailpos ex_q = q_msg_count ex_q /\ q' = ex_q /\ w' = ex_w /\
    ret = DART_ERR_AGAIN) \/
   (exists b, w_writes w' = w_writes ex_w ++ [(b, 16)] /\
      w_sends w' = w_sends ex_w ++ [mk_send 1 16 (q_sync ex_q) (Some b)] /\
      b ∉ omap id (complete_reqs (q_send_reqs ex_q)
                     (if q_send_tailpos ex_q =? q_msg_count ex_q then [1; 4] else [])) /\
      q_send_reqs q' !! pred (q_send_tailpos q') = Some (Some b) /\
      (q_sync ex_q = false -> Some (q_send_count q') = incr_at (q_send_count ex_q) 1) /\
      ret = mpi_ret true)).
Proof.
  assert (H1 : send_wf ex_q) by wit_decide.
  assert (H2 : testsome_answer (q_send_tailpos ex_q) [1; 4]) by wit_decide.
  split_and!; try assumption; [reflexivity|]. eexists _, _, _. split; [vm_compute; reflexivity|].
  exact (dart_amsg_sendrecv_trysend_spec ex_q ex_w 1 16 [1; 4] true _ _ _ H1 eq_refl H2 ltac:(vm_compute; reflexivity)).
Defined.

(** The search for an occupied slot from the back stops at once when
    it starts at the finished index itself. *)
Lemma skip_null_at reqs d : skip_null reqs d d = d.
Proof. destruct d as [|d]; simpl; [done|]. by rewrite Nat.ltb_irrefl. Qed.

(** When every slot is taken, every buffer has its request outstanding. *)
Lemma send_wf_full q :
  send_wf q -> q_send_tailpos q = q_msg_count q -> q_send_reqs q = Some <$> q_send_bufs q.
Proof.
  intros (Hl & _ & _ & Hr) Ht. rewrite Hr, Ht, Nat.sub_diag, app_nil_r, take_ge; [done | lia].
Qed.

(** C28: the ordering of [MPI_Testsome]'s answer matters.  MPI does not
    promise to report finished requests in increasing order.  On every
    well-formed queue with buffered sends whose [msg_count] slots are
    all taken, the answer that reports the last slot first and then a
    slot [b] below the last two makes [amsgq_test_sendreqs_unsafe] stop
    at once ("we met in the middle") while still lowering
    [send_tailpos] by two; [dart_amsg_sendrecv_trysend] then copies its
    message into the buffer of slot [msg_count - 2], whose send was not
    reported and is still outstanding, and the queue is no longer well
    formed. *)
Theorem trysend_unordered_testsome_overwrites q w target size b :
  send_wf q -> q_direct q = false -> q_send_tailpos q = q_msg_count q -> b + 2 < q_msg_count q ->
  (q_sync q = true \/ exists c, q_send_count q = Some c /\ target < length c) ->
  exists q' w' ret buf,
    dart_amsg_sendrecv_trysend q w target size [pred (q_msg_count q); b] true = Some (q', w', ret) /\
    q_send_reqs q !! (q_msg_count q - 2) = Some (Some buf) /\
    w_writes w' = w_writes w ++ [(buf, size)] /\ ~ send_wf q'.
Proof.
  intros Hwf Hd Ht Hb Hs. pose proof (send_wf_full q Hwf Ht) as Hr.
  destruct Hwf as (Hl & _ & _ & _). set (n := q_msg_count q) in *.
  destruct (lookup_lt_is_Some_2 (q_send_bufs q) (n - 2)) as [buf Hbuf]; [lia|].
  assert (Hreq : q_send_reqs q !! (n - 2) = Some (Some buf)) by (by rewrite Hr, list_lookup_fmap, Hbuf).
  unfold dart_amsg_sendrecv_trysend, amsgq_acquire_slot, amsgq_test_sendreqs_unsafe.
  rewrite Ht, Nat.leb_refl, Nat.eqb_refl, Hd.
  assert (H2 : (length [pred n; b] =? n) = false) by (apply Nat.eqb_neq; simpl; lia).
  rewrite H2. simpl.
  rewrite skip_null_at, Nat.leb_refl. simpl. replace (n - 2) with (n - S (S 0)) in Hbuf by lia.
  replace (n - S (S 0)) with (n - 2) in * by lia. rewrite Hbuf. simpl.
  set (reqs' := <[n - 2 := Some buf]> (<[b := None]> (<[pred n := None]> (q_send_reqs q)))).
  assert (Hnot : forall q', q_send_reqs q' = reqs' -> q_send_tailpos q' = S (n - 2) ->
                   q_send_bufs q' = q_send_bufs q -> q_msg_count q' = n -> ~ send_wf q').
  { intros q' Hr' Ht' Hb' Hn' (_ & _ & _ & Hw). rewrite Hr', Ht', Hb', Hn' in Hw.
    apply (f_equal (fun l => l !! b)) in Hw. unfold reqs' in Hw.
    rewrite list_lookup_insert_ne, list_lookup_insert_eq in Hw by (rewrite ?length_insert, ?Hr, ?length_fmap; lia).
    rewrite lookup_app_l, list_lookup_fmap, lookup_take in Hw by (rewrite ?length_fmap, ?length_take; lia).
    destruct (lookup_lt_is_Some_2 (q_send_bufs q) b) as [x Hx]; [lia|]. rewrite decide_True, Hx in Hw by lia. discriminate Hw. }
  destruct Hs as [Hsy | (c & Hc & Htg)].
  - rewrite Hsy. do 4 eexists. split_and!; [done | done | done |]. apply Hnot; done.
  - destruct (q_sync q) eqn:Hsy; [do 4 eexists; split_and!; [done | done | done |]; by apply Hnot|].
    unfold incr_at. simpl. rewrite Hc. simpl.
    destruct (lookup_lt_is_Some_2 c target) as [v Hv]; [lia|]. rewrite Hv. simpl.
    do 4 eexists. split_and!; [done | done | done |]. apply Hnot; done.
Qed.


(** ** Opening and closing *)

(** The loop of [dart_amsg_sendrecv_openq] hands out [k] receive
    buffers and, unless sends are direct, [k] send buffers, all fresh
    and distinct. *)
Lemma alloc_bufs_spec k size direct w rs ss w' :
  alloc_bufs k size direct w = (rs, ss, w') ->
  length rs = k /\ length ss = (if direct then 0 else k) /\ NoDup (rs ++ ss) /\
  (forall b, b ∈ rs ++ ss -> w_brk w <= b < w_brk w') /\ w_brk w <= w_brk w' /\
  w_live w' ≡ₚ w_live w ++ rs ++ ss /\ w_tag w' = w_tag w.
Proof.
  revert w rs ss w'. induction k as [|k IH]; intros w rs ss w' H; simpl in H.
  - simplify_eq/=. split_and!; try (by destruct direct); try done; [apply NoDup_nil_2 | set_solver | by rewrite app_nil_r].
  - destruct direct; simpl in H; destruct (alloc_bufs _ _ _ _) as [[rs1 ss1] w3] eqn:E;
      simplify_eq/=; apply IH in E as (Hr & Hs & Hnd & Hin & Hbrk & Hlive & Htag); simpl in *.
    + split_and!; try lia.
      * constructor; [intros ?%Hin; lia | done].
      * intros b [->|?]%elem_of_cons; [lia|]. apply Hin in H. lia.
      * rewrite Hlive, <- !app_assoc. done.
    + assert (Hp : forall a c : nat, a :: rs1 ++ c :: ss1 ≡ₚ a :: c :: rs1 ++ ss1)
        by (intros; simpl; apply perm_skip; symmetry; apply Permutation_middle).
      split_and!; try lia.
      * rewrite Hp. apply NoDup_cons_2; [|apply NoDup_cons_2; [|done]].
        -- intros [?|Hx]%elem_of_cons; [lia | apply Hin in Hx; lia].
        -- intros Hx%Hin; lia.
      * intros b. rewrite Hp. intros [->|[->|?]%elem_of_cons]%elem_of_cons; [lia|lia|].
        apply Hin in H. lia.
      * rewrite Hlive, Hp, <- !app_assoc. simpl. by rewrite <- Permutation_middle.
Qed.

(** [dart_amsg_sendrecv_openq] fails with [DART_ERR_INVAL] on an
    unknown team and changes nothing.  Otherwise it returns a queue with
    the synchronous and direct modes read from the environment (sync by
    default, direct by default only without sync), the next global tag,
    [msg_count] started receives into fresh distinct buffers, no
    outstanding send (a well-formed send side when sends are buffered),
    and zeroed per-peer counters exactly when sends are not
    synchronous. *)
Theorem dart_amsg_sendrecv_openq_spec w size count es ed team_size oq w' ret :
  dart_amsg_sendrecv_openq w size count es ed team_size = (oq, w', ret) ->
  match team_size with
  | None => oq = None /\ w' = w /\ ret = DART_ERR_INVAL
  | Some n =>
      exists q, oq = Some q /\ ret = DART_OK /\
        q_sync q = default true es /\ q_direct q = default (negb (q_sync q)) ed /\
        q_tag q = w_tag w /\ w_tag w' = (w_tag w + 1)%Z /\
        q_recv_reqs q = replicate count true /\ length (q_recv_bufs q) = count /\
        NoDup (q_recv_bufs q ++ q_send_bufs q) /\
        (forall b, b ∈ q_recv_bufs q ++ q_send_bufs q -> w_brk w <= b) /\
        w_live w' ≡ₚ w_live w ++ q_recv_bufs q ++ q_send_bufs q /\
        q_send_tailpos q = 0 /\ (q_direct q = false -> send_wf q) /\
        (if q_sync q then q_send_count q = None /\ q_recv_count q = None
         else q_send_count q = Some (replicate n 0%Z) /\ q_recv_count q = Some (replicate n 0%Z))
  end.
Proof.
  unfold dart_amsg_sendrecv_openq. intros Heq. destruct team_size as [n|]; [|by simplify_eq].
  destruct (alloc_bufs _ _ _ _) as [[rs ss] w1] eqn:E.
  apply alloc_bufs_spec in E as (Hr & Hs & Hnd & Hin & _ & Hlive & Htag).
  simplify_eq/=. eexists. split_and!; try done.
  - rewrite Htag. done.
  - intros b Hb. apply Hin in Hb. lia.
  - simpl. intros Hd. rewrite Hd in Hs |- *. split_and!; simpl; try done; try lia.
    + by apply NoDup_app in Hnd as (_ & _ & ?).
    + by rewrite Nat.sub_0_r.
  - by destruct (default true es).
Qed.

Lemma free_slots_live rb sb w a :
  length rb = length sb ->
  a ∈ w_live (free_slots rb sb w) <-> a ∈ w_live w /\ a ∉ rb ++ sb.
Proof.
  revert sb w. induction rb as [|r rb IH]; intros [|s sb] w Hl; simpl in *; try lia.
  - set_solver.
  - rewrite IH by lia. simpl. rewrite !list_elem_of_filter. set_solver.
Qed.

Lemma close_asserts_zeros n i k :
  i + k <= n ->
  close_asserts (Some (replicate n 0%Z)) (Some (replicate n 0%Z)) i k = Some tt.
Proof.
  revert i. induction k as [|k IH]; intros i Hk; [done|]. simpl.
  rewrite lookup_replicate_2 by lia. simpl. apply IH. lia.
Qed.

(** What [dart_amsg_sendrecv_openq] builds for a known team. *)
Lemma openq_result w size count es ed n oq w1 ret :
  dart_amsg_sendrecv_openq w size count es ed (Some n) = (oq, w1, ret) ->
  exists q w1', oq = Some q /\ ret = DART_OK /\ q_comm_size q = n /\
    alloc_bufs count size (q_direct q) w = (q_recv_bufs q, q_send_bufs q, w1') /\
    w_live w1 = w_live w1' /\
    q_recv_count q = (if q_sync q then None else Some (replicate n 0%Z)) /\
    q_send_count q = (if q_sync q then None else Some (replicate n 0%Z)).
Proof.
  unfold dart_amsg_sendrecv_openq. destruct (alloc_bufs _ _ _ _) as [[rs ss] w1'] eqn:E.
  intros. simplify_eq/=. eexists _, _. split_and!; try done.
Qed.

(** The assertions of [dart_amsg_sendrecv_closeq] hold on a fresh queue
    with regular sends, or with an empty team. *)
Lemma openq_close_asserts w size count es ed n q w1 ret :
  dart_amsg_sendrecv_openq w size count es ed (Some n) = (Some q, w1, ret) ->
  q_sync q = false \/ n = 0 ->
  close_asserts (q_recv_count q) (q_send_count q) 0 (q_comm_size q) = Some tt.
Proof.
  intros Ho Hs.
  destruct (openq_result _ _ _ _ _ _ _ _ _ Ho) as (q' & w1' & Hq & _ & Hn & _ & _ & Hrc & Hsc).
  injection Hq as <-. rewrite Hrc, Hsc, Hn.
  destruct Hs as [-> | ->]; [by apply close_asserts_zeros | by destruct (q_sync q)].
Qed.

(** C35: With buffered regular sends, closing a queue just opened frees
    every buffer [dart_amsg_sendrecv_openq] allocated: the live heap
    blocks are those before the queue was opened.  (With synchronous
    sends this needs an empty team: the counters the closing asserts on
    are not allocated.) *)
Theorem amsgq_open_close_roundtrip w size count es ed n q w1 ret :
  heap_wf w -> dart_amsg_sendrecv_openq w size count es ed (Some n) = (Some q, w1, ret) ->
  q_direct q = false -> q_sync q = false \/ n = 0 ->
  exists w2, dart_amsg_sendrecv_closeq q w1 = Some (w2, DART_OK) /\
    (forall a, a ∈ w_live w2 <-> a ∈ w_live w).
Proof.
  intros Hh Ho Hd Hs. pose proof (openq_close_asserts _ _ _ _ _ _ _ _ _ Ho Hs) as Hc.
  destruct (openq_result _ _ _ _ _ _ _ _ _ Ho) as (q' & w1' & Hq & _ & _ & Ha & Hl & _).
  injection Hq as <-. apply alloc_bufs_spec in Ha as (Hr & Hsl & _ & Hin & _ & Hlive & _).
  rewrite Hd in Hsl. unfold dart_amsg_sendrecv_closeq. rewrite Hd, Hc. simpl.
  eexists; split; [reflexivity|].
  intros a. rewrite free_slots_live, Hl, Hlive by lia. split; [set_solver|].
  intros Ha. pose proof (Hh a Ha). split; [set_solver|]. intros Hb%Hin. lia.
Qed.

(** C30: [dart_amsg_sendrecv_closeq] on a queue with direct sends frees
    none of its receive buffers (they are freed only in the loop for
    buffered sends, lines 659-666): after opening and closing such a
    queue, the [msg_count] receive buffers are still live. *)
Theorem amsgq_close_direct_leaks w size count es ed n q w1 ret :
  dart_amsg_sendrecv_openq w size count es ed (Some n) = (Some q, w1, ret) ->
  q_direct q = true -> q_sync q = false \/ n = 0 ->
  exists w2, dart_amsg_sendrecv_closeq q w1 = Some (w2, DART_OK) /\
    length (q_recv_bufs q) = count /\ (forall b, b ∈ q_recv_bufs q -> b ∈ w_live w2).
Proof.
  intros Ho Hd Hs. pose proof (openq_close_asserts _ _ _ _ _ _ _ _ _ Ho Hs) as Hc.
  destruct (openq_result _ _ _ _ _ _ _ _ _ Ho) as (q' & w1' & Hq & _ & _ & Ha & Hl & _).
  injection Hq as <-. apply alloc_bufs_spec in Ha as (Hr & _ & _ & _ & _ & Hlive & _).
  unfold dart_amsg_sendrecv_closeq. rewrite Hd, Hc. simpl.
  eexists; split_and!; [reflexivity | done |].
  intros b Hb. rewrite Hl, Hlive. set_solver.
Qed.

(** C29: with synchronous sends the per-peer counters are never
    allocated (lines 373-378), yet [dart_amsg_sendrecv_closeq] asserts
    on them for every peer (lines 682-689): closing a synchronous queue
    of a team with at least one unit reads a NULL array. *)
Theorem amsgq_close_sync_faults w size count es ed n q w1 ret :
  dart_amsg_sendrecv_openq w size count es ed (Some n) = (Some q, w1, ret) ->
  q_sync q = true -> 0 < n -> dart_amsg_sendrecv_closeq q w1 = None.
Proof.
  intros Ho Hs Hn.
  destruct (openq_result _ _ _ _ _ _ _ _ _ Ho) as (q' & w1' & Hq & _ & Hc & _ & _ & Hrc & _).
  injection Hq as <-. unfold dart_amsg_sendrecv_closeq. rewrite Hrc, Hs, Hc.
  destruct n; [lia | done].
Qed.

(** ** Receiving and ending a round *)

Lemma set_recv_count_twice c c' q : set_recv_count c (set_recv_count c' q) = set_recv_count c q.
Proof. by destruct q. Qed.

Lemma incr_at_len c i c' n : incr_at c i = Some c' -> count_len c n -> count_len c' n.
Proof.
  unfold incr_at. intros H (l & -> & Hl). simpl in H.
  destruct (l !! i); simplify_eq/=. eexists; split; [done|]. by rewrite length_insert.
Qed.

Lemma recv_frame_refl q : recv_frame q q.
Proof. split_and!; [by destruct q | done | done]. Qed.

Lemma recv_frame_trans q1 q2 q3 : recv_frame q1 q2 -> recv_frame q2 q3 -> recv_frame q1 q3.
Proof.
  intros (E1 & S1 & L1) (E2 & S2 & L2).
  assert (q_sync q2 = q_sync q1) by (rewrite E1; by destruct q1).
  split_and!; auto.
  - transitivity (set_recv_count (q_recv_count q3) q2); [done|].
    rewrite E1 at 1. apply set_recv_count_twice.
  - intros Hs. rewrite S2, S1; congruence.
Qed.

Lemma recv_one_frame q w m q' w' : recv_one q w m = Some (q', w') -> recv_frame q q'.
Proof.
  unfold recv_one, dart_assert. intros H.
  destruct (q_recv_bufs q !! rm_idx m), (0 <? rm_size m); simplify_eq/=; try done.
  destruct (q_sync q) eqn:Hs; simpl in H.
  - simplify_eq/=. split_and!; [by destruct q | done | done].
  - destruct (incr_at _ _) eqn:Hi; simplify_eq/=.
    split_and!; [done | congruence |]. intros k. by apply incr_at_len with (rm_source m).
Qed.

Lemma recv_batch_frame q w b q' w' : recv_batch q w b = Some (q', w') -> recv_frame q q'.
Proof.
  revert q w. induction b as [|m b IH]; intros q w H; simpl in H; [simplify_eq; apply recv_frame_refl|].
  destruct (recv_one q w m) as [[q1 w1]|] eqn:E; simplify_eq/=.
  eapply recv_frame_trans; [by eapply recv_one_frame | by eapply IH].
Qed.

Lemma recv_loop_frame q w bl bs q' w' bs' :
  recv_loop q w bl bs = Some (q', w', bs') -> recv_frame q q'.
Proof.
  revert q w. induction bs as [|b bs IH]; intros q w H; simpl in H; [simplify_eq; apply recv_frame_refl|].
  destruct (recv_batch q w b) as [[q1 w1]|] eqn:E; simplify_eq/=.
  apply recv_batch_frame in E. destruct (bl && (0 <? length b)); simplify_eq; [|done].
  eapply recv_frame_trans; [done | by eapply IH].
Qed.

Lemma round_complete_loop_ref rrc rc i k :
  i + k <= length rrc -> i + k <= length rc ->
  round_complete_loop rrc rc i k = Some (round_complete_ref (take k (drop i rrc)) (take k (drop i rc))).
Proof.
  revert i. induction k as [|k IH]; intros i H1 H2; [done|]. simpl.
  destruct (lookup_lt_is_Some_2 rrc i) as [a Ha]; [lia|].
  destruct (lookup_lt_is_Some_2 rc i) as [b Hb]; [lia|].
  rewrite Ha, Hb, (drop_S rrc a i Ha), (drop_S rc b i Hb). simpl.
  unfold round_complete_ref. simpl. rewrite IH by lia.
  destruct (Z.ltb_spec 0 (a - b)).
  - rewrite bool_decide_false by lia. done.
  - rewrite bool_decide_true by lia. done.
Qed.

(** C34: [dart_amsgq_sendrecv_check_round_completion] computes the
    reference [round_complete_ref] on the announced and received counts
    of the [comm_size] peers, when both arrays are allocated. *)
Theorem check_round_completion_equiv q rrc rc :
  q_recv_round_count q = Some rrc -> q_recv_count q = Some rc ->
  length rrc = q_comm_size q -> length rc = q_comm_size q ->
  dart_amsgq_sendrecv_check_round_completion q = Some (round_complete_ref rrc rc).
Proof.
  intros H1 H2 L1 L2. unfold dart_amsgq_sendrecv_check_round_completion. rewrite H1, H2. simpl.
  rewrite round_complete_loop_ref; [|lia|lia]. simpl. rewrite (take_ge rrc), (take_ge rc); [done|lia|lia].
Qed.

Lemma round_loop_done f q w bs q' w' bs' :
  round_loop f q w bs = Some (q', w', bs') ->
  dart_amsgq_sendrecv_check_round_completion q' = Some true /\ recv_frame q q'.
Proof.
  revert q w bs. induction f as [|f IH]; intros q w bs H; simpl in H;
    destruct (dart_amsgq_sendrecv_check_round_completion q) as [[]|] eqn:Hc; simplify_eq;
    try (split; [done | apply recv_frame_refl]).
  destruct (recv_loop q w true bs) as [[[q1 w1] bs1]|] eqn:E; simplify_eq/=.
  destruct (IH _ _ _ H) as [? ?]. split; [done|].
  eapply recv_frame_trans; [by eapply recv_loop_frame | done].
Qed.

Lemma sub_round_loop_spec rc rrc i k rc' :
  sub_round_loop rc rrc i k = Some rc' ->
  length rc' = length rc /\
  (forall j, i <= j < i + k -> exists a b, rc !! j = Some a /\ rrc !! j = Some b /\ rc' !! j = Some (a - b)%Z) /\
  (forall j, ~ (i <= j < i + k) -> rc' !! j = rc !! j).
Proof.
  revert rc i. induction k as [|k IH]; intros rc i H; simpl in H.
  - simplify_eq. split_and!; [done | lia | done].
  - destruct (rc !! i) as [a|] eqn:Ha, (rrc !! i) as [b|] eqn:Hb; simplify_eq/=.
    destruct (IH _ _ H) as (L & In & Out). rewrite length_insert in L.
    pose proof (lookup_lt_Some _ _ _ Ha).
    split_and!; [done | |].
    + intros j Hj. destruct (decide (j = i)) as [->|].
      * exists a, b. split_and!; try done. rewrite Out by lia. by ins_simpl.
      * destruct (In j) as (a' & b' & Ha' & Hb' & E); [lia|]. ins_simpl. eauto.
    + intros j Hj. rewrite Out by lia. ins_simpl. done.
Qed.

Lemma blocking_loop_counts env q w bs req barrier sendf incoming q' w' bs' :
  blocking_loop env q w bs req barrier sendf incoming = Some (q', w', bs') ->
  q_sync q = false -> (sendf = true -> q_recv_round_count q = Some incoming) ->
  q_sync q' = false /\ q_comm_size q' = q_comm_size q /\ q_send_count q' = q_send_count q /\
  q_send_round_count q' = q_send_round_count q /\ q_recv_round_count q' = Some incoming /\
  (forall n, count_len (q_recv_count q) n -> count_len (q_recv_count q') n).
Proof.
  revert q w bs req barrier sendf.
  induction env as [|[tb ts] env IH]; intros q w bs req barrier sendf H Hs Hr; simpl in H; [done|].
  destruct (recv_loop q w true bs) as [[[q1 w1] bs1]|] eqn:E; [|done]. simpl in H.
  destruct (recv_loop_frame _ _ _ _ _ _ _ E) as (Eq1 & _ & L1).
  set (c := q_recv_count q1) in Eq1. clearbody c. subst q1. simpl in L1, H.
  destruct sendf, (q_direct q), ts, req, tb, barrier; simpl in H; rewrite ?Hs in H; simpl in H;
    first [ injection H as <- <- <-; simpl; split_and!; auto
          | apply IH in H as (? & ? & ? & ? & ? & ?); simpl in *; [split_and!; auto; congruence | done | auto] ].
Qed.

Lemma recv_frame_fields q q' :
  recv_frame q q' ->
  q_sync q' = q_sync q /\ q_comm_size q' = q_comm_size q /\ q_send_count q' = q_send_count q /\
  q_send_round_count q' = q_send_round_count q /\ q_recv_round_count q' = q_recv_round_count q.
Proof. intros (-> & _ & _). by destruct q. Qed.

Lemma round_complete_loop_true rrc rc i k :
  round_complete_loop rrc rc i k = Some true ->
  forall j, i <= j < i + k -> exists a b, rrc !! j = Some a /\ rc !! j = Some b /\ (a <= b)%Z.
Proof.
  revert i. induction k as [|k IH]; intros i H j Hj; [lia|]. simpl in H.
  destruct (rrc !! i) as [a|] eqn:Ha, (rc !! i) as [b|] eqn:Hb; simplify_eq/=.
  destruct (Z.ltb_spec 0 (a - b)); [done|].
  destruct (decide (j = i)) as [->|]; [exists a, b; split_and!; auto with lia|].
  apply (IH (S i)); [done | lia].
Qed.

Lemma round_snapshot_spec q q1 :
  q_sync q = false -> count_len (q_send_count q) (q_comm_size q) ->
  count_len (q_send_round_count q) (q_comm_size q) -> round_snapshot q = Some q1 ->
  exists sc, q_send_count q = Some sc /\
    q1 = set_send_count (Some (replicate (q_comm_size q) 0%Z))
                        (set_round_counts (Some sc) (q_recv_round_count q) q).
Proof.
  unfold round_snapshot, dart_assert. intros Hs (sc & Hsc & Hl) (src & Hsrc & Hl') H.
  rewrite Hs, Hsc, Hsrc in H. simpl in H. rewrite Hl, Hl', Nat.leb_refl in H. simpl in H.
  rewrite !drop_ge, take_ge, !app_nil_r in H by lia. simplify_eq. eauto.
Qed.

(** C11: a round of [dart_amsg_sendrevc_process_blocking] with regular
    (not synchronous) sends and a receive counter per peer: when it
    returns, the counts sent in the round have moved to
    [send_round_count] and [send_count] is zeroed, [recv_round_count]
    holds what the peers announced in the all-to-all, and every peer's
    receive counter, from which that announcement has been subtracted,
    is non-negative: everything sent to this unit in the round has been
    received. *)
Theorem dart_amsg_sendrevc_process_blocking_spec q w bs env incoming q' w' bs' ret :
  q_sync q = false -> count_len (q_send_count q) (q_comm_size q) ->
  count_len (q_send_round_count q) (q_comm_size q) -> count_len (q_recv_count q) (q_comm_size q) ->
  dart_amsg_sendrevc_process_blocking q w bs env incoming = Some (q', w', bs', ret) ->
  ret = DART_OK /\ q_send_round_count q' = q_send_count q /\
  q_send_count q' = Some (replicate (q_comm_size q) 0%Z) /\ q_recv_round_count q' = Some incoming /\
  exists rc', q_recv_count q' = Some rc' /\ length rc' = q_comm_size q /\ Forall (fun v => 0 <= v)%Z rc'.
Proof.
  intros Hs Hsl Hrl Hl H. unfold dart_amsg_sendrevc_process_blocking in H.
  destruct (round_snapshot q) as [q1|] eqn:Hsn; [|done]. cbn [mbind option_bind] in H.
  destruct (round_snapshot_spec q q1 Hs Hsl Hrl Hsn) as (sc & Hsc & ->).
  destruct (blocking_loop _ _ _ _ _ _ _ _) as [[[q2 w2] bs2]|] eqn:Hb; [|done].
  apply blocking_loop_counts in Hb as (Hs2 & Hn2 & Hc2 & Hr2 & Hi2 & Hl2); [|done|done].
  simpl in Hs2, Hn2, Hc2, Hr2, Hi2, Hl2.
  destruct (round_loop (S (length bs2)) q2 w2 bs2) as [[[q3 w3] bs3]|] eqn:Hr;
    cbn [mbind option_bind] in H; rewrite Hs2 in H; rewrite Hr in H; simpl in H; [|done].
  apply round_loop_done in Hr as [Hchk Hf].
  destruct (recv_frame_fields _ _ Hf) as (Hs3 & Hn3 & Hc3 & Hr3 & Hi3).
  destruct (proj2 (proj2 Hf) _ (Hl2 _ Hl)) as (rc3 & Hrc3 & Hlen3).
  rewrite Hs3, Hs2, Hrc3, Hi3, Hi2, Hn3, Hn2 in H. simpl in H.
  destruct (sub_round_loop _ _ _ _) as [rc'|] eqn:Hsub; simplify_eq/=.
  unfold dart_amsgq_sendrecv_check_round_completion in Hchk.
  rewrite Hi3, Hi2, Hrc3, Hn3, Hn2 in Hchk. simpl in Hchk.
  pose proof (round_complete_loop_true _ _ _ _ Hchk) as Hok.
  destruct (sub_round_loop_spec _ _ _ _ _ Hsub) as (L & In & _).
  split_and!; try congruence. exists rc'. split_and!; [done | lia |].
  apply list.Forall_lookup. intros j v Hv. pose proof (lookup_lt_Some _ _ _ Hv).
  destruct (In j) as (a & b & Ha & Hb & Hv'); [lia|].
  destruct (Hok j) as (a' & b' & Ha' & Hb' & ?); [lia|]. simplify_eq. lia.
Qed.

(** Each blocking receive loop consumes an answer of [MPI_Testsome], or
    finds none left and changes nothing. *)
Lemma recv_loop_progress q w bs q1 w1 bs1 :
  recv_loop q w true bs = Some (q1, w1, bs1) ->
  (bs = [] /\ q1 = q /\ w1 = w /\ bs1 = []) \/ length bs1 < length bs.
Proof.
  revert q w. induction bs as [|b bs IH]; intros q w H; simpl in H; [simplify_eq; by left|].
  right. destruct (recv_batch q w b) as [[q2 w2]|]; simplify_eq/=.
  destruct (0 <? length b); simpl in H; [|simplify_eq/=; lia].
  destruct (IH _ _ H) as [(-> & _ & _ & ->)|]; simpl; lia.
Qed.

Lemma round_loop_stuck f q w :
  dart_amsgq_sendrecv_check_round_completion q = Some false -> round_loop f q w [] = None.
Proof. intros Hc. induction f; simpl; by rewrite Hc. Qed.

(** The fuel of the final loop of
    [dart_amsg_sendrevc_process_blocking] is enough: with the answers
    [bs] of [MPI_Testsome], any number of iterations beyond
    [S (length bs)] gives the same result, so [None] there means the C
    loop waits for ever for messages that do not come. *)
Theorem round_loop_fuel f q w bs :
  S (length bs) <= f -> round_loop f q w bs = round_loop (S (length bs)) q w bs.
Proof.
  revert f q w. induction bs as [bs IH] using (induction_ltof1 _ (@length _)); unfold ltof in IH.
  intros [|f] q w Hf; [lia|]. simpl.
  destruct (dart_amsgq_sendrecv_check_round_completion q) as [[]|] eqn:Hc; [done| |done].
  destruct (recv_loop q w true bs) as [[[q1 w1] bs1]|] eqn:E; [|done]. simpl.
  destruct (recv_loop_progress _ _ _ _ _ _ E) as [(-> & -> & -> & ->)|Hlt].
  - by rewrite !round_loop_stuck.
  - rewrite (IH bs1 Hlt f), (IH bs1 Hlt (length bs)) by lia. done.
Qed.

(** Handling a batch of messages: each is handed to
    [dart__amsgq__process_buffer] from the buffer of its slot, in order,
    and with regular sends counted for its sender. *)
Lemma recv_batch_spec q w b q' w' :
  recv_batch q w b = Some (q', w') ->
  (exists ps, w_processed w' = w_processed w ++ ps /\
     Forall2 (fun m p => q_recv_bufs q !! rm_idx m = Some p.1 /\ p.2 = rm_size m /\ 0 < rm_size m) b ps) /\
  (q_sync q = false -> forall rc, q_recv_count q = Some rc ->
     exists rc', q_recv_count q' = Some rc' /\
       forall i, rc' !! i = (fun v => v + Z.of_nat (length (filter (fun m => rm_source m = i) b)))%Z <$> rc !! i).
Proof.
  revert q w. induction b as [|m b IH]; intros q w H; simpl in H.
  - simplify_eq. split; [exists []; by rewrite app_nil_r|]. intros _ rc ->. exists rc. split; [done|].
    intros i. destruct (rc !! i); simpl; f_equal; lia.
  - destruct (recv_one q w m) as [[q1 w1]|] eqn:E; simplify_eq/=.
    pose proof (recv_one_frame _ _ _ _ _ E) as F. destruct (recv_frame_fields _ _ F) as (Hs1 & _).
    destruct (IH _ _ H) as [(ps & Hps & Hf) Hc]. unfold recv_one, dart_assert in E.
    destruct (q_recv_bufs q !! rm_idx m) as [dbuf|] eqn:Hd; [|done].
    destruct (0 <? rm_size m) eqn:Hsz; [apply Nat.ltb_lt in Hsz|done]. simpl in E.
    split.
    + destruct (q_sync q); [|destruct (incr_at _ _)]; simplify_eq/=;
        (exists ((dbuf, rm_size m) :: ps); split; [by rewrite Hps, <- app_assoc
        | constructor; [done | by simpl in Hf]]).
    + intros Hs rc Hrc. rewrite Hs, Hrc in E. simpl in E.
      destruct (rc !! rm_source m) as [v|] eqn:Hv; simplify_eq/=.
      destruct (Hc Hs _ eq_refl) as (rc' & Hrc' & Hi). exists rc'. split; [done|].
      intros i. rewrite Hi, list_lookup_insert, filter_cons. pose proof (lookup_lt_Some _ _ _ Hv).
      repeat case_decide; simpl; try (exfalso; lia); try done.
      destruct_and!. subst. rewrite Hv. simpl. f_equal. lia.
Qed.

(** [dart_amsg_sendrecv_process] gives up with [DART_ERR_AGAIN]
    when another thread holds the processing mutex.  Otherwise it takes
    one answer of [MPI_Testsome], hands each reported message, in
    order, from the buffer of its slot with its size (which must be
    positive) to [dart__amsgq__process_buffer], and with regular sends
    adds the messages of each sender to its receive counter. *)
Theorem dart_amsg_sendrecv_process_spec q w busy b bs q' w' bs' ret :
  dart_amsg_sendrecv_process q w busy (b :: bs) = Some (q', w', bs', ret) ->
  if busy then q' = q /\ w' = w /\ bs' = b :: bs /\ ret = DART_ERR_AGAIN
  else ret = DART_OK /\ bs' = bs /\
    (exists ps, w_processed w' = w_processed w ++ ps /\
       Forall2 (fun m p => q_recv_bufs q !! rm_idx m = Some p.1 /\ p.2 = rm_size m /\ 0 < rm_size m) b ps) /\
    (q_sync q = false -> forall rc, q_recv_count q = Some rc ->
       exists rc', q_recv_count q' = Some rc' /\
         forall i, rc' !! i = (fun v => v + Z.of_nat (length (filter (fun m => rm_source m = i) b)))%Z <$> rc !! i).
Proof.
  unfold dart_amsg_sendrecv_process. destruct busy; intros H; [by simplify_eq|]. simpl in H.
  destruct (recv_batch q w b) as [[q1 w1]|] eqn:E; simplify_eq/=.
  apply recv_batch_spec in E as [? ?]. by split_and!.
Qed.

(** ** Witnesses of the queue's operations *)

Lemma dart_amsg_sendrecv_openq_spec_witness :
  exists oq w' ret, dart_amsg_sendrecv_openq ex_w 64 4 None None (Some 2) = (oq, w', ret) /\
  match Some 2 with
  | None => oq = None /\ w' = ex_w /\ ret = DART_ERR_INVAL
  | Some n =>
      exists q, oq = Some q /\ ret = DART_OK /\
        q_sync q = default true None /\ q_direct q = default (negb (q_sync q)) None /\
        q_tag q = w_tag ex_w /\ w_tag w' = (w_tag ex_w + 1)%Z /\
        q_recv_reqs q = replicate 4 true /\ length (q_recv_bufs q) = 4 /\
        NoDup (q_recv_bufs q ++ q_send_bufs q) /\
        (forall b, b ∈ q_recv_bufs q ++ q_send_bufs q -> w_brk ex_w <= b) /\
        w_live w' ≡ₚ w_live ex_w ++ q_recv_bufs q ++ q_send_bufs q /\
        q_send_tailpos q = 0 /\ (q_direct q = false -> send_wf q) /\
        (if q_sync q then q_send_count q = None /\ q_recv_count q = None
         else q_send_count q = Some (replicate n 0%Z) /\ q_recv_count q = Some (replicate n 0%Z))
  end.
Proof.
  eexists _, _, _. split; [vm_compute; reflexivity|].
  exact (dart_amsg_sendrecv_openq_spec ex_w 64 4 None None (Some 2) _ _ _ ltac:(vm_compute; reflexivity)).
Defined.

Lemma amsgq_open_close_roundtrip_witness :
  heap_wf ex_w /\ exists q w1, dart_amsg_sendrecv_openq ex_w 64 4 (Some false) (Some false) (Some 2) = (Some q, w1, DART_OK) /\
  q_direct q = false /\ (q_sync q = false \/ 2 = 0) /\
  exists w2, dart_amsg_sendrecv_closeq q w1 = Some (w2, DART_OK) /\ (forall a, a ∈ w_live w2 <-> a ∈ w_live ex_w).
Proof.
  assert (Hh : heap_wf ex_w) by (unfold heap_wf; apply list.Forall_forall; wit_decide).
  split; [done|]. eexists _, _. split; [vm_compute; reflexivity|]. split; [reflexivity|]. split; [left; reflexivity|].
  exact (amsgq_open_close_roundtrip ex_w 64 4 (Some false) (Some false) 2 _ _ _ Hh ltac:(vm_compute; reflexivity) eq_refl
           (or_introl eq_refl)).
Defined.

Lemma amsgq_close_direct_leaks_witness :
  exists q w1, dart_amsg_sendrecv_openq ex_w 64 4 (Some false) None (Some 2) = (Some q, w1, DART_OK) /\
  q_direct q = true /\ (q_sync q = false \/ 2 = 0) /\
  exists w2, dart_amsg_sendrecv_closeq q w1 = Some (w2, DART_OK) /\
    length (q_recv_bufs q) = 4 /\ (forall b, b ∈ q_recv_bufs q -> b ∈ w_live w2).
Proof.
  eexists _, _. split; [vm_compute; reflexivity|]. split; [reflexivity|]. split; [left; reflexivity|].
  exact (amsgq_close_direct_leaks ex_w 64 4 (Some false) None 2 _ _ _ ltac:(vm_compute; reflexivity) eq_refl (or_introl eq_refl)).
Defined.

Lemma amsgq_close_sync_faults_witness :
  exists q w1, dart_amsg_sendrecv_openq ex_w 64 4 None None (Some 2) = (Some q, w1, DART_OK) /\
  q_sync q = true /\ 0 < 2 /\ dart_amsg_sendrecv_closeq q w1 = None.
Proof.
  eexists _, _. split; [vm_compute; reflexivity|]. split; [reflexivity|]. split; [lia|].
  exact (amsgq_close_sync_faults ex_w 64 4 None None 2 _ _ _ ltac:(vm_compute; reflexivity) eq_refl ltac:(lia)).
Defined.

Lemma check_round_completion_equiv_witness :
  q_recv_round_count ex_q = Some [0; 0]%Z /\ q_recv_count ex_q = Some [0; 0]%Z /\
  length [0; 0]%Z = q_comm_size ex_q /\ length [0; 0]%Z = q_comm_size ex_q /\
  dart_amsgq_sendrecv_check_round_completion ex_q = Some (round_complete_ref [0; 0]%Z [0; 0]%Z).
Proof.
  split_and!; [reflexivity | reflexivity | reflexivity | reflexivity |].
  exact (check_round_completion_equiv ex_q _ _ eq_refl eq_refl eq_refl eq_refl).
Defined.

Lemma dart_amsg_sendrevc_process_blocking_spec_witness :
  q_sync ex_q = false /\ count_len (q_send_count ex_q) (q_comm_size ex_q) /\
  count_len (q_send_round_count ex_q) (q_comm_size ex_q) /\ count_len (q_recv_count ex_q) (q_comm_size ex_q) /\
  exists q' w' bs' ret,
    dart_amsg_sendrevc_process_blocking ex_q ex_w ex_batches ex_env ex_incoming = Some (q', w', bs', ret) /\
    ret = DART_OK /\ q_send_round_count q' = q_send_count ex_q /\
    q_send_count q' = Some (replicate (q_comm_size ex_q) 0%Z) /\ q_recv_round_count q' = Some ex_incoming /\
    exists rc', q_recv_count q' = Some rc' /\ length rc' = q_comm_size ex_q /\ Forall (fun v => 0 <= v)%Z rc'.
Proof.
  assert (Hl : count_len (q_recv_count ex_q) (q_comm_size ex_q)) by (eexists; split; reflexivity).
  assert (Hsl : count_len (q_send_count ex_q) (q_comm_size ex_q)) by (eexists; split; reflexivity).
  assert (Hrl : count_len (q_send_round_count ex_q) (q_comm_size ex_q)) by (eexists; split; reflexivity).
  split_and!; [reflexivity | done | done | done |]. eexists _, _, _, _. split; [vm_compute; reflexivity|].
  exact (dart_amsg_sendrevc_process_blocking_spec ex_q ex_w ex_batches ex_env ex_incoming _ _ _ _
           eq_refl Hsl Hrl Hl ltac:(vm_compute; reflexivity)).
Defined.

Lemma trysend_unordered_testsome_overwrites_witness :
  exists q' w' ret buf,
    dart_amsg_sendrecv_trysend ex_q ex_w 1 16 [5; 1] true = Some (q', w', ret) /\
    q_send_reqs ex_q !! 4 = Some (Some buf) /\
    w_writes w' = w_writes ex_w ++ [(buf, 16)] /\ ~ send_wf q'.
Proof.
  apply (trysend_unordered_testsome_overwrites ex_q ex_w 1 16 1);
    [wit_decide | reflexivity | reflexivity | unfold ex_q; simpl; lia
    | right; exists [3; 3]%Z; split; [reflexivity | simpl; lia]].
Defined.

Lemma dart_amsg_sendrecv_process_spec_witness :
  exists q' w' bs' ret,
    dart_amsg_sendrecv_process ex_q ex_w false ([mk_msg 0 8 1] :: []) = Some (q', w', bs', ret) /\
    ret = DART_OK /\ bs' = [] /\
    (exists ps, w_processed w' = w_processed ex_w ++ ps /\
       Forall2 (fun m p => q_recv_bufs ex_q !! rm_idx m = Some p.1 /\ p.2 = rm_size m /\ 0 < rm_size m)
               [mk_msg 0 8 1] ps) /\
    (q_sync ex_q = false -> forall rc, q_recv_count ex_q = Some rc ->
       exists rc', q_recv_count q' = Some rc' /\
         forall i, rc' !! i = (fun v => v + Z.of_nat (length (filter (fun m => rm_source m = i) [mk_msg 0 8 1])))%Z <$> rc !! i).
Proof.
  eexists _, _, _, _. split; [vm_compute; reflexivity|].
  exact (dart_amsg_sendrecv_process_spec ex_q ex_w false [mk_msg 0 8 1] [] _ _ _ _ ltac:(vm_compute; reflexivity)).
Defined.
