(* ===== verification/Threads.v ===== *)
(** * Start-up, shut-down, yield and completion of the tasking runtime

    [src/dart-impl/tasking/src/internal/dart_tasking_instrumentation.c]:
    the global flags of lines 411-461 ([parallel], [initialized],
    [threads_running], [worker_poll_remote], the idle method, NUMA
    placement), [determine_num_threads], [init_threadpool] and
    [dart__tasking__init], the start of the worker threads
    ([start_threads] and the prologue of [thread_main]), one iteration
    of a worker's loop, [remote_progress], [dart__tasking__yield],
    [dart__tasking__task_complete], [stop_threads], [destroy_threadpool]
    and [dart__tasking__fini].  The runtime of [Lifecycle] is part of
    the state; the environment variables, the hardware and affinity
    queries and the team size are the record [tk_env].

    Threads run one at a time: starting a worker runs the prologue of
    its [thread_main] at once, and each later iteration of its loop is
    a step of the relation [tk_step], in any order with the master's
    calls; the invariant [tk_inv] holds in every reachable state. *)

From S2P Require Import Prelude Task TaskQueue Scheduler Context Lifecycle.
From Stdlib Require Import Sorting.Sorted.

(** ** State *)

(** [enum dart_thread_idle_t], lines 449-453. *)
Inductive dart_thread_idle_t := DART_THREAD_IDLE_POLL | DART_THREAD_IDLE_USLEEP | DART_THREAD_IDLE_WAIT.

#[export] Instance dart_thread_idle_t_eq_dec : EqDecision dart_thread_idle_t.
Proof. solve_decision. Defined.

(** What the start-up reads from outside: the environment variables
    ([None] when unset), [dart_hwinfo], the affinity module, the page
    size and the size of [DART_TEAM_ALL]. *)
Record tk_env := mk_env {
  env_idle : option dart_thread_idle_t;        (* DART_THREAD_IDLE *)
  env_place_numa : option bool;                (* DART_THREAD_PLACE_NUMA *)
  env_num_threads : option Z;                  (* DART_NUMTHREADS *)
  env_affinity : option bool;                  (* DART_THREAD_AFFINITY *)
  env_stack_size : Z;                          (* DART_TASKSTACKSIZE, -1 when unset *)
  hw_num_cores : Z;
  hw_max_threads : Z;
  aff_master_core : nat;                       (* dart__tasking__affinity_set(pthread_self(), 0) *)
  aff_num_numa : nat;                          (* dart__tasking__affinity_num_numa_nodes() *)
  aff_core_numa : nat -> nat;                  (* dart__tasking__affinity_core_numa_node *)
  env_page_size : Z;                           (* dart__tasking__context_pagesize() *)
  env_team_size : nat                          (* dart_team_size(DART_TEAM_ALL) *)
}.

(** The static globals of lines 411-461 with the runtime of
    [Lifecycle] ([thread_pool], [task_queue], [task_free_lists], the
    memory pools and the contexts) and [thread_task_mempool], where an
    exiting worker leaves its memory pool. *)
Record tasking := mk_tk {
  tk_initialized : bool;
  tk_threads_running : bool;
  tk_parallel : bool;
  tk_worker_poll_remote : bool;
  tk_idle : dart_thread_idle_t;
  tk_respect_numa : bool;
  tk_bind : bool;
  tk_num_units : nat;
  tk_rt : runtime;
  tk_saved_pools : list (option task_mempool)
}.

Definition set_rt (r : runtime) (k : tasking) : tasking :=
  mk_tk (tk_initialized k) (tk_threads_running k) (tk_parallel k) (tk_worker_poll_remote k)
        (tk_idle k) (tk_respect_numa k) (tk_bind k) (tk_num_units k) r (tk_saved_pools k).

Definition set_flags (init running par poll : bool) (k : tasking) : tasking :=
  mk_tk init running par poll (tk_idle k) (tk_respect_numa k) (tk_bind k) (tk_num_units k)
        (tk_rt k) (tk_saved_pools k).

Definition set_saved_pools (p : list (option task_mempool)) (k : tasking) : tasking :=
  mk_tk (tk_initialized k) (tk_threads_running k) (tk_parallel k) (tk_worker_poll_remote k)
        (tk_idle k) (tk_respect_numa k) (tk_bind k) (tk_num_units k) (tk_rt k) p.

Definition tk_num_threads (k : tasking) : nat := s_num_threads (r_sched (tk_rt k)).

(** ** Start-up *)

(** [determine_num_threads], lines 821-843: [DART_NUMTHREADS] if set,
    else cores times hardware threads, else 2. *)
Definition determine_num_threads (env_n : option Z) (cores max_threads : Z) : Z :=
  let n0 := default (-1)%Z env_n in
  let n1 := if (n0 =? -1)%Z
            then if (0 <? cores)%Z
                 then let n := (cores * (if (0 <? max_threads)%Z then max_threads else 1))%Z in
                      if (n <=? 0)%Z then (-1)%Z else n
                 else (-1)%Z
            else n0 in
  if (n1 =? -1)%Z then 2%Z else n1.

Definition with_numa (numa : nat) (th : dart_thread) : dart_thread :=
  mk_thread (th_id th) numa (th_queue th) (th_next_task th) (th_last_steal th)
    (th_current_task th) (th_taskcntr th) (th_is_utility th) (th_delay th).

(** [init_threadpool], lines 1535-1551: a zeroed array of [num_threads]
    thread pointers whose first entry is the master thread, placed on
    the NUMA node of the core it is bound to.  With [n = 0] the array
    [calloc] returns has no entry (or is NULL) and the store
    [thread_pool[0]] is out of bounds: undefined behaviour, which the
    model, like [store] everywhere, treats as a fault. *)
Definition init_threadpool (env : tk_env) (respect_numa bind : bool) (n : nat)
    : option (list (option dart_thread)) :=
  let core_id := if bind then aff_master_core env else 0 in
  let master := with_numa (if respect_numa then aff_core_numa env core_id else 0) (dart_thread_init 0) in
  store (replicate n None) 0 (Some master).

(** [dart__tasking__init], lines 1553-1636.  The calls into other
    modules (dependencies, waiting, copy-in, cancellation, the signal
    handler) are outside the model. *)
Definition dart__tasking__init (k : tasking) (env : tk_env) : option (tasking * dart_ret) :=
  if tk_initialized k then Some (k, DART_ERR_INVAL)
  else
    let idle := default DART_THREAD_IDLE_USLEEP (env_idle env) in
    let numa := default false (env_place_numa env) in
    let n := Z.to_nat (determine_num_threads (env_num_threads env) (hw_num_cores env) (hw_max_threads env)) in
    let r := tk_rt k in
    let cs := r_ctx r in
    let cs' := mk_cs (context_init_stack_size (env_page_size env) (cs_stack_size cs) (env_stack_size env))
                     (cs_debug cs) (cs_ctx cs) (replicate n []) (cs_brk cs) in
    let nnuma := if numa then aff_num_numa env else s_num_numa (r_sched r) in
    let bind := default false (env_affinity env) in
    pool ← init_threadpool env numa bind n;
    let s' := mk_sched (r_heap r) pool (replicate nnuma dart_tasking_taskqueue_init) n nnuma in
    let r' := mk_rt s' (replicate n []) (replicate n None) (r_deferred r) (r_wait r) (r_brk r) cs' in
    Some (mk_tk true (tk_threads_running k) true (tk_worker_poll_remote k) idle numa bind
                (env_team_size env) r' (replicate n None), DART_OK).

(** The thread data a worker [i] builds in [thread_main], lines
    1375-1396.  The core is bound, but [core_id] stays 0, so the NUMA
    node is that of core 0. *)
Definition worker_thread (env : tk_env) (k : tasking) (i : nat) : dart_thread :=
  let core_id := 0 in
  with_numa (if tk_respect_numa k then aff_core_numa env core_id else 0) (dart_thread_init i).

(** The prologue of [thread_main], lines 1398-1405, for worker [i]:
    its thread data enter [thread_pool[i]]. *)
Definition thread_main_prologue (env : tk_env) (k : tasking) (i : nat) : option tasking :=
  let s := r_sched (tk_rt k) in
  pool ← store (s_pool s) i (Some (worker_thread env k i));
  Some (set_rt (set_sched (set_pool pool s) (tk_rt k)) k).

(** The loop of [start_threads], lines 1520-1530: [created i] is
    whether [pthread_create] succeeded for worker [i]. *)
Fixpoint start_loop (env : tk_env) (created : nat -> bool) (k : tasking) (ids : list nat)
    : option tasking :=
  match ids with
  | [] => Some k
  | i :: ids' =>
      k1 ← (if created i then thread_main_prologue env k i else Some k);
      start_loop env created k1 ids'
  end.

(** [start_threads], lines 1494-1533. *)
Definition start_threads (env : tk_env) (created : nat -> bool) (k : tasking) : option tasking :=
  dart_assert (negb (tk_threads_running k))
  (k1 ← start_loop env created k (seq 1 (tk_num_threads k - 1));
   Some (set_flags (tk_initialized k1) true (tk_parallel k1) (tk_worker_poll_remote k1) k1)).

(** ** Progress, the worker loop, yield and completion *)

(** [REMOTE_PROGRESS_INTERVAL_USEC], line 401: [1E4]. *)
Definition REMOTE_PROGRESS_INTERVAL_USEC : Z := 10000.

(** [remote_progress], lines 1125-1137, for a thread whose
    [last_progress_ts] is [last_ts], at time [now]: whether
    [dart_tasking_remote_progress] is called, and the new
    [last_progress_ts]. *)
Definition remote_progress (num_units : nat) (last_ts now : Z) (force : bool) : bool * Z :=
  if num_units =? 1 then (false, last_ts)
  else if force || (now <=? last_ts + REMOTE_PROGRESS_INTERVAL_USEC)%Z then (true, now)
  else (false, last_ts).

(** Successive calls [remote_progress(thread, force)] on one thread at
    the times [now] of [calls] (the worker loop calls it once per
    iteration, line 1441): whether each call progresses, with the
    thread's [last_progress_ts] carried from call to call. *)
Fixpoint progress_calls (num_units : nat) (last_ts : Z) (calls : list (Z * bool)) : list bool :=
  match calls with
  | [] => []
  | (now, force) :: calls' =>
      let '(run, last') := remote_progress num_units last_ts now force in
      run :: progress_calls num_units last' calls'
  end.

(** The number of leading times in [ts] each of which comes at most
    [REMOTE_PROGRESS_INTERVAL_USEC] after the one before it ([last]
    before the first). *)
Fixpoint close_prefix (last : Z) (ts : list Z) : nat :=
  match ts with
  | [] => 0
  | t :: ts' => if (t <=? last + REMOTE_PROGRESS_INTERVAL_USEC)%Z then S (close_prefix t ts') else 0
  end.

(** One iteration of the loop of [thread_main], lines 1417-1463, on
    worker [me]: take the next task and handle it (with [NULL] this
    does nothing).  The result also says whether the worker then polls
    for remote messages, and with [force]; the idle bookkeeping only
    sleeps.  ([dart__tasking__check_cancellation] is outside the
    sources.) *)
Definition worker_iteration (e : ext) (fuel : nat) (k : tasking) (me : nat)
    : option (tasking * option nat * bool) :=
  '(s1, nt) ← next_task (r_sched (tk_rt k)) me;
  r2 ← handle_task_internal e fuel (set_sched s1 (tk_rt k)) me nt;
  Some (set_rt r2 k, nt, (negb (bool_decide (is_Some nt)) || tk_worker_poll_remote k) && (me =? 1)).

(** How a call to [dart__tasking__yield] ends: it returns [rc], the
    task is aborted ([dart__tasking__abort_current_task] does not
    return), or the task is left through [dart__tasking__context_swap]
    and control goes back to the thread's [retctx]. *)
Inductive yield_outcome := YIELD_RETURN (rc : dart_ret) | YIELD_ABORT | YIELD_SWITCH.

(** [dart__tasking__yield] ([USE_UCONTEXT]), lines 669-747, on thread
    [me]; [running] is [threads_running]. *)
Definition dart__tasking__yield (e : ext) (fuel : nat) (running : bool) (r : runtime)
    (me : nat) (delay : Z) : option (runtime * yield_outcome) :=
  if negb running then Some (r, YIELD_RETURN DART_OK)
  else
    th ← get_me r me;
    cur ← th_current_task th;
    if x_cancel e then Some (r, YIELD_ABORT)
    else
      t ← r_heap r !! cur;
      if has_flag t DART_TASK_INLINE then Some (r, YIELD_RETURN DART_ERR_INVAL)
      else if bool_decide (t_state t = DART_TASK_BLOCKED) then Some (r, YIELD_SWITCH)
      else
        '(r1, nt) ← next_task_retry r me;
        match nt with
        | None => Some (r1, YIELD_RETURN DART_OK)
        | Some n =>
            th1 ← get_me r1 me;
            let r2 := set_me r1 me (set_th_delay delay th1) in
            if cur =? root_task_id then
              dart_assert (th_id th1 =? 0)
                (r3 ← handle_task_internal e fuel r2 me (Some n); Some (r3, YIELD_RETURN DART_OK))
            else
              r3 ← rupd r2 cur (set_state (if bool_decide (t_wait_handle t = NULL)
                                           then DART_TASK_SUSPENDED else DART_TASK_BLOCKED));
              th3 ← get_me r3 me;
              dart_assert (bool_decide (th_next_task th3 = NULL))
                (Some (set_me r3 me (set_th_next_task (Some n) th3), YIELD_SWITCH))
        end.

(** [dart__tasking__task_complete], lines 1841-1935, on thread [me].
    [dart__tasking__perform_matching] and the phase module act on
    state outside the model; the flag [worker_poll_remote] is set for
    the loop and reset after it. *)
Definition dart__tasking__task_complete (e : ext) (fuel : nat) (env : tk_env) (created : nat -> bool)
    (k : tasking) (me : nat) (local_only : bool) : option (tasking * dart_ret) :=
  if negb (tk_threads_running k) && local_only then Some (k, DART_OK)
  else
    k1 ← (if tk_threads_running k then Some k else start_threads env created k);
    th ← get_me (tk_rt k1) me;
    cur ← th_current_task th;
    let is_root := cur =? root_task_id in
    dart_assert (negb (is_root && negb (th_id th =? 0)))
      (let k2 := if is_root && negb local_only
                 then set_flags (tk_initialized k1) (tk_threads_running k1) (tk_parallel k1) true k1
                 else k1 in
       r3 ← task_complete_loop e fuel (tk_rt k2) me cur;
       let k3 := set_rt r3 k2 in
       Some (if is_root
             then set_flags (tk_initialized k3) (tk_threads_running k3) (tk_parallel k3) false k3
             else k3, DART_OK)).

(** [dart__tasking__create_task] with the start of the workers on the
    first creation, lines 1776-1779, which the creation of [Lifecycle]
    leaves out: unless cancellation is requested, [start_threads] runs
    when the threads are not running yet, then the task is created. *)
Definition tk_create_task (phase_any : Z) (var_space_size : nat) (e : ext) (fuel : nat) (env : tk_env) (created : nat -> bool) (k : tasking)
    (me fn data_size : nat) (udeps rdeps prio flags : Z) (with_ref : bool)
    : option (tasking * option nat) :=
  k1 ← (if negb (x_cancel e) && negb (tk_threads_running k) then start_threads env created k else Some k);
  '(r', res) ← dart__tasking__create_task phase_any var_space_size e fuel (tk_rt k1) me fn data_size udeps rdeps prio flags with_ref;
  Some (set_rt r' k1, res).

(** ** Shut-down *)

(** The epilogue of [thread_main], lines 1470-1483, for worker [i]: its
    contexts are freed and its memory pool is left in
    [thread_task_mempool[i]]. *)
Definition thread_main_epilogue (k : tasking) (i : nat) : option tasking :=
  let r := tk_rt k in
  cs' ← context_cleanup (r_ctx r) i;
  tp ← r_taskpool r !! i;
  saved ← store (tk_saved_pools k) i tp;
  Some (set_saved_pools saved (set_rt (set_ctx cs' r) k)).

(** The loop of [stop_threads], lines 2070-2076: wait until worker [i]
    has published its thread data, then join it.  A worker that never
    registers makes the loop spin for ever: [None]. *)
Fixpoint join_loop (k : tasking) (ids : list nat) : option tasking :=
  match ids with
  | [] => Some k
  | i :: ids' =>
      th ← s_pool (r_sched (tk_rt k)) !! i;
      match th with
      | None => None
      | Some _ => k1 ← thread_main_epilogue k i; join_loop k1 ids'
      end
  end.

(** [stop_threads], lines 2055-2079. *)
Definition stop_threads (k : tasking) : option tasking :=
  let k1 := set_flags (tk_initialized k) (tk_threads_running k) false (tk_worker_poll_remote k) k in
  k2 ← join_loop k1 (seq 1 (tk_num_threads k - 1));
  Some (set_flags (tk_initialized k2) false (tk_parallel k2) (tk_worker_poll_remote k2) k2).

(** [destroy_threadpool], lines 2103-2133: the master's pool goes to
    [thread_task_mempool[0]]; then every thread and every pool is
    freed and both arrays are released. *)
Definition destroy_threadpool (k : tasking) : option tasking :=
  let r := tk_rt k in
  tp0 ← r_taskpool r !! 0;
  _ ← store (tk_saved_pools k) 0 tp0;
  tps ← store (r_taskpool r) 0 None;
  let r1 := set_taskpool tps (r_brk r) r in
  Some (set_saved_pools [] (set_rt (set_sched (set_pool [] (r_sched r1)) r1) k)).

(** [dart__tasking__fini], lines 2135-2180, called by thread [me] (the
    master).  The dependency, waiting, copy-in, task-list and
    cancellation modules are outside the model. *)
Definition dart__tasking__fini (k : tasking) (me : nat) : option (tasking * dart_ret) :=
  if negb (tk_initialized k) then Some (k, DART_ERR_INVAL)
  else
    k1 ← (if tk_threads_running k then stop_threads k else Some k);
    let r1 := set_free [] (tk_rt k1) in
    cs ← context_cleanup (r_ctx r1) me;
    k2 ← destroy_threadpool (set_rt (set_ctx cs r1) k1);
    let s := r_sched (tk_rt k2) in
    let r3 := set_sched (set_queues (map dart_tasking_taskqueue_finalize (s_queues s)) s) (tk_rt k2) in
    Some (set_flags false (tk_threads_running k2) (tk_parallel k2) (tk_worker_poll_remote k2)
                    (set_rt r3 k2), DART_OK).

(** ** The frame of the runtime, the invariant and the steps *)

(** What an operation of the runtime keeps: the number of threads, the
    sizes of the per-thread arrays, and every registered thread. *)
Definition sframe (s s' : sched) : Prop :=
  s_num_threads s' = s_num_threads s /\ length (s_pool s') = length (s_pool s) /\
  forall i, is_Some (get_thread s i) -> is_Some (get_thread s' i).

Definition rt_frame (r r' : runtime) : Prop :=
  sframe (r_sched r) (r_sched r') /\
  length (cs_lists (r_ctx r')) = length (cs_lists (r_ctx r)) /\
  length (r_taskpool r') = length (r_taskpool r).

#[export] Instance sframe_preorder : PreOrder sframe.
Proof.
  split; [by intros s; split_and!|].
  intros s1 s2 s3 (? & ? & ?) (? & ? & ?). split_and!; [congruence | congruence | auto].
Qed.

#[export] Instance rt_frame_preorder : PreOrder rt_frame.
Proof.
  split; [intros r; split_and!; [reflexivity | done | done]|].
  intros r1 r2 r3 (? & ? & ?) (? & ? & ?). split_and!; [by etrans | congruence | congruence].
Qed.

(** The arrays [dart__tasking__init] allocates have [num_threads]
    entries, at least one, and the master is registered. *)
Definition tk_shape (k : tasking) : Prop :=
  let r := tk_rt k in
  let n := tk_num_threads k in
  1 <= n /\ length (s_pool (r_sched r)) = n /\ length (cs_lists (r_ctx r)) = n /\
  length (r_taskpool r) = n /\ length (tk_saved_pools k) = n /\ is_Some (get_me r 0).

(** The invariant: an initialised runtime has its shape and [parallel]
    holds; while the workers run, the runtime is initialised and every
    thread is registered. *)
Definition tk_inv (k : tasking) : Prop :=
  (tk_initialized k = true -> tk_shape k /\ tk_parallel k = true) /\
  (tk_threads_running k = true ->
     tk_initialized k = true /\ forall i, i < tk_num_threads k -> is_Some (get_me (tk_rt k) i)).

Definition tk_initial (k : tasking) : Prop :=
  tk_initialized k = false /\ tk_threads_running k = false.

(** The steps of the runtime: the master's calls to
    [dart__tasking__init], [dart__tasking__task_complete] and
    [dart__tasking__fini], a call to [dart__tasking__yield] on any
    thread, and an iteration of a worker's loop while [parallel] holds.
    The API calls the middle three only between [dart__tasking__init]
    and [dart__tasking__fini]. *)
Inductive tk_step (e : ext) (fuel : nat) (created : nat -> bool) : tasking -> tasking -> Prop :=
| tk_step_init k k' env rc :
    dart__tasking__init k env = Some (k', rc) -> tk_step e fuel created k k'
| tk_step_complete k k' env rc lo :
    tk_initialized k = true ->
    dart__tasking__task_complete e fuel env created k 0 lo = Some (k', rc) -> tk_step e fuel created k k'
| tk_step_yield k r' out me delay :
    tk_initialized k = true ->
    dart__tasking__yield e fuel (tk_threads_running k) (tk_rt k) me delay = Some (r', out) ->
    tk_step e fuel created k (set_rt r' k)
| tk_step_worker k k' i nt p :
    tk_threads_running k = true -> tk_parallel k = true -> 1 <= i ->
    worker_iteration e fuel k i = Some (k', nt, p) -> tk_step e fuel created k k'
| tk_step_fini k k' rc :
    dart__tasking__fini k 0 = Some (k', rc) -> tk_step e fuel created k k'.

(** ** Example data

    [ex_tk0]: the state before [dart__tasking__init] (the statics of
    lines 411-461: [num_threads = 0], one NUMA node), with the root task
    in the heap.  [ex_env]: three threads from [DART_NUMTHREADS], NUMA
    placement on, two NUMA nodes of two cores each, the master bound to
    core 2.  [ex_created]: [pthread_create] fails for worker 1. *)
Definition ex_rt0 : runtime :=
  {| r_sched := mk_sched {[root_task_id := root_task]} [] [] 0 1;
     r_free := []; r_taskpool := []; r_deferred := dart_tasking_taskqueue_init;
     r_wait := []; r_brk := 100; r_ctx := mk_cs DEFAULT_TASK_STACK_SIZE false ∅ [] 0 |}.

Definition ex_tk0 : tasking :=
  mk_tk false false false false DART_THREAD_IDLE_USLEEP false false 1 ex_rt0 [].

Definition ex_env (num_threads : option Z) : tk_env :=
  mk_env None (Some true) num_threads (Some true) (-1) 4 1 2 2 (fun c => c / 2) 4096 2.

Definition ex_created (i : nat) : bool := negb (i =? 1).

Definition ex_tk_init : tasking :=
  from_option fst ex_tk0 (dart__tasking__init ex_tk0 (ex_env (Some 3%Z))).

(** [ex_rt_yield]: the runtime [ex_rt] of [Lifecycle] in which thread 0
    runs task 5; thread 1 holds task 4 in a hot slot. *)
Definition ex_rt_yield : runtime :=
  set_me ex_rt 0 (set_th_current_task (Some 5) (dart_thread_init 0)).

(** The runtime after [dart__tasking__task_complete] has started the
    workers of [ex_tk_init] (every [pthread_create] succeeding), and
    the state [start_threads] alone gives. *)
Definition ex_tk_started : tasking :=
  from_option fst ex_tk_init
    (dart__tasking__task_complete (ex_ext false) 5 (ex_env (Some 3%Z)) (fun _ => true) ex_tk_init 0 false).

Definition ex_tk_threads : tasking :=
  from_option id ex_tk_init (start_threads (ex_env (Some 3%Z)) (fun _ => true) ex_tk_init).

(** The state [next_task] leaves in [ex_rt_yield] (it steals task 4). *)
Definition ex_yield_r1 : runtime := from_option fst ex_rt_yield (next_task_retry ex_rt_yield 0).

Definition ex_yield_th1 : dart_thread := default (dart_thread_init 0) (get_me ex_yield_r1 0).

Definition ex_yield_t1 : task := default blank_task (r_heap ex_yield_r1 !! 5).

(** ** The frame: every operation of the runtime keeps it *)

Section Frame.
Implicit Types (s : sched) (r : runtime).

Lemma is_Some_insert_thread (p : list (option dart_thread)) i j th :
  is_Some (p !! j ≫= id) -> is_Some (<[i := Some th]> p !! j ≫= id).
Proof.
  intros Hj. destruct (decide (i = j)) as [->|Hne].
  - destruct (p !! j) eqn:E; [|by destruct Hj].
    rewrite list_lookup_insert_eq; [done|]. by eapply lookup_lt_Some.
  - by rewrite list_lookup_insert_ne.
Qed.

Lemma sframe_set_thread s i th : sframe s (set_thread i th s).
Proof.
  split_and!; [done | apply length_insert |].
  intros j. apply is_Some_insert_thread.
Qed.

Lemma sframe_set_heap s h : sframe s (set_heap h s).
Proof. done. Qed.

Lemma sframe_set_queues s qs : sframe s (set_queues qs s).
Proof. done. Qed.

Create HintDb frame.
#[local] Hint Resolve sframe_set_thread sframe_set_heap sframe_set_queues : frame.

Lemma steal_back_sframe s i s' t : steal_back s i = Some (s', t) -> sframe s s'.
Proof.
  unfold steal_back. intros H. apply bind_Some in H as (th & _ & H).
  destruct (next_task_thread_back _). simplify_eq. eauto with frame.
Qed.

Lemma steal_loop_sframe same fuel s me numa target s' t :
  steal_loop same fuel s me numa target = Some (s', t) -> sframe s s'.
Proof.
  revert s target. induction fuel as [|fuel IH]; intros s target H; simpl in H; [done|].
  destruct (target =? me); [by simplify_eq|].
  destruct (s_pool s !! target) as [[victim|]|]; [|by eapply IH|done].
  destruct (Bool.eqb _ _); [|by eapply IH].
  apply bind_Some in H as ([s1 r1] & Hb & H). apply steal_back_sframe in Hb.
  destruct r1; [|etrans; [exact Hb | by eapply IH]].
  apply bind_Some in H as (th & _ & H). simplify_eq.
  etrans; [exact Hb | apply sframe_set_thread].
Qed.

Lemma queue_pop_loop_sframe fuel s numa i s' t :
  queue_pop_loop fuel s numa i = Some (s', t) -> sframe s s'.
Proof.
  revert s i. induction fuel as [|fuel IH]; intros s i H; simpl in H; [done|].
  apply bind_Some in H as (q & _ & H). apply bind_Some in H as ([[h' r1] q'] & _ & H).
  assert (Hs : sframe s (set_queues (<[(numa + i) mod s_num_numa s := q']> (s_queues s)) (set_heap h' s)))
    by done.
  destruct r1; [by simplify_eq|].
  destruct (_ <? _); [etrans; [exact Hs | by eapply IH] | by simplify_eq].
Qed.

Lemma next_task_sframe s me s' t : next_task s me = Some (s', t) -> sframe s s'.
Proof.
  unfold next_task. intros H. apply bind_Some in H as (th & _ & H).
  destruct (take_own th) as [th1 r1].
  assert (H1 := sframe_set_thread s me th1).
  destruct r1; [by simplify_eq|].
  apply bind_Some in H as ([s2 r2] & H2%steal_back_sframe & H).
  destruct r2; [simplify_eq; by etrans|].
  apply bind_Some in H as ([s3 r3] & H3%steal_loop_sframe & H).
  destruct r3; [simplify_eq; by do 2 (etrans; [eassumption|])|].
  apply bind_Some in H as ([s4 r4] & H4%queue_pop_loop_sframe & H).
  destruct r4; [simplify_eq; by do 3 (etrans; [eassumption|])|].
  destruct (_ <? _).
  - apply steal_loop_sframe in H. by do 4 (etrans; [eassumption|]).
  - simplify_eq. by do 3 (etrans; [eassumption|]).
Qed.

End Frame.

(** [unbind H]: split the binds of [H] into one hypothesis per step. *)
Ltac unbind H :=
  repeat (match type of H with
          | mbind _ _ = Some _ => apply bind_Some in H as (? & ? & H)
          | dart_assert _ _ = Some _ => apply dart_assert_Some in H as [? H]
          end
          || match goal with p : (_ * _)%type |- _ => destruct p; cbv beta iota in H end).

Section RuntimeFrame.
Context (e : ext).
Hypothesis Hrun : forall r x r', x_run e r x = Some r' -> rt_frame r r'.
Hypothesis Hrel : forall r x r', x_release e r x = Some r' -> rt_frame r r'.

Lemma rt_frame_sched r s' : sframe (r_sched r) s' -> rt_frame r (set_sched s' r).
Proof. intros. by unfold rt_frame; split_and!. Qed.

Lemma set_me_frame r me th : rt_frame r (set_me r me th).
Proof. apply rt_frame_sched, sframe_set_thread. Qed.

Lemma rupd_frame r x f r' : rupd r x f = Some r' -> rt_frame r r'.
Proof. unfold rupd. intros H. unbind H. simplify_eq. by apply rt_frame_sched. Qed.

Lemma set_current_frame r me v r' : set_current r me v = Some r' -> rt_frame r r'.
Proof. unfold set_current. intros H. unbind H. simplify_eq. apply set_me_frame. Qed.

Lemma incr_taskcntr_frame r me r' : incr_taskcntr r me = Some r' -> rt_frame r r'.
Proof. unfold incr_taskcntr. intros H. unbind H. simplify_eq. apply set_me_frame. Qed.

Lemma push_wait_frame r x : rt_frame r (push_wait x r).
Proof. by unfold rt_frame; split_and!. Qed.

Lemma set_ctx_frame r cs :
  length (cs_lists cs) = length (cs_lists (r_ctx r)) -> rt_frame r (set_ctx cs r).
Proof. intros. by unfold rt_frame; split_and!. Qed.

Lemma context_create_lists cs me fn arg cs' c :
  context_create cs me fn arg = Some (cs', c) -> length (cs_lists cs') = length (cs_lists cs).
Proof.
  unfold context_create. intros H. unbind H.
  destruct x; simplify_eq/=; [done | apply length_insert].
Qed.

Lemma context_release_lists cs c cs' w :
  context_release cs c = Some (cs', w) -> length (cs_lists cs') = length (cs_lists cs).
Proof. unfold context_release. intros H. unbind H. simplify_eq/=. apply length_insert. Qed.

Lemma release_ctx_frame r x r' : release_ctx r x = Some r' -> rt_frame r r'.
Proof.
  unfold release_ctx. intros H. unbind H.
  etrans; [apply set_ctx_frame; by eapply context_release_lists|]. by eapply rupd_frame.
Qed.

Lemma destroy_task_frame r x r' : destroy_task r x = Some r' -> rt_frame r r'.
Proof.
  unfold destroy_task. intros H. unbind H. simplify_eq.
  etrans; [by eapply rupd_frame|]. by unfold rt_frame; split_and!.
Qed.

Lemma requeue_task_frame r me x r' : requeue_task r me x = Some r' -> rt_frame r r'.
Proof.
  unfold requeue_task. intros H. unbind H. simplify_eq. by apply rt_frame_sched.
Qed.

Lemma context_create_frame r me fn arg cs' c :
  context_create (r_ctx r) me fn arg = Some (cs', c) -> rt_frame r (set_ctx cs' r).
Proof. intros. apply set_ctx_frame. by eapply context_create_lists. Qed.

(** [to_frame H]: turn the result [H] of a call into the frame it keeps. *)
Ltac to_frame H :=
  first [ apply rupd_frame in H | apply set_current_frame in H | apply incr_taskcntr_frame in H
        | apply release_ctx_frame in H | apply destroy_task_frame in H
        | apply requeue_task_frame in H | apply Hrun in H | apply Hrel in H
        | apply context_create_frame in H ].

(** [close_frames]: chain the frames of the hypotheses from the start
    of the goal's frame to its end, through the pure updates
    [set_me] and [push_wait]. *)
Ltac close_frames :=
  repeat match goal with
  | |- rt_frame ?a ?a => reflexivity
  | |- rt_frame ?a (set_me ?a _ _) => apply set_me_frame
  | |- rt_frame ?a (push_wait _ ?a) => apply push_wait_frame
  | H : rt_frame ?a _ |- rt_frame ?a _ => etrans; [exact H|]; clear H
  | H : rt_frame (set_me ?a ?m ?t) _ |- rt_frame ?a _ => etrans; [apply (set_me_frame a m t)|]
  | H : rt_frame (push_wait ?y ?a) _ |- rt_frame ?a _ => etrans; [apply (push_wait_frame a y)|]
  end.

(** [fchain conv]: prove [rt_frame r r'] along the chain of calls in
    the hypotheses that leads from [r] to [r'], [conv] giving the frame
    of each call. *)
Ltac fchain conv :=
  repeat match goal with
  | H : mbind _ _ = Some _ |- _ => unbind H
  | H : dart_assert _ _ = Some _ |- _ => unbind H
  | H : context [match ?o with _ => _ end] |- _ => destruct o eqn:?
  end; simplify_eq;
  repeat match goal with H : _ = Some _ |- _ => conv H end;
  close_frames.

Lemma finish_task_frame r x c r' : finish_task e r x c = Some r' -> rt_frame r r'.
Proof. unfold finish_task. intros H. unbind H. fchain to_frame. Qed.





Lemma invoke_task_frame r me x r' : invoke_task e r me x = Some r' -> rt_frame r r'.
Proof.
  unfold invoke_task. intros H. destruct (x_cancel e); [by eapply set_current_frame|].
  unbind H. fchain ltac:(fun H => first [to_frame H | apply finish_task_frame in H]).
Qed.

Lemma next_task_retry_frame r me r' nt : next_task_retry r me = Some (r', nt) -> rt_frame r r'.
Proof.
  unfold next_task_retry. intros H. unbind H.
  destruct o; unbind H; simplify_eq;
    repeat match goal with Hn : next_task _ _ = Some _ |- _ => apply next_task_sframe in Hn end;
    apply rt_frame_sched; [done | by etrans].
Qed.


(** The scheduler's mutually recursive handlers keep the frame. *)
Lemma handle_frame fuel :
  (forall r me t r', handle_task_internal e fuel r me t = Some r' -> rt_frame r r') /\
  (forall r me x r', handle_task e fuel r me x = Some r' -> rt_frame r r') /\
  (forall r me x r', handle_inline_task e fuel r me x = Some r' -> rt_frame r r') /\
  (forall r me x r', task_complete_loop e fuel r me x = Some r' -> rt_frame r r').
Proof.
  induction fuel as [|f (IH1 & IH2 & IH3 & IH4)]; [by split_and!|].
  split_and!; intros r me ? r' H;
    cbn [handle_task_internal handle_task handle_inline_task task_complete_loop] in H;
    fchain ltac:(fun H => first [ to_frame H | apply finish_task_frame in H
                                | apply invoke_task_frame in H | apply next_task_retry_frame in H
                                | apply IH1 in H | apply IH2 in H | apply IH3 in H | apply IH4 in H ]).
Qed.

Lemma handle_task_internal_frame fuel r me t r' :
  handle_task_internal e fuel r me t = Some r' -> rt_frame r r'.
Proof. apply handle_frame. Qed.

Lemma task_complete_loop_frame fuel r me x r' :
  task_complete_loop e fuel r me x = Some r' -> rt_frame r r'.
Proof. apply handle_frame. Qed.


Lemma yield_frame fuel running r me delay r' out :
  dart__tasking__yield e fuel running r me delay = Some (r', out) -> rt_frame r r'.
Proof.
  unfold dart__tasking__yield. intros H.
  destruct running; simpl in H; [|by simplify_eq].
  fchain ltac:(fun H => first [ to_frame H | apply next_task_retry_frame in H
                              | apply handle_task_internal_frame in H ]).
Qed.

Lemma worker_iteration_frame fuel k me k' nt p :
  worker_iteration e fuel k me = Some (k', nt, p) -> exists r', k' = set_rt r' k /\ rt_frame (tk_rt k) r'.
Proof.
  unfold worker_iteration. intros H. unbind H. simplify_eq. eexists; split; [done|].
  etrans; [apply rt_frame_sched; by eapply next_task_sframe | by eapply handle_task_internal_frame].
Qed.

End RuntimeFrame.

(** ** The shape and the registered threads carry over a frame *)

Lemma tk_shape_frame k r' : tk_shape k -> rt_frame (tk_rt k) r' -> tk_shape (set_rt r' k).
Proof.
  unfold tk_shape, tk_num_threads, rt_frame, sframe. simpl.
  intros (? & ? & ? & ? & ? & ?) ((Hn & Hp & Hs) & Hc & Ht). split_and!; try lia. by apply Hs.
Qed.

Lemma registered_frame r r' :
  (forall i, i < s_num_threads (r_sched r) -> is_Some (get_me r i)) -> rt_frame r r' ->
  forall i, i < s_num_threads (r_sched r') -> is_Some (get_me r' i).
Proof. intros Hr ((Hn & _ & Hs) & _) i Hi. apply Hs, Hr. lia. Qed.

Lemma thread_main_prologue_spec env k i k' :
  thread_main_prologue env k i = Some k' ->
  exists r', k' = set_rt r' k /\ rt_frame (tk_rt k) r' /\ is_Some (get_me r' i).
Proof.
  unfold thread_main_prologue, store. intros H. unbind H.
  destruct (i <? _) eqn:Hi; simplify_eq. apply Nat.ltb_lt in Hi.
  eexists; split_and!; [done | apply rt_frame_sched, (sframe_set_thread _ i) |].
  unfold get_me, get_thread. simpl. by rewrite list_lookup_insert_eq.
Qed.

Lemma start_loop_spec env created ids k k' :
  start_loop env created k ids = Some k' ->
  exists r', k' = set_rt r' k /\ rt_frame (tk_rt k) r' /\
    forall i, i ∈ ids -> created i = true -> is_Some (get_me r' i).
Proof.
  induction ids as [|i ids IH] in k |- *; intros H; simpl in H.
  - injection H as <-. exists (tk_rt k). split_and!; [by destruct k | done | by intros ? ?%elem_of_nil].
  - unbind H. apply IH in H as (r2 & Hk' & Hf2 & Hs2). subst k'.
    destruct (created i) eqn:Hc; [apply thread_main_prologue_spec in H0 as (r1 & -> & Hf1 & Hs1)|simplify_eq].
    + exists r2. split_and!; [done | by etrans |].
      intros j [->|Hj]%elem_of_cons Hcj; [|by apply Hs2].
      destruct Hf2 as ((_ & _ & Hk) & _). by apply Hk.
    + exists r2. split_and!; [done | done |].
      intros j [->|Hj]%elem_of_cons Hcj; [congruence | by apply Hs2].
Qed.

(** ** The invariant holds in every reachable state *)

Lemma tk_inv_frame k r' : tk_inv k -> rt_frame (tk_rt k) r' -> tk_inv (set_rt r' k).
Proof.
  intros [Hi Hr] Hf. split; simpl.
  - intros (Hs & Hp)%Hi. split; [by apply tk_shape_frame | done].
  - intros (Hk & Hreg)%Hr. split; [done|]. by eapply registered_frame.
Qed.

Lemma tk_inv_set_poll k b :
  tk_inv k -> tk_inv (set_flags (tk_initialized k) (tk_threads_running k) (tk_parallel k) b k).
Proof. by destruct k. Qed.

Lemma tk_inv_uninit k : tk_initialized k = false -> tk_threads_running k = false -> tk_inv k.
Proof. intros Hi Hr. split; congruence. Qed.

Lemma tk_inv_not_running k : tk_inv k -> tk_initialized k = false -> tk_threads_running k = false.
Proof. intros [_ Hr] Hi. destruct (tk_threads_running k); [|done]. destruct Hr as [? _]; congruence. Qed.

Lemma init_threadpool_spec env numa bind n pool :
  init_threadpool env numa bind n = Some pool ->
  0 < n /\ length pool = n /\ is_Some (pool !! 0 ≫= id).
Proof.
  unfold init_threadpool, store. rewrite length_replicate.
  destruct (0 <? n) eqn:Hn; [|done]. intros [= <-]. apply Nat.ltb_lt in Hn.
  rewrite length_insert, length_replicate, list_lookup_insert_eq; [|by rewrite length_replicate].
  split_and!; [lia | done | by eexists].
Qed.

Lemma init_inv k env k' rc : tk_inv k -> dart__tasking__init k env = Some (k', rc) -> tk_inv k'.
Proof.
  intros Hinv H. unfold dart__tasking__init in H.
  destruct (tk_initialized k) eqn:Hi; [by simplify_eq|].
  unbind H. simplify_eq.
  match goal with Hp : init_threadpool _ _ _ _ = Some _ |- _ =>
    apply init_threadpool_spec in Hp as (Hn & Hl & H0) end.
  split; simpl; [intros _ | by rewrite (tk_inv_not_running k)].
  unfold tk_shape, tk_num_threads, get_me, get_thread; simpl.
  rewrite !length_replicate. by split_and!.
Qed.

Lemma start_threads_inv env created k k1 :
  (forall i, created i = true) -> tk_inv k -> tk_initialized k = true ->
  start_threads env created k = Some k1 -> tk_inv k1 /\ tk_threads_running k1 = true.
Proof.
  intros Hc [Hi _] Hk H. unfold start_threads in H. unbind H.
  match goal with Hs : start_loop _ _ _ _ = Some _ |- _ =>
    apply start_loop_spec in Hs as (r' & -> & Hf & Hreg) end. simplify_eq.
  destruct (Hi Hk) as [Hs Hp]. split; [|done].
  split; simpl; [intros _; split; [by apply tk_shape_frame | done]|intros _; split; [done|]].
  intros i Hlt. destruct Hf as ((Hn & _ & Hsm) & _).
  unfold tk_num_threads in *; simpl in *. rewrite Hn in Hlt.
  destruct i as [|i].
  - apply Hsm. by destruct Hs as (_ & _ & _ & _ & _ & ?).
  - apply Hreg; [apply elem_of_seq; lia | apply Hc].
Qed.

Lemma join_loop_flags k ids k' :
  join_loop k ids = Some k' -> tk_initialized k' = tk_initialized k.
Proof.
  induction ids as [|i ids IH] in k |- *; intros H; simpl in H; [by simplify_eq|].
  unbind H. destruct x; [|done]. unbind H. rewrite (IH _ H).
  match goal with He : thread_main_epilogue _ _ = Some _ |- _ =>
    unfold thread_main_epilogue in He; unbind He end. by simplify_eq.
Qed.

Lemma stop_threads_flags k k' :
  stop_threads k = Some k' ->
  tk_threads_running k' = false /\ tk_initialized k' = tk_initialized k.
Proof.
  unfold stop_threads. intros H. unbind H. simplify_eq/=. split; [done|].
  by rewrite (join_loop_flags _ _ _ H0).
Qed.

Lemma fini_inv k k' rc : dart__tasking__fini k 0 = Some (k', rc) -> tk_inv k -> tk_inv k'.
Proof.
  unfold dart__tasking__fini. intros H Hinv.
  destruct (tk_initialized k) eqn:Hi; simpl in H; [|by simplify_eq]. unbind H.
  match goal with Hd : destroy_threadpool _ = Some _ |- _ =>
    unfold destroy_threadpool in Hd; unbind Hd end.
  simplify_eq. apply tk_inv_uninit; [done|]. simpl.
  destruct (tk_threads_running k) eqn:Hr; [by apply stop_threads_flags in H0 as [? _]|by simplify_eq].
Qed.

(** ** Shut-down returns from a state with the invariant *)

Lemma context_cleanup_ok cs i :
  i < length (cs_lists cs) ->
  exists cs', context_cleanup cs i = Some cs' /\ length (cs_lists cs') = length (cs_lists cs).
Proof.
  intros Hi. destruct (lookup_lt_is_Some_2 _ _ Hi) as [l Hl].
  unfold context_cleanup. rewrite Hl. eexists; split; [done|].
  rewrite (proj1 (context_free_all_lists _ _)). apply length_insert.
Qed.

Lemma epilogue_ok k i :
  tk_shape k -> i < tk_num_threads k ->
  exists k1, thread_main_epilogue k i = Some k1 /\ tk_shape k1 /\
    r_sched (tk_rt k1) = r_sched (tk_rt k) /\ tk_initialized k1 = tk_initialized k /\
    tk_threads_running k1 = tk_threads_running k.
Proof.
  intros (Hn & Hp & Hc & Ht & Hs & H0) Hi. unfold thread_main_epilogue.
  destruct (context_cleanup_ok (r_ctx (tk_rt k)) i) as (cs' & -> & Hcs'); [lia|].
  destruct (lookup_lt_is_Some_2 (r_taskpool (tk_rt k)) i) as [tp ->]; [lia|].
  cbn [mbind option_bind]. rewrite store_ok by lia. simpl. eexists; split_and!; [done | | done..].
  unfold tk_shape, tk_num_threads in *; simpl. rewrite length_insert. split_and!; (lia || done).
Qed.

Lemma join_loop_ok k ids :
  tk_shape k -> (forall i, i ∈ ids -> i < tk_num_threads k /\ is_Some (get_me (tk_rt k) i)) ->
  exists k', join_loop k ids = Some k' /\ tk_shape k' /\
    r_sched (tk_rt k') = r_sched (tk_rt k) /\ tk_initialized k' = tk_initialized k.
Proof.
  induction ids as [|i ids IH] in k |- *; intros Hs Hids; [by exists k|].
  destruct (Hids i) as [Hi [th Hth]]; [apply list_elem_of_here|].
  simpl. unfold get_me, get_thread in Hth.
  destruct (s_pool (r_sched (tk_rt k)) !! i) as [[th'|]|]; simpl in Hth; [|done..].
  destruct (epilogue_ok k i) as (k1 & -> & Hs1 & Hr1 & Hi1 & _); [done..|]. simpl.
  destruct (IH k1) as (k' & -> & Hs' & Hr' & Hi'); [done| |].
  - intros j Hj. unfold tk_num_threads, get_me. rewrite Hr1. apply Hids. by apply list_elem_of_further.
  - exists k'. split_and!; [done | done | congruence | congruence].
Qed.

Lemma destroy_threadpool_ok k :
  tk_shape k -> exists k', destroy_threadpool k = Some k' /\
    tk_initialized k' = tk_initialized k /\ tk_threads_running k' = tk_threads_running k.
Proof.
  intros (Hn & Hp & Hc & Ht & Hs & H0). unfold destroy_threadpool.
  destruct (lookup_lt_is_Some_2 (r_taskpool (tk_rt k)) 0) as [tp ->]; [lia|].
  cbn [mbind option_bind]. rewrite store_ok by lia. cbn [mbind option_bind].
  rewrite store_ok by lia. by eexists.
Qed.

Lemma fini_ok k :
  tk_inv k -> tk_initialized k = true ->
  exists k', dart__tasking__fini k 0 = Some (k', DART_OK) /\
    tk_initialized k' = false /\ tk_threads_running k' = false.
Proof.
  intros [Hi Hr] Hk. destruct (Hi Hk) as [Hs _]. unfold dart__tasking__fini. rewrite Hk. simpl.
  assert (exists k1, (if tk_threads_running k then stop_threads k else Some k) = Some k1 /\
            tk_shape k1 /\ tk_threads_running k1 = false) as (k1 & -> & Hs1 & Hr1).
  { destruct (tk_threads_running k) eqn:Hrun; [|by exists k].
    destruct (Hr eq_refl) as [_ Hreg]. unfold stop_threads.
    destruct (join_loop_ok (set_flags (tk_initialized k) (tk_threads_running k) false (tk_worker_poll_remote k) k)
                (seq 1 (tk_num_threads k - 1))) as (k2 & -> & Hs2 & _); [by destruct k | |].
    - intros i [? ?]%elem_of_seq. pose proof (proj1 Hs). split; [change (i < tk_num_threads k); lia | apply Hreg; lia].
    - eexists; split_and!; [done | by destruct k2 | done]. }
  destruct Hs1 as (Hn & Hp & Hc & Ht & Hsv & H0).
  cbn [mbind option_bind].
  destruct (context_cleanup_ok (r_ctx (tk_rt k1)) 0) as (cs & Hcl & Hcs); [lia|].
  change (r_ctx (set_free [] (tk_rt k1))) with (r_ctx (tk_rt k1)). rewrite Hcl.
  cbn [mbind option_bind]. destruct (destroy_threadpool_ok (set_rt (set_ctx cs (set_free [] (tk_rt k1))) k1))
    as (k2 & -> & _ & Hr2); [unfold tk_shape, tk_num_threads in *; simpl in *; split_and!; lia || done|].
  cbn [mbind option_bind]. eexists; split_and!; [reflexivity | reflexivity |]. cbn. rewrite Hr2. exact Hr1.
Qed.

Section Invariant.
Context (e : ext) (fuel : nat) (created : nat -> bool).
Hypothesis Hrun : forall r x r', x_run e r x = Some r' -> rt_frame r r'.
Hypothesis Hrel : forall r x r', x_release e r x = Some r' -> rt_frame r r'.
Hypothesis Hcreated : forall i, created i = true.

Lemma complete_inv env k k' rc lo :
  tk_inv k -> tk_initialized k = true ->
  dart__tasking__task_complete e fuel env created k 0 lo = Some (k', rc) -> tk_inv k'.
Proof.
  intros Hinv Hi H. unfold dart__tasking__task_complete in H.
  destruct (negb (tk_threads_running k) && lo); [by simplify_eq|]. unbind H.
  match goal with H1 : (if tk_threads_running k then _ else _) = Some ?k1 |- _ =>
    assert (tk_inv k1) as Hk1 by
      (destruct (tk_threads_running k) eqn:Hr; [by simplify_eq
       | by eapply start_threads_inv]) end.
  match goal with Hl : task_complete_loop _ _ _ _ _ = Some ?r3 |- _ =>
    apply task_complete_loop_frame in Hl; [|done..] end.
  simplify_eq. destruct (_ =? root_task_id), lo; cbn [andb negb] in *;
    repeat first [done | apply tk_inv_set_poll | apply tk_inv_frame].
Qed.

Lemma tk_step_inv k k' : tk_step e fuel created k k' -> tk_inv k -> tk_inv k'.
Proof.
  intros Hs Hinv. destruct Hs as [k k' env rc H|k k' env rc lo Hi H|k r' out me delay Hi H
                                 |k k' i nt p Hr Hp Hi H|k k' rc H].
  - by eapply init_inv.
  - by eapply complete_inv.
  - apply tk_inv_frame; [done|]. by eapply yield_frame.
  - apply worker_iteration_frame in H as (r' & -> & Hf); [|done..]. by apply tk_inv_frame.
  - by eapply fini_inv.
Qed.

Lemma tk_inv_reachable k0 k :
  tk_initial k0 -> rtc (tk_step e fuel created) k0 k -> tk_inv k.
Proof.
  intros [Hi Hr] Hrtc. pose proof (tk_inv_uninit _ Hi Hr) as Hinv. clear Hi Hr.
  induction Hrtc as [|k1 k2 k3 Hs _ IH]; [done|]. apply IH. by eapply tk_step_inv.
Qed.

End Invariant.

(** ** The threads [start_threads] registers *)

Lemma thread_main_prologue_pool env k j k1 :
  thread_main_prologue env k j = Some k1 ->
  exists r1, k1 = set_rt r1 k /\
    forall i, get_me r1 i = if decide (i = j) then Some (worker_thread env k j) else get_me (tk_rt k) i.
Proof.
  unfold thread_main_prologue, store. intros H. unbind H.
  destruct (j <? _) eqn:Hj; simplify_eq. apply Nat.ltb_lt in Hj.
  eexists; split; [done|]. intros i. unfold get_me, get_thread. simpl.
  case_decide; subst; [by rewrite list_lookup_insert_eq | by rewrite list_lookup_insert_ne].
Qed.

Lemma start_loop_pool env created k ids k' :
  start_loop env created k ids = Some k' ->
  forall i, get_me (tk_rt k') i =
    if bool_decide (i ∈ ids) && created i then Some (worker_thread env k i) else get_me (tk_rt k) i.
Proof.
  induction ids as [|j ids IH] in k |- *; intros H i; simpl in H; [by simplify_eq|].
  unbind H. rewrite (IH _ H i).
  destruct (created j) eqn:Hcj; [apply thread_main_prologue_pool in H0 as (r1 & -> & Hr1)|simplify_eq].
  - rewrite Hr1. destruct (decide (i = j)) as [->|Hne].
    + rewrite Hcj, !andb_true_r, (bool_decide_true (j ∈ j :: ids)) by set_solver. by case_bool_decide.
    + destruct (created i); rewrite ?andb_true_r, ?andb_false_r; [|done].
      destruct (decide (i ∈ ids)); [rewrite !bool_decide_true by set_solver | rewrite !bool_decide_false by set_solver]; done.
  - destruct (decide (i = j)) as [->|Hne]; [rewrite Hcj; by rewrite !andb_false_r|].
    destruct (created i); rewrite ?andb_true_r, ?andb_false_r; [|done].
    destruct (decide (i ∈ ids)); [rewrite !bool_decide_true by set_solver | rewrite !bool_decide_false by set_solver]; done.
Qed.

Lemma epilogue_sched k i k1 :
  thread_main_epilogue k i = Some k1 -> r_sched (tk_rt k1) = r_sched (tk_rt k).
Proof. unfold thread_main_epilogue. intros H. unbind H. by simplify_eq. Qed.

(** [stop_threads] gets past worker [i] only once [thread_pool[i]] is
    set: a successful join loop saw every worker registered. *)
Lemma join_loop_registered k ids k' :
  join_loop k ids = Some k' -> forall i, i ∈ ids -> is_Some (get_me (tk_rt k) i).
Proof.
  induction ids as [|j ids IH] in k |- *; intros H i Hi; [by apply elem_of_nil in Hi|].
  simpl in H. destruct (s_pool (r_sched (tk_rt k)) !! j) as [[th|]|] eqn:Hj; simpl in H; [|done..].
  unbind H. apply elem_of_cons in Hi as [->|Hi].
  - unfold get_me, get_thread. rewrite Hj. by eexists.
  - unfold get_me. rewrite <- (epilogue_sched _ _ _ H0). by eapply IH.
Qed.

(** Unforced calls all skip once every time lies beyond the interval. *)
Lemma progress_calls_skip n last ts :
  n <> 1 -> Forall (fun t => last + REMOTE_PROGRESS_INTERVAL_USEC < t)%Z ts ->
  progress_calls n last (map (fun t => (t, false)) ts) = replicate (length ts) false.
Proof.
  intros Hn. induction 1 as [|t ts Ht _ IH]; [done|]. simpl.
  unfold remote_progress at 1. rewrite (proj2 (Nat.eqb_neq _ _) Hn), (proj2 (Z.leb_gt _ _) Ht).
  simpl. by rewrite IH.
Qed.

Lemma r_heap_set_me r me th : r_heap (set_me r me th) = r_heap r.
Proof. done. Qed.

Lemma ex_ext_run_frame r x r' : x_run (ex_ext false) r x = Some r' -> rt_frame r r'.
Proof. intros [= <-]. reflexivity. Qed.

Lemma ex_ext_release_frame r x r' : x_release (ex_ext false) r x = Some r' -> rt_frame r r'.
Proof. intros [= <-]. reflexivity. Qed.

(** [ex_tk_started] is reached from [ex_tk0] by [dart__tasking__init]
    and [dart__tasking__task_complete]. *)
Lemma ex_reach_started : rtc (tk_step (ex_ext false) 5 (fun _ => true)) ex_tk0 ex_tk_started.
Proof.
  eapply rtc_l; [eapply (tk_step_init _ _ _ ex_tk0 ex_tk_init (ex_env (Some 3%Z)) DART_OK);
                 vm_compute; reflexivity|].
  eapply rtc_l; [eapply (tk_step_complete _ _ _ ex_tk_init ex_tk_started (ex_env (Some 3%Z)) DART_OK false);
                 [reflexivity | vm_compute; reflexivity]|].
  apply rtc_refl.
Qed.

(** ** Properties of start-up, yield, progress and shut-down *)

(** C14: While the worker threads run, in every state reachable from
    the initial one by the runtime's steps (when the task bodies and the
    dependency release keep the frame and every [pthread_create]
    succeeds), the runtime is initialised, [parallel] holds and every
    entry of [thread_pool] holds a registered thread. *)
Theorem tk_running_registered e fuel created
    (Hrun : forall r x r', x_run e r x = Some r' -> rt_frame r r')
    (Hrel : forall r x r', x_release e r x = Some r' -> rt_frame r r')
    (Hcreated : forall i, created i = true) k0 k :
  tk_initial k0 -> rtc (tk_step e fuel created) k0 k -> tk_threads_running k = true ->
  tk_initialized k = true /\ tk_parallel k = true /\
  forall i, i < tk_num_threads k -> is_Some (get_me (tk_rt k) i).
Proof.
  intros H0 Hrtc Hr. destruct (tk_inv_reachable e fuel created Hrun Hrel Hcreated k0 k H0 Hrtc)
    as [Hi Hreg]. destruct (Hreg Hr) as [Hk Hall]. destruct (Hi Hk) as [_ Hp]. by split_and!.
Qed.

(** C13: [dart__tasking__fini] returns: from every reachable state of an
    initialised runtime (under the same conditions), the call returns
    [DART_OK] and leaves the runtime uninitialised with no worker
    running. *)
Theorem tk_fini_returns e fuel created
    (Hrun : forall r x r', x_run e r x = Some r' -> rt_frame r r')
    (Hrel : forall r x r', x_release e r x = Some r' -> rt_frame r r')
    (Hcreated : forall i, created i = true) k0 k :
  tk_initial k0 -> rtc (tk_step e fuel created) k0 k -> tk_initialized k = true ->
  exists k', dart__tasking__fini k 0 = Some (k', DART_OK) /\
    tk_initialized k' = false /\ tk_threads_running k' = false.
Proof. intros H0 Hrtc Hk. apply fini_ok; [|done]. by eapply tk_inv_reachable. Qed.

(** C17: When [pthread_create] fails for a worker that has not yet
    published its thread data, [start_threads] only logs it and still
    sets [threads_running]; [dart__tasking__fini] then never returns,
    because [stop_threads] waits for ever for that worker's
    [thread_pool] entry.  This holds for every environment, every
    pattern of failing [pthread_create] calls and every initialised
    runtime whose workers are not running. *)
Theorem fini_hangs_when_thread_create_fails env created k k1 i me :
  tk_initialized k = true -> tk_threads_running k = false ->
  1 <= i < tk_num_threads k -> get_me (tk_rt k) i = None -> created i = false ->
  start_threads env created k = Some k1 ->
  tk_threads_running k1 = true /\ dart__tasking__fini k1 me = None.
Proof.
  intros Hi Hr Hn Hnone Hc H. unfold start_threads in H. rewrite Hr in H. simpl in H. unbind H.
  pose proof (start_loop_pool _ _ _ _ _ H0 i) as Hp. rewrite Hc, andb_false_r, Hnone in Hp.
  destruct (start_loop_spec _ _ _ _ _ H0) as (r' & -> & ((Hsn & _) & _) & _).
  injection H as <-. split; [done|].
  unfold dart__tasking__fini. simpl. rewrite Hi. simpl. unfold stop_threads.
  destruct (join_loop _ _) eqn:Hj; [exfalso|done].
  assert (Hin : i ∈ seq 1 (tk_num_threads (set_rt r' k) - 1)).
  { apply elem_of_seq. unfold tk_num_threads in *. simpl. lia. }
  apply (join_loop_registered _ _ _ Hj i) in Hin. simpl in Hin, Hp. rewrite Hp in Hin. by destruct Hin.
Qed.

(** C16: With [DART_THREAD_PLACE_NUMA], every worker that
    [start_threads] registers is placed on the NUMA node of core 0,
    whatever core it is bound to: [thread_main] never stores the core
    [dart__tasking__affinity_set] returns into [core_id]. *)
Theorem start_threads_numa_of_core0 env created k k' i :
  tk_respect_numa k = true -> start_threads env created k = Some k' ->
  1 <= i < tk_num_threads k -> created i = true ->
  exists th, get_me (tk_rt k') i = Some th /\ th_id th = i /\ th_numa th = aff_core_numa env 0.
Proof.
  intros Hn H Hi Hc. unfold start_threads in H. unbind H. simplify_eq.
  match goal with Hs : start_loop _ _ _ _ = Some _ |- _ => pose proof (start_loop_pool _ _ _ _ _ Hs i) as Hp end.
  simpl. rewrite Hp, bool_decide_true, Hc by (apply elem_of_seq; lia).
  eexists; split_and!; [done | done | unfold worker_thread; by rewrite Hn].
Qed.

(** C18: A non-positive [DART_NUMTHREADS] other than [-1] is taken as
    the number of threads; [init_threadpool] then stores the master
    thread into [thread_pool[0]] of an array of no entries:
    [dart__tasking__init] faults. *)
Theorem init_nonpositive_threads_faults k env z :
  tk_initialized k = false -> env_num_threads env = Some z -> (z <= 0)%Z -> z <> (-1)%Z ->
  dart__tasking__init k env = None.
Proof.
  intros Hi Hz Hle Hne. unfold dart__tasking__init. rewrite Hi, Hz.
  assert (determine_num_threads (Some z) (hw_num_cores env) (hw_max_threads env) = z) as ->.
  { unfold determine_num_threads. simpl. destruct (Z.eqb_spec z (-1)); [done|]. simpl. by destruct (Z.eqb_spec z (-1)). }
  replace (Z.to_nat z) with 0 by lia. reflexivity.
Qed.

(** C19: [dart__tasking__init] on an uninitialised runtime returns
    [DART_OK] and builds a runtime of [determine_num_threads()]
    threads whose arrays ([thread_pool], [task_free_lists], the context
    lists, the memory pools) have one entry per thread, every task free
    list empty, with the master registered and [parallel] set. *)
Theorem dart__tasking__init_shape k env k' rc :
  tk_initialized k = false -> tk_threads_running k = false ->
  dart__tasking__init k env = Some (k', rc) ->
  rc = DART_OK /\ tk_initialized k' = true /\ tk_parallel k' = true /\ tk_shape k' /\
  r_free (tk_rt k') = replicate (tk_num_threads k') [] /\
  tk_num_threads k' = Z.to_nat (determine_num_threads (env_num_threads env) (hw_num_cores env) (hw_max_threads env)).
Proof.
  intros Hi Hr H. pose proof (init_inv k env k' rc (tk_inv_uninit k Hi Hr) H) as [Hinv _].
  unfold dart__tasking__init in H. rewrite Hi in H. unbind H. simplify_eq.
  destruct (Hinv eq_refl). by split_and!.
Qed.

(** C20: On one thread with more than one unit, successive unforced
    calls of [remote_progress] at non-decreasing times progress exactly
    while each call comes within [REMOTE_PROGRESS_INTERVAL_USEC] of the
    previous progress; from the first call that comes later on, none
    ever progresses again, because the test is inverted and
    [last_progress_ts] is only updated by a call that progresses. *)
Theorem remote_progress_never_resumes num_units last ts :
  num_units <> 1 -> Sorted Z.le (last :: ts) ->
  progress_calls num_units last (map (fun t => (t, false)) ts) =
    replicate (close_prefix last ts) true ++ replicate (length ts - close_prefix last ts) false.
Proof.
  intros Hn Hs. apply Sorted_StronglySorted in Hs; [|intros ???; lia].
  induction ts as [|t ts IH] in last, Hs |- *; [done|].
  apply StronglySorted_inv in Hs as [Hs Hle]. simpl.
  unfold remote_progress at 1. rewrite (proj2 (Nat.eqb_neq _ _) Hn). simpl.
  destruct (t <=? last + REMOTE_PROGRESS_INTERVAL_USEC)%Z eqn:Ht; simpl.
  - by rewrite (IH t Hs).
  - apply Z.leb_gt in Ht. apply StronglySorted_inv in Hs as [_ Hts].
    rewrite progress_calls_skip; [done | done |]. eapply Forall_impl; [|exact Hts]. intros x Hx; simpl in *; lia.
Qed.

(** C15: [dart__tasking__yield] from a task other than the root, when
    another task [n] is available: the current task is marked
    [SUSPENDED] (it has no wait handle), [n] is stored in the thread's
    [next_task] with the requested delay, and the task is left through
    a context switch. *)
Theorem dart__tasking__yield_suspends e fuel r me delay th cur t r1 n th1 t1 :
  x_cancel e = false -> get_me r me = Some th -> th_current_task th = Some cur ->
  r_heap r !! cur = Some t -> has_flag t DART_TASK_INLINE = false ->
  t_state t <> DART_TASK_BLOCKED -> t_wait_handle t = NULL -> cur <> root_task_id ->
  next_task_retry r me = Some (r1, Some n) -> get_me r1 me = Some th1 ->
  r_heap r1 !! cur = Some t1 -> th_next_task th1 = NULL ->
  exists r', dart__tasking__yield e fuel true r me delay = Some (r', YIELD_SWITCH) /\
    r_heap r' !! cur = Some (set_state DART_TASK_SUSPENDED t1) /\
    get_me r' me = Some (set_th_next_task (Some n) (set_th_delay delay th1)).
Proof.
  intros Hc Hth Hcur Ht Hf Hs Hw Hroot Hn Hth1 Ht1 Hnx.
  assert (Hme : me < length (s_pool (r_sched r1))).
  { apply get_thread_Some in Hth1. by eapply lookup_lt_Some. }
  unfold dart__tasking__yield. cbn [negb].
  rewrite Hth; cbn [mbind option_bind]. rewrite Hcur; cbn [mbind option_bind].
  rewrite Hc, Ht; cbn [mbind option_bind]. rewrite Hf, bool_decide_false by done.
  rewrite Hn; cbn [mbind option_bind]. rewrite Hth1; cbn [mbind option_bind].
  rewrite (proj2 (Nat.eqb_neq _ _) Hroot), Hw, bool_decide_true by done.
  unfold rupd, hupd. cbn [mbind option_bind]. rewrite r_heap_set_me, Ht1.
  cbn [mbind option_bind]. rewrite get_me_set_rheap, get_me_set_me by done.
  cbn [mbind option_bind]. change (th_next_task (set_th_delay delay th1)) with (th_next_task th1).
  rewrite Hnx, bool_decide_true by done. cbn [dart_assert].
  eexists; split_and!; [done | | ].
  - unfold set_me, r_heap. simpl. by rewrite lookup_insert_eq.
  - rewrite get_me_set_me; [done|]. simpl. by rewrite length_insert.
Qed.

(** ** Witnesses *)

Lemma tk_running_registered_witness :
  tk_initial ex_tk0 /\ tk_threads_running ex_tk_started = true /\
  tk_initialized ex_tk_started = true /\ tk_parallel ex_tk_started = true /\
  forall i, i < tk_num_threads ex_tk_started -> is_Some (get_me (tk_rt ex_tk_started) i).
Proof.
  split; [split; reflexivity|]. split; [vm_compute; reflexivity|].
  exact (tk_running_registered (ex_ext false) 5 (fun _ => true) ex_ext_run_frame ex_ext_release_frame
           (fun _ => eq_refl) ex_tk0 ex_tk_started (conj eq_refl eq_refl) ex_reach_started
           ltac:(vm_compute; reflexivity)).
Defined.

Lemma tk_fini_returns_witness :
  tk_initialized ex_tk_started = true /\
  exists k', dart__tasking__fini ex_tk_started 0 = Some (k', DART_OK) /\
    tk_initialized k' = false /\ tk_threads_running k' = false.
Proof.
  split; [vm_compute; reflexivity|].
  exact (tk_fini_returns (ex_ext false) 5 (fun _ => true) ex_ext_run_frame ex_ext_release_frame
           (fun _ => eq_refl) ex_tk0 ex_tk_started (conj eq_refl eq_refl) ex_reach_started
           ltac:(vm_compute; reflexivity)).
Defined.

(** Worker 2 is bound to core 2, on NUMA node 1, yet lands on node 0. *)
Lemma start_threads_numa_of_core0_witness :
  aff_core_numa (ex_env (Some 3%Z)) 2 = 1 /\
  exists th, get_me (tk_rt ex_tk_threads) 2 = Some th /\ th_id th = 2 /\
    th_numa th = aff_core_numa (ex_env (Some 3%Z)) 0.
Proof.
  split; [reflexivity|].
  apply (start_threads_numa_of_core0 (ex_env (Some 3%Z)) (fun _ => true) ex_tk_init ex_tk_threads 2);
    [vm_compute; reflexivity | vm_compute; reflexivity | vm_compute; lia | reflexivity].
Defined.

Lemma init_nonpositive_threads_faults_witness :
  dart__tasking__init ex_tk0 (ex_env (Some 0%Z)) = None.
Proof.
  apply (init_nonpositive_threads_faults ex_tk0 (ex_env (Some 0%Z)) 0); [reflexivity | reflexivity | lia | lia].
Defined.

Lemma dart__tasking__init_shape_witness :
  DART_OK = DART_OK /\ tk_initialized ex_tk_init = true /\ tk_parallel ex_tk_init = true /\
  tk_shape ex_tk_init /\ r_free (tk_rt ex_tk_init) = replicate (tk_num_threads ex_tk_init) [] /\
  tk_num_threads ex_tk_init = 3.
Proof.
  apply (dart__tasking__init_shape ex_tk0 (ex_env (Some 3%Z)) ex_tk_init DART_OK);
    [reflexivity | reflexivity | vm_compute; reflexivity].
Defined.

(** Calls 5 ms and 12 ms after the last progress run, 30 ms and 31 ms
    do not: the gap from 12 ms to 30 ms stops progress for good. *)
Lemma remote_progress_never_resumes_witness :
  progress_calls 2 0 (map (fun t => (t, false)) [5000; 12000; 30000; 31000]%Z) = [true; true; false; false].
Proof.
  rewrite (remote_progress_never_resumes 2 0 [5000; 12000; 30000; 31000]%Z);
    [reflexivity | lia | repeat constructor; simpl; lia].
Defined.

Lemma fini_hangs_when_thread_create_fails_witness :
  tk_threads_running (from_option id ex_tk_init (start_threads (ex_env (Some 3%Z)) ex_created ex_tk_init)) = true /\
  dart__tasking__fini (from_option id ex_tk_init (start_threads (ex_env (Some 3%Z)) ex_created ex_tk_init)) 0 = None.
Proof.
  apply (fini_hangs_when_thread_create_fails (ex_env (Some 3%Z)) ex_created ex_tk_init _ 1 0);
    [vm_compute; reflexivity | vm_compute; reflexivity | vm_compute; lia | vm_compute; reflexivity
    | reflexivity | vm_compute; reflexivity].
Defined.

Lemma dart__tasking__yield_suspends_witness :
  exists r', dart__tasking__yield (ex_ext false) 5 true ex_rt_yield 0 1 = Some (r', YIELD_SWITCH) /\
    r_heap r' !! 5 = Some (set_state DART_TASK_SUSPENDED ex_yield_t1) /\
    get_me r' 0 = Some (set_th_next_task (Some 4) (set_th_delay 1 ex_yield_th1)).
Proof.
  apply (dart__tasking__yield_suspends (ex_ext false) 5 ex_rt_yield 0 1
           (set_th_current_task (Some 5) (dart_thread_init 0)) 5 ex_ref_task ex_yield_r1 4);
    vm_compute; try reflexivity; discriminate.
Defined.
