(* ===== verification/Tools.v ===== *)
(** * The tool interface: callback registry and instrumentation hooks

    [src/dart-impl/tasking/src/internal/dart_tasking_instrumentation.c],
    lines 1-345.  A tool registers, for each kind of event, a function
    pointer and a [userdata] pointer ([dart_tool_register_*], which
    also print the pointer and the [int] that [userdata] points to);
    the hooks [dart__tasking__instrument_*] call the registered function
    with their arguments and the registered [userdata], and do nothing
    while no function is registered.

    The eleven [struct dart_tool_*_cb] globals are the registry
    [ts_reg : cb_kind -> cb_data], zero-initialised; the output of
    [printf] and the calls the hooks make are recorded in [ts_printed]
    and [ts_calls]; the memory [userdata] is read from is the argument
    [umem].  Function pointers and the [void*] [userdata] are
    [option nat] ([None] is NULL); the [uint64_t] casts of pointers are
    [ptr_u64]. *)

From S2P Require Import Prelude Copyin.
From Stdlib Require Import String.

(** ** The registry *)

(** The kinds of callback that have a [struct ..._cb_data] global,
    lines 86-99 ([cancel], [yield_leave] and [yield_resume] have a
    struct type but no global and no registration function). *)
Inductive cb_kind :=
| CB_TASK_CREATE | CB_TASK_BEGIN | CB_TASK_END | CB_TASK_FINALIZE | CB_TASK_ADD_TO_QUEUE
| CB_LOCAL_DEP_RAW | CB_LOCAL_DEP_WAW | CB_LOCAL_DEP_WAR
| CB_DUMMY_DEP_CREATE | CB_DUMMY_DEP_CAPTURE | CB_REMOTE_IN_DEP.

#[export] Instance cb_kind_eq_dec : EqDecision cb_kind.
Proof. solve_decision. Defined.

Definition all_cb_kinds : list cb_kind :=
  [CB_TASK_CREATE; CB_TASK_BEGIN; CB_TASK_END; CB_TASK_FINALIZE; CB_TASK_ADD_TO_QUEUE;
   CB_LOCAL_DEP_RAW; CB_LOCAL_DEP_WAW; CB_LOCAL_DEP_WAR;
   CB_DUMMY_DEP_CREATE; CB_DUMMY_DEP_CAPTURE; CB_REMOTE_IN_DEP].

(** [struct dart_tool_*_cb { cb; userdata; }], lines 5-67. *)
Record cb_data := mk_cb { cd_cb : option nat; cd_userdata : option nat }.

Definition cb_null : cb_data := mk_cb None None.

(** One call of a registered function: the function, its arguments
    (the [uint64_t] and [int32_t] values in order; the name of
    [task_create] apart) and the [userdata] passed last. *)
Record tool_call := mk_call {
  tc_fn : nat; tc_args : list Z; tc_name : option string; tc_userdata : option nat
}.

(** The line a registration prints: the kind, the pointer and the
    [int] read through [userdata]. *)
Record reg_print := mk_print { rp_kind : cb_kind; rp_cb : option nat; rp_userdata : Z }.

Record tool_state := mk_ts {
  ts_reg : cb_kind -> cb_data;
  ts_printed : list reg_print;
  ts_calls : list tool_call
}.

(** The globals are zero-initialised. *)
Definition tool_init : tool_state := mk_ts (fun _ => cb_null) [] [].

Definition set_reg (k : cb_kind) (d : cb_data) (s : tool_state) : tool_state :=
  mk_ts (fun k' => if decide (k' = k) then d else ts_reg s k') (ts_printed s) (ts_calls s).

(** The body every [dart_tool_register_*] shares, lines 102-178: store
    the function and [userdata], then [printf] [*(int * ) userdata],
    which faults when [userdata] is NULL or unmapped; return 0. *)
Definition dart_tool_register (k : cb_kind) (umem : gmap nat Z) (cb userdata : option nat)
    (s : tool_state) : option (tool_state * Z) :=
  let s1 := set_reg k (mk_cb cb userdata) s in
  v ← userdata ≫= (umem !!.);
  Some (mk_ts (ts_reg s1) (ts_printed s1 ++ [mk_print k cb v]) (ts_calls s1), 0%Z).

Definition dart_tool_register_task_create := dart_tool_register CB_TASK_CREATE.
Definition dart_tool_register_task_begin := dart_tool_register CB_TASK_BEGIN.
Definition dart_tool_register_task_end := dart_tool_register CB_TASK_END.
Definition dart_tool_register_task_finalize := dart_tool_register CB_TASK_FINALIZE.
Definition dart_tool_register_task_add_to_queue := dart_tool_register CB_TASK_ADD_TO_QUEUE.
Definition dart_tool_register_local_dep_raw := dart_tool_register CB_LOCAL_DEP_RAW.
Definition dart_tool_register_local_dep_waw := dart_tool_register CB_LOCAL_DEP_WAW.
Definition dart_tool_register_local_dep_war := dart_tool_register CB_LOCAL_DEP_WAR.
Definition dart_tool_register_dummy_dep_create := dart_tool_register CB_DUMMY_DEP_CREATE.
Definition dart_tool_register_dummy_dep_capture := dart_tool_register CB_DUMMY_DEP_CAPTURE.
Definition dart_tool_register_remote_in_dep := dart_tool_register CB_REMOTE_IN_DEP.

(** ** The hooks *)

(** [(uint64_t) p] for a pointer: NULL is 0. *)
Definition ptr_u64 (p : option nat) : Z := from_option Z.of_nat 0%Z p.

(** [if (X_cb_data.cb) X_cb_data.cb(args..., Y_cb_data.userdata);]:
    the function of [k_cb] is called with the [userdata] of [k_ud]. *)
Definition call_cb (k_cb k_ud : cb_kind) (args : list Z) (name : option string)
    (s : tool_state) : tool_state :=
  match cd_cb (ts_reg s k_cb) with
  | None => s
  | Some f => mk_ts (ts_reg s) (ts_printed s)
                (ts_calls s ++ [mk_call f args name (cd_userdata (ts_reg s k_ud))])
  end.

(** [dart__tasking__instrument_task_create], lines 180-193: a NULL name
    is passed as [""]. *)
Definition dart__tasking__instrument_task_create (task : option nat) (prio : Z)
    (name : option string) (task_unitid : Z) (s : tool_state) : tool_state :=
  let name' := match name with Some n => n | None => ""%string end in
  call_cb CB_TASK_CREATE CB_TASK_CREATE [ptr_u64 task; prio; task_unitid] (Some name') s.

(** Lines 195-204. *)
Definition dart__tasking__instrument_task_begin (task thread : option nat) (task_unitid : Z)
    (s : tool_state) : tool_state :=
  call_cb CB_TASK_BEGIN CB_TASK_BEGIN [ptr_u64 task; ptr_u64 thread; task_unitid] None s.

(** Lines 206-215. *)
Definition dart__tasking__instrument_task_end (task thread : option nat) (task_unitid : Z)
    (s : tool_state) : tool_state :=
  call_cb CB_TASK_END CB_TASK_END [ptr_u64 task; ptr_u64 thread; task_unitid] None s.

(** Lines 217-240: [cancel], [yield_leave] and [yield_resume] are empty. *)
Definition dart__tasking__instrument_task_cancel (task thread : option nat) (s : tool_state)
    : tool_state := s.

Definition dart__tasking__instrument_task_yield_leave (task thread : option nat) (s : tool_state)
    : tool_state := s.

Definition dart__tasking__instrument_task_yield_resume (task thread : option nat) (s : tool_state)
    : tool_state := s.

(** Lines 242-247. *)
Definition dart__tasking__instrument_task_finalize (s : tool_state) : tool_state :=
  call_cb CB_TASK_FINALIZE CB_TASK_FINALIZE [] None s.

(** Lines 249-296: the three local dependency hooks. *)
Definition dart__tasking__instrument_local_dep_raw (task1 task2 : option nat)
    (memaddr orig_memaddr task1_unitid task2_unitid : Z) (s : tool_state) : tool_state :=
  call_cb CB_LOCAL_DEP_RAW CB_LOCAL_DEP_RAW
    [ptr_u64 task1; ptr_u64 task2; memaddr; orig_memaddr; task1_unitid; task2_unitid] None s.

Definition dart__tasking__instrument_local_dep_waw (task1 task2 : option nat)
    (memaddr orig_memaddr task1_unitid task2_unitid : Z) (s : tool_state) : tool_state :=
  call_cb CB_LOCAL_DEP_WAW CB_LOCAL_DEP_WAW
    [ptr_u64 task1; ptr_u64 task2; memaddr; orig_memaddr; task1_unitid; task2_unitid] None s.

Definition dart__tasking__instrument_local_dep_war (task1 task2 : option nat)
    (memaddr orig_memaddr task1_unitid task2_unitid : Z) (s : tool_state) : tool_state :=
  call_cb CB_LOCAL_DEP_WAR CB_LOCAL_DEP_WAR
    [ptr_u64 task1; ptr_u64 task2; memaddr; orig_memaddr; task1_unitid; task2_unitid] None s.

(** Lines 297-306. *)
Definition dart__tasking__instrument_task_add_to_queue (task thread : option nat) (task_unitid : Z)
    (s : tool_state) : tool_state :=
  call_cb CB_TASK_ADD_TO_QUEUE CB_TASK_ADD_TO_QUEUE [ptr_u64 task; ptr_u64 thread; task_unitid] None s.

(** Lines 307-318: only the phase of [out_dep] is passed. *)
Definition dart__tasking__instrument_dummy_dep_create (task : option nat) (dummy_dep in_dep : Z)
    (out_dep : dart_task_dep) (task_unitid : Z) (s : tool_state) : tool_state :=
  call_cb CB_DUMMY_DEP_CREATE CB_DUMMY_DEP_CREATE
    [ptr_u64 task; dummy_dep; in_dep; d_phase out_dep; task_unitid] None s.

(** Lines 320-330: the capture callback receives the [userdata]
    registered for [dummy_dep_create]. *)
Definition dart__tasking__instrument_dummy_dep_capture (task : option nat) (dummy_dep remote_dep : Z)
    (task_unitid : Z) (s : tool_state) : tool_state :=
  call_cb CB_DUMMY_DEP_CAPTURE CB_DUMMY_DEP_CREATE
    [ptr_u64 task; dummy_dep; remote_dep; task_unitid] None s.

(** Lines 332-344. *)
Definition dart__tasking__instrument_remote_in_dep (local_task remote_task : Z)
    (local_dep_type remote_dep_type local_unitid remote_unitid : Z) (s : tool_state) : tool_state :=
  call_cb CB_REMOTE_IN_DEP CB_REMOTE_IN_DEP
    [local_task; remote_task; local_dep_type; remote_dep_type; local_unitid; remote_unitid] None s.

(** ** The hooks as one interface

    A call of one of the fourteen hooks, with its arguments; [instrument]
    runs it, and [hook_kind] names the registered callback it calls
    ([None] for the three empty hooks). *)
Inductive tool_event :=
| EV_TASK_CREATE (task : option nat) (prio : Z) (name : option string) (unitid : Z)
| EV_TASK_BEGIN (task thread : option nat) (unitid : Z)
| EV_TASK_END (task thread : option nat) (unitid : Z)
| EV_TASK_CANCEL (task thread : option nat)
| EV_TASK_YIELD_LEAVE (task thread : option nat)
| EV_TASK_YIELD_RESUME (task thread : option nat)
| EV_TASK_FINALIZE
| EV_LOCAL_DEP_RAW (task1 task2 : option nat) (mem orig u1 u2 : Z)
| EV_LOCAL_DEP_WAW (task1 task2 : option nat) (mem orig u1 u2 : Z)
| EV_LOCAL_DEP_WAR (task1 task2 : option nat) (mem orig u1 u2 : Z)
| EV_TASK_ADD_TO_QUEUE (task thread : option nat) (unitid : Z)
| EV_DUMMY_DEP_CREATE (task : option nat) (dummy in_dep : Z) (out_dep : dart_task_dep) (unitid : Z)
| EV_DUMMY_DEP_CAPTURE (task : option nat) (dummy remote : Z) (unitid : Z)
| EV_REMOTE_IN_DEP (local remote ldt rdt lu ru : Z).

Definition instrument (ev : tool_event) (s : tool_state) : tool_state :=
  match ev with
  | EV_TASK_CREATE t p n u => dart__tasking__instrument_task_create t p n u s
  | EV_TASK_BEGIN t th u => dart__tasking__instrument_task_begin t th u s
  | EV_TASK_END t th u => dart__tasking__instrument_task_end t th u s
  | EV_TASK_CANCEL t th => dart__tasking__instrument_task_cancel t th s
  | EV_TASK_YIELD_LEAVE t th => dart__tasking__instrument_task_yield_leave t th s
  | EV_TASK_YIELD_RESUME t th => dart__tasking__instrument_task_yield_resume t th s
  | EV_TASK_FINALIZE => dart__tasking__instrument_task_finalize s
  | EV_LOCAL_DEP_RAW t1 t2 m o u1 u2 => dart__tasking__instrument_local_dep_raw t1 t2 m o u1 u2 s
  | EV_LOCAL_DEP_WAW t1 t2 m o u1 u2 => dart__tasking__instrument_local_dep_waw t1 t2 m o u1 u2 s
  | EV_LOCAL_DEP_WAR t1 t2 m o u1 u2 => dart__tasking__instrument_local_dep_war t1 t2 m o u1 u2 s
  | EV_TASK_ADD_TO_QUEUE t th u => dart__tasking__instrument_task_add_to_queue t th u s
  | EV_DUMMY_DEP_CREATE t d i o u => dart__tasking__instrument_dummy_dep_create t d i o u s
  | EV_DUMMY_DEP_CAPTURE t d r u => dart__tasking__instrument_dummy_dep_capture t d r u s
  | EV_REMOTE_IN_DEP l r lt rt lu ru => dart__tasking__instrument_remote_in_dep l r lt rt lu ru s
  end.

Definition hook_kind (ev : tool_event) : option cb_kind :=
  match ev with
  | EV_TASK_CREATE _ _ _ _ => Some CB_TASK_CREATE
  | EV_TASK_BEGIN _ _ _ => Some CB_TASK_BEGIN
  | EV_TASK_END _ _ _ => Some CB_TASK_END
  | EV_TASK_CANCEL _ _ | EV_TASK_YIELD_LEAVE _ _ | EV_TASK_YIELD_RESUME _ _ => None
  | EV_TASK_FINALIZE => Some CB_TASK_FINALIZE
  | EV_LOCAL_DEP_RAW _ _ _ _ _ _ => Some CB_LOCAL_DEP_RAW
  | EV_LOCAL_DEP_WAW _ _ _ _ _ _ => Some CB_LOCAL_DEP_WAW
  | EV_LOCAL_DEP_WAR _ _ _ _ _ _ => Some CB_LOCAL_DEP_WAR
  | EV_TASK_ADD_TO_QUEUE _ _ _ => Some CB_TASK_ADD_TO_QUEUE
  | EV_DUMMY_DEP_CREATE _ _ _ _ _ => Some CB_DUMMY_DEP_CREATE
  | EV_DUMMY_DEP_CAPTURE _ _ _ _ => Some CB_DUMMY_DEP_CAPTURE
  | EV_REMOTE_IN_DEP _ _ _ _ _ _ => Some CB_REMOTE_IN_DEP
  end.

(** ** Example data: the tool's [int]s at addresses 100 and 200. *)
Definition ex_umem : gmap nat Z := <[100 := 1%Z]> (<[200 := 2%Z]> ∅).

(** ** Lemmas *)

Lemma set_reg_same k d s : ts_reg (set_reg k d s) k = d.
Proof. simpl. by rewrite decide_True. Qed.

Lemma set_reg_other k k' d s : k' <> k -> ts_reg (set_reg k d s) k' = ts_reg s k'.
Proof. intros Hne. simpl. by rewrite decide_False. Qed.

(** Every hook runs [call_cb] on its own kind, but the capture hook,
    which reads the [userdata] of [dummy_dep_create]; the three empty
    hooks leave the state as it is. *)
Lemma instrument_cases ev s :
  (hook_kind ev = None /\ instrument ev s = s) \/
  exists k k' args name, hook_kind ev = Some k /\ instrument ev s = call_cb k k' args name s /\
    ((k <> CB_DUMMY_DEP_CAPTURE /\ k' = k) \/ (k = CB_DUMMY_DEP_CAPTURE /\ k' = CB_DUMMY_DEP_CREATE)).
Proof.
  destruct ev; (by left) ||
    (right; do 4 eexists; split_and!; [done | done | (by right) || (left; split; [discriminate | done])]).
Qed.

Lemma dart_tool_register_Some k umem cb ud v s :
  umem !! ud = Some v ->
  dart_tool_register k umem cb (Some ud) s =
    Some (mk_ts (ts_reg (set_reg k (mk_cb cb (Some ud)) s))
                (ts_printed s ++ [mk_print k cb v]) (ts_calls s), 0%Z).
Proof. intros Hv. unfold dart_tool_register. simpl. by rewrite Hv. Qed.

(** ** Properties of the tool interface *)

(** C23: Registration then dispatch: after [dart_tool_register_*] for
    kind [k] with function [f] and a readable [userdata] [ud], which
    returns 0, the hook of kind [k] calls [f] exactly once with [ud]
    (for every kind but [dummy_dep_capture]), and the registration of
    every other kind is unchanged. *)
Theorem tool_register_then_hook k umem f ud v s s1 rc ev :
  umem !! ud = Some v -> dart_tool_register k umem (Some f) (Some ud) s = Some (s1, rc) ->
  hook_kind ev = Some k -> k <> CB_DUMMY_DEP_CAPTURE ->
  rc = 0%Z /\ (forall k', k' <> k -> ts_reg s1 k' = ts_reg s k') /\
  exists args name, instrument ev s1 =
    mk_ts (ts_reg s1) (ts_printed s1) (ts_calls s1 ++ [mk_call f args name (Some ud)]).
Proof.
  intros Hv Hr Hk Hcap. rewrite (dart_tool_register_Some _ _ _ _ v) in Hr by done.
  injection Hr as Hs1 <-.
  assert (Hreg : ts_reg s1 = ts_reg (set_reg k (mk_cb (Some f) (Some ud)) s)) by (by subst s1).
  split_and!; [done | intros k' Hne; rewrite Hreg; by apply set_reg_other |].
  destruct (instrument_cases ev s1) as [[Hn _] | (k1 & k2 & args & name & Hk1 & -> & [[_ ->] | [-> ->]])];
    [congruence | | congruence].
  rewrite Hk in Hk1. injection Hk1 as <-. exists args, name.
  unfold call_cb. rewrite Hreg, set_reg_same. simpl. by destruct s1.
Qed.

(** C24: The capture hook passes the wrong [userdata]: whatever the
    state, after [dummy_dep_create] is registered with [userdata]
    [udc] and [dummy_dep_capture] with function [fp] and [userdata]
    [udp], [dart__tasking__instrument_dummy_dep_capture] calls [fp]
    with [udc], never with its own [udp] when the two differ. *)
Theorem dummy_dep_capture_gets_create_userdata umem fc fp udc udp s s1 s2 rc1 rc2 task d r u :
  dart_tool_register_dummy_dep_create umem (Some fc) (Some udc) s = Some (s1, rc1) ->
  dart_tool_register_dummy_dep_capture umem (Some fp) (Some udp) s1 = Some (s2, rc2) ->
  ts_calls (dart__tasking__instrument_dummy_dep_capture task d r u s2) =
    ts_calls s2 ++ [mk_call fp [ptr_u64 task; d; r; u] None (Some udc)].
Proof.
  intros H1 H2. unfold dart_tool_register_dummy_dep_create, dart_tool_register_dummy_dep_capture in *.
  destruct (umem !! udc) as [vc|] eqn:Hc; [|by unfold dart_tool_register in H1; simpl in H1; rewrite Hc in H1].
  destruct (umem !! udp) as [vp|] eqn:Hp; [|by unfold dart_tool_register in H2; simpl in H2; rewrite Hp in H2].
  rewrite (dart_tool_register_Some _ _ _ _ vc) in H1 by done.
  rewrite (dart_tool_register_Some _ _ _ _ vp) in H2 by done.
  injection H1 as <- _. injection H2 as <- _.
  unfold dart__tasking__instrument_dummy_dep_capture, call_cb. simpl. done.
Qed.


(** C25: Every registration function faults exactly when its [userdata]
    is NULL or does not point to readable memory: the [printf] reads
    [*(int * ) userdata]. *)
Theorem tool_register_faults k umem cb ud s :
  dart_tool_register k umem cb ud s = None <->
  ud = None \/ exists a, ud = Some a /\ umem !! a = None.
Proof.
  unfold dart_tool_register. destruct ud as [a|]; simpl; [|naive_solver].
  destruct (umem !! a) eqn:Ha; simpl; naive_solver.
Qed.

(** C26: What a hook does, for each of the fourteen: the three empty
    hooks ([cancel], [yield_leave], [yield_resume]) and a hook whose
    callback is not registered leave the state as it is; any other hook
    appends exactly one call, of the registered function, with the
    [userdata] registered for its kind ([dummy_dep_capture] excepted,
    which passes that of [dummy_dep_create]); no hook changes the
    registry or the printed output. *)
Theorem instrument_frame ev s :
  match hook_kind ev with
  | None => instrument ev s = s
  | Some k =>
      match cd_cb (ts_reg s k) with
      | None => instrument ev s = s
      | Some f => exists args name,
          instrument ev s = mk_ts (ts_reg s) (ts_printed s)
            (ts_calls s ++ [mk_call f args name
               (cd_userdata (ts_reg s (if decide (k = CB_DUMMY_DEP_CAPTURE) then CB_DUMMY_DEP_CREATE else k)))])
      end
  end.
Proof.
  destruct (instrument_cases ev s) as [[-> ->] | (k & k' & args & name & -> & -> & Hk')]; [done|].
  unfold call_cb. destruct (cd_cb (ts_reg s k)) as [f|]; [|done].
  exists args, name. destruct Hk' as [[Hne ->]|[-> ->]]; [|done].
  by rewrite decide_False.
Qed.


(** ** Witnesses *)

Lemma dummy_dep_capture_gets_create_userdata_witness :
  ts_calls (dart__tasking__instrument_dummy_dep_capture (Some 3) 1 2 0
    (default tool_init (fst <$> (dart_tool_register_dummy_dep_create ex_umem (Some 7) (Some 100) tool_init
       ≫= fun '(s1, _) => dart_tool_register_dummy_dep_capture ex_umem (Some 8) (Some 200) s1)))) =
  ts_calls (default tool_init (fst <$> (dart_tool_register_dummy_dep_create ex_umem (Some 7) (Some 100) tool_init
       ≫= fun '(s1, _) => dart_tool_register_dummy_dep_capture ex_umem (Some 8) (Some 200) s1)))
  ++ [mk_call 8 [ptr_u64 (Some 3%nat); 1%Z; 2%Z; 0%Z] None (Some 100)].
Proof.
  exact (dummy_dep_capture_gets_create_userdata ex_umem 7 8 100 200 tool_init _ _ 0 0 (Some 3) 1 2 0
           ltac:(vm_compute; reflexivity) ltac:(vm_compute; reflexivity)).
Defined.

Lemma tool_register_then_hook_witness :
  0%Z = 0%Z /\
  (forall k', k' <> CB_TASK_BEGIN ->
     ts_reg (default tool_init (fst <$> dart_tool_register_task_begin ex_umem (Some 5) (Some 100) tool_init)) k'
     = ts_reg tool_init k') /\
  exists args name,
    instrument (EV_TASK_BEGIN (Some 3) (Some 1) 0)
      (default tool_init (fst <$> dart_tool_register_task_begin ex_umem (Some 5) (Some 100) tool_init)) =
    mk_ts (ts_reg (default tool_init (fst <$> dart_tool_register_task_begin ex_umem (Some 5) (Some 100) tool_init)))
          (ts_printed (default tool_init (fst <$> dart_tool_register_task_begin ex_umem (Some 5) (Some 100) tool_init)))
          (ts_calls (default tool_init (fst <$> dart_tool_register_task_begin ex_umem (Some 5) (Some 100) tool_init))
           ++ [mk_call 5 args name (Some 100)]).
Proof.
  exact (tool_register_then_hook CB_TASK_BEGIN ex_umem 5 100 1 tool_init _ 0
           (EV_TASK_BEGIN (Some 3) (Some 1) 0) eq_refl eq_refl eq_refl ltac:(discriminate)).
Defined.
